(** * ADMS attendance server: a shallow embedding of [index.js]

    The development follows the layout of the server source.

    Definitions:
    - [JSString]: the string primitives the parsers rely on ([trim],
      [split], [replace], the two timestamp regular expressions);
    - [JSDate]: the time values of ECMAScript [Date] (day numbers,
      [MakeDay], [MakeTime], local time, [toISOString], [setHours] and
      the ISO date-time string format read by [new Date]);
    - [Parser]: [parseAttlogText] and the body of the permissive loop of the
      [POST /iclock/cdata.aspx] handler;
    - [Store]: the three SQL tables and the statements the server sends;
    - [Eff]: a state-and-exception monad for the database client, the
      device cache and [try]/[catch];
    - [Attendance]: [computeAttendanceForDay];
    - [Liveness]: the heartbeat handler and the periodic monitor;
    - [Ingest]: the ingestion handler;
    - [Startup]: [initDB], [loadDevicesIntoCache] and the successive runs of
      [startDeviceMonitor];
    - [Api]: the read endpoints [GET /attendance/:day] and [GET /devices];
    - [Overlap]: [computeAttendanceForDay] and the ingestion handler once
      more, stopping at each [await], with the event loop that lets the
      handlers of several requests take turns.

    Statements and proofs follow, one section per subject: what the strict
    parser drops and what it reads, the fallback path, the monitor sweep,
    the heartbeat handler, re-aggregation of a day, the range of a day,
    duration and status; then the shape of the lines kept, line endings,
    the outcome of an ingestion request, the permissive loop line by line,
    the callback, an attendance batch from end to end, the registration of
    a device, start-up and restart, what every handler keeps true of the
    cache, the punch table under overlapping requests, the range of a day
    away from UTC, dates in the permissive loop, the status when a number
    is missing, and two requests whose handlers overlap.

    [GET /punches] is left out: its [LIMIT] comes from [parseInt] on a
    query parameter, and the answer of the database to a limit that is not
    a number is not fixed by the source.

    Conventions. A string is a sequence of code units below 256
    ([Stdlib.Strings.String]). A time value is an integer number of
    milliseconds since the epoch; an invalid [Date] (time value NaN) is
    [None]. The host's time zone and the behaviour of the database (which
    calls are rejected, what [CURRENT_TIMESTAMP] reads) are parameters.

    Handlers and overlap. The definitions of [Attendance], [Liveness],
    [Ingest], [Startup] and [Api] describe a handler that runs from its
    first statement to its last with no other handler in between, and a
    theorem about them speaks of requests handled one after the other.
    The source does not serialise its requests: a handler stops at each
    [await] and other handlers run in the meantime. [Overlap] has the
    aggregator and the ingestion handler in that form; run without
    interruption they are the definitions of [Attendance] and [Ingest]
    ([runAlone_computeAttendanceForDay], [runAlone_postCdata]). The
    statements about overlapping requests are made there. *)

From Stdlib Require Import ZArith Lia List Bool Ascii String.
From stdpp Require Import base option list sorting gmap strings.

Local Open Scope Z_scope.

(* ===================================================================== *)
(** * String primitives *)
(* ===================================================================== *)

Module JSString.

Definition code (c : ascii) : Z := Z.of_N (N_of_ascii c).

Definition TAB : ascii := ascii_of_N 9.
Definition LF : ascii := ascii_of_N 10.
Definition CR : ascii := ascii_of_N 13.

(** The white space and line terminator code units below U+0100. These are
    the characters removed by [String.prototype.trim] and matched by the
    regular expression class [\s]. *)
Definition isWhiteSpace (c : ascii) : bool :=
  let n := code c in
  (n =? 9) || (n =? 10) || (n =? 11) || (n =? 12) || (n =? 13)
  || (n =? 32) || (n =? 160).

(** The regular expression class [\d]. *)
Definition isDigit (c : ascii) : bool :=
  let n := code c in (48 <=? n) && (n <=? 57).

Definition digitVal (c : ascii) : Z := code c - 48.

Definition isEmpty (s : string) : bool :=
  match s with EmptyString => true | String _ _ => false end.

Fixpoint trimStart (s : string) : string :=
  match s with
  | EmptyString => EmptyString
  | String c r => if isWhiteSpace c then trimStart r else s
  end.

Fixpoint trimEnd (s : string) : string :=
  match s with
  | EmptyString => EmptyString
  | String c r =>
      let r' := trimEnd r in
      if isWhiteSpace c && isEmpty r' then EmptyString else String c r'
  end.

(** [s.trim()] *)
Definition trim (s : string) : string := trimEnd (trimStart s).

(** [s.replace(/\r/g, '\n')] *)
Fixpoint replaceCR (s : string) : string :=
  match s with
  | EmptyString => EmptyString
  | String c r => String (if Ascii.eqb c CR then LF else c) (replaceCR r)
  end.

(** [s.replace(/\//g, '-')] *)
Fixpoint replaceSlash (s : string) : string :=
  match s with
  | EmptyString => EmptyString
  | String c r => String (if Ascii.eqb c "/" then "-"%char else c) (replaceSlash r)
  end.

(** Prepend a code unit to the first piece of a split. *)
Definition consHead (c : ascii) (l : list string) : list string :=
  match l with
  | [] => [String c EmptyString]
  | t :: ts => String c t :: ts
  end.

(** [s.split(sep)] for a one-character separator: never the empty list. *)
Fixpoint split (sep : ascii) (s : string) : list string :=
  match s with
  | EmptyString => [EmptyString]
  | String c r =>
      if Ascii.eqb c sep then EmptyString :: split sep r
      else consHead c (split sep r)
  end.

(** [s.split(/\s+/)]: pieces separated by maximal runs of white space.
    [inRun] records that the previous code unit belonged to a separator. *)
Fixpoint splitWsFrom (inRun : bool) (s : string) : list string :=
  match s with
  | EmptyString => [EmptyString]
  | String c r =>
      if isWhiteSpace c then
        if inRun then splitWsFrom true r
        else EmptyString :: splitWsFrom true r
      else consHead c (splitWsFrom false r)
  end.

Definition splitWs (s : string) : list string := splitWsFrom false s.

(** [s.split('T')[0]] *)
Definition beforeT (s : string) : string :=
  match split "T" s with t :: _ => t | [] => EmptyString end.

(** [s.toUpperCase()] on the ASCII letters. *)
Definition upper (c : ascii) : ascii :=
  let n := code c in
  if (97 <=? n) && (n <=? 122) then ascii_of_N (Z.to_N (n - 32)) else c.

Fixpoint toUpperCase (s : string) : string :=
  match s with
  | EmptyString => EmptyString
  | String c r => String (upper c) (toUpperCase r)
  end.

Fixpoint startsWith (p s : string) : bool :=
  match p, s with
  | EmptyString, _ => true
  | String a p', String b s' => Ascii.eqb a b && startsWith p' s'
  | String _ _, EmptyString => false
  end.

(** [s.includes(p)] *)
Fixpoint includes (p s : string) : bool :=
  startsWith p s ||
  match s with
  | EmptyString => false
  | String _ r => includes p r
  end.

(** The capture groups of a successful timestamp match. *)
Record Groups := mkGroups {
  gYear : string; gMonth : string; gDay : string;
  gHour : string; gMinute : string; gSecond : string }.

Definition str2 (a b : ascii) : string := String a (String b EmptyString).
Definition str4 (a b c d : ascii) : string := String a (String b (str2 c d)).

(** [/^(\d{4})S(\d{2})S(\d{2}) (\d{2}):(\d{2}):(\d{2})$/] where [S] is the
    date separator of the format. *)
Definition matchFormat (dateSep : ascii) (s : string) : option Groups :=
  match list_ascii_of_string s with
  | [y1; y2; y3; y4; s1; m1; m2; s2; d1; d2; sp; h1; h2; c1; i1; i2; c2; e1; e2] =>
      if forallb isDigit [y1; y2; y3; y4; m1; m2; d1; d2; h1; h2; i1; i2; e1; e2]
         && Ascii.eqb s1 dateSep && Ascii.eqb s2 dateSep
         && Ascii.eqb sp " " && Ascii.eqb c1 ":" && Ascii.eqb c2 ":"
      then Some (mkGroups (str4 y1 y2 y3 y4) (str2 m1 m2) (str2 d1 d2)
                          (str2 h1 h2) (str2 i1 i2) (str2 e1 e2))
      else None
  | _ => None
  end.

(** The [formats] array of [parseAttlogText]. *)
Definition formats : list ascii := ["-"%char; "/"%char].

End JSString.

(* ===================================================================== *)
(** * ECMAScript time values *)
(* ===================================================================== *)

Module JSDate.
Import JSString.

(** The part of the JavaScript host that the server does not control:
    the local time zone adjustment [LocalTZA(t, isUTC)] in milliseconds,
    and the implementation-defined parser that [new Date(string)] falls
    back to for strings outside the ISO date-time format. *)
Record Host := mkHost {
  LocalTZA : Z -> bool -> Z;
  legacyParse : string -> option Z }.

(** A [Date] object: its time value, [None] for NaN (Invalid Date). *)
Definition Date := option Z.

Definition msPerDay : Z := 86400000.
Definition msPerHour : Z := 3600000.
Definition msPerMinute : Z := 60000.
Definition msPerSecond : Z := 1000.

Definition Day (t : Z) : Z := t / msPerDay.
Definition TimeWithinDay (t : Z) : Z := t mod msPerDay.

Definition DayFromYear (y : Z) : Z :=
  365 * (y - 1970) + (y - 1969) / 4 - (y - 1901) / 100 + (y - 1601) / 400.

Definition isLeapYear (y : Z) : bool :=
  (y mod 4 =? 0) && (negb (y mod 100 =? 0) || (y mod 400 =? 0)).

Definition DaysInYear (y : Z) : Z := if isLeapYear y then 366 else 365.

(** The largest year whose first day is not after day number [d]: an
    estimate from the mean year length, corrected by one step. *)
Definition YearFromDay (d : Z) : Z :=
  let y := 1970 + (400 * d) / 146097 in
  if d <? DayFromYear y then y - 1
  else if DayFromYear (y + 1) <=? d then y + 1
  else y.

Definition YearFromTime (t : Z) : Z := YearFromDay (Day t).

Definition InLeapYear (y : Z) : Z := if isLeapYear y then 1 else 0.

(** Number of days of the year before month [m] (0 = January). *)
Definition daysBeforeMonth (leap m : Z) : Z :=
  match m with
  | 0 => 0 | 1 => 31 | 2 => 59 + leap | 3 => 90 + leap
  | 4 => 120 + leap | 5 => 151 + leap | 6 => 181 + leap
  | 7 => 212 + leap | 8 => 243 + leap | 9 => 273 + leap
  | 10 => 304 + leap | _ => 334 + leap
  end.

(** Month (0..11) of day [dwy] within a year. *)
Definition monthOfYearDay (leap dwy : Z) : Z :=
  if dwy <? 31 then 0
  else if dwy <? 59 + leap then 1
  else if dwy <? 90 + leap then 2
  else if dwy <? 120 + leap then 3
  else if dwy <? 151 + leap then 4
  else if dwy <? 181 + leap then 5
  else if dwy <? 212 + leap then 6
  else if dwy <? 243 + leap then 7
  else if dwy <? 273 + leap then 8
  else if dwy <? 304 + leap then 9
  else if dwy <? 334 + leap then 10
  else 11.

Definition DayWithinYear (d : Z) : Z := d - DayFromYear (YearFromDay d).

Definition MonthFromDay (d : Z) : Z :=
  monthOfYearDay (InLeapYear (YearFromDay d)) (DayWithinYear d).

Definition DateFromDay (d : Z) : Z :=
  let leap := InLeapYear (YearFromDay d) in
  DayWithinYear d - daysBeforeMonth leap (MonthFromDay d) + 1.

Definition HourFromTime (t : Z) : Z := (t / msPerHour) mod 24.
Definition MinFromTime (t : Z) : Z := (t / msPerMinute) mod 60.
Definition SecFromTime (t : Z) : Z := (t / msPerSecond) mod 60.
Definition msFromTime (t : Z) : Z := t mod msPerSecond.

Definition MakeTime (h m s ms : Z) : Z :=
  h * msPerHour + m * msPerMinute + s * msPerSecond + ms.

(** [MakeDay(year, month, date)] with [month] counted from 0. *)
Definition MakeDay (year month date : Z) : Z :=
  let ym := year + month / 12 in
  let mn := month mod 12 in
  DayFromYear ym + daysBeforeMonth (InLeapYear ym) mn + date - 1.

Definition MakeDate (day time : Z) : Z := day * msPerDay + time.

Definition maxTime : Z := 8640000000000000.

Definition TimeClip (t : Z) : Date :=
  if Z.abs t <=? maxTime then Some t else None.

Definition LocalTime (h : Host) (t : Z) : Z := t + LocalTZA h t true.
Definition UTC (h : Host) (t : Z) : Z := t - LocalTZA h t false.

(** ** Rendering: [Date.prototype.toISOString] *)

Definition digitChar (n : Z) : ascii := ascii_of_N (Z.to_N (48 + n mod 10)).

Definition pad2 (n : Z) : string :=
  String (digitChar (n / 10)) (String (digitChar n) EmptyString).
Definition pad3 (n : Z) : string := String (digitChar (n / 100)) (pad2 n).
Definition pad4 (n : Z) : string := String (digitChar (n / 1000)) (pad3 n).
Definition pad6 (n : Z) : string :=
  String (digitChar (n / 100000)) (String (digitChar (n / 10000)) (pad4 n)).

Definition yearString (y : Z) : string :=
  if (0 <=? y) && (y <=? 9999) then pad4 y
  else if y <? 0 then String "-" (pad6 (- y))
  else String "+" (pad6 y).

(** The [YYYY-MM-DD] part, from a day number. *)
Definition dateString (d : Z) : string :=
  yearString (YearFromDay d) +:+ "-" +:+ pad2 (MonthFromDay d + 1)
    +:+ "-" +:+ pad2 (DateFromDay d).

(** The [HH:mm:ss.sss] part, from the time within the day. *)
Definition timeString (t : Z) : string :=
  pad2 (HourFromTime t) +:+ ":" +:+ pad2 (MinFromTime t)
    +:+ ":" +:+ pad2 (SecFromTime t) +:+ "." +:+ pad3 (msFromTime t).

Definition isoString (t : Z) : string :=
  dateString (Day t) +:+ "T" +:+ timeString (TimeWithinDay t) +:+ "Z".

(** [d.toISOString()]: a [RangeError] ([None]) on an invalid date. *)
Definition toISOString (d : Date) : option string := isoString <$> d.

(** ** Parsing: the ISO date-time string format *)

Fixpoint digitsN (n : nat) (acc : Z) (s : string) : option (Z * string) :=
  match n with
  | O => Some (acc, s)
  | S n' =>
      match s with
      | String a r =>
          if isDigit a then digitsN n' (10 * acc + digitVal a) r else None
      | EmptyString => None
      end
  end.

Definition expect (c : ascii) (s : string) : option string :=
  match s with
  | String a r => if Ascii.eqb a c then Some r else None
  | EmptyString => None
  end.

(** [YYYY], or a sign and six digits ([-000000] is not a year). *)
Definition isoYear (s : string) : option (Z * string) :=
  match s with
  | String "+" r => digitsN 6 0 r
  | String "-" r =>
      '(y, r') ← digitsN 6 0 r;
      if y =? 0 then None else Some (- y, r')
  | _ => digitsN 4 0 s
  end.

Inductive IsoForm :=
| DateOnly (y m d : Z)
| DateTime (y m d h mi s ms : Z) (utc : bool).

(** The time-zone suffix after the time: absent (local time) or [Z]. *)
Definition isoZone (s : string) : option bool :=
  match s with
  | EmptyString => Some false
  | String "Z" EmptyString => Some true
  | _ => None
  end.

Definition isoTime (y m d : Z) (s : string) : option IsoForm :=
  '(h, s) ← digitsN 2 0 s;
  s ← expect ":" s;
  '(mi, s) ← digitsN 2 0 s;
  s ← expect ":" s;
  '(sec, s) ← digitsN 2 0 s;
  match expect "." s with
  | Some s' =>
      '(ms, s') ← digitsN 3 0 s';
      utc ← isoZone s';
      Some (DateTime y m d h mi sec ms utc)
  | None =>
      utc ← isoZone s;
      Some (DateTime y m d h mi sec 0 utc)
  end.

(** The shapes [YYYY-MM-DD] and [YYYY-MM-DDTHH:mm:ss[.sss][Z]]. *)
Definition parseIsoForm (s : string) : option IsoForm :=
  '(y, s) ← isoYear s;
  s ← expect "-" s;
  '(m, s) ← digitsN 2 0 s;
  s ← expect "-" s;
  '(d, s) ← digitsN 2 0 s;
  match s with
  | EmptyString => Some (DateOnly y m d)
  | String "T" s' => isoTime y m d s'
  | _ => None
  end.

Definition validDay (m d : Z) : bool :=
  (1 <=? m) && (m <=? 12) && (1 <=? d) && (d <=? 31).

(** Hours 00..23 with minutes and seconds 00..59, or exactly 24:00:00.000. *)
Definition validTime (h mi s ms : Z) : bool :=
  ((h <=? 23) && (mi <=? 59) && (s <=? 59))
  || ((h =? 24) && (mi =? 0) && (s =? 0) && (ms =? 0)).

(** The time value of a string in ISO format. A date-only form is UTC; a
    date-time form without [Z] is local time. Fields out of range give an
    invalid date. *)
Definition isoValue (h : Host) (f : IsoForm) : Date :=
  match f with
  | DateOnly y m d =>
      if validDay m d then TimeClip (MakeDate (MakeDay y (m - 1) d) 0)
      else None
  | DateTime y m d hh mi s ms utc =>
      if validDay m d && validTime hh mi s ms then
        let t := MakeDate (MakeDay y (m - 1) d) (MakeTime hh mi s ms) in
        TimeClip (if utc then t else UTC h t)
      else None
  end.

(** [new Date(string)] *)
Definition parse (h : Host) (s : string) : Date :=
  match parseIsoForm s with
  | Some f => isoValue h f
  | None => t ← legacyParse h s; TimeClip t
  end.

(** [d.setHours(h, m, s, ms)]: the new time value of [d], which is also
    the value returned. *)
Definition setHours (h : Host) (d : Date) (hh mi s ms : Z) : Date :=
  t ← d;
  let tl := LocalTime h t in
  TimeClip (UTC h (MakeDate (Day tl) (MakeTime hh mi s ms))).

(** [a - b] on two dates, NaN if either is invalid. *)
Definition diff (a b : Date) : option Z :=
  x ← a; y ← b; Some (x - y).

(** A host whose local time is UTC and whose fallback parser rejects
    everything. *)
Definition utcHost : Host := mkHost (fun _ _ => 0) (fun _ => None).

(** A host at UTC+05:30. *)
Definition istHost : Host := mkHost (fun _ _ => 19800000) (fun _ => None).

(** A host at UTC-05:00. *)
Definition estHost : Host := mkHost (fun _ _ => -18000000) (fun _ => None).

End JSDate.

(* ===================================================================== *)
(** * The log parsers *)
(* ===================================================================== *)

Module Parser.
Import JSString JSDate.

(** One parsed punch, with the column names of the [punch] table. *)
Record Row := mkRow {
  pin : string;
  ts : string;
  status : option string;
  verify : option string;
  workcode : option string;
  reserved : option string;
  raw : string }.

(** [parts[i] || null] *)
Definition orNull (parts : list string) (i : nat) : option string :=
  match parts !! i with
  | Some s => if isEmpty s then None else Some s
  | None => None
  end.

(** The tokens of a trimmed line: split on tabs, and on white space when
    that gives fewer than two tokens. *)
Definition tokenize (line : string) : list string :=
  let parts := split TAB line in
  if (length parts <? 2)%nat then splitWs line else parts.

(** The string handed to [new Date] after a match:
    [`${m[1]}-${m[2]}-${m[3]}T${m[4]}:${m[5]}:${m[6]}`] *)
Definition dateTimeString (g : Groups) : string :=
  gYear g +:+ "-" +:+ gMonth g +:+ "-" +:+ gDay g +:+ "T"
    +:+ gHour g +:+ ":" +:+ gMinute g +:+ ":" +:+ gSecond g.

(** The loop over [formats]: the first matching format decides. *)
Fixpoint firstMatch (fmts : list ascii) (tsStr : string) : option Groups :=
  match fmts with
  | [] => None
  | f :: rest =>
      match matchFormat f tsStr with
      | Some g => Some g
      | None => firstMatch rest tsStr
      end
  end.

(** The variable [ts] after the loop: [None] is [null], [Some d] a [Date]
    object (possibly invalid). *)
Definition parseTimestamp (h : Host) (tsStr : string) : option Date :=
  g ← firstMatch formats tsStr; Some (parse h (dateTimeString g)).

(** The body of the loop of [parseAttlogText] for one [rawLine]: the row
    pushed, or [None] when the iteration ends in [continue]. *)
Definition parseAttlogLine (h : Host) (rawLine : string) : option Row :=
  let line := trim rawLine in
  if isEmpty line then None
  else
    let parts := tokenize line in
    if (length parts <? 2)%nat then None
    else
      match parts !! 0%nat, parts !! 1%nat with
      | Some pin, Some tsStr =>
          match parseTimestamp h tsStr with
          | Some (Some t) =>
              Some (mkRow pin (isoString t) (orNull parts 2) (orNull parts 3)
                          (orNull parts 4) (orNull parts 5) line)
          | _ => None
          end
      | _, _ => None
      end.

(** [text.replace(/\r/g, '\n').split('\n')] *)
Definition splitLines (text : string) : list string :=
  split LF (replaceCR text).

Definition parseAttlogText (h : Host) (text : string) : list Row :=
  omap (parseAttlogLine h) (splitLines text).

(** The body of the fallback loop of the [POST /iclock/cdata.aspx] handler
    for one [rawLine], read at instant [now]: the row inserted, or [None]
    when the line is skipped. *)
Definition parseFallbackLine (h : Host) (now : Z) (rawLine : string)
  : option Row :=
  let line := trim rawLine in
  if isEmpty line then None
  else
    let parts := split TAB line in
    let pin :=
      match parts !! 0%nat with
      | Some p => if isEmpty p then "UNKNOWN"%string else p
      | None => "UNKNOWN"%string
      end in
    let ts :=
      match parts !! 1%nat with
      | Some p1 =>
          match parse h (replaceSlash p1) with
          | Some t => isoString t
          | None => isoString now
          end
      | None => isoString now
      end in
    Some (mkRow pin ts None None None None line).

End Parser.

(* ===================================================================== *)
(** * The SQL tables *)
(* ===================================================================== *)

(** The attendance payload built by [computeAttendanceForDay]
    ([attendanceData]), which is also the set of columns it writes. *)
Module AttendanceData.
Inductive Status := ABSENT | SHORT | PRESENT.

Record t := mk {
  pin : string;
  day : string;
  first_ts : string;
  last_ts : string;
  duration_minutes : option Z;   (* [None] is NaN *)
  status : Status }.
End AttendanceData.

Module AttendanceRow.
Record t := mk {
  data : AttendanceData.t;
  created_at : Z;
  updated_at : Z }.
End AttendanceRow.

Module DeviceRow.
Inductive Status := ONLINE | OFFLINE.

Record t := mk {
  status : Status;
  last_seen : option string;
  first_registered : Z;
  updated_at : Z }.
End DeviceRow.

Module Store.
Import JSString JSDate.

(** The [devices] table is keyed by its [UNIQUE] column [serial_number];
    [punch] and [attendance] carry no uniqueness constraint and are kept
    in insertion order. *)
Record Db := mkDb {
  punch : list Parser.Row;
  attendance : list AttendanceRow.t;
  devices : gmap string DeviceRow.t }.

Definition emptyDb : Db := mkDb [] [] ∅.

(** Text comparison of the [BINARY] collation. *)
Definition textLe (a b : string) : Prop := String.leb a b = true.

#[export] Instance textLe_dec a b : Decision (textLe a b).
Proof. unfold textLe. apply _. Defined.

(** [ts >= ? AND ts <= ?] *)
Definition inRange (startDt endDt : string) (r : Parser.Row) : bool :=
  String.leb startDt (Parser.ts r) && String.leb (Parser.ts r) endDt.

(** The values of a list without repetition, in order of first occurrence. *)
Fixpoint distinctFrom (seen l : list string) : list string :=
  match l with
  | [] => []
  | x :: r =>
      if bool_decide (x ∈ seen) then distinctFrom seen r
      else x :: distinctFrom (x :: seen) r
  end.

Definition distinct (l : list string) : list string := distinctFrom [] l.

(** [SELECT DISTINCT pin FROM punch WHERE ts >= ? AND ts <= ?] *)
Definition selectDistinctPins (startDt endDt : string) (db : Db)
  : list string :=
  distinct (map Parser.pin (List.filter (inRange startDt endDt) (punch db))).

Definition tsLe (a b : Parser.Row) : Prop :=
  textLe (Parser.ts a) (Parser.ts b).

#[export] Instance tsLe_dec a b : Decision (tsLe a b).
Proof. unfold tsLe. apply _. Defined.

(** [SELECT * FROM punch WHERE pin = ? AND ts >= ? AND ts <= ?
     ORDER BY ts ASC] *)
Definition selectPunches (pin startDt endDt : string) (db : Db)
  : list Parser.Row :=
  merge_sort tsLe
    (List.filter
       (fun r => String.eqb (Parser.pin r) pin && inRange startDt endDt r)
       (punch db)).

Definition attendanceKey (pin day : string) (r : AttendanceRow.t) : bool :=
  String.eqb (AttendanceData.pin (AttendanceRow.data r)) pin
  && String.eqb (AttendanceData.day (AttendanceRow.data r)) day.

(** [SELECT * FROM attendance WHERE pin = ? AND day = ?] *)
Definition selectAttendance (pin day : string) (db : Db)
  : list AttendanceRow.t :=
  List.filter (attendanceKey pin day) (attendance db).

(** [SELECT serial_number, status, last_seen FROM devices
     WHERE serial_number = ?] *)
Definition selectDevice (sn : string) (db : Db) : option DeviceRow.t :=
  devices db !! sn.

(** The data-changing statements of the server, with their arguments. *)
Inductive Stmt :=
| InsertPunch (r : Parser.Row)
| UpdateAttendance (a : AttendanceData.t)
| InsertAttendance (a : AttendanceData.t)
| InsertDevice (sn nowISO : string)
| UpdateDeviceOnline (sn nowISO : string)
| UpdateDeviceLastSeen (sn nowISO : string)
| UpdateDeviceOffline (sn : string).

(** [UPDATE attendance SET first_ts = ?, last_ts = ?, duration_minutes = ?,
     status = ?, updated_at = CURRENT_TIMESTAMP WHERE pin = ? AND day = ?] *)
Definition updateAttendanceRow (stamp : Z) (a : AttendanceData.t)
  (r : AttendanceRow.t) : AttendanceRow.t :=
  if attendanceKey (AttendanceData.pin a) (AttendanceData.day a) r then
    AttendanceRow.mk
      (AttendanceData.mk
         (AttendanceData.pin (AttendanceRow.data r))
         (AttendanceData.day (AttendanceRow.data r))
         (AttendanceData.first_ts a) (AttendanceData.last_ts a)
         (AttendanceData.duration_minutes a) (AttendanceData.status a))
      (AttendanceRow.created_at r) stamp
  else r.

(** The effect of a statement executed at [CURRENT_TIMESTAMP = stamp];
    [None] when the statement is rejected (the [UNIQUE] constraint). *)
Definition exec (stamp : Z) (s : Stmt) (db : Db) : option Db :=
  match s with
  | InsertPunch r =>
      Some (mkDb (punch db ++ [r]) (attendance db) (devices db))
  | UpdateAttendance a =>
      Some (mkDb (punch db) (map (updateAttendanceRow stamp a) (attendance db))
                 (devices db))
  | InsertAttendance a =>
      Some (mkDb (punch db) (attendance db ++ [AttendanceRow.mk a stamp stamp])
                 (devices db))
  | InsertDevice sn nowISO =>
      match devices db !! sn with
      | Some _ => None
      | None =>
          Some (mkDb (punch db) (attendance db)
                     (<[sn := DeviceRow.mk DeviceRow.ONLINE (Some nowISO) stamp stamp]>
                        (devices db)))
      end
  | UpdateDeviceOnline sn nowISO =>
      Some (mkDb (punch db) (attendance db)
                 (alter (fun r => DeviceRow.mk DeviceRow.ONLINE (Some nowISO)
                                    (DeviceRow.first_registered r) stamp)
                        sn (devices db)))
  | UpdateDeviceLastSeen sn nowISO =>
      Some (mkDb (punch db) (attendance db)
                 (alter (fun r => DeviceRow.mk (DeviceRow.status r) (Some nowISO)
                                    (DeviceRow.first_registered r) stamp)
                        sn (devices db)))
  | UpdateDeviceOffline sn =>
      Some (mkDb (punch db) (attendance db)
                 (alter (fun r => DeviceRow.mk DeviceRow.OFFLINE
                                    (DeviceRow.last_seen r)
                                    (DeviceRow.first_registered r) stamp)
                        sn (devices db)))
  end.

End Store.

(* ===================================================================== *)
(** * Effects: the database client, the device cache, exceptions *)
(* ===================================================================== *)

Module Eff.
Import JSDate Store.

Inductive Exn := SqlError | RangeError | TypeError.

Inductive Outcome (A : Type) :=
| Ret (a : A)
| Throw (e : Exn).
Arguments Ret {A} a.
Arguments Throw {A} e.

(** What the outside decides about one call of [db.execute]: whether the
    promise rejects, and the value of [CURRENT_TIMESTAMP]. *)
Record Tick := mkTick { rejects : bool; stamp : Z }.

(** The process environment: the JavaScript host, the configuration
    constants, and the behaviour of the database for the n-th call of
    [db.execute]. *)
Record Env := mkEnv {
  host : Host;
  MINUTES_FOR_PRESENT : option Z;   (* [parseInt] may give NaN *)
  CALLBACK_URL : option string;
  oracle : nat -> Tick }.

(** An entry of [deviceCache]. [lastSeen] and [lastHeartbeat] are [null]
    ([None]) or a [Date]. *)
Record DeviceInfo := mkInfo {
  status : DeviceRow.Status;
  lastSeen : option Date;
  lastHeartbeat : option Date }.

Record World := mkWorld {
  db : Db;
  deviceCache : gmap string DeviceInfo;
  calls : nat;                       (* calls of [db.execute] so far *)
  issued : list Stmt;                (* data-changing statements sent *)
  posted : list AttendanceData.t }.  (* payloads sent to the callback *)

Definition M (A : Type) : Type := World -> Outcome A * World.

Definition ret {A} (a : A) : M A := fun w => (Ret a, w).

Definition bind {A B} (m : M A) (k : A -> M B) : M B :=
  fun w =>
    match m w with
    | (Ret a, w') => k a w'
    | (Throw e, w') => (Throw e, w')
    end.

Definition throw {A} (e : Exn) : M A := fun w => (Throw e, w).

(** [try { m } catch (error) { h }] *)
Definition tryCatch {A} (m : M A) (h : Exn -> M A) : M A :=
  fun w =>
    match m w with
    | (Ret a, w') => (Ret a, w')
    | (Throw e, w') => h e w'
    end.

Definition tickOf (e : Env) (w : World) : Tick := oracle e (calls w).

(** [await db.execute(<query>)] *)
Definition dbQuery {A} (e : Env) (q : Db -> A) : M A :=
  fun w =>
    let w' := mkWorld (db w) (deviceCache w) (S (calls w)) (issued w) (posted w) in
    if rejects (tickOf e w) then (Throw SqlError, w')
    else (Ret (q (db w)), w').

(** [await db.execute(<statement>)] *)
Definition dbWrite (e : Env) (s : Stmt) : M unit :=
  fun w =>
    let tk := tickOf e w in
    let sent db' :=
      mkWorld db' (deviceCache w) (S (calls w)) (issued w ++ [s]) (posted w) in
    if rejects tk then (Throw SqlError, sent (db w))
    else
      match exec (stamp tk) s (db w) with
      | Some db' => (Ret tt, sent db')
      | None => (Throw SqlError, sent (db w))
      end.

(** [db.execute(<statement>).catch(err => console.error(...))] without
    [await]: the rejection is logged and goes no further. *)
Definition dbWriteDetached (e : Env) (s : Stmt) : M unit :=
  tryCatch (dbWrite e s) (fun _ => ret tt).

Definition getCache : M (gmap string DeviceInfo) :=
  fun w => (Ret (deviceCache w), w).

Definition setCache (c : gmap string DeviceInfo) : M unit :=
  fun w => (Ret tt, mkWorld (db w) c (calls w) (issued w) (posted w)).

(** [await axios.post(CALLBACK_URL, attendanceData, ...)] inside its
    [try]/[catch]: a failed delivery is logged and changes nothing. *)
Definition postCallback (a : AttendanceData.t) : M unit :=
  fun w =>
    (Ret tt, mkWorld (db w) (deviceCache w) (calls w) (issued w) (posted w ++ [a])).

(** A value that a JavaScript expression may fail to produce. *)
Definition orThrow {A} (e : Exn) (o : option A) : M A :=
  match o with
  | Some a => ret a
  | None => throw e
  end.

(** [for (const x of l) { ... results.push(...) ... }]: the body returns
    the element pushed, or [None] on [continue]. *)
Fixpoint collect {A B} (l : list A) (body : A -> M (option B)) : M (list B) :=
  match l with
  | [] => ret []
  | x :: r =>
      bind (body x) (fun o =>
      bind (collect r body) (fun rest =>
      ret (match o with Some b => b :: rest | None => rest end)))
  end.

Fixpoint forEach {A} (l : list A) (body : A -> M unit) : M unit :=
  match l with
  | [] => ret tt
  | x :: r => bind (body x) (fun _ => forEach r body)
  end.

(** ** Handlers with their [await]s

    An [async] function runs without interruption up to an [await]. There
    it hands a call to the outside and stops; it is resumed with the
    outcome of the call, and in the meantime other handlers take their
    turns. [Await call k] is a handler stopped at [await call], with [k] the
    rest of its body. *)
Inductive Task (A : Type) : Type :=
| Done (out : Outcome A)
| Await {X : Type} (call : M X) (k : Outcome X -> Task A).
Arguments Done {A} out.
Arguments Await {A X} call k.

(** [await call]: a rejected promise is thrown at the [await]. *)
Definition await {X} (call : M X) : Task X := Await call Done.

Definition retT {A} (a : A) : Task A := Done (Ret a).

Fixpoint bindT {A B} (t : Task A) (f : A -> Task B) : Task B :=
  match t with
  | Done (Ret a) => f a
  | Done (Throw x) => Done (Throw x)
  | Await call k => Await call (fun o => bindT (k o) f)
  end.

(** [try { t } catch (error) { h }] around a body with [await]s. *)
Fixpoint tryCatchT {A} (t : Task A) (h : Exn -> Task A) : Task A :=
  match t with
  | Done (Ret a) => Done (Ret a)
  | Done (Throw x) => h x
  | Await call k => Await call (fun o => tryCatchT (k o) h)
  end.

Definition orThrowT {A} (e : Exn) (o : option A) : Task A :=
  match o with
  | Some a => retT a
  | None => Done (Throw e)
  end.

Fixpoint collectT {A B} (l : list A) (body : A -> Task (option B))
  : Task (list B) :=
  match l with
  | [] => retT []
  | x :: r =>
      bindT (body x) (fun o =>
      bindT (collectT r body) (fun rest =>
      retT (match o with Some b => b :: rest | None => rest end)))
  end.

Fixpoint forEachT {A} (l : list A) (body : A -> Task unit) : Task unit :=
  match l with
  | [] => retT tt
  | x :: r => bindT (body x) (fun _ => forEachT r body)
  end.

(** A handler that no other handler interrupts: each call is made and
    answered before anything else happens. *)
Fixpoint runAlone {A} (t : Task A) (w : World) {struct t} : Outcome A * World :=
  match t with
  | Done out => (out, w)
  | Await call k => let (o, w') := call w in runAlone (k o) w'
  end.

(** One turn of a handler: its pending call is made and answered, and the
    handler runs on to its next [await] or to its end. *)
Definition resume {A} (t : Task A) (w : World) : Task A * World :=
  match t with
  | Done _ => (t, w)
  | Await call k => let (o, w') := call w in (k o, w')
  end.

(** The event loop over the handlers of the requests being served:
    [turns] names, turn after turn, the request whose handler is resumed. *)
Fixpoint eventLoop {A} (turns : list nat) (handlers : list (Task A)) (w : World)
  : list (Task A) * World :=
  match turns with
  | [] => (handlers, w)
  | i :: rest =>
      match handlers !! i with
      | Some t =>
          let (t', w') := resume t w in
          eventLoop rest (<[i := t']> handlers) w'
      | None => eventLoop rest handlers w
      end
  end.

End Eff.

Declare Scope eff_scope.
Delimit Scope eff_scope with eff.
Notation "x <- m ;; k" := (Eff.bind m (fun x => k))
(at level 100, m at next level, right associativity) : eff_scope.
Notation "m ;;; k" := (Eff.bind m (fun _ => k))
(at level 100, right associativity) : eff_scope.

Declare Scope task_scope.
Delimit Scope task_scope with task.
Notation "x <- m ;; k" := (Eff.bindT m (fun x => k))
(at level 100, m at next level, right associativity) : task_scope.
Notation "m ;;; k" := (Eff.bindT m (fun _ => k))
(at level 100, right associativity) : task_scope.

Local Open Scope eff_scope.

(* ===================================================================== *)
(** * The attendance aggregator *)
(* ===================================================================== *)

Module Attendance.
Import JSString JSDate Store Eff.

(** [startDt] and [endDt]: [dayDate] is parsed once and then moved twice by
    [setHours]; [None] when [toISOString] raises a [RangeError]. *)
Definition dayRange (h : Host) (dayStr : string) : option (string * string) :=
  let dayDate := parse h dayStr in
  let dayDate := setHours h dayDate 0 0 0 0 in
  startDt ← toISOString dayDate;
  let dayDate := setHours h dayDate 23 59 59 999 in
  endDt ← toISOString dayDate;
  Some (startDt, endDt).

(** [Math.floor((lastTs - firstTs) / 60000)] *)
Definition minutesBetween (firstTs lastTs : Date) : option Z :=
  (fun d => d / 60000) <$> diff lastTs firstTs.

(** [a >= b] on numbers: false when either is NaN. *)
Definition geNum (a b : option Z) : bool :=
  match a, b with
  | Some x, Some y => y <=? x
  | _, _ => false
  end.

(** [a > k] on numbers: false when [a] is NaN. *)
Definition gtNum (a : option Z) (k : Z) : bool :=
  match a with
  | Some x => k <? x
  | None => false
  end.

Definition classify (e : Env) (durationMinutes : option Z)
  : AttendanceData.Status :=
  if geNum durationMinutes (MINUTES_FOR_PRESENT e) then AttendanceData.PRESENT
  else if gtNum durationMinutes 0 then AttendanceData.SHORT
  else AttendanceData.ABSENT.

(** The record computed from the punches of one pin, ordered by [ts]. *)
Definition attendanceOf (e : Env) (pin dayStr : string)
  (punches : list Parser.Row) : option AttendanceData.t :=
  match punches with
  | [] => None
  | p0 :: _ =>
      let pl := default p0 (last punches) in
      let firstTs := parse (host e) (Parser.ts p0) in
      let lastTs := parse (host e) (Parser.ts pl) in
      let durationMinutes := minutesBetween firstTs lastTs in
      Some (AttendanceData.mk pin dayStr (Parser.ts p0) (Parser.ts pl)
              durationMinutes (classify e durationMinutes))
  end.

(** [if (CALLBACK_URL)]: the variable is set and is not the empty string. *)
Definition callbackSet (e : Env) : bool :=
  match CALLBACK_URL e with
  | Some url => negb (isEmpty url)
  | None => false
  end.

(** The body of the loop over [pins]. *)
Definition attendanceForPin (e : Env) (dayStr startDt endDt pin : string)
  : M (option AttendanceData.t) :=
  punches <- dbQuery e (selectPunches pin startDt endDt);;
  match attendanceOf e pin dayStr punches with
  | None => ret None
  | Some attendanceData =>
      existing <- dbQuery e (selectAttendance pin dayStr);;
      (match existing with
       | _ :: _ => dbWrite e (UpdateAttendance attendanceData)
       | [] => dbWrite e (InsertAttendance attendanceData)
       end);;;
      (if callbackSet e then postCallback attendanceData else ret tt);;;
      ret (Some attendanceData)
  end.

Definition computeAttendanceForDay (e : Env) (dayStr : string)
  : M (list AttendanceData.t) :=
  range <- orThrow RangeError (dayRange (host e) dayStr);;
  pins <- dbQuery e (selectDistinctPins range.1 range.2);;
  collect pins (attendanceForPin e dayStr range.1 range.2).

End Attendance.

(* ===================================================================== *)
(** * HTTP responses *)
(* ===================================================================== *)

Module Http.

Inductive Body :=
| Text (s : string)
| JsonError (message : string)
| JsonException (e : Eff.Exn)
| JsonInserted (inserted : nat) (attendance : option (list AttendanceData.t)).

Record Response := mkResponse { statusCode : Z; body : Body }.

(** JavaScript truthiness of an optional query parameter. *)
Definition truthy (o : option string) : bool :=
  match o with
  | Some s => negb (JSString.isEmpty s)
  | None => false
  end.

End Http.

(* ===================================================================== *)
(** * The device liveness tracker *)
(* ===================================================================== *)

Module Liveness.
Import JSString JSDate Store Eff Http.

Definition DEVICE_OFFLINE_THRESHOLD : Z := 30000.

(** [deviceCache.get(sn).<field> = ...] on the shared entry. *)
Definition updateInfo (sn : string) (f : DeviceInfo -> DeviceInfo) : M unit :=
  c <- getCache;; setCache (alter f sn c).

Definition isOffline (s : DeviceRow.Status) : bool :=
  match s with DeviceRow.OFFLINE => true | DeviceRow.ONLINE => false end.

Definition isOnline (s : DeviceRow.Status) : bool :=
  match s with DeviceRow.ONLINE => true | DeviceRow.OFFLINE => false end.

(** [!deviceInfo.lastSeen || (now - deviceInfo.lastSeen) > 10000] *)
Definition lastSeenDue (now : Z) (i : DeviceInfo) : bool :=
  match lastSeen i with
  | None => true
  | Some d => Attendance.gtNum (diff (Some now) d) 10000
  end.

(** The branch of the heartbeat handler for a serial number found in the
    cache. *)
Definition heartbeatCached (e : Env) (serialNumber : string) (now : Z)
  (deviceInfo : DeviceInfo) : M unit :=
  let nowISO := isoString now in
  updateInfo serialNumber
    (fun i => mkInfo (status i) (lastSeen i) (Some (Some now)));;;
  (if isOffline (status deviceInfo) then
     updateInfo serialNumber
       (fun i => mkInfo DeviceRow.ONLINE (lastSeen i) (lastHeartbeat i));;;
     dbWriteDetached e (UpdateDeviceOnline serialNumber nowISO)
   else ret tt);;;
  (if lastSeenDue now deviceInfo then
     updateInfo serialNumber
       (fun i => mkInfo (status i) (Some (Some now)) (lastHeartbeat i));;;
     dbWriteDetached e (UpdateDeviceLastSeen serialNumber nowISO)
   else ret tt).

(** The branch for a serial number absent from the cache. *)
Definition heartbeatNew (e : Env) (serialNumber : string) (now : Z) : M unit :=
  let nowISO := isoString now in
  dbResult <- dbQuery e (selectDevice serialNumber);;
  (match dbResult with
   | None => dbWrite e (InsertDevice serialNumber nowISO)
   | Some _ => dbWrite e (UpdateDeviceOnline serialNumber nowISO)
   end);;;
  c <- getCache;;
  setCache (<[serialNumber := mkInfo DeviceRow.ONLINE (Some (Some now)) (Some (Some now))]> c).

(** [app.get('/iclock/getrequest.aspx', ...)] for the query parameter [SN],
    at instant [now]. *)
Definition getrequest (e : Env) (SN : option string) (now : Z) : M Response :=
  tryCatch
    (match SN with
     | Some serialNumber =>
         if isEmpty serialNumber then ret (mkResponse 400 (Text "OK"))
         else
           c <- getCache;;
           (match c !! serialNumber with
            | None => heartbeatNew e serialNumber now
            | Some deviceInfo => heartbeatCached e serialNumber now deviceInfo
            end);;;
           ret (mkResponse 200 (Text "OK"))
     | None => ret (mkResponse 400 (Text "OK"))
     end)
    (fun _ => ret (mkResponse 200 (Text "OK"))).

(** The test of the monitor on one cache entry. *)
Definition shouldDemote (now : Z) (deviceInfo : DeviceInfo) : bool :=
  match lastHeartbeat deviceInfo with
  | Some hb =>
      Attendance.gtNum (diff (Some now) hb) DEVICE_OFFLINE_THRESHOLD
      && isOnline (status deviceInfo)
  | None => false
  end.

(** One iteration of the scan over [deviceCache.entries()]. *)
Definition scanStep (now : Z) (acc : gmap string DeviceInfo * list string)
  (entry : string * DeviceInfo) : gmap string DeviceInfo * list string :=
  if shouldDemote now entry.2 then
    (<[entry.1 := mkInfo DeviceRow.OFFLINE (lastSeen entry.2) (lastHeartbeat entry.2)]> acc.1,
     acc.2 ++ [entry.1])
  else acc.

(** The loop over [deviceCache.entries()]. A JavaScript [Map] is visited in
    insertion order and the finite map here in the order of its keys; the
    cache and the set of serial numbers collected are the same for every
    order of visit (see [scan_spec]). *)
Definition scan (now : Z) (c : gmap string DeviceInfo)
  : gmap string DeviceInfo * list string :=
  foldl (scanStep now) (c, []) (map_to_list c).

(** One run of the interval callback of [startDeviceMonitor]. *)
Definition monitorTick (e : Env) (now : Z) : M unit :=
  c <- getCache;;
  let swept := scan now c in
  setCache swept.1;;;
  forEach swept.2 (fun sn =>
    tryCatch (dbWrite e (UpdateDeviceOffline sn)) (fun _ => ret tt)).

End Liveness.

(* ===================================================================== *)
(** * The ingestion endpoint *)
(* ===================================================================== *)

Module Ingest.
Import JSString JSDate Store Eff Http.

(** [table && table.toUpperCase().includes('ATTLOG')] *)
Definition isAttlog (table : option string) : bool :=
  match table with
  | Some t => negb (isEmpty t) && includes "ATTLOG" (toUpperCase t)
  | None => false
  end.

(** [req.query.table || req.query.options] *)
Definition tableOf (qTable qOptions : option string) : option string :=
  if truthy qTable then qTable else qOptions.

(** The loop over the lines of a payload that is not an attendance log;
    [now i] is the instant read by [new Date()] for the line at index [i].
    The result is the counter [inserted]. *)
Fixpoint fallbackLoop (e : Env) (now : nat -> Z) (i : nat) (lines : list string)
  : M nat :=
  match lines with
  | [] => ret 0%nat
  | rawLine :: rest =>
      match Parser.parseFallbackLine (host e) (now i) rawLine with
      | None => fallbackLoop e now (S i) rest
      | Some row =>
          dbWrite e (InsertPunch row);;;
          n <- fallbackLoop e now (S i) rest;;
          ret (S n)
      end
  end.

(** [results.push(...dayResults)] over [affectedDays]. *)
Fixpoint aggregateDays (e : Env) (days : list string)
  : M (list AttendanceData.t) :=
  match days with
  | [] => ret []
  | day :: rest =>
      dayResults <- Attendance.computeAttendanceForDay e day;;
      more <- aggregateDays e rest;;
      ret (dayResults ++ more)
  end.

(** [app.post('/iclock/cdata.aspx', ...)]: [reqBody] is the raw body when
    it is a buffer or a string. *)
Definition postCdata (e : Env) (qTable qOptions : option string)
  (reqBody : option string) (now : nat -> Z) : M Response :=
  tryCatch
    (match reqBody with
     | None => ret (mkResponse 400 (JsonError "Invalid body format"))
     | Some raw =>
         if isEmpty raw || isEmpty (trim raw)
         then ret (mkResponse 400 (JsonError "empty body"))
         else if isAttlog (tableOf qTable qOptions) then
           let rows := Parser.parseAttlogText (host e) raw in
           forEach rows (fun row => dbWrite e (InsertPunch row));;;
           let affectedDays := distinct (map (fun r => beforeT (Parser.ts r)) rows) in
           results <- aggregateDays e affectedDays;;
           ret (mkResponse 200 (JsonInserted (length rows) (Some results)))
         else
           inserted <- fallbackLoop e now 0 (Parser.splitLines raw);;
           ret (mkResponse 200 (JsonInserted inserted None))
     end)
    (fun err => ret (mkResponse 500 (JsonException err))).

End Ingest.

(* ===================================================================== *)
(** * Start-up: the schema, the device cache, the monitor *)
(* ===================================================================== *)

Module Startup.
Import JSString JSDate Store Eff.

(** The statements of [initDB], in the order in which they are sent. *)
Inductive Ddl :=
| CreatePunch | IdxPunchPin | IdxPunchTs
| CreateAttendance | IdxAttendancePin | IdxAttendanceDay
| CreateDevices | IdxDevicesSn | IdxDevicesStatus.

Definition schema : list Ddl :=
  [CreatePunch; IdxPunchPin; IdxPunchTs;
   CreateAttendance; IdxAttendancePin; IdxAttendanceDay;
   CreateDevices; IdxDevicesSn; IdxDevicesStatus].

(** [await db.execute(`CREATE ... IF NOT EXISTS ...`)]: a call of the
    database that changes no row of the three tables. *)
Definition createIfNotExists (e : Env) (s : Ddl) : M unit :=
  dbQuery e (fun _ => tt).

(** [row.last_seen ? new Date(row.last_seen) : null] *)
Definition dateOrNull (h : Host) (last_seen : option string) : option Date :=
  match last_seen with
  | Some s => if isEmpty s then None else Some (parse h s)
  | None => None
  end.

(** The cache entry built from a row of [devices]. *)
Definition infoOfRow (h : Host) (row : DeviceRow.t) : DeviceInfo :=
  mkInfo (DeviceRow.status row)
         (dateOrNull h (DeviceRow.last_seen row))
         (dateOrNull h (DeviceRow.last_seen row)).

(** [SELECT serial_number, status, last_seen FROM devices] *)
Definition selectDevices (db : Db) : list (string * DeviceRow.t) :=
  map_to_list (devices db).

(** [deviceCache.set(row.serial_number, {...})] *)
Definition cacheRow (h : Host) (row : string * DeviceRow.t) : M unit :=
  c <- getCache;; setCache (<[row.1 := infoOfRow h row.2]> c).

(** The serial numbers of the rows are distinct, so that the cache built
    does not depend on the order in which the rows come back. *)
Definition loadDevicesIntoCache (e : Env) : M unit :=
  tryCatch
    (rows <- dbQuery e selectDevices;;
     forEach rows (cacheRow (host e)))
    (fun _ => ret tt).

Definition initDB (e : Env) : M unit :=
  tryCatch
    (forEach schema (createIfNotExists e);;;
     loadDevicesIntoCache e)
    (fun _ => ret tt).

(** The runs of the interval callback of [startDeviceMonitor], at the
    instants at which the timer fires. *)
Definition startDeviceMonitor (e : Env) (instants : list Z) : M unit :=
  forEach instants (Liveness.monitorTick e).

(** [initDB().then(() => { startDeviceMonitor(); })] *)
Definition boot (e : Env) (instants : list Z) : M unit :=
  initDB e;;; startDeviceMonitor e instants.

End Startup.

(* ===================================================================== *)
(** * The read endpoints *)
(* ===================================================================== *)

Module Api.
Import JSString JSDate Store Eff.

(** The JSON body of a read endpoint: the rows, or [{ error: ... }] with a
    fixed message or with the message of the exception caught. *)
Inductive Payload (A : Type) :=
| Rows (rows : list A)
| ErrorMessage (message : string)
| Failure (e : Exn).
Arguments Rows {A} rows.
Arguments ErrorMessage {A} message.
Arguments Failure {A} e.

Record Reply (A : Type) := mkReply { code : Z; payload : Payload A }.
Arguments mkReply {A} code payload.
Arguments code {A} r.
Arguments payload {A} r.

(** [/^\d{4}-\d{2}-\d{2}$/.test(dayStr)] *)
Definition isDayFormat (dayStr : string) : bool :=
  match list_ascii_of_string dayStr with
  | [y1; y2; y3; y4; s1; m1; m2; s2; d1; d2] =>
      forallb isDigit [y1; y2; y3; y4; m1; m2; d1; d2]
      && Ascii.eqb s1 "-" && Ascii.eqb s2 "-"
  | _ => false
  end.

(** [SELECT * FROM attendance WHERE day = ?] *)
Definition selectAttendanceOfDay (day : string) (db : Db)
  : list AttendanceRow.t :=
  List.filter
    (fun r => String.eqb (AttendanceData.day (AttendanceRow.data r)) day)
    (attendance db).

(** [app.get('/attendance/:day', ...)] *)
Definition getAttendance (e : Env) (dayStr : string)
  : M (Reply AttendanceRow.t) :=
  tryCatch
    (if isDayFormat dayStr then
       rows <- dbQuery e (selectAttendanceOfDay dayStr);;
       ret (mkReply 200 (Rows rows))
     else ret (mkReply 400 (ErrorMessage "bad date format, use YYYY-MM-DD")))
    (fun err => ret (mkReply 500 (Failure err))).

(** A row of the answer of [GET /devices]: the columns of the table, the
    status held in the cache ([None] is the word UNKNOWN) and the last
    heartbeat as text ([None] is [null]). *)
Record DeviceView := mkView {
  serial_number : string;
  row : DeviceRow.t;
  cached_status : option DeviceRow.Status;
  last_heartbeat : option string }.

(** The callback of [result.rows.map]; [None] when [toISOString] raises a
    [RangeError]. *)
Definition enrich (c : gmap string DeviceInfo) (r : string * DeviceRow.t)
  : option DeviceView :=
  match c !! r.1 with
  | None => Some (mkView r.1 r.2 None None)
  | Some i =>
      match lastHeartbeat i with
      | None => Some (mkView r.1 r.2 (Some (status i)) None)
      | Some d =>
          iso ← toISOString d;
          Some (mkView r.1 r.2 (Some (status i)) (Some iso))
      end
  end.

(** [app.get('/devices', ...)]. The statement is
    [SELECT * FROM devices ORDER BY updated_at DESC]; [order] is the order
    in which the database returns the rows. *)
Definition getDevices (e : Env)
  (order : list (string * DeviceRow.t) -> list (string * DeviceRow.t))
  : M (Reply DeviceView) :=
  tryCatch
    (rows <- dbQuery e (fun d => order (map_to_list (devices d)));;
     c <- getCache;;
     views <- orThrow RangeError (mapM (enrich c) rows);;
     ret (mkReply 200 (Rows views)))
    (fun err => ret (mkReply 500 (Failure err))).

End Api.

(* ===================================================================== *)
(** * The ingestion handler with its [await]s *)
(* ===================================================================== *)

(** [computeAttendanceForDay] and [app.post('/iclock/cdata.aspx', ...)]
    once more, this time stopping at every [await] of the source, so that
    the handlers of several requests can take turns. The definitions of
    [Attendance] and [Ingest] are these handlers run without interruption
    (theorems [runAlone_computeAttendanceForDay] and
    [runAlone_postCdata]). *)
Module Overlap.
Import JSString JSDate Store Eff Http.
Local Open Scope task_scope.

(** The body of the loop over [pins]: four [await]s, the last one inside
    [if (CALLBACK_URL)]. *)
Definition attendanceForPin (e : Env) (dayStr startDt endDt pin : string)
  : Task (option AttendanceData.t) :=
  punches <- await (dbQuery e (selectPunches pin startDt endDt));;
  match Attendance.attendanceOf e pin dayStr punches with
  | None => retT None
  | Some attendanceData =>
      existing <- await (dbQuery e (selectAttendance pin dayStr));;
      (match existing with
       | _ :: _ => await (dbWrite e (UpdateAttendance attendanceData))
       | [] => await (dbWrite e (InsertAttendance attendanceData))
       end);;;
      (if Attendance.callbackSet e then await (postCallback attendanceData)
       else retT tt);;;
      retT (Some attendanceData)
  end.

Definition computeAttendanceForDay (e : Env) (dayStr : string)
  : Task (list AttendanceData.t) :=
  range <- orThrowT RangeError (Attendance.dayRange (host e) dayStr);;
  pins <- await (dbQuery e (selectDistinctPins range.1 range.2));;
  collectT pins (attendanceForPin e dayStr range.1 range.2).

Fixpoint fallbackLoop (e : Env) (now : nat -> Z) (i : nat) (lines : list string)
  : Task nat :=
  match lines with
  | [] => retT 0%nat
  | rawLine :: rest =>
      match Parser.parseFallbackLine (host e) (now i) rawLine with
      | None => fallbackLoop e now (S i) rest
      | Some row =>
          await (dbWrite e (InsertPunch row));;;
          n <- fallbackLoop e now (S i) rest;;
          retT (S n)
      end
  end.

Fixpoint aggregateDays (e : Env) (days : list string)
  : Task (list AttendanceData.t) :=
  match days with
  | [] => retT []
  | day :: rest =>
      dayResults <- computeAttendanceForDay e day;;
      more <- aggregateDays e rest;;
      retT (dayResults ++ more)
  end.

Definition postCdata (e : Env) (qTable qOptions : option string)
  (reqBody : option string) (now : nat -> Z) : Task Response :=
  tryCatchT
    (match reqBody with
     | None => retT (mkResponse 400 (JsonError "Invalid body format"))
     | Some raw =>
         if isEmpty raw || isEmpty (trim raw)
         then retT (mkResponse 400 (JsonError "empty body"))
         else if Ingest.isAttlog (Ingest.tableOf qTable qOptions) then
           let rows := Parser.parseAttlogText (host e) raw in
           forEachT rows (fun row => await (dbWrite e (InsertPunch row)));;;
           let affectedDays := distinct (map (fun r => beforeT (Parser.ts r)) rows) in
           results <- aggregateDays e affectedDays;;
           retT (mkResponse 200 (JsonInserted (length rows) (Some results)))
         else
           inserted <- fallbackLoop e now 0 (Parser.splitLines raw);;
           retT (mkResponse 200 (JsonInserted inserted None))
     end)
    (fun err => retT (mkResponse 500 (JsonException err))).

(** A request to [POST /iclock/cdata.aspx]: the two query parameters, the
    body, and the instants that [new Date()] reads in the loop. *)
Record Request := mkRequest {
  qTable : option string;
  qOptions : option string;
  reqBody : option string;
  clock : nat -> Z }.

Definition serve (e : Env) (r : Request) : Task Response :=
  postCdata e (qTable r) (qOptions r) (reqBody r) (clock r).

End Overlap.

(* ===================================================================== *)
(** * Vocabulary of the statements *)
(* ===================================================================== *)

Section Vocabulary.
Import JSString JSDate Parser Store Eff.

Definition TABs : string := String TAB EmptyString.

(** The three ways in which a line fails to produce a record. *)
Definition unreadable (h : Host) (rawLine : string) : Prop :=
  trim rawLine = EmptyString
  \/ (length (tokenize (trim rawLine)) < 2)%nat
  \/ exists tsStr, tokenize (trim rawLine) !! 1%nat = Some tsStr /\
       (firstMatch formats tsStr = None
        \/ exists g, firstMatch formats tsStr = Some g
                     /\ parse h (dateTimeString g) = None).

(** The database accepts every call: no promise of [db.execute] rejects. *)
Definition accepting (e : Env) : Prop := forall k, rejects (oracle e k) = false.

(** A line with content: not empty once trimmed. *)
Definition nonBlank (rawLine : string) : bool := negb (isEmpty (trim rawLine)).

(** The rows the fallback loop builds from [lines], the first of which has
    index [i]. *)
Fixpoint fallbackRows (h : Host) (now : nat -> Z) (i : nat) (lines : list string)
  : list Parser.Row :=
  match lines with
  | [] => []
  | rawLine :: rest =>
      match parseFallbackLine h (now i) rawLine with
      | Some row => row :: fallbackRows h now (S i) rest
      | None => fallbackRows h now (S i) rest
      end
  end.

(** Identity and timestamp of the fallback record of a trimmed line. *)
Definition fallbackPin (line : string) : string :=
  match split TAB line with
  | p :: _ => if isEmpty p then "UNKNOWN"%string else p
  | [] => "UNKNOWN"%string
  end.

Definition fallbackTs (h : Host) (now : Z) (line : string) : string :=
  match split TAB line with
  | _ :: p1 :: _ =>
      match parse h (replaceSlash p1) with
      | Some t => isoString t
      | None => isoString now
      end
  | _ => isoString now
  end.

(** An environment whose database accepts every call. *)
Definition plainEnv (h : Host) : Env :=
  mkEnv h (Some 360) None (fun _ => mkTick false 0).

Definition emptyWorld : World := mkWorld emptyDb ∅ 0 [] [].

(** A string of white space only. *)
Fixpoint allWs (s : string) : bool :=
  match s with
  | EmptyString => true
  | String c r => isWhiteSpace c && allWs r
  end.

(** The record the fallback loop builds for a line with content, when the
    clock reads [now]. *)
Definition fallbackRecord (h : Host) (now : Z) (rawLine : string) : Parser.Row :=
  mkRow (fallbackPin (trim rawLine)) (fallbackTs h now (trim rawLine))
        None None None None (trim rawLine).

(** A cache entry that the monitor must demote at instant [now]: its status
    is ONLINE and its last heartbeat is a valid instant more than 30000
    milliseconds before [now]. *)
Definition staleOnline (now : Z) (i : DeviceInfo) : Prop :=
  status i = DeviceRow.ONLINE
  /\ exists t, lastHeartbeat i = Some (Some t) /\ now - t > 30000.

(** The entry after demotion: only the status changes. *)
Definition demoted (i : DeviceInfo) : DeviceInfo :=
  mkInfo DeviceRow.OFFLINE (lastSeen i) (lastHeartbeat i).

(** The row after the [UPDATE ... SET status = 'OFFLINE'] of the monitor. *)
Definition offlineRow (stamp : Z) (r : DeviceRow.t) : DeviceRow.t :=
  DeviceRow.mk DeviceRow.OFFLINE (DeviceRow.last_seen r)
               (DeviceRow.first_registered r) stamp.

(** The effect of the scan on one entry. *)
Definition sweepInfo (now : Z) (i : DeviceInfo) : DeviceInfo :=
  if Liveness.shouldDemote now i then demoted i else i.

(** The serial numbers the scan collects from a list of entries. *)
Definition demotedKeys (now : Z) (l : list (string * DeviceInfo)) : list string :=
  (List.filter (fun p => Liveness.shouldDemote now p.2) l).*1.

(** The [devices] table after the monitor has sent its batch, the first
    statement being call number [k] of [db.execute]: a rejected statement
    leaves the table as it is and the next one is sent all the same. *)
Fixpoint writeOffline (e : Env) (k : nat) (batch : list string)
  (d : gmap string DeviceRow.t) : gmap string DeviceRow.t :=
  match batch with
  | [] => d
  | sn :: rest =>
      writeOffline e (S k) rest
        (if rejects (oracle e k) then d
         else alter (offlineRow (stamp (oracle e k))) sn d)
  end.

(** The response [res.send('OK')] with the default status. *)
Definition ok200 : Http.Response := Http.mkResponse 200 (Http.Text "OK").

(** A response that reports success: a status of the 2xx class. *)
Definition succeeded (r : Http.Response) : Prop :=
  200 <= Http.statusCode r < 300.

(** The cached [lastSeen] is unset, or a valid instant more than 10000 ms
    before [now]. *)
Definition lastSeenOld (now : Z) (i : DeviceInfo) : Prop :=
  lastSeen i = None
  \/ exists t, lastSeen i = Some (Some t) /\ now - t > 10000.

(** The cache entry after a heartbeat at [now] on the entry [i]. *)
Definition heartbeatInfo (now : Z) (i : DeviceInfo) : DeviceInfo :=
  mkInfo DeviceRow.ONLINE
         (if Liveness.lastSeenDue now i then Some (Some now) else lastSeen i)
         (Some (Some now)).

(** The statements a heartbeat at [now] sends for the cached entry [i]. *)
Definition heartbeatWrites (sn : string) (now : Z) (i : DeviceInfo) : list Stmt :=
  (if Liveness.isOffline (status i)
   then [UpdateDeviceOnline sn (isoString now)] else [])
  ++ (if Liveness.lastSeenDue now i
      then [UpdateDeviceLastSeen sn (isoString now)] else []).

(** A statement that stores a new [last_seen] for [sn]. *)
Definition touchesLastSeen (sn : string) (s : Stmt) : bool :=
  match s with
  | InsertDevice sn' _ | UpdateDeviceOnline sn' _ | UpdateDeviceLastSeen sn' _ =>
      String.eqb sn' sn
  | _ => false
  end.

(** A burst of heartbeats of one device, at the instants [times]. *)
Definition heartbeats (e : Env) (sn : string) (times : list Z) : M unit :=
  forEach times (fun now =>
    Eff.bind (Liveness.getrequest e (Some sn) now) (fun _ => ret tt)).

(** All instants lie within [span] milliseconds of one another. *)
Definition withinWindow (span : Z) (times : list Z) : Prop :=
  forall t t', t ∈ times -> t' ∈ times -> t' - t <= span.

(** ** Attendance rows as seen by their columns [pin .. status] *)

(** The derived columns of the attendance table, row by row. *)
Definition attendanceData (d : Db) : list AttendanceData.t :=
  map AttendanceRow.data (attendance d).

Definition keyOf (a : AttendanceData.t) : string * string :=
  (AttendanceData.pin a, AttendanceData.day a).

(** At most one attendance row per (pin, day). *)
Definition uniqueKeys (d : Db) : Prop := NoDup (map keyOf (attendanceData d)).

Definition sameKey (a b : AttendanceData.t) : bool :=
  String.eqb (AttendanceData.pin b) (AttendanceData.pin a)
  && String.eqb (AttendanceData.day b) (AttendanceData.day a).

(** The upsert of [computeAttendanceForDay] on the columns: overwrite the
    rows of the key of [a] when there are some, add a row otherwise. *)
Definition upsertData (D : list AttendanceData.t) (a : AttendanceData.t)
  : list AttendanceData.t :=
  if existsb (sameKey a) D
  then map (fun b => if sameKey a b then a else b) D
  else D ++ [a].

(** [a] is stored: some row has its key, and every row of that key is [a]. *)
Definition stored (a : AttendanceData.t) (D : list AttendanceData.t) : Prop :=
  keyOf a ∈ map keyOf D /\ forall b, b ∈ D -> keyOf b = keyOf a -> b = a.

(** The result of the aggregation as a function of the punch table. *)
Definition dayResults (e : Env) (dayStr : string) (d : Db)
  : option (list AttendanceData.t) :=
  range ← Attendance.dayRange (host e) dayStr;
  Some (omap (fun pin => Attendance.attendanceOf e pin dayStr
                           (selectPunches pin range.1 range.2 d))
             (selectDistinctPins range.1 range.2 d)).

(** [n] successive calls for the same day; the results of each. *)
Fixpoint repeatCompute (e : Env) (dayStr : string) (n : nat)
  : M (list (list AttendanceData.t)) :=
  match n with
  | O => ret []
  | S n' =>
      Eff.bind (Attendance.computeAttendanceForDay e dayStr) (fun r =>
      Eff.bind (repeatCompute e dayStr n') (fun rs => ret (r :: rs)))
  end.

(** ** Calendar vocabulary *)

(** Number of days of month [m] (0 = January) in a year that is leap
    ([leap = 1]) or not ([leap = 0]). *)
Definition daysInMonth (leap m : Z) : Z :=
  match m with
  | 1 => 28 + leap
  | 3 | 5 | 8 | 10 => 30
  | _ => 31
  end.

(** A date of the proleptic Gregorian calendar, month counted from 1. *)
Definition calendarDate (y m d : Z) : Prop :=
  1 <= m <= 12 /\ 1 <= d <= daysInMonth (InLeapYear y) (m - 1).

(** A time of day on the 24-hour clock. *)
Definition clockTime (h mi s : Z) : Prop :=
  0 <= h <= 23 /\ 0 <= mi <= 59 /\ 0 <= s <= 59.

(** The instant that has the given UTC calendar fields. *)
Definition utcInstant (y m d h mi s ms : Z) : Z :=
  MakeDate (MakeDay y (m - 1) d) (MakeTime h mi s ms).

(** An instant whose UTC year is written with four digits. *)
Definition fourDigitYear (t : Z) : Prop := 0 <= YearFromTime t <= 9999.

(** The host keeps local time equal to UTC. *)
Definition utcZone (h : Host) : Prop := forall t b, LocalTZA h t b = 0.

(** Lexicographic combination of two comparisons. *)
Definition lexc (c1 c2 : comparison) : comparison :=
  match c1 with Eq => c2 | _ => c1 end.

(** The [w] low decimal digits of [n], most significant first. *)
Fixpoint digitsOf (w : nat) (n : Z) : string :=
  match w with
  | O => EmptyString
  | S w' => String (digitChar (n / 10 ^ Z.of_nat w')) (digitsOf w' n)
  end.

(** The layout [YYYY-MM-DD] of a calendar date. *)
Definition dateLayout (y m d : Z) : string :=
  pad4 y +:+ "-" +:+ pad2 m +:+ "-" +:+ pad2 d.

(** The layout [HH:mm:ss] of a time of day. *)
Definition clockLayout (h mi s : Z) : string :=
  pad2 h +:+ ":" +:+ pad2 mi +:+ ":" +:+ pad2 s.

(** The canonical layout [YYYY-MM-DDTHH:mm:ss.sssZ] of a UTC instant. *)
Definition isoLayout (y m d h mi s ms : Z) : string :=
  dateLayout y m d +:+ "T" +:+ clockLayout h mi s +:+ "." +:+ pad3 ms +:+ "Z".

(** The number written by two, or four, decimal digits. *)
Definition num2 (a b : ascii) : Z := 10 * digitVal a + digitVal b.
Definition num4 (a b c d : ascii) : Z :=
  1000 * digitVal a + 100 * digitVal b + 10 * digitVal c + digitVal d.

(** The number written by a string of decimal digits. *)
Definition decimal (s : string) : Z :=
  fold_left (fun acc c => 10 * acc + digitVal c) (list_ascii_of_string s) 0.

(** The wall-clock instant written in a matched timestamp token, read as
    UTC. *)
Definition wallClock (g : Groups) : Z :=
  utcInstant (decimal (gYear g)) (decimal (gMonth g)) (decimal (gDay g))
             (decimal (gHour g)) (decimal (gMinute g)) (decimal (gSecond g)) 0.

(** The calendar fields of a matched token denote a calendar date and a
    time of day. *)
Definition properFields (g : Groups) : Prop :=
  calendarDate (decimal (gYear g)) (decimal (gMonth g)) (decimal (gDay g))
  /\ clockTime (decimal (gHour g)) (decimal (gMinute g)) (decimal (gSecond g)).

(** The line of the example in the specification. *)
Definition sampleLine : string := "A1001" +:+ TABs +:+ "2024-03-05 09:15:30".

(** A punch row read at a given instant, with everything else unset. *)
Definition punchAt (pin iso : string) : Parser.Row :=
  mkRow pin iso None None None None EmptyString.

(** Every stored punch carries the canonical rendering of an instant, as
    all rows inserted by the server do. *)
Definition wellStamped (d : Db) : Prop :=
  forall row, row ∈ punch d -> exists t, Parser.ts row = isoString t.

(** The identity [pin] has a stored punch at instant [t], within [lo, hi]. *)
Definition punchedAt (d : Db) (pin : string) (lo hi t : Z) : Prop :=
  lo <= t <= hi
  /\ exists row, row ∈ punch d /\ Parser.pin row = pin
                 /\ Parser.ts row = isoString t.

(** The classification of the specification, for a numeric threshold. *)
Definition statusFor (threshold minutes : Z) : AttendanceData.Status :=
  if threshold <=? minutes then AttendanceData.PRESENT
  else if 0 <? minutes then AttendanceData.SHORT
  else AttendanceData.ABSENT.

(** A day with three identities: six hours, ten minutes, a single punch. *)
Definition sampleDay : World :=
  mkWorld
    (mkDb [punchAt "A1001" "2024-03-05T09:00:00.000Z";
           punchAt "B2002" "2024-03-05T10:00:00.000Z";
           punchAt "A1001" "2024-03-05T15:00:00.000Z";
           punchAt "C3003" "2024-03-05T12:00:00.000Z";
           punchAt "B2002" "2024-03-05T10:10:00.000Z"] [] ∅)
    ∅ 0 [] [].

(** The outcome of aggregating [sampleDay] on a UTC host with the default
    threshold. *)
Definition sampleRun : Outcome (list AttendanceData.t) * World :=
  Attendance.computeAttendanceForDay (plainEnv utcHost) "2024-03-05" sampleDay.

Definition sampleResults : list AttendanceData.t :=
  match sampleRun.1 with
  | Ret results => results
  | Throw _ => []
  end.

(** A cache holding one device, ONLINE and last seen at instant 0. *)
Definition sampleCache : World :=
  mkWorld emptyDb
          {[ "SN1"%string := mkInfo DeviceRow.ONLINE (Some (Some 0)) (Some (Some 0)) ]}
          0 [] [].

(** Ten heartbeats within two seconds. *)
Definition sampleBurst : list Z :=
  [20000; 20200; 20400; 20600; 20800; 21000; 21200; 21400; 21600; 22000].

(** The punch table of [w'] is that of [w] followed by rows that carry the
    rendering of an instant. *)
Definition grows (w w' : World) : Prop :=
  exists rows, punch (db w') = punch (db w) ++ rows
               /\ Forall (fun r => exists t, Parser.ts r = isoString t) rows.

(** The liveness scenario of the specification: a first heartbeat, a sweep
    more than thirty seconds later, and a heartbeat right after it. *)
Definition afterFirstHeartbeat : World :=
  (Liveness.getrequest (plainEnv utcHost) (Some "SN1"%string) 1000 emptyWorld).2.

Definition afterSweep : World :=
  (Liveness.monitorTick (plainEnv utcHost) 31001 afterFirstHeartbeat).2.

Definition afterSecondHeartbeat : World :=
  (Liveness.getrequest (plainEnv utcHost) (Some "SN1"%string) 31002 afterSweep).2.

(** What is known of a device: its cached status and its stored status. *)
Definition statusOf (sn : string) (w : World)
  : option DeviceRow.Status * option DeviceRow.Status :=
  (status <$> deviceCache w !! sn, DeviceRow.status <$> devices (db w) !! sn).

(** A batch with punches on two calendar days. *)
Definition twoDayBatch : string :=
  "A1001" +:+ TABs +:+ "2024-03-05 09:00:00" +:+ String LF
  ("A1001" +:+ TABs +:+ "2024-03-05 15:00:00" +:+ String LF
  ("A1001" +:+ TABs +:+ "2024-03-06 08:00:00" +:+ String LF
  ("A1001" +:+ TABs +:+ "2024/03/06 08:10:00"))).

(** [R] relates the state before a computation to the state after it,
    whatever the outcome. *)
Definition preserves (R : Eff.World -> Eff.World -> Prop) {A} (m : Eff.M A) : Prop :=
  forall w w' out, m w = (out, w') -> R w w'.

(** The devices table and the device cache are the same in both states. *)
Definition sameDevices (w w' : Eff.World) : Prop :=
  Store.devices (Eff.db w') = Store.devices (Eff.db w)
  /\ Eff.deviceCache w' = Eff.deviceCache w.

(** The rows a payload asks the server to store: those of the strict parser
    for an attendance log, those of the permissive loop otherwise. *)
Definition payloadRows (e : Eff.Env) (table : option string) (raw : string)
  (now : nat -> Z) : list Parser.Row :=
  if Ingest.isAttlog table then Parser.parseAttlogText (Eff.host e) raw
  else fallbackRows (Eff.host e) now 0 (Parser.splitLines raw).

(** A request body that is missing or holds white space only. *)
Definition blankBody (reqBody : option string) : Prop :=
  match reqBody with
  | None => True
  | Some raw => allWs raw = true
  end.

(** An environment whose database rejects the call of number [bad] and
    accepts every other call. *)
Definition flakyEnv (bad : nat) : Eff.Env :=
  Eff.mkEnv JSDate.utcHost (Some 360) None
            (fun n => Eff.mkTick (Nat.eqb n bad) 0).

(** A payload of four one-token lines. *)
Definition fourLines : string :=
  "a" +:+ String JSString.LF ("b" +:+ String JSString.LF
    ("c" +:+ String JSString.LF "d")).

(** An accepting environment on a UTC host with a callback configured. *)
Definition callbackEnv : Eff.Env :=
  Eff.mkEnv JSDate.utcHost (Some 360) (Some "http://hr.example/hook"%string)
            (fun _ => Eff.mkTick false 0).

(** An accepting environment on a UTC host whose [CALLBACK_URL] is set to
    the empty string. *)
Definition emptyUrlEnv : Eff.Env :=
  Eff.mkEnv JSDate.utcHost (Some 360) (Some EmptyString)
            (fun _ => Eff.mkTick false 0).

(** The list [l] when a callback address is configured, that is, when the
    variable holds at least one character; nothing otherwise. *)
Definition ifConfigured {A} (url : option string) (l : list A) : list A :=
  match url with
  | Some (String _ _) => l
  | _ => []
  end.

(** The days an attendance batch touches:
    [[...new Set(rows.map(r => r.ts.split('T')[0]))]]. *)
Definition affectedDays (rows : list Parser.Row) : list string :=
  Store.distinct (map (fun r => JSString.beforeT (Parser.ts r)) rows).

(** The records of several days, day by day, as a function of the punch
    table. *)
Definition daysResults (e : Eff.Env) (days : list string) (d : Store.Db)
  : list AttendanceData.t :=
  concat (map (fun day => default [] (dayResults e day d)) days).

(** Every row carries the rendering of an instant whose year has four
    digits. *)
Definition fourDigitRows (rows : list Parser.Row) : Prop :=
  forall row, row ∈ rows ->
    exists t, Parser.ts row = JSDate.isoString t /\ fourDigitYear t.

(** A decidable form of [fourDigitRows], row by row. *)
Definition fourDigitRow (row : Parser.Row) : bool :=
  match JSDate.parse JSDate.utcHost (Parser.ts row) with
  | Some t =>
      String.eqb (JSDate.isoString t) (Parser.ts row)
      && (-62167219200000 <=? t) && (t <? 253402300800000)
  | None => false
  end.

(** The cache entry of a device whose first heartbeat came at [now]. *)
Definition freshInfo (now : Z) : Eff.DeviceInfo :=
  Eff.mkInfo DeviceRow.ONLINE (Some (Some now)) (Some (Some now)).

(** The row of a device after its registration at [now]: a new row, or the
    row [old] put back ONLINE with its date of first registration kept. *)
Definition registeredRow (now stamp : Z) (old : option DeviceRow.t) : DeviceRow.t :=
  match old with
  | None =>
      DeviceRow.mk DeviceRow.ONLINE (Some (JSDate.isoString now)) stamp stamp
  | Some r =>
      DeviceRow.mk DeviceRow.ONLINE (Some (JSDate.isoString now))
                   (DeviceRow.first_registered r) stamp
  end.

(** The cache [c'] is the cache [c] overwritten with the rows of the
    devices table [d]. *)
Definition loadedFrom (h : JSDate.Host) (d : gmap string DeviceRow.t)
  (c c' : gmap string Eff.DeviceInfo) : Prop :=
  forall sn, c' !! sn = match d !! sn with
                        | Some row => Some (Startup.infoOfRow h row)
                        | None => c !! sn
                        end.

(** Two states that differ at most in the number of calls made to the
    database. *)
Definition sameButCalls (w w' : Eff.World) : Prop :=
  Eff.db w' = Eff.db w /\ Eff.deviceCache w' = Eff.deviceCache w
  /\ Eff.issued w' = Eff.issued w /\ Eff.posted w' = Eff.posted w.

(** Every serial number held in the cache has a row in the devices table. *)
Definition registered (w : Eff.World) : Prop :=
  forall sn, is_Some (Eff.deviceCache w !! sn) ->
             is_Some (Store.devices (Eff.db w) !! sn).


(** No row of the devices table is removed between the two states. *)
Definition devicesKept (w w' : Eff.World) : Prop :=
  forall sn, is_Some (Store.devices (Eff.db w) !! sn) ->
             is_Some (Store.devices (Eff.db w') !! sn).

(** The cache holds an entry for [sn] whose last heartbeat is an invalid
    date. *)
Definition badHeartbeat (c : gmap string Eff.DeviceInfo) (sn : string) : Prop :=
  exists i, c !! sn = Some i /\ Eff.lastHeartbeat i = Some None.

(** The last heartbeat of [sn] as [GET /devices] shows it. *)
Definition heartbeatText (c : gmap string Eff.DeviceInfo) (sn : string)
  : option string :=
  match c !! sn with
  | Some i =>
      match Eff.lastHeartbeat i with
      | Some (Some t) => Some (JSDate.isoString t)
      | _ => None
      end
  | None => None
  end.

(** A statement on the punch or attendance table. *)
Definition offDevices (s : Store.Stmt) : bool :=
  match s with
  | Store.InsertPunch _ | Store.UpdateAttendance _ | Store.InsertAttendance _ => true
  | _ => false
  end.

(** A server that stopped with one device stored ONLINE, last seen one
    second after the epoch, and starts again with an empty cache. *)
Definition afterCrash : Eff.World :=
  Eff.mkWorld
    (Store.mkDb [] []
       {[ "SN1"%string :=
            DeviceRow.mk DeviceRow.ONLINE (Some "1970-01-01T00:00:01.000Z"%string) 0 0 ]})
    ∅ 0 [] [].

(** A server that knows one device, OFFLINE in the table and in the cache,
    with its last heartbeat one second after the epoch. *)
Definition oneDevice : Eff.World :=
  Eff.mkWorld
    (Store.mkDb [] []
       {[ "SN1"%string :=
            DeviceRow.mk DeviceRow.OFFLINE (Some "1970-01-01T00:00:01.000Z"%string) 0 0 ]})
    {[ "SN1"%string :=
         Eff.mkInfo DeviceRow.OFFLINE (Some (Some 1000)) (Some (Some 1000)) ]}
    0 [] [].

(** The punch and attendance tables are the same in both states. *)
Definition sameTables (w w' : Eff.World) : Prop :=
  Store.punch (Eff.db w') = Store.punch (Eff.db w)
  /\ Store.attendance (Eff.db w') = Store.attendance (Eff.db w).

(** The host keeps local time at a fixed offset of [o] milliseconds from
    UTC. *)
Definition constantZone (h : JSDate.Host) (o : Z) : Prop :=
  forall t b, JSDate.LocalTZA h t b = o.

(** The first instant of the range that [computeAttendanceForDay] queries
    for the day [y]-[m]-[d] on a host at offset [o]: local midnight of that
    day east of UTC, local midnight of the day before west of UTC. *)
Definition rangeStart (o y m d : Z) : Z :=
  utcInstant y m d 0 0 0 0 - o - (if o <? 0 then JSDate.msPerDay else 0).

(** One of the two separators that the permissive loop accepts in a date. *)
Definition dateSeparator (c : ascii) : Prop := c = "-"%char \/ c = "/"%char.

(** A calendar date written with the separators [s1] and [s2]. *)
Definition dateToken (s1 s2 : ascii) (y m d : Z) : string :=
  JSDate.pad4 y +:+ String s1 (JSDate.pad2 m +:+ String s2 (JSDate.pad2 d)).

(** ** Requests that overlap *)

(** Every call that the handler [t] can come to make leads from a state
    [w] to a state [w'] with [R w w']. *)
Fixpoint stepwise (R : Eff.World -> Eff.World -> Prop) {A} (t : Eff.Task A)
  : Prop :=
  match t with
  | Eff.Done _ => True
  | Eff.Await call k => (forall w, R w (call w).2) /\ forall o, stepwise R (k o)
  end.

(** An attendance log of one line. *)
Definition attlogRequest (line : string) : Overlap.Request :=
  Overlap.mkRequest (Some "ATTLOG"%string) None (Some line) (fun _ => 0).

(** Two punches of one identity on the same day, sent in two requests. *)
Definition morningPunch : Overlap.Request :=
  attlogRequest ("A1001" +:+ String JSString.TAB "2024-03-05 09:00:00").

Definition eveningPunch : Overlap.Request :=
  attlogRequest ("A1001" +:+ String JSString.TAB "2024-03-05 15:00:00").

(** The same two punches in one attendance log. *)
Definition twoPunchBatch : string :=
  "A1001" +:+ String JSString.TAB ("2024-03-05 09:00:00" +:+ String JSString.LF
    ("A1001" +:+ String JSString.TAB "2024-03-05 15:00:00")).

(** ** The permissive loop in the words of the specification *)

(** A line break: a carriage return or a line feed. *)
Definition isLineBreak (c : ascii) : bool :=
  Ascii.eqb c JSString.CR || Ascii.eqb c JSString.LF.

(** The lines of a text: what stands before, between and after its line
    breaks. *)
Fixpoint textLines (s : string) : list string :=
  match s with
  | EmptyString => [EmptyString]
  | String c r =>
      if isLineBreak c then EmptyString :: textLines r
      else match textLines r with
           | l :: ls => String c l :: ls
           | [] => [String c EmptyString]
           end
  end.

(** The lines of a list with their positions, counted from [i]. *)
Fixpoint numbered {A} (i : nat) (l : list A) : list (nat * A) :=
  match l with
  | [] => []
  | x :: r => (i, x) :: numbered (S i) r
  end.

(** The lines with content of a payload, each with its position among all
    the lines. *)
Definition contentLines (raw : string) : list (nat * string) :=
  List.filter (fun il => negb (allWs il.2)) (numbered 0 (textLines raw)).

(** The text before the first tab. *)
Fixpoint untilTab (s : string) : string :=
  match s with
  | EmptyString => EmptyString
  | String c r => if Ascii.eqb c JSString.TAB then EmptyString
                  else String c (untilTab r)
  end.

(** The text after the first tab, when there is one. *)
Fixpoint afterTab (s : string) : option string :=
  match s with
  | EmptyString => None
  | String c r => if Ascii.eqb c JSString.TAB then Some r else afterTab r
  end.

(** Token [n] of a tab-only split. *)
Fixpoint token (n : nat) (s : string) : option string :=
  match n with
  | O => Some (untilTab s)
  | S n' => r ← afterTab s; token n' r
  end.

(** Slashes normalized to dashes. *)
Definition dashed (s : string) : string :=
  string_of_list_ascii
    (map (fun c => if Ascii.eqb c "/" then "-"%char else c)
         (list_ascii_of_string s)).

(** The punch record of a line with content read at the instant [now]:
    the identity is token 0, the timestamp is token 1 read as a date after
    normalization, or the instant of ingestion when there is no such
    token or it is not a date. *)
Definition lineRecord (h : JSDate.Host) (now : Z) (line : string) : Parser.Row :=
  let text := JSString.trim line in
  Parser.mkRow
    (match token 0 text with
     | Some (String c p) => String c p
     | _ => "UNKNOWN"%string
     end)
    (JSDate.isoString
       (match t1 ← token 1 text; JSDate.parse h (dashed t1) with
        | Some t => t
        | None => now
        end))
    None None None None text.

(** The records that a payload asks the permissive loop to store. *)
Definition lineRecords (h : JSDate.Host) (now : nat -> Z) (raw : string)
  : list Parser.Row :=
  map (fun il => lineRecord h (now il.1) il.2) (contentLines raw).

(** A payload of five lines, three of them with content: one token, an
    identity with a date, a blank line, an empty line, one token. *)
Definition mixedPayload : string :=
  "OPLOG 7" +:+ String JSString.CR (String JSString.LF
    ("17" +:+ String JSString.TAB ("2024/03/05" +:+ String JSString.LF
      ("  " +:+ String JSString.CR "X9")))).

(* END VOCABULARY *)
End Vocabulary.

(* ===================================================================== *)
(** * Facts about the string primitives *)
(* ===================================================================== *)

Section StringFacts.
Import JSString.

Lemma isEmpty_true (s : string) : isEmpty s = true <-> s = EmptyString.
Proof. destruct s; simpl; split; congruence. Qed.

Lemma isEmpty_false (s : string) : isEmpty s = false <-> s <> EmptyString.
Proof. destruct s; simpl; split; congruence. Qed.

Lemma trimStart_head (s : string) (c : ascii) (r : string) :
  trimStart s = String c r -> isWhiteSpace c = false.
Proof.
  induction s as [|a s IH]; simpl; [discriminate|].
  destruct (isWhiteSpace a) eqn:Ha; [exact IH|].
  intros H; injection H as -> _; exact Ha.
Qed.

Lemma trimEnd_cons (c : ascii) (r : string) :
  isWhiteSpace c = false -> trimEnd (String c r) = String c (trimEnd r).
Proof. intros H; simpl; rewrite H; reflexivity. Qed.

(** A trimmed line starts with a character that is not white space. *)
Lemma trim_head (s : string) (c : ascii) (r : string) :
  trim s = String c r -> isWhiteSpace c = false.
Proof.
  unfold trim. destruct (trimStart s) as [|a t] eqn:E; simpl; [discriminate|].
  pose proof (trimStart_head _ _ _ E) as Ha. rewrite Ha. simpl.
  intros H; injection H as -> _; exact Ha.
Qed.

Lemma isWhiteSpace_TAB : isWhiteSpace TAB = true.
Proof. reflexivity. Qed.

Lemma split_length (sep : ascii) (s : string) : (1 <= length (split sep s))%nat.
Proof.
  induction s as [|a s IH]; simpl; [lia|].
  destruct (Ascii.eqb a sep); simpl; [lia|].
  destruct (split sep s); simpl in *; lia.
Qed.

(** The first piece of a split starts with the first character of the
    string, unless that character is the separator. *)
Lemma split_head (sep c : ascii) (r : string) :
  c <> sep ->
  exists t ts, split sep (String c r) = String c t :: ts.
Proof.
  intros Hc. simpl. destruct (Ascii.eqb_spec c sep) as [->|_]; [congruence|].
  destruct (split sep r) as [|t ts]; simpl; eauto.
Qed.

(** The first tab-separated token of a non-empty trimmed line is not empty. *)
Lemma split_trim_head (s : string) :
  trim s <> EmptyString ->
  exists c t ts, split TAB (trim s) = String c t :: ts.
Proof.
  intros Hne. destruct (trim s) as [|c r] eqn:E; [congruence|].
  pose proof (trim_head _ _ _ E) as Hc.
  destruct (split_head TAB c r) as (t & ts & H).
  - intros ->. rewrite isWhiteSpace_TAB in Hc. discriminate.
  - eauto.
Qed.

End StringFacts.

(* ===================================================================== *)
(** * The strict parser drops what it cannot read *)
(* ===================================================================== *)

Section StrictParserDrops.
Import JSString JSDate Parser.

Lemma parseAttlogLine_unreadable (h : Host) (rawLine : string) :
  unreadable h rawLine -> parseAttlogLine h rawLine = None.
Proof.
  unfold parseAttlogLine. intros [H | [H | (tsStr & Hts & H)]].
  - rewrite H. reflexivity.
  - destruct (isEmpty (trim rawLine)); [reflexivity|].
    apply Nat.ltb_lt in H. rewrite H. reflexivity.
  - destruct (isEmpty (trim rawLine)); [reflexivity|].
    destruct (length (tokenize (trim rawLine)) <? 2)%nat; [reflexivity|].
    rewrite Hts. destruct (tokenize (trim rawLine) !! 0%nat); [|reflexivity].
    unfold parseTimestamp.
    destruct H as [H | (g & Hg & Hp)].
    + rewrite H. reflexivity.
    + rewrite Hg. simpl. rewrite Hp. reflexivity.
Qed.

Lemma parseAttlogText_app (h : Host) (text : string) (l1 l2 : list string) :
  splitLines text = l1 ++ l2 ->
  parseAttlogText h text
  = omap (parseAttlogLine h) l1 ++ omap (parseAttlogLine h) l2.
Proof. unfold parseAttlogText. intros ->. apply omap_app. Qed.

(** C5. A line that is blank, or has fewer than two tokens after the tab
    split and the white-space fallback, or whose second token matches
    neither timestamp pattern, or matches one but denotes an invalid
    instant, contributes no record to the result of [parseAttlogText]:
    the result is that of the lines before it followed by that of the
    lines after it. No exception channel exists: the parser is a total
    function returning a list. *)
Theorem C5_strict_parser_drops (h : Host) (text rawLine : string)
  (before after : list string) :
  unreadable h rawLine ->
  splitLines text = before ++ rawLine :: after ->
  parseAttlogLine h rawLine = None /\
  parseAttlogText h text
  = omap (parseAttlogLine h) before ++ omap (parseAttlogLine h) after.
Proof.
  intros Hu Hs. pose proof (parseAttlogLine_unreadable h rawLine Hu) as Hn.
  split; [exact Hn|].
  rewrite (parseAttlogText_app h text before (rawLine :: after) Hs).
  simpl. rewrite Hn. reflexivity.
Qed.

(** The example of the specification: an unrecognised timestamp format. *)
Lemma C5_strict_parser_drops_witness :
  unreadable utcHost ("A1001" +:+ TABs +:+ "05-03-2024")
  /\ parseAttlogLine utcHost ("A1001" +:+ TABs +:+ "05-03-2024") = None
  /\ parseAttlogText utcHost ("A1001" +:+ TABs +:+ "05-03-2024") = [].
Proof.
  assert (Hu : unreadable utcHost ("A1001" +:+ TABs +:+ "05-03-2024")).
  { right; right. exists "05-03-2024"%string. split; [reflexivity|].
    left. reflexivity. }
  split; [exact Hu|].
  exact (C5_strict_parser_drops utcHost ("A1001" +:+ TABs +:+ "05-03-2024")
           ("A1001" +:+ TABs +:+ "05-03-2024") [] [] Hu eq_refl).
Defined.

End StrictParserDrops.

(* ===================================================================== *)
(** * The fallback path keeps every line with content *)
(* ===================================================================== *)

Section FallbackPath.
Import JSString JSDate Parser Store Eff Http Ingest.

Lemma dbWrite_InsertPunch (e : Env) (r : Row) (w : World) :
  rejects (oracle e (calls w)) = false ->
  dbWrite e (InsertPunch r) w
  = (Ret tt, mkWorld (mkDb (punch (db w) ++ [r]) (attendance (db w)) (devices (db w)))
               (deviceCache w) (S (calls w)) (issued w ++ [InsertPunch r]) (posted w)).
Proof. intros H. unfold dbWrite, tickOf. rewrite H. reflexivity. Qed.

Lemma parseFallbackLine_nonBlank (h : Host) (now : Z) (rawLine : string) :
  nonBlank rawLine = true ->
  parseFallbackLine h now rawLine = Some (fallbackRecord h now rawLine).
Proof.
  unfold nonBlank, parseFallbackLine, fallbackRecord, fallbackPin, fallbackTs.
  intros H. apply negb_true_iff in H. rewrite H.
  destruct (split TAB (trim rawLine)) as [|p [|p1 ps]]; reflexivity.
Qed.

Lemma parseFallbackLine_blank (h : Host) (now : Z) (rawLine : string) :
  nonBlank rawLine = false -> parseFallbackLine h now rawLine = None.
Proof.
  unfold nonBlank, parseFallbackLine. intros H. apply negb_false_iff in H.
  rewrite H. reflexivity.
Qed.

Lemma fallbackRows_length (h : Host) (now : nat -> Z) (lines : list string) :
  forall i, length (fallbackRows h now i lines)
            = length (List.filter nonBlank lines).
Proof.
  induction lines as [|l lines IH]; intros i; simpl; [reflexivity|].
  destruct (nonBlank l) eqn:Hl.
  - rewrite (parseFallbackLine_nonBlank h (now i) l Hl). simpl. f_equal. apply IH.
  - rewrite (parseFallbackLine_blank h (now i) l Hl). apply IH.
Qed.

(** With an accepting database the loop inserts the rows one by one, in the
    order of the lines, and counts them. *)
Lemma fallbackLoop_accepting (e : Env) (now : nat -> Z) (lines : list string) :
  accepting e ->
  forall i w,
    let rows := fallbackRows (host e) now i lines in
    fallbackLoop e now i lines w
    = (Ret (length rows),
       mkWorld (mkDb (punch (db w) ++ rows) (attendance (db w)) (devices (db w)))
               (deviceCache w) (calls w + length rows)%nat
               (issued w ++ map InsertPunch rows) (posted w)).
Proof.
  intros Hacc. induction lines as [|l lines IH]; intros i w; simpl.
  - unfold ret. destruct w as [[p a d] c n s o]; simpl.
    rewrite !app_nil_r, Nat.add_0_r. reflexivity.
  - destruct (parseFallbackLine (host e) (now i) l) as [row|]; [|apply IH].
    unfold bind. rewrite (dbWrite_InsertPunch e row w (Hacc _)).
    rewrite IH. simpl. unfold ret. f_equal. f_equal.
    + rewrite <- app_assoc. reflexivity.
    + lia.
    + rewrite <- app_assoc. reflexivity.
Qed.

(** ** White-space-only payloads *)

Lemma trimStart_empty (s : string) : trimStart s = EmptyString <-> allWs s = true.
Proof.
  induction s as [|c s IH]; simpl; [tauto|].
  destruct (isWhiteSpace c); simpl; [exact IH|]. split; discriminate.
Qed.

Lemma trim_empty (s : string) : trim s = EmptyString <-> allWs s = true.
Proof.
  rewrite <- trimStart_empty. unfold trim. split.
  - destruct (trimStart s) as [|c r] eqn:E; [reflexivity|].
    rewrite (trimEnd_cons c r (trimStart_head _ _ _ E)). discriminate.
  - intros ->. reflexivity.
Qed.

Lemma allWs_split (sep : ascii) (s : string) :
  allWs s = true -> Forall (fun l => allWs l = true) (split sep s).
Proof.
  induction s as [|c s IH]; simpl; intros H.
  - repeat constructor.
  - apply andb_true_iff in H as [Hc Hs]. specialize (IH Hs).
    destruct (Ascii.eqb c sep).
    + constructor; [reflexivity|exact IH].
    + destruct (split sep s) as [|t ts]; simpl.
      * repeat constructor. simpl. rewrite Hc. reflexivity.
      * inversion IH; subst. constructor; [|assumption].
        simpl. rewrite Hc. assumption.
Qed.

Lemma allWs_replaceCR (s : string) : allWs s = true -> allWs (replaceCR s) = true.
Proof.
  induction s as [|c s IH]; simpl; [tauto|].
  intros H. apply andb_true_iff in H as [Hc Hs]. rewrite (IH Hs), andb_true_r.
  destruct (Ascii.eqb c CR); [reflexivity|exact Hc].
Qed.

(** A payload that is blank as a whole has only blank lines. *)
Lemma blank_payload_lines (raw : string) :
  trim raw = EmptyString -> List.filter nonBlank (splitLines raw) = [].
Proof.
  intros H. apply trim_empty, allWs_replaceCR, (allWs_split LF) in H.
  unfold splitLines. induction H as [|l ls Hl _ IH]; simpl; [reflexivity|].
  unfold nonBlank at 1. apply trim_empty in Hl. rewrite Hl. simpl. exact IH.
Qed.

(** C10, as the code has it: the identity persisted for a processed line is
    the first tab-separated token of the trimmed line, which is never
    empty, so the defaulting branch [parts[0] || 'UNKNOWN'] is never taken;
    the identity is ["UNKNOWN"] only when the line itself starts with that
    token. *)
Theorem C10_fallback_identity_is_first_token (h : Host) (now : Z)
  (rawLine : string) (row : Row) :
  parseFallbackLine h now rawLine = Some row ->
  exists c t rest,
    split TAB (trim rawLine) = String c t :: rest /\ pin row = String c t.
Proof.
  unfold parseFallbackLine.
  destruct (isEmpty (trim rawLine)) eqn:Hne; [discriminate|].
  apply isEmpty_false in Hne.
  destruct (split_trim_head rawLine Hne) as (c & t & rest & Hs).
  rewrite Hs. simpl. intros H. injection H as <-. simpl. eauto.
Qed.

Lemma C10_fallback_identity_is_first_token_witness :
  exists c t rest,
    split TAB (trim ("17" +:+ TABs +:+ "2024/03/05")) = String c t :: rest
    /\ pin (fallbackRecord utcHost 0 ("17" +:+ TABs +:+ "2024/03/05")) = String c t.
Proof.
  exact (C10_fallback_identity_is_first_token utcHost 0
           ("17" +:+ TABs +:+ "2024/03/05") _ eq_refl).
Defined.

(** C10 as stated fails: a line whose own first token is the word UNKNOWN is
    persisted under the identity ["UNKNOWN"]. *)
Lemma C10_counterexample :
  exists resp w',
    postCdata (plainEnv utcHost) (Some "OPERLOG"%string) None
              (Some ("UNKNOWN" +:+ TABs +:+ "2024/03/05")) (fun _ => 0) emptyWorld
    = (Ret resp, w')
    /\ map pin (punch (db w')) = ["UNKNOWN"%string].
Proof. eexists _, _. split; [vm_compute; reflexivity|reflexivity]. Qed.

End FallbackPath.

(* ===================================================================== *)
(** * The monitor sweep *)
(* ===================================================================== *)

Section MonitorSweep.
Import JSDate Store Eff Liveness.

Lemma shouldDemote_spec (now : Z) (i : DeviceInfo) :
  shouldDemote now i = true <-> staleOnline now i.
Proof.
  unfold shouldDemote, staleOnline, DEVICE_OFFLINE_THRESHOLD.
  destruct i as [st ls [[t|]|]]; simpl.
  - rewrite andb_true_iff, Z.ltb_lt. destruct st; simpl; split.
    + intros [H _]. split; [reflexivity|]. exists t. split; [reflexivity|lia].
    + intros [_ (t' & Ht & H)]. injection Ht as ->. split; [lia|reflexivity].
    + intros [_ H]; discriminate.
    + intros [H _]; discriminate.
  - split; [discriminate|]. intros [_ (t & Ht & _)]; discriminate.
  - split; [discriminate|]. intros [_ (t & Ht & _)]; discriminate.
Qed.

Lemma scanStep_eq (now : Z) (m : gmap string DeviceInfo) (b : list string)
  (sn : string) (i : DeviceInfo) :
  scanStep now (m, b) (sn, i)
  = if shouldDemote now i then (<[sn := demoted i]> m, b ++ [sn]) else (m, b).
Proof. reflexivity. Qed.

Lemma demotedKeys_cons (now : Z) (sn : string) (i : DeviceInfo)
  (l : list (string * DeviceInfo)) :
  demotedKeys now ((sn, i) :: l)
  = if shouldDemote now i then sn :: demotedKeys now l else demotedKeys now l.
Proof. unfold demotedKeys. simpl. destruct (shouldDemote now i); reflexivity. Qed.

Lemma scan_fold (now : Z) (l : list (string * DeviceInfo)) :
  forall (m : gmap string DeviceInfo) (b : list string),
    NoDup l.*1 ->
    (forall k, (foldl (scanStep now) (m, b) l).1 !! k
               = match list_to_map (M := gmap string DeviceInfo) l !! k with
                 | Some i => if shouldDemote now i then Some (demoted i) else m !! k
                 | None => m !! k
                 end)
    /\ (foldl (scanStep now) (m, b) l).2 = b ++ demotedKeys now l.
Proof.
  induction l as [|[sn i] l IH]; intros m b Hnd.
  - split; [intros k; simpl; rewrite lookup_empty; reflexivity|].
    unfold demotedKeys. simpl. rewrite app_nil_r. reflexivity.
  - rewrite fmap_cons in Hnd. apply NoDup_cons in Hnd as [Hnotin Hnd'].
    cbn [foldl]. rewrite scanStep_eq, demotedKeys_cons, list_to_map_cons.
    destruct (shouldDemote now i) eqn:Hd.
    + destruct (IH (<[sn := demoted i]> m) (b ++ [sn]) Hnd') as [H1 H2].
      split.
      * intros k. rewrite H1. destruct (decide (sn = k)) as [->|Hne].
        -- rewrite (not_elem_of_list_to_map_1 l k Hnotin).
           rewrite !lookup_insert_eq, Hd. reflexivity.
        -- rewrite !(lookup_insert_ne _ sn k) by exact Hne. reflexivity.
      * rewrite H2, <- app_assoc. reflexivity.
    + destruct (IH m b Hnd') as [H1 H2]. split; [|exact H2].
      intros k. rewrite H1. destruct (decide (sn = k)) as [->|Hne].
      * rewrite lookup_insert_eq.
        rewrite (not_elem_of_list_to_map_1 l k Hnotin), Hd. reflexivity.
      * rewrite (lookup_insert_ne _ sn k) by exact Hne. reflexivity.
Qed.

(** The scan maps [sweepInfo] over the cache and collects the demoted keys. *)
Lemma scan_spec (now : Z) (c : gmap string DeviceInfo) :
  (scan now c).1 = sweepInfo now <$> c
  /\ (scan now c).2 = demotedKeys now (map_to_list c).
Proof.
  unfold scan.
  destruct (scan_fold now (map_to_list c) c [] (NoDup_fst_map_to_list c)) as [H1 H2].
  split; [|exact H2].
  apply map_eq. intros k. rewrite H1, list_to_map_to_list, lookup_fmap.
  unfold sweepInfo. destruct (c !! k) as [i|]; simpl; [|reflexivity].
  destruct (shouldDemote now i); reflexivity.
Qed.

Lemma demotedKeys_NoDup (now : Z) (c : gmap string DeviceInfo) :
  NoDup (demotedKeys now (map_to_list c)).
Proof.
  unfold demotedKeys.
  pose proof (NoDup_fst_map_to_list c) as H.
  induction (map_to_list c) as [|[sn i] l IH]; simpl; [constructor|].
  inversion H as [|? ? Hn Hl]; subst.
  destruct (shouldDemote now i); simpl; [|exact (IH Hl)].
  constructor; [|exact (IH Hl)].
  intros Hin. apply Hn. apply list_elem_of_fmap in Hin as ([k j] & -> & Hin).
  apply list_elem_of_fmap. exists (k, j). split; [reflexivity|].
  apply list_elem_of_In, filter_In in Hin. apply list_elem_of_In. tauto.
Qed.

Lemma demotedKeys_elem (now : Z) (c : gmap string DeviceInfo) (sn : string) :
  sn ∈ demotedKeys now (map_to_list c)
  <-> exists i, c !! sn = Some i /\ staleOnline now i.
Proof.
  unfold demotedKeys. rewrite list_elem_of_fmap. split.
  - intros ([k i] & -> & Hin). apply list_elem_of_In, filter_In in Hin as [Hin Hd].
    exists i. split.
    + apply elem_of_map_to_list, list_elem_of_In. exact Hin.
    + apply shouldDemote_spec. exact Hd.
  - intros (i & Hc & Hs). exists (sn, i). split; [reflexivity|].
    apply list_elem_of_In, filter_In. split.
    + apply list_elem_of_In, elem_of_map_to_list. exact Hc.
    + apply shouldDemote_spec. exact Hs.
Qed.

Lemma forEach_offline (e : Env) (batch : list string) :
  forall w,
    forEach batch (fun sn =>
      tryCatch (dbWrite e (UpdateDeviceOffline sn)) (fun _ => ret tt)) w
    = (Ret tt,
       mkWorld (mkDb (punch (db w)) (attendance (db w))
                     (writeOffline e (calls w) batch (devices (db w))))
               (deviceCache w) (calls w + length batch)%nat
               (issued w ++ map UpdateDeviceOffline batch) (posted w)).
Proof.
  induction batch as [|sn batch IH]; intros w.
  - destruct w as [[p a d] c n s o]. simpl. unfold ret.
    rewrite app_nil_r, Nat.add_0_r. reflexivity.
  - cbn [forEach]. unfold bind, tryCatch, dbWrite, tickOf.
    destruct (rejects (oracle e (calls w))) eqn:Hr; cbn -[writeOffline forEach];
      rewrite IH; cbn [db calls issued deviceCache posted punch attendance devices
                       writeOffline length map];
      rewrite Hr, <- app_assoc, Nat.add_succ_r; reflexivity.
Qed.

Lemma writeOffline_notin (e : Env) (batch : list string) (sn : string) :
  sn ∉ batch ->
  forall k d, writeOffline e k batch d !! sn = d !! sn.
Proof.
  induction batch as [|x batch IH]; intros Hn k d; simpl; [reflexivity|].
  apply not_elem_of_cons in Hn as [Hne Hn]. rewrite (IH Hn).
  destruct (rejects (oracle e k)); [reflexivity|].
  apply lookup_alter_ne. congruence.
Qed.

(** Each statement of the batch takes effect or not on its own. *)
Lemma writeOffline_at (e : Env) (batch : list string) :
  NoDup batch ->
  forall k d j sn,
    batch !! j = Some sn ->
    writeOffline e k batch d !! sn
    = if rejects (oracle e (k + j)) then d !! sn
      else offlineRow (stamp (oracle e (k + j))) <$> d !! sn.
Proof.
  induction 1 as [|x batch Hx Hnd IH]; intros k d j sn Hj; [discriminate|].
  destruct j as [|j]; simpl in Hj.
  - injection Hj as ->. simpl. rewrite (writeOffline_notin e batch sn Hx).
    rewrite Nat.add_0_r. destruct (rejects (oracle e k)); [reflexivity|].
    apply lookup_alter_eq.
  - simpl. rewrite (IH (S k) _ j sn Hj).
    assert (Hne : x <> sn).
    { intros ->. apply Hx. apply list_elem_of_lookup. eauto. }
    replace (S k + j)%nat with (k + S j)%nat by lia.
    destruct (rejects (oracle e k)); [reflexivity|].
    rewrite (lookup_alter_ne _ _ x sn) by exact Hne. reflexivity.
Qed.

(** C7. One run of the monitor at instant [now] never throws and leaves
    every cache entry in place; an entry is changed exactly when its status
    is ONLINE and its last heartbeat is more than 30000 ms old, and the only
    change is that its status becomes OFFLINE, so no status becomes ONLINE.
    The statements sent are one [UPDATE ... SET status = 'OFFLINE'] per
    demoted serial number, each serial number once; each takes effect or is
    rejected on its own, and rows of other serial numbers are not touched. *)
Theorem C7_sweep_demotes_stale_online (e : Env) (now : Z) (w : World) :
  exists batch w',
    monitorTick e now w = (Ret tt, w')
    /\ (forall sn, deviceCache w !! sn = None -> deviceCache w' !! sn = None)
    /\ (forall sn i, deviceCache w !! sn = Some i ->
          (staleOnline now i -> deviceCache w' !! sn = Some (demoted i))
          /\ (~ staleOnline now i -> deviceCache w' !! sn = Some i))
    /\ (forall sn i i', deviceCache w !! sn = Some i ->
          deviceCache w' !! sn = Some i' ->
          status i' = DeviceRow.ONLINE -> status i = DeviceRow.ONLINE)
    /\ NoDup batch
    /\ (forall sn, sn ∈ batch <->
          exists i, deviceCache w !! sn = Some i /\ staleOnline now i)
    /\ issued w' = issued w ++ map UpdateDeviceOffline batch
    /\ (forall j sn, batch !! j = Some sn ->
          devices (db w') !! sn
          = if rejects (oracle e (calls w + j))
            then devices (db w) !! sn
            else offlineRow (stamp (oracle e (calls w + j))) <$> devices (db w) !! sn)
    /\ (forall sn, sn ∉ batch -> devices (db w') !! sn = devices (db w) !! sn).
Proof.
  set (c := deviceCache w).
  destruct (scan_spec now c) as [Hc Hb].
  exists (demotedKeys now (map_to_list c)). eexists.
  split.
  { unfold monitorTick, bind, getCache, setCache. rewrite forEach_offline.
    simpl. fold c. rewrite Hc, Hb. reflexivity. }
  simpl.
  assert (Hlk : forall sn, (sweepInfo now <$> c) !! sn = sweepInfo now <$> c !! sn).
  { intros sn. apply lookup_fmap. }
  split; [|split; [|split; [|split; [|split; [|split; [|split]]]]]].
  - intros sn H. rewrite Hlk, H. reflexivity.
  - intros sn i H. rewrite Hlk, H. simpl. unfold sweepInfo. split.
    + intros Hs. apply shouldDemote_spec in Hs. rewrite Hs. reflexivity.
    + intros Hs. destruct (shouldDemote now i) eqn:Hd; [|reflexivity].
      apply shouldDemote_spec in Hd. contradiction.
  - intros sn i i' H. rewrite Hlk, H. simpl. unfold sweepInfo.
    intros H'. injection H' as <-.
    destruct (shouldDemote now i); [discriminate|tauto].
  - apply demotedKeys_NoDup.
  - apply demotedKeys_elem.
  - reflexivity.
  - intros j sn Hj. apply writeOffline_at; [apply demotedKeys_NoDup|exact Hj].
  - intros sn Hn. apply writeOffline_notin. exact Hn.
Qed.

End MonitorSweep.

(* ===================================================================== *)
(** * The heartbeat handler *)
(* ===================================================================== *)

Section Heartbeat.
Import JSString JSDate Store Eff Http Liveness.

Lemma alter_lookup_insert {A} (f : A -> A) (sn : string) (c : gmap string A) (i : A) :
  c !! sn = Some i -> alter f sn c = <[sn := f i]> c.
Proof.
  intros H. apply map_eq. intros k. destruct (decide (sn = k)) as [->|Hne].
  - rewrite lookup_alter_eq, lookup_insert_eq, H. reflexivity.
  - rewrite lookup_alter_ne, lookup_insert_ne by exact Hne. reflexivity.
Qed.

(** A handler that answers [r] at the end of its [try] block and in its
    [catch] block answers [r] whatever happens inside. *)
Lemma tryCatch_always {A} (m : M A) (r : Response) (w : World) :
  exists w', tryCatch (Eff.bind m (fun _ => ret r)) (fun _ => ret r) w = (Ret r, w').
Proof.
  unfold tryCatch, Eff.bind, ret. destruct (m w) as [[a|x] w']; eauto.
Qed.

(** A detached statement never throws; it is sent, and changes at most the
    database. *)
Lemma dbWriteDetached_spec (e : Env) (s : Stmt) (w : World) :
  exists d, dbWriteDetached e s w
            = (Ret tt, mkWorld d (deviceCache w) (S (calls w)) (issued w ++ [s])
                               (posted w)).
Proof.
  unfold dbWriteDetached, tryCatch, dbWrite, ret.
  destruct (rejects (tickOf e w)); [eauto|].
  destruct (exec (stamp (tickOf e w)) s (db w)); eauto.
Qed.

Lemma lastSeenDue_spec (now : Z) (i : DeviceInfo) :
  lastSeenDue now i = true <-> lastSeenOld now i.
Proof.
  unfold lastSeenDue, lastSeenOld. destruct (lastSeen i) as [[t|]|]; simpl.
  - rewrite Z.ltb_lt. split.
    + intros H. right. exists t. split; [reflexivity|lia].
    + intros [H|(t' & H & Ht)]; [discriminate|]. injection H as ->. lia.
  - split; [discriminate|]. intros [H|(t' & H & _)]; discriminate.
  - tauto.
Qed.

(** The heartbeat of a cached device: the answer, the cache and the
    statements sent do not depend on what the database does. *)
Lemma heartbeatCached_spec (e : Env) (sn : string) (now : Z) (w : World)
  (i : DeviceInfo) :
  deviceCache w !! sn = Some i ->
  exists d n,
    heartbeatCached e sn now i w
    = (Ret tt, mkWorld d (<[sn := heartbeatInfo now i]> (deviceCache w)) n
                       (issued w ++ heartbeatWrites sn now i) (posted w)).
Proof.
  intros Hc. unfold heartbeatCached, heartbeatInfo, heartbeatWrites.
  unfold Eff.bind at 1. unfold updateInfo at 1, Eff.bind at 1, getCache, setCache.
  rewrite (alter_lookup_insert _ sn _ i Hc). cbn [status lastSeen lastHeartbeat].
  set (c1 := <[sn := _]> (deviceCache w)).
  assert (Hc1 : c1 !! sn = Some (mkInfo (status i) (lastSeen i) (Some (Some now)))).
  { apply lookup_insert_eq. }
  set (w1 := mkWorld (db w) c1 (calls w) (issued w) (posted w)).
  unfold Eff.bind at 1.
  destruct (isOffline (status i)) eqn:Hoff.
  - unfold Eff.bind at 1. unfold updateInfo at 1, Eff.bind at 1, getCache, setCache.
    cbn [deviceCache w1 db calls issued posted].
    rewrite (alter_lookup_insert _ sn c1 _ Hc1). cbn [status lastSeen lastHeartbeat].
    unfold c1. rewrite insert_insert_eq.
    destruct (dbWriteDetached_spec e (UpdateDeviceOnline sn (isoString now))
                (mkWorld (db w) (<[sn := mkInfo DeviceRow.ONLINE (lastSeen i) (Some (Some now))]>
                   (deviceCache w)) (calls w) (issued w) (posted w))) as [d Hd].
    rewrite Hd. cbn [deviceCache db calls issued posted].
    destruct (lastSeenDue now i) eqn:Hdue.
    + unfold Eff.bind at 1. unfold updateInfo at 1, Eff.bind at 1, getCache, setCache.
      cbn [deviceCache db calls issued posted].
      rewrite (alter_lookup_insert _ sn _ _ (lookup_insert_eq _ _ _)).
      cbn [status lastSeen lastHeartbeat]. rewrite insert_insert_eq.
      match goal with |- context [dbWriteDetached e ?s ?w0] =>
        destruct (dbWriteDetached_spec e s w0) as [d' Hd'] end.
      rewrite Hd'. cbn [deviceCache db calls issued posted].
      rewrite <- app_assoc. eauto.
    + unfold ret. rewrite app_nil_r. eauto.
  - unfold ret at 1. assert (Hon : status i = DeviceRow.ONLINE).
    { destruct (status i); [reflexivity|discriminate]. }
    destruct (lastSeenDue now i) eqn:Hdue.
    + unfold Eff.bind at 1. unfold updateInfo at 1, Eff.bind at 1, getCache, setCache.
      cbn [deviceCache w1 db calls issued posted].
      rewrite (alter_lookup_insert _ sn c1 _ Hc1). cbn [status lastSeen lastHeartbeat].
      unfold c1. rewrite insert_insert_eq.
      match goal with |- context [dbWriteDetached e ?s ?w0] =>
        destruct (dbWriteDetached_spec e s w0) as [d' Hd'] end.
      rewrite Hd'. cbn [deviceCache db calls issued posted]. rewrite Hon.
      simpl. eauto.
    + unfold ret, w1, c1. rewrite Hon, app_nil_r. simpl. eauto.
Qed.

Lemma getrequest_cached (e : Env) (sn : string) (now : Z) (w : World)
  (i : DeviceInfo) :
  sn <> EmptyString ->
  deviceCache w !! sn = Some i ->
  exists d n,
    getrequest e (Some sn) now w
    = (Ret ok200, mkWorld d (<[sn := heartbeatInfo now i]> (deviceCache w)) n
                          (issued w ++ heartbeatWrites sn now i) (posted w)).
Proof.
  intros Hsn Hc. unfold getrequest. apply isEmpty_false in Hsn. rewrite Hsn.
  unfold tryCatch. unfold Eff.bind at 1. unfold getCache at 1. rewrite Hc.
  unfold Eff.bind. destruct (heartbeatCached_spec e sn now w i Hc) as (d & n & H).
  rewrite H. unfold ret. eauto.
Qed.

(** C8, as the code has it: the handler always completes and always answers
    with the body [OK], whatever the database does; the status is 200 for
    every request that carries a non-empty [SN], and 400 for a request
    without one, which changes nothing. *)
Theorem C8_heartbeat_always_answers_OK (e : Env) (SN : option string) (now : Z)
  (w : World) :
  exists resp w',
    getrequest e SN now w = (Ret resp, w')
    /\ body resp = Text "OK"
    /\ (truthy SN = true -> resp = ok200)
    /\ (truthy SN = false -> statusCode resp = 400 /\ w' = w).
Proof.
  unfold getrequest, truthy. destruct SN as [sn|].
  - destruct (isEmpty sn) eqn:Hsn; simpl.
    + eexists _, _. split; [reflexivity|]. simpl. repeat split; discriminate.
    + match goal with |- context [tryCatch (Eff.bind ?m _) _ w] =>
        destruct (tryCatch_always
                    (Eff.bind getCache (fun c =>
                       match c !! sn with
                       | Some deviceInfo => heartbeatCached e sn now deviceInfo
                       | None => heartbeatNew e sn now
                       end)) ok200 w) as [w' Hw] end.
      exists ok200, w'. split.
      * rewrite <- Hw. unfold tryCatch, Eff.bind, getCache, ok200.
        destruct (deviceCache w !! sn); reflexivity.
      * repeat split; discriminate.
  - eexists _, _. split; [reflexivity|]. simpl. repeat split; discriminate.
Qed.

(** C8 as stated fails: a request without [SN] is answered with status 400. *)
Lemma C8_counterexample :
  exists resp w',
    getrequest (plainEnv utcHost) None 0 emptyWorld = (Ret resp, w')
    /\ ~ succeeded resp.
Proof.
  eexists _, _. split; [reflexivity|]. unfold succeeded. simpl. lia.
Qed.

(** ** Write amortisation *)

Lemma heartbeatWrites_count (sn : string) (now : Z) (i : DeviceInfo) :
  status i = DeviceRow.ONLINE ->
  List.filter (touchesLastSeen sn) (heartbeatWrites sn now i)
  = if lastSeenDue now i then [UpdateDeviceLastSeen sn (isoString now)] else [].
Proof.
  intros Hon. unfold heartbeatWrites. rewrite Hon. simpl.
  destruct (lastSeenDue now i); simpl; [|reflexivity].
  rewrite String.eqb_refl. reflexivity.
Qed.

Lemma heartbeats_cons (e : Env) (sn : string) (now : Z) (times : list Z)
  (w : World) (i : DeviceInfo) :
  sn <> EmptyString ->
  deviceCache w !! sn = Some i ->
  exists w1,
    heartbeats e sn (now :: times) w = heartbeats e sn times w1
    /\ deviceCache w1 !! sn = Some (heartbeatInfo now i)
    /\ issued w1 = issued w ++ heartbeatWrites sn now i.
Proof.
  intros Hsn Hc. destruct (getrequest_cached e sn now w i Hsn Hc) as (d & n & H).
  eexists. split; [|split].
  - unfold heartbeats. cbn [forEach]. unfold Eff.bind at 1. unfold Eff.bind at 1.
    rewrite H. unfold ret at 1. reflexivity.
  - simpl. apply lookup_insert_eq.
  - reflexivity.
Qed.

(** Once [lastSeen] is within the debounce window of every coming
    heartbeat, an ONLINE device causes no further write of [last_seen]. *)
Lemma heartbeats_quiet (e : Env) (sn : string) (times : list Z) :
  sn <> EmptyString ->
  forall (w : World) (i : DeviceInfo) (t0 : Z),
    deviceCache w !! sn = Some i ->
    status i = DeviceRow.ONLINE ->
    lastSeen i = Some (Some t0) ->
    (forall t, t ∈ times -> t - t0 <= 10000) ->
    exists w' new,
      heartbeats e sn times w = (Ret tt, w')
      /\ issued w' = issued w ++ new
      /\ List.filter (touchesLastSeen sn) new = [].
Proof.
  intros Hsn. induction times as [|now times IH]; intros w i t0 Hc Hon Hls Hwin.
  - exists w, []. rewrite app_nil_r. repeat split.
  - destruct (heartbeats_cons e sn now times w i Hsn Hc) as (w1 & Hrun & Hc1 & Hi1).
    assert (Hdue : lastSeenDue now i = false).
    { unfold lastSeenDue. rewrite Hls. simpl. apply Z.ltb_ge.
      specialize (Hwin now (list_elem_of_here _ _)). lia. }
    destruct (IH w1 (heartbeatInfo now i) t0 Hc1 eq_refl) as (w' & new & Hr & Hi & Hf).
    { unfold heartbeatInfo. rewrite Hdue. exact Hls. }
    { intros t Ht. apply Hwin. apply list_elem_of_further. exact Ht. }
    exists w', (heartbeatWrites sn now i ++ new). split; [congruence|]. split.
    + rewrite Hi, Hi1, <- app_assoc. reflexivity.
    + rewrite List.filter_app, Hf, (heartbeatWrites_count sn now i Hon), Hdue.
      reflexivity.
Qed.

Lemma heartbeats_at_most_one (e : Env) (sn : string) (times : list Z) :
  sn <> EmptyString ->
  withinWindow 10000 times ->
  forall (w : World) (i : DeviceInfo),
    deviceCache w !! sn = Some i ->
    status i = DeviceRow.ONLINE ->
    exists w' new,
      heartbeats e sn times w = (Ret tt, w')
      /\ issued w' = issued w ++ new
      /\ (length (List.filter (touchesLastSeen sn) new) <= 1)%nat.
Proof.
  intros Hsn. induction times as [|now times IH]; intros Hwin w i Hc Hon.
  - exists w, []. rewrite app_nil_r. repeat split. simpl. lia.
  - destruct (heartbeats_cons e sn now times w i Hsn Hc) as (w1 & Hrun & Hc1 & Hi1).
    assert (Hwin' : withinWindow 10000 times).
    { intros t t' Ht Ht'. apply Hwin; apply list_elem_of_further; assumption. }
    destruct (lastSeenDue now i) eqn:Hdue.
    + destruct (heartbeats_quiet e sn times Hsn w1 (heartbeatInfo now i) now
                  Hc1 eq_refl) as (w' & new & Hr & Hi & Hf).
      { unfold heartbeatInfo. rewrite Hdue. reflexivity. }
      { intros t Ht. apply Hwin; [apply list_elem_of_here|].
        apply list_elem_of_further. exact Ht. }
      exists w', (heartbeatWrites sn now i ++ new). split; [congruence|]. split.
      * rewrite Hi, Hi1, <- app_assoc. reflexivity.
      * rewrite List.filter_app, Hf, (heartbeatWrites_count sn now i Hon), Hdue.
        simpl. lia.
    + destruct (IH Hwin' w1 (heartbeatInfo now i) Hc1 eq_refl)
        as (w' & new & Hr & Hi & Hf).
      exists w', (heartbeatWrites sn now i ++ new). split; [congruence|]. split.
      * rewrite Hi, Hi1, <- app_assoc. reflexivity.
      * rewrite List.filter_app, (heartbeatWrites_count sn now i Hon), Hdue.
        exact Hf.
Qed.

(** C9. For a device found in the cache, a heartbeat at [now] sends the
    statement that stores [last_seen] alone exactly when the cached
    [lastSeen] is unset or more than 10000 ms before [now], and in that case
    the cached [lastSeen] becomes [now]; otherwise it is left as it was.
    Consequently a burst of heartbeats of an ONLINE device whose instants
    lie within 10000 ms of one another (ten heartbeats within two seconds,
    say) sends at most one statement that stores [last_seen]. *)
Theorem C9_lastSeen_write_is_debounced (e : Env) (sn : string) (now : Z)
  (times : list Z) (w : World) (i : DeviceInfo) :
  sn <> EmptyString ->
  deviceCache w !! sn = Some i ->
  (exists w',
     getrequest e (Some sn) now w = (Ret ok200, w')
     /\ issued w' = issued w ++ heartbeatWrites sn now i
     /\ (lastSeenOld now i ->
         UpdateDeviceLastSeen sn (isoString now) ∈ heartbeatWrites sn now i
         /\ lastSeen <$> deviceCache w' !! sn = Some (Some (Some now)))
     /\ (~ lastSeenOld now i ->
         (forall iso, UpdateDeviceLastSeen sn iso ∉ heartbeatWrites sn now i)
         /\ lastSeen <$> deviceCache w' !! sn = Some (lastSeen i)))
  /\ (status i = DeviceRow.ONLINE ->
      withinWindow 10000 times ->
      exists w' new,
        heartbeats e sn times w = (Ret tt, w')
        /\ issued w' = issued w ++ new
        /\ (length (List.filter (touchesLastSeen sn) new) <= 1)%nat).
Proof.
  intros Hsn Hc. split.
  - destruct (getrequest_cached e sn now w i Hsn Hc) as (d & n & H).
    eexists. split; [exact H|]. cbn [issued deviceCache].
    split; [reflexivity|]. rewrite lookup_insert_eq. simpl.
    unfold heartbeatWrites. split.
    + intros Hold. apply lastSeenDue_spec in Hold. rewrite Hold. split.
      * apply elem_of_app. right. apply list_elem_of_here.
      * reflexivity.
    + intros Hold. destruct (lastSeenDue now i) eqn:Hdue.
      * apply lastSeenDue_spec in Hdue. contradiction.
      * split; [|reflexivity]. intros iso Hin. rewrite app_nil_r in Hin.
        destruct (isOffline (status i)).
        -- apply list_elem_of_singleton in Hin. discriminate.
        -- apply elem_of_nil in Hin. exact Hin.
  - intros Hon Hwin. exact (heartbeats_at_most_one e sn times Hsn Hwin w i Hc Hon).
Qed.

Lemma withinWindow_bounds (span lo hi : Z) (times : list Z) :
  Forall (fun t => lo <= t <= hi) times -> hi - lo <= span ->
  withinWindow span times.
Proof.
  intros Hall Hspan t t' Ht Ht'. rewrite Forall_forall in Hall.
  pose proof (Hall t Ht). pose proof (Hall t' Ht'). lia.
Qed.

Lemma C9_lastSeen_write_is_debounced_witness :
  exists w' new,
    heartbeats (plainEnv utcHost) "SN1" sampleBurst sampleCache = (Ret tt, w')
    /\ issued w' = issued sampleCache ++ new
    /\ (length (List.filter (touchesLastSeen "SN1") new) <= 1)%nat.
Proof.
  assert (Hc : deviceCache sampleCache !! "SN1"%string
               = Some (mkInfo DeviceRow.ONLINE (Some (Some 0)) (Some (Some 0)))).
  { apply lookup_singleton_eq. }
  assert (Hwin : withinWindow 10000 sampleBurst).
  { apply (withinWindow_bounds 10000 20000 22000); [|lia].
    unfold sampleBurst. repeat (constructor; [lia|]). constructor. }
  exact (proj2 (C9_lastSeen_write_is_debounced (plainEnv utcHost) "SN1" 20000
                  sampleBurst sampleCache _ ltac:(discriminate) Hc) eq_refl Hwin).
Defined.

End Heartbeat.

(* ===================================================================== *)
(** * Re-aggregation of a day *)
(* ===================================================================== *)

Section Upsert.
Import Store.

Lemma sameKey_eq (a b : AttendanceData.t) :
  sameKey a b = true <-> keyOf b = keyOf a.
Proof.
  unfold sameKey, keyOf. rewrite andb_true_iff, !String.eqb_eq.
  split; [intros [-> ->]; reflexivity|intros H; injection H; auto].
Qed.

Lemma existsb_sameKey (a : AttendanceData.t) (D : list AttendanceData.t) :
  existsb (sameKey a) D = true <-> keyOf a ∈ map keyOf D.
Proof.
  rewrite existsb_exists, list_elem_of_fmap. split.
  - intros (b & Hin & Hk). exists b. apply sameKey_eq in Hk.
    split; [congruence|apply list_elem_of_In; exact Hin].
  - intros (b & Hk & Hin). exists b.
    split; [apply list_elem_of_In; exact Hin|apply sameKey_eq; congruence].
Qed.

(** Overwriting keeps the keys of all rows. *)
Lemma overwrite_keys (a : AttendanceData.t) (D : list AttendanceData.t) :
  map keyOf (map (fun b => if sameKey a b then a else b) D) = map keyOf D.
Proof.
  induction D as [|b D IH]; simpl; [reflexivity|]. rewrite IH. f_equal.
  destruct (sameKey a b) eqn:H; [|reflexivity].
  apply sameKey_eq in H. congruence.
Qed.

Lemma upsertData_unique (D : list AttendanceData.t) (a : AttendanceData.t) :
  NoDup (map keyOf D) -> NoDup (map keyOf (upsertData D a)).
Proof.
  intros H. unfold upsertData. destruct (existsb (sameKey a) D) eqn:E.
  - rewrite overwrite_keys. exact H.
  - rewrite map_app. simpl. apply NoDup_app. split; [exact H|]. split.
    + intros k Hk Hk'. apply list_elem_of_singleton in Hk'. subst k.
      apply existsb_sameKey in Hk. congruence.
    + apply NoDup_singleton.
Qed.

Lemma upsertData_stored (D : list AttendanceData.t) (a : AttendanceData.t) :
  stored a (upsertData D a).
Proof.
  unfold stored, upsertData. destruct (existsb (sameKey a) D) eqn:E.
  - split.
    + rewrite overwrite_keys. apply existsb_sameKey. exact E.
    + intros b Hb Hk. apply list_elem_of_fmap in Hb as (c & -> & _).
      destruct (sameKey a c) eqn:Hc; [reflexivity|].
      apply sameKey_eq in Hk. congruence.
  - split.
    + rewrite map_app. apply elem_of_app. right. apply list_elem_of_here.
    + intros b Hb Hk. apply elem_of_app in Hb as [Hb|Hb].
      * exfalso. assert (H : existsb (sameKey a) D = true); [|congruence].
        apply existsb_sameKey. rewrite <- Hk. apply list_elem_of_fmap. eauto.
      * apply list_elem_of_singleton in Hb. exact Hb.
Qed.

Lemma overwrite_fixed (a : AttendanceData.t) (D : list AttendanceData.t) :
  (forall b, b ∈ D -> keyOf b = keyOf a -> b = a) ->
  map (fun b => if sameKey a b then a else b) D = D.
Proof.
  induction D as [|b D IH]; intros Hall; simpl; [reflexivity|]. f_equal.
  - destruct (sameKey a b) eqn:Hb; [|reflexivity].
    symmetry. apply Hall; [apply list_elem_of_here|apply sameKey_eq; exact Hb].
  - apply IH. intros c Hc. apply Hall. apply list_elem_of_further. exact Hc.
Qed.

(** Upserting what is stored changes no column. *)
Lemma upsertData_fixed (D : list AttendanceData.t) (a : AttendanceData.t) :
  stored a D -> upsertData D a = D.
Proof.
  intros [Hk Hall]. unfold upsertData.
  apply existsb_sameKey in Hk. rewrite Hk. apply overwrite_fixed, Hall.
Qed.

(** An upsert under another key leaves a stored record stored. *)
Lemma upsertData_other (D : list AttendanceData.t) (a c : AttendanceData.t) :
  keyOf c <> keyOf a -> stored a D -> stored a (upsertData D c).
Proof.
  intros Hne [Hk Hall]. unfold stored, upsertData.
  destruct (existsb (sameKey c) D) eqn:E.
  - split; [rewrite overwrite_keys; exact Hk|].
    intros b Hb Hkb. apply list_elem_of_fmap in Hb as (x & -> & Hx).
    destruct (sameKey c x) eqn:Hcx; [congruence|]. apply Hall; assumption.
  - split; [rewrite map_app; apply elem_of_app; left; exact Hk|].
    intros b Hb Hkb. apply elem_of_app in Hb as [Hb|Hb]; [apply Hall; assumption|].
    apply list_elem_of_singleton in Hb. congruence.
Qed.

Lemma upserts_unique (l D : list AttendanceData.t) :
  NoDup (map keyOf D) -> NoDup (map keyOf (foldl upsertData D l)).
Proof.
  revert D. induction l as [|a l IH]; intros D H; simpl; [exact H|].
  apply IH, upsertData_unique, H.
Qed.

Lemma upserts_other (l D : list AttendanceData.t) (a : AttendanceData.t) :
  keyOf a ∉ map keyOf l -> stored a D -> stored a (foldl upsertData D l).
Proof.
  revert D. induction l as [|c l IH]; intros D Hn H; simpl; [exact H|].
  simpl in Hn. apply not_elem_of_cons in Hn as [Hne Hn].
  apply IH; [exact Hn|]. apply upsertData_other; [congruence|exact H].
Qed.

(** After a batch of upserts under distinct keys every record of the batch
    is stored. *)
Lemma upserts_stored (l D : list AttendanceData.t) :
  NoDup (map keyOf l) -> Forall (fun a => stored a (foldl upsertData D l)) l.
Proof.
  revert D. induction l as [|a l IH]; intros D Hnd; simpl; [constructor|].
  simpl in Hnd. apply NoDup_cons in Hnd as [Hn Hnd]. constructor.
  - apply upserts_other; [exact Hn|apply upsertData_stored].
  - apply IH. exact Hnd.
Qed.

Lemma upserts_fixed (l D : list AttendanceData.t) :
  Forall (fun a => stored a D) l -> foldl upsertData D l = D.
Proof.
  induction 1 as [|a l Ha _ IH]; simpl; [reflexivity|].
  rewrite (upsertData_fixed D a Ha). exact IH.
Qed.

(** Repeating a batch of upserts under distinct keys changes nothing. *)
Lemma upserts_idempotent (l D : list AttendanceData.t) :
  NoDup (map keyOf l) ->
  foldl upsertData (foldl upsertData D l) l = foldl upsertData D l.
Proof. intros H. apply upserts_fixed, upserts_stored, H. Qed.

End Upsert.

Section Reaggregation.
Import JSDate Store Eff Attendance.

Lemma distinctFrom_spec (l seen : list string) :
  NoDup (distinctFrom seen l)
  /\ forall x, x ∈ distinctFrom seen l <-> x ∈ l /\ x ∉ seen.
Proof.
  revert seen. induction l as [|a l IH]; intros seen; simpl.
  - split; [constructor|]. intros x. rewrite elem_of_nil. tauto.
  - destruct (bool_decide_reflect (a ∈ seen)) as [Ha|Ha].
    + destruct (IH seen) as [H1 H2]. split; [exact H1|].
      intros x. rewrite H2, elem_of_cons. split; [tauto|].
      intros [[->|H] Hn]; tauto.
    + destruct (IH (a :: seen)) as [H1 H2]. split.
      * constructor; [|exact H1]. rewrite H2, elem_of_cons. tauto.
      * intros x. rewrite elem_of_cons, H2, !elem_of_cons.
        destruct (decide (x = a)) as [->|Hne]; tauto.
Qed.

Lemma distinct_NoDup (l : list string) : NoDup (distinct l).
Proof. apply distinctFrom_spec. Qed.

Lemma distinct_elem (l : list string) (x : string) : x ∈ distinct l <-> x ∈ l.
Proof.
  unfold distinct. rewrite (proj2 (distinctFrom_spec l [])), elem_of_nil. tauto.
Qed.

Lemma selectPunches_punch (pin s en : string) (d d' : Db) :
  punch d = punch d' -> selectPunches pin s en d = selectPunches pin s en d'.
Proof. unfold selectPunches. intros ->. reflexivity. Qed.

Lemma dayResults_punch (e : Env) (dayStr : string) (d d' : Db) :
  punch d = punch d' -> dayResults e dayStr d = dayResults e dayStr d'.
Proof.
  intros H. unfold dayResults, selectDistinctPins. rewrite H.
  destruct (dayRange (host e) dayStr) as [r|]; simpl; [|reflexivity].
  f_equal. apply list_omap_ext, Forall_Forall2_diag, Forall_forall. intros pin _.
  rewrite (selectPunches_punch pin r.1 r.2 d d' H). reflexivity.
Qed.

Lemma attendanceOf_key (e : Env) (pin dayStr : string) (ps : list Parser.Row)
  (a : AttendanceData.t) :
  attendanceOf e pin dayStr ps = Some a -> keyOf a = (pin, dayStr).
Proof.
  unfold attendanceOf. destruct ps; [discriminate|].
  intros H. injection H as <-. reflexivity.
Qed.

Lemma selectAttendance_exists (a : AttendanceData.t) (d : Db) :
  match selectAttendance (AttendanceData.pin a) (AttendanceData.day a) d with
  | [] => existsb (sameKey a) (attendanceData d) = false
  | _ :: _ => existsb (sameKey a) (attendanceData d) = true
  end.
Proof.
  unfold selectAttendance, attendanceData.
  induction (attendance d) as [|r rs IH]; simpl; [reflexivity|].
  unfold attendanceKey at 1.
  change (String.eqb (AttendanceData.pin (AttendanceRow.data r)) (AttendanceData.pin a)
          && String.eqb (AttendanceData.day (AttendanceRow.data r)) (AttendanceData.day a))
    with (sameKey a (AttendanceRow.data r)).
  destruct (sameKey a (AttendanceRow.data r)); simpl; [reflexivity|exact IH].
Qed.

Lemma updateAttendance_data (stamp : Z) (a : AttendanceData.t)
  (rows : list AttendanceRow.t) :
  map AttendanceRow.data (map (updateAttendanceRow stamp a) rows)
  = map (fun b => if sameKey a b then a else b) (map AttendanceRow.data rows).
Proof.
  induction rows as [|r rows IH]; simpl; [reflexivity|]. rewrite IH. f_equal.
  unfold updateAttendanceRow, attendanceKey.
  change (String.eqb (AttendanceData.pin (AttendanceRow.data r)) (AttendanceData.pin a)
          && String.eqb (AttendanceData.day (AttendanceRow.data r)) (AttendanceData.day a))
    with (sameKey a (AttendanceRow.data r)).
  destruct (sameKey a (AttendanceRow.data r)) eqn:H; [|reflexivity].
  apply sameKey_eq in H. unfold keyOf in H. injection H as Hp Hd. simpl.
  rewrite Hp, Hd. destruct a; reflexivity.
Qed.

Lemma dbQuery_inv {A} (e : Env) (q : Db -> A) (w w' : World) (out : Outcome A) :
  dbQuery e q w = (out, w') ->
  db w' = db w /\ forall x, out = Ret x -> x = q (db w).
Proof.
  unfold dbQuery. destruct (rejects (tickOf e w)); intros H; injection H as <- <-;
    (split; [reflexivity|]); intros x Hx; congruence.
Qed.

Lemma dbWrite_inv (e : Env) (s : Stmt) (w w' : World) (out : Outcome unit) :
  dbWrite e s w = (out, w') ->
  match out with
  | Ret _ => exists st, exec st s (db w) = Some (db w')
  | Throw _ => db w' = db w
  end.
Proof.
  unfold dbWrite. destruct (rejects (tickOf e w)).
  - intros H. injection H as <- <-. reflexivity.
  - destruct (exec (stamp (tickOf e w)) s (db w)) as [d|] eqn:E;
      intros H; injection H as <- <-; simpl; eauto.
Qed.

(** One iteration of the loop over the pins: the punch table is only read;
    the attendance columns are left alone when the iteration skips or
    throws, and upserted with the computed record otherwise. *)
Lemma attendanceForPin_inv (e : Env) (dayStr s en pin : string) (w w' : World)
  (out : Outcome (option AttendanceData.t)) :
  attendanceForPin e dayStr s en pin w = (out, w') ->
  punch (db w') = punch (db w)
  /\ match out with
     | Ret o =>
         o = attendanceOf e pin dayStr (selectPunches pin s en (db w))
         /\ attendanceData (db w')
            = match o with
              | Some a => upsertData (attendanceData (db w)) a
              | None => attendanceData (db w)
              end
     | Throw _ => attendanceData (db w') = attendanceData (db w)
     end.
Proof.
  unfold attendanceForPin. unfold Eff.bind at 1.
  destruct (dbQuery e (selectPunches pin s en) w) as [[ps|x] w1] eqn:Hq;
    destruct (dbQuery_inv e _ w w1 _ Hq) as [Hdb Hps].
  2:{ intros H. injection H as <- <-. rewrite Hdb. split; reflexivity. }
  rewrite (Hps ps eq_refl).
  destruct (attendanceOf e pin dayStr (selectPunches pin s en (db w))) as [a|] eqn:Ha.
  2:{ unfold ret. intros H. injection H as <- <-. rewrite Hdb. repeat split. }
  pose proof (attendanceOf_key e pin dayStr _ a Ha) as Hk.
  unfold keyOf in Hk. injection Hk as Hp Hd.
  unfold Eff.bind at 1.
  destruct (dbQuery e (selectAttendance pin dayStr) w1) as [[ex|x] w2] eqn:Hq2;
    destruct (dbQuery_inv e _ w1 w2 _ Hq2) as [Hdb2 Hex].
  2:{ intros H. injection H as <- <-. rewrite Hdb2, Hdb. split; reflexivity. }
  specialize (Hex ex eq_refl).
  pose proof (selectAttendance_exists a (db w1)) as Hsel.
  rewrite Hp, Hd, <- Hex in Hsel.
  assert (Hpost : forall w3 : World,
            exists w4, (if callbackSet e then postCallback a else ret tt) w3
                       = (Ret tt, w4) /\ db w4 = db w3).
  { intros w3. destruct (callbackSet e); eexists; split; reflexivity. }
  unfold Eff.bind at 1.
  set (stmt := match ex with
               | [] => InsertAttendance a
               | _ :: _ => UpdateAttendance a
               end).
  replace (match ex with
           | [] => dbWrite e (InsertAttendance a)
           | _ :: _ => dbWrite e (UpdateAttendance a)
           end) with (dbWrite e stmt) by (destruct ex; reflexivity).
  destruct (dbWrite e stmt w2) as [[[]|x] w3] eqn:Hw;
    pose proof (dbWrite_inv e stmt w2 w3 _ Hw) as Hexec; cbn beta iota in Hexec.
  2:{ intros H. injection H as <- <-. rewrite Hexec, Hdb2, Hdb. split; reflexivity. }
  destruct Hexec as [st Hexec]. unfold Eff.bind.
  destruct (Hpost w3) as (w4 & -> & Hdb4). unfold ret.
  intros H. injection H as <- <-. rewrite Hdb4.
  rewrite Hdb2, Hdb in Hexec. rewrite Hdb in Hsel.
  unfold upsertData. unfold stmt in Hexec.
  destruct ex as [|r ex]; rewrite Hsel; simpl in Hexec; injection Hexec as <-;
    (split; [reflexivity|]); (split; [reflexivity|]); unfold attendanceData; simpl.
  - rewrite map_app. reflexivity.
  - apply updateAttendance_data.
Qed.

(** The loop over the pins upserts the records it returns, in order. *)
Lemma collect_pins_inv (e : Env) (dayStr s en : string) (pins : list string) :
  forall (w w' : World) (out : Outcome (list AttendanceData.t)),
    collect pins (attendanceForPin e dayStr s en) w = (out, w') ->
    punch (db w') = punch (db w)
    /\ (exists l, attendanceData (db w') = foldl upsertData (attendanceData (db w)) l)
    /\ forall results, out = Ret results ->
         results = omap (fun pin => attendanceOf e pin dayStr
                                      (selectPunches pin s en (db w))) pins
         /\ attendanceData (db w') = foldl upsertData (attendanceData (db w)) results.
Proof.
  induction pins as [|pin pins IH]; intros w w' out; cbn [collect].
  - unfold ret. intros H. injection H as <- <-. split; [reflexivity|]. split.
    + exists []. reflexivity.
    + intros results H. injection H as <-. split; reflexivity.
  - unfold Eff.bind at 1.
    destruct (attendanceForPin e dayStr s en pin w) as [[o|x] w1] eqn:H1;
      destruct (attendanceForPin_inv e dayStr s en pin w w1 _ H1) as [Hp1 Ho].
    2:{ intros H. injection H as <- <-. split; [exact Hp1|]. split.
        - exists []. exact Ho.
        - intros results H. discriminate. }
    destruct Ho as [Ho Hd1]. unfold Eff.bind at 1.
    destruct (collect pins (attendanceForPin e dayStr s en) w1) as [[rest|x] w2] eqn:H2;
      destruct (IH w1 w2 _ H2) as (Hp2 & (l & Hl) & Hres).
    + unfold ret. intros H. injection H as <- <-.
      destruct (Hres rest eq_refl) as [Hrest Hd2].
      assert (Hfold : attendanceData (db w2)
                      = foldl upsertData (attendanceData (db w))
                          (match o with Some b => b :: rest | None => rest end)).
      { rewrite Hd2, Hd1. destruct o; reflexivity. }
      split; [congruence|]. split; [eexists; exact Hfold|].
      intros results H. injection H as <-. split; [|exact Hfold].
      csimpl. rewrite <- Ho. rewrite Hrest.
      assert (Hext : omap (fun pin0 => attendanceOf e pin0 dayStr
                                         (selectPunches pin0 s en (db w1))) pins
                     = omap (fun pin0 => attendanceOf e pin0 dayStr
                                           (selectPunches pin0 s en (db w))) pins).
      { apply list_omap_ext, Forall_Forall2_diag, Forall_forall. intros p _.
        rewrite (selectPunches_punch p s en (db w1) (db w) Hp1). reflexivity. }
      rewrite Hext. destruct o; reflexivity.
    + intros H. injection H as <- <-. split; [congruence|]. split.
      * exists (match o with Some b => [b] | None => [] end ++ l).
        rewrite Hl, Hd1, foldl_app. destruct o; reflexivity.
      * intros results H. discriminate.
Qed.

Lemma computeAttendanceForDay_inv (e : Env) (dayStr : string) (w w' : World)
  (out : Outcome (list AttendanceData.t)) :
  computeAttendanceForDay e dayStr w = (out, w') ->
  punch (db w') = punch (db w)
  /\ (exists l, attendanceData (db w') = foldl upsertData (attendanceData (db w)) l)
  /\ forall results, out = Ret results ->
       dayResults e dayStr (db w) = Some results
       /\ attendanceData (db w') = foldl upsertData (attendanceData (db w)) results.
Proof.
  unfold computeAttendanceForDay, dayResults. unfold Eff.bind at 1.
  destruct (dayRange (host e) dayStr) as [range|]; simpl.
  2:{ unfold throw. intros H. injection H as <- <-. split; [reflexivity|].
      split; [exists []; reflexivity|]. intros r H. discriminate. }
  unfold Eff.bind at 1.
  destruct (dbQuery e (selectDistinctPins range.1 range.2) w) as [[pins|x] w1] eqn:Hq;
    destruct (dbQuery_inv e _ w w1 _ Hq) as [Hdb Hpins].
  2:{ intros H. injection H as <- <-. rewrite Hdb. split; [reflexivity|].
      split; [exists []; reflexivity|]. intros r H. discriminate. }
  rewrite (Hpins pins eq_refl). intros H.
  destruct (collect_pins_inv e dayStr range.1 range.2 _ w1 w' out H)
    as (Hp & Hl & Hres).
  rewrite Hdb in Hp, Hl, Hres. split; [exact Hp|]. split; [exact Hl|].
  intros results Hr. destruct (Hres results Hr) as [-> Hd]. split; [reflexivity|exact Hd].
Qed.

(** The records of one day carry distinct keys. *)
Lemma dayResults_keys (e : Env) (dayStr : string) (d : Db)
  (results : list AttendanceData.t) :
  dayResults e dayStr d = Some results -> NoDup (map keyOf results).
Proof.
  unfold dayResults. destruct (dayRange (host e) dayStr) as [range|]; [|discriminate].
  simpl. intros H. injection H as <-. unfold selectDistinctPins.
  pose proof (distinct_NoDup (map Parser.pin
                (List.filter (inRange range.1 range.2) (punch d)))) as Hnd.
  induction Hnd as [|pin pins Hn Hnd IH]; csimpl; [constructor|].
  destruct (attendanceOf e pin dayStr _) as [a|] eqn:Ha; [|exact IH].
  csimpl. constructor; [|exact IH].
  rewrite (attendanceOf_key e pin dayStr _ a Ha).
  intros Hin. apply list_elem_of_fmap in Hin as (b & Hb & Hin).
  apply list_elem_of_omap in Hin as (p & Hp & Hpb).
  apply attendanceOf_key in Hpb. rewrite Hpb in Hb. injection Hb as ->.
  contradiction.
Qed.

Lemma dbQuery_accepting {A} (e : Env) (q : Db -> A) (w : World) :
  accepting e ->
  dbQuery e q w
  = (Ret (q (db w)),
     mkWorld (db w) (deviceCache w) (S (calls w)) (issued w) (posted w)).
Proof. intros H. unfold dbQuery, tickOf. rewrite H. reflexivity. Qed.

Lemma dbWrite_accepting (e : Env) (s : Stmt) (w : World) (d : Db) :
  accepting e ->
  exec (stamp (oracle e (calls w))) s (db w) = Some d ->
  dbWrite e s w
  = (Ret tt, mkWorld d (deviceCache w) (S (calls w)) (issued w ++ [s]) (posted w)).
Proof. intros H E. unfold dbWrite, tickOf. rewrite H, E. reflexivity. Qed.

(** With an accepting database the aggregation of a readable day returns. *)
Lemma attendanceForPin_accepting (e : Env) (dayStr s en pin : string) (w : World) :
  accepting e ->
  exists o w', attendanceForPin e dayStr s en pin w = (Ret o, w').
Proof.
  intros Hacc. unfold attendanceForPin. unfold Eff.bind at 1.
  rewrite (dbQuery_accepting e _ w Hacc).
  destruct (attendanceOf e pin dayStr _) as [a|]; [|unfold ret; eauto].
  unfold Eff.bind at 1. rewrite (dbQuery_accepting e _ _ Hacc).
  unfold Eff.bind at 1. cbn [db].
  destruct (selectAttendance pin dayStr (db w));
    erewrite (dbWrite_accepting e _ _ _ Hacc) by reflexivity;
    unfold Eff.bind; destruct (callbackSet e); unfold postCallback, ret; eauto.
Qed.

Lemma collect_accepting (e : Env) (dayStr s en : string) (pins : list string) :
  accepting e ->
  forall w, exists results w',
    collect pins (attendanceForPin e dayStr s en) w = (Ret results, w').
Proof.
  intros Hacc. induction pins as [|pin pins IH]; intros w; cbn [collect].
  - unfold ret. eauto.
  - unfold Eff.bind.
    destruct (attendanceForPin_accepting e dayStr s en pin w Hacc) as (o & w1 & ->).
    destruct (IH w1) as (rest & w2 & ->). unfold ret. eauto.
Qed.

Lemma computeAttendanceForDay_accepting (e : Env) (dayStr : string) (w : World) :
  accepting e ->
  is_Some (Attendance.dayRange (host e) dayStr) ->
  exists results w', computeAttendanceForDay e dayStr w = (Ret results, w').
Proof.
  intros Hacc [range Hr]. unfold computeAttendanceForDay. rewrite Hr.
  unfold orThrow. unfold Eff.bind at 1. unfold ret at 1.
  unfold Eff.bind at 1. rewrite (dbQuery_accepting e _ w Hacc).
  apply collect_accepting, Hacc.
Qed.

Lemma repeatCompute_accepting (e : Env) (dayStr : string) (n : nat) :
  accepting e ->
  is_Some (Attendance.dayRange (host e) dayStr) ->
  forall w, exists rs w', repeatCompute e dayStr n w = (Ret rs, w').
Proof.
  intros Hacc Hr. induction n as [|n IH]; intros w; cbn [repeatCompute].
  - unfold ret. eauto.
  - unfold Eff.bind.
    destruct (computeAttendanceForDay_accepting e dayStr w Hacc Hr) as (r & w1 & ->).
    destruct (IH w1) as (rs & w2 & ->). unfold ret. eauto.
Qed.

(** From a state in which the records of the day are stored, every further
    call returns them again and changes no column. *)
Lemma repeatCompute_settled (e : Env) (dayStr : string)
  (results : list AttendanceData.t) (n : nat) :
  forall (w w' : World) (rs : list (list AttendanceData.t)),
    dayResults e dayStr (db w) = Some results ->
    Forall (fun a => stored a (attendanceData (db w))) results ->
    repeatCompute e dayStr n w = (Ret rs, w') ->
    rs = replicate n results
    /\ attendanceData (db w') = attendanceData (db w)
    /\ punch (db w') = punch (db w).
Proof.
  induction n as [|n IH]; intros w w' rs Hres Hst; cbn [repeatCompute].
  - unfold ret. intros H. injection H as <- <-. repeat split.
  - unfold Eff.bind at 1.
    destruct (computeAttendanceForDay e dayStr w) as [[r|x] w1] eqn:H1; [|discriminate].
    destruct (computeAttendanceForDay_inv e dayStr w w1 _ H1) as (Hp & _ & Hr).
    destruct (Hr r eq_refl) as [Hr1 Hd1]. rewrite Hres in Hr1. injection Hr1 as <-.
    rewrite (upserts_fixed results _ Hst) in Hd1.
    unfold Eff.bind at 1.
    destruct (repeatCompute e dayStr n w1) as [[rs1|x] w2] eqn:H2; [|discriminate].
    unfold ret. intros H. injection H as <- <-.
    destruct (IH w1 w2 rs1) as (-> & Hd2 & Hp2); [| |exact H2|].
    + rewrite <- Hres. apply dayResults_punch. exact Hp.
    + rewrite Hd1. exact Hst.
    + split; [reflexivity|]. split; congruence.
Qed.

(** X26. For calls that run one after the other, with no other handler
    taking a turn before a call has ended: a call of
    [computeAttendanceForDay] only reads the punch table and keeps the
    attendance table free of duplicate (pin, day) keys, whatever its
    outcome. Any number of successive calls for the same day return the
    same records, namely those determined by the punch table; after the
    first call each record is stored, and every later call overwrites the
    stored rows with the same values, so that the columns of the table and
    the number of its rows no longer change. With an accepting database
    the calls do return. *)
Theorem reaggregation_in_turn_is_idempotent (e : Env) (dayStr : string) (w : World) :
  (forall out w',
     computeAttendanceForDay e dayStr w = (out, w') ->
     punch (db w') = punch (db w)
     /\ (uniqueKeys (db w) -> uniqueKeys (db w')))
  /\ (forall n rs w',
        repeatCompute e dayStr (S n) w = (Ret rs, w') ->
        exists results w1,
          computeAttendanceForDay e dayStr w = (Ret results, w1)
          /\ dayResults e dayStr (db w) = Some results
          /\ rs = replicate (S n) results
          /\ attendanceData (db w') = attendanceData (db w1)
          /\ Forall (fun a => stored a (attendanceData (db w'))) results
          /\ (uniqueKeys (db w) -> uniqueKeys (db w')))
  /\ (accepting e -> is_Some (Attendance.dayRange (host e) dayStr) ->
      forall n, exists rs w', repeatCompute e dayStr n w = (Ret rs, w')).
Proof.
  split; [|split].
  - intros out w' H.
    destruct (computeAttendanceForDay_inv e dayStr w w' out H) as (Hp & (l & Hl) & _).
    split; [exact Hp|]. unfold uniqueKeys. rewrite Hl. apply upserts_unique.
  - intros n rs w'. cbn [repeatCompute]. unfold Eff.bind at 1.
    destruct (computeAttendanceForDay e dayStr w) as [[r|x] w1] eqn:H1; [|discriminate].
    destruct (computeAttendanceForDay_inv e dayStr w w1 _ H1) as (Hp & _ & Hr).
    destruct (Hr r eq_refl) as [Hres Hd1].
    pose proof (dayResults_keys e dayStr (db w) r Hres) as Hnd.
    assert (Hst : Forall (fun a => stored a (attendanceData (db w1))) r).
    { rewrite Hd1. apply upserts_stored, Hnd. }
    unfold Eff.bind at 1.
    destruct (repeatCompute e dayStr n w1) as [[rs1|x] w2] eqn:H2; [|discriminate].
    unfold ret. intros H. injection H as <- <-.
    destruct (repeatCompute_settled e dayStr r n w1 w2 rs1) as (-> & Hd2 & Hp2);
      [|exact Hst|exact H2|].
    + rewrite <- Hres. apply dayResults_punch. exact Hp.
    + exists r, w1. repeat split; [exact Hres|exact Hd2|rewrite Hd2; exact Hst|].
      unfold uniqueKeys. rewrite Hd2, Hd1. apply upserts_unique.
  - intros Hacc Hr n. apply repeatCompute_accepting; assumption.
Qed.

Lemma reaggregation_in_turn_is_idempotent_witness :
  exists results w1 w',
    computeAttendanceForDay (plainEnv utcHost) "2024-03-05" sampleDay
    = (Ret results, w1)
    /\ repeatCompute (plainEnv utcHost) "2024-03-05" 3 sampleDay
       = (Ret [results; results; results], w')
    /\ attendanceData (db w') = attendanceData (db w1)
    /\ uniqueKeys (db w').
Proof.
  destruct (reaggregation_in_turn_is_idempotent (plainEnv utcHost) "2024-03-05" sampleDay)
    as (_ & HB & HC).
  destruct (HC (fun _ => eq_refl) ltac:(vm_compute; eauto) 3%nat) as (rs & w' & Hrun).
  destruct (HB 2%nat rs w' Hrun) as (results & w1 & H1 & _ & -> & Hd & _ & Hu).
  exists results, w1, w'. split; [exact H1|]. split; [exact Hrun|].
  split; [exact Hd|]. apply Hu. constructor.
Defined.

End Reaggregation.

(* ===================================================================== *)
(** * Calendar arithmetic *)
(* ===================================================================== *)

Section Calendar.
Import JSDate.

Lemma leap_step4 (y : Z) :
  (y - 1968) / 4 - (y - 1969) / 4 = if y mod 4 =? 0 then 1 else 0.
Proof.
  destruct (y mod 4 =? 0) eqn:H; rewrite ?Z.eqb_eq, ?Z.eqb_neq in H;
    Z.div_mod_to_equations; lia.
Qed.

Lemma leap_step100 (y : Z) :
  (y - 1900) / 100 - (y - 1901) / 100 = if y mod 100 =? 0 then 1 else 0.
Proof.
  destruct (y mod 100 =? 0) eqn:H; rewrite ?Z.eqb_eq, ?Z.eqb_neq in H;
    Z.div_mod_to_equations; lia.
Qed.

Lemma leap_step400 (y : Z) :
  (y - 1600) / 400 - (y - 1601) / 400 = if y mod 400 =? 0 then 1 else 0.
Proof.
  destruct (y mod 400 =? 0) eqn:H; rewrite ?Z.eqb_eq, ?Z.eqb_neq in H;
    Z.div_mod_to_equations; lia.
Qed.

Lemma mod100_mod4 (y : Z) : y mod 100 = 0 -> y mod 4 = 0.
Proof. intros. Z.div_mod_to_equations. lia. Qed.

Lemma mod400_mod100 (y : Z) : y mod 400 = 0 -> y mod 100 = 0.
Proof. intros. Z.div_mod_to_equations. lia. Qed.

(** The first day of the next year comes one year length later. *)
Lemma DayFromYear_succ (y : Z) :
  DayFromYear (y + 1) = DayFromYear y + DaysInYear y.
Proof.
  unfold DayFromYear, DaysInYear, isLeapYear.
  replace (y + 1 - 1969) with (y - 1968) by lia.
  replace (y + 1 - 1901) with (y - 1900) by lia.
  replace (y + 1 - 1601) with (y - 1600) by lia.
  pose proof (leap_step4 y) as H4. pose proof (leap_step100 y) as H100.
  pose proof (leap_step400 y) as H400.
  destruct (y mod 4 =? 0) eqn:E4; destruct (y mod 100 =? 0) eqn:E100;
    destruct (y mod 400 =? 0) eqn:E400; simpl;
    rewrite ?Z.eqb_eq, ?Z.eqb_neq in *;
    try lia;
    try (pose proof (mod400_mod100 y); pose proof (mod100_mod4 y); tauto).
Qed.

Lemma DaysInYear_leap (y : Z) : DaysInYear y = 365 + InLeapYear y.
Proof. unfold DaysInYear, InLeapYear. destruct (isLeapYear y); reflexivity. Qed.

Lemma InLeapYear_range (y : Z) : InLeapYear y = 0 \/ InLeapYear y = 1.
Proof. unfold InLeapYear. destruct (isLeapYear y); auto. Qed.

Lemma DayFromYear_bounds (y : Z) :
  146097 * (y - 1970) - 506 <= 400 * DayFromYear y <= 146097 * (y - 1970) + 589.
Proof. unfold DayFromYear. Z.div_mod_to_equations. lia. Qed.

(** [YearFromDay d] is the year that contains day [d]. *)
Lemma year_bracket (d : Z) :
  DayFromYear (YearFromDay d) <= d < DayFromYear (YearFromDay d + 1).
Proof.
  unfold YearFromDay.
  set (y := 1970 + 400 * d / 146097).
  assert (Hy : 146097 * (y - 1970) <= 400 * d < 146097 * (y - 1970) + 146097).
  { unfold y. Z.div_mod_to_equations. lia. }
  pose proof (DayFromYear_bounds (y - 1)).
  pose proof (DayFromYear_bounds (y + 2)).
  destruct (d <? DayFromYear y) eqn:H1.
  - apply Z.ltb_lt in H1. replace (y - 1 + 1) with y by lia. lia.
  - apply Z.ltb_ge in H1.
    destruct (DayFromYear (y + 1) <=? d) eqn:H2.
    + apply Z.leb_le in H2. replace (y + 1 + 1) with (y + 2) by lia. lia.
    + apply Z.leb_gt in H2. lia.
Qed.

Lemma DayFromYear_mono (y y' : Z) : y <= y' -> DayFromYear y <= DayFromYear y'.
Proof.
  intros H. replace y' with (y + Z.of_nat (Z.to_nat (y' - y))) by lia.
  induction (Z.to_nat (y' - y)) as [|n IH]; [rewrite Z.add_0_r; lia|].
  replace (y + Z.of_nat (S n)) with (y + Z.of_nat n + 1) by lia.
  rewrite DayFromYear_succ, DaysInYear_leap.
  destruct (InLeapYear_range (y + Z.of_nat n)); lia.
Qed.

Lemma year_unique (y d : Z) :
  DayFromYear y <= d < DayFromYear (y + 1) -> YearFromDay d = y.
Proof.
  intros H. pose proof (year_bracket d) as B.
  destruct (Z.lt_trichotomy (YearFromDay d) y) as [Hlt|[Heq|Hgt]]; [|exact Heq|].
  - pose proof (DayFromYear_mono (YearFromDay d + 1) y). lia.
  - pose proof (DayFromYear_mono (y + 1) (YearFromDay d)). lia.
Qed.

Lemma DayWithinYear_range (d : Z) :
  0 <= DayWithinYear d < 365 + InLeapYear (YearFromDay d).
Proof.
  unfold DayWithinYear. pose proof (year_bracket d) as B.
  rewrite DayFromYear_succ, DaysInYear_leap in B. lia.
Qed.

Lemma daysBeforeMonth_succ (leap m : Z) :
  0 <= m <= 10 ->
  daysBeforeMonth leap (m + 1) = daysBeforeMonth leap m + daysInMonth leap m.
Proof.
  intros H.
  assert (Hm : m = 0 \/ m = 1 \/ m = 2 \/ m = 3 \/ m = 4 \/ m = 5 \/ m = 6
               \/ m = 7 \/ m = 8 \/ m = 9 \/ m = 10) by lia.
  repeat (destruct Hm as [->|Hm]; [simpl; lia|]). subst m. simpl. lia.
Qed.

(** The month found for a day of the year is the one that contains it. *)
Lemma monthOfYearDay_spec (leap dwy : Z) :
  0 <= dwy < 365 + leap ->
  let m := monthOfYearDay leap dwy in
  0 <= m <= 11
  /\ daysBeforeMonth leap m <= dwy < daysBeforeMonth leap m + daysInMonth leap m.
Proof.
  intros H. unfold monthOfYearDay.
  repeat match goal with
         | |- context [?a <? ?b] =>
             destruct (Z.ltb_spec a b); [simpl; lia|]
         end.
  simpl. lia.
Qed.

(** Conversely, a day inside month [m] is found in month [m]. *)
Lemma monthOfYearDay_unique (leap m dd : Z) :
  leap = 0 \/ leap = 1 ->
  0 <= m <= 11 -> 1 <= dd <= daysInMonth leap m ->
  monthOfYearDay leap (daysBeforeMonth leap m + dd - 1) = m.
Proof.
  intros Hl Hm Hd.
  assert (Hm' : m = 0 \/ m = 1 \/ m = 2 \/ m = 3 \/ m = 4 \/ m = 5 \/ m = 6
               \/ m = 7 \/ m = 8 \/ m = 9 \/ m = 10 \/ m = 11) by lia.
  unfold monthOfYearDay.
  repeat (destruct Hm' as [->|Hm']; [
    simpl in *;
    repeat match goal with
           | |- context [?a <? ?b] => destruct (Z.ltb_spec a b); try lia
           end|]).
  subst m. simpl in *.
  repeat match goal with
         | |- context [?a <? ?b] => destruct (Z.ltb_spec a b); try lia
         end.
Qed.

Lemma MonthFromDay_range (d : Z) : 0 <= MonthFromDay d <= 11.
Proof.
  unfold MonthFromDay.
  apply (monthOfYearDay_spec _ _ (DayWithinYear_range d)).
Qed.

Lemma DateFromDay_range (d : Z) :
  1 <= DateFromDay d
    <= daysInMonth (InLeapYear (YearFromDay d)) (MonthFromDay d).
Proof.
  unfold DateFromDay, MonthFromDay.
  pose proof (monthOfYearDay_spec _ _ (DayWithinYear_range d)) as [_ H]. lia.
Qed.

Lemma daysInMonth_le31 (leap m : Z) :
  leap = 0 \/ leap = 1 -> daysInMonth leap m <= 31.
Proof.
  intros Hl. unfold daysInMonth.
  destruct m as [|p|p]; try lia.
  do 4 (try (destruct p as [p|p|]; try lia)).
Qed.

(** A day number is rebuilt from its calendar fields. *)
Lemma MakeDay_fields (d : Z) :
  MakeDay (YearFromDay d) (MonthFromDay d) (DateFromDay d) = d.
Proof.
  unfold MakeDay. pose proof (MonthFromDay_range d) as Hm.
  rewrite (Z.div_small (MonthFromDay d) 12), (Z.mod_small (MonthFromDay d) 12) by lia.
  rewrite Z.add_0_r. unfold DateFromDay, DayWithinYear. lia.
Qed.

(** The calendar fields of a date are found again in its day number. *)
Lemma fields_MakeDay (y m dd : Z) :
  0 <= m <= 11 -> 1 <= dd <= daysInMonth (InLeapYear y) m ->
  YearFromDay (MakeDay y m dd) = y
  /\ MonthFromDay (MakeDay y m dd) = m
  /\ DateFromDay (MakeDay y m dd) = dd.
Proof.
  intros Hm Hd. unfold MakeDay.
  rewrite (Z.div_small m 12), (Z.mod_small m 12), Z.add_0_r by lia.
  set (d := DayFromYear y + daysBeforeMonth (InLeapYear y) m + dd - 1).
  pose proof (InLeapYear_range y) as Hl.
  assert (Hb : 0 <= daysBeforeMonth (InLeapYear y) m + dd - 1 < 365 + InLeapYear y).
  { assert (Hm' : m = 0 \/ m = 1 \/ m = 2 \/ m = 3 \/ m = 4 \/ m = 5 \/ m = 6
               \/ m = 7 \/ m = 8 \/ m = 9 \/ m = 10 \/ m = 11) by lia.
    repeat (destruct Hm' as [->|Hm']; [simpl in *; lia|]).
    subst m. simpl in *. lia. }
  assert (Hy : YearFromDay d = y).
  { apply year_unique. rewrite DayFromYear_succ, DaysInYear_leap. unfold d. lia. }
  assert (Hmo : MonthFromDay d = m).
  { unfold MonthFromDay, DayWithinYear. rewrite Hy.
    replace (d - DayFromYear y)
      with (daysBeforeMonth (InLeapYear y) m + dd - 1) by (unfold d; lia).
    apply monthOfYearDay_unique; assumption. }
  split; [exact Hy|]. split; [exact Hmo|].
  unfold DateFromDay. rewrite Hmo. unfold DayWithinYear. rewrite Hy. unfold d. lia.
Qed.

End Calendar.

(* ===================================================================== *)
(** * Decimal fields and text order *)
(* ===================================================================== *)

Section Digits.
Import JSString JSDate.

Lemma code_digitChar (n : Z) : code (digitChar n) = 48 + n mod 10.
Proof.
  unfold code, digitChar. pose proof (Z.mod_pos_bound n 10 ltac:(lia)) as H.
  rewrite N_ascii_embedding; lia.
Qed.

Lemma isDigit_digitChar (n : Z) : isDigit (digitChar n) = true.
Proof.
  unfold isDigit. rewrite code_digitChar.
  pose proof (Z.mod_pos_bound n 10 ltac:(lia)). lia.
Qed.

Lemma digitVal_digitChar (n : Z) : digitVal (digitChar n) = n mod 10.
Proof. unfold digitVal. rewrite code_digitChar. lia. Qed.

Lemma compare_code (a b : ascii) : Ascii.compare a b = (code a ?= code b).
Proof. unfold Ascii.compare, code. rewrite N2Z.inj_compare. reflexivity. Qed.

Lemma compare_digitChar (a b : Z) :
  Ascii.compare (digitChar a) (digitChar b) = (a mod 10 ?= b mod 10).
Proof.
  rewrite compare_code, !code_digitChar.
  destruct (Z.compare_spec (a mod 10) (b mod 10));
    [apply Z.compare_eq_iff|apply Z.compare_lt_iff|apply Z.compare_gt_iff]; lia.
Qed.

Lemma compare_refl (s : string) : String.compare s s = Eq.
Proof.
  induction s as [|c s IH]; simpl; [reflexivity|].
  rewrite compare_code, Z.compare_refl. exact IH.
Qed.

Lemma lexc_match (c x : comparison) :
  match c with Eq => x | Lt => Lt | Gt => Gt end = lexc c x.
Proof. destruct c; reflexivity. Qed.

(** Text order on two strings that start with pieces of equal length. *)
Lemma compare_app (a1 a2 r1 r2 : string) :
  String.length a1 = String.length a2 ->
  String.compare (a1 +:+ r1) (a2 +:+ r2)
  = lexc (String.compare a1 a2) (String.compare r1 r2).
Proof.
  revert a2. induction a1 as [|c a1 IH]; intros [|c' a2] H; simpl in *;
    try discriminate; [reflexivity|].
  destruct (Ascii.compare c c'); [|reflexivity|reflexivity].
  apply IH. lia.
Qed.

(** Lexicographic order on quotient and remainder is the numeric order. *)
Lemma lexc_divmod (b q1 r1 q2 r2 : Z) :
  0 <= r1 < b -> 0 <= r2 < b ->
  lexc (q1 ?= q2) (r1 ?= r2) = (q1 * b + r1 ?= q2 * b + r2).
Proof.
  intros H1 H2. unfold lexc.
  destruct (Z.compare_spec q1 q2) as [->|Hlt|Hgt].
  - destruct (Z.compare_spec r1 r2); symmetry;
      [apply Z.compare_eq_iff|apply Z.compare_lt_iff|apply Z.compare_gt_iff]; lia.
  - symmetry. apply Z.compare_lt_iff. nia.
  - symmetry. apply Z.compare_gt_iff. nia.
Qed.

Lemma digitsOf_length (w : nat) (n : Z) : String.length (digitsOf w n) = w.
Proof. induction w as [|w IH]; simpl; [reflexivity|]. rewrite IH. reflexivity. Qed.

Lemma pow10_pos (w : nat) : 0 < 10 ^ Z.of_nat w.
Proof. apply Z.pow_pos_nonneg; lia. Qed.

Lemma pow10_succ (w : nat) : 10 ^ Z.of_nat (S w) = 10 * 10 ^ Z.of_nat w.
Proof. rewrite Nat2Z.inj_succ, Z.pow_succ_r; lia. Qed.

(** Only the [w] low digits of [n] matter. *)
Lemma digitsOf_mod (w : nat) (n : Z) :
  digitsOf w n = digitsOf w (n mod 10 ^ Z.of_nat w).
Proof.
  revert n. induction w as [|w IH]; intros n; simpl digitsOf; [reflexivity|].
  pose proof (pow10_pos w) as Hp. f_equal.
  - unfold digitChar. do 3 f_equal. rewrite pow10_succ.
    rewrite (Z.mul_comm 10), Z.rem_mul_r by lia.
    rewrite (Z.mul_comm (10 ^ Z.of_nat w)), Z.div_add by lia.
    rewrite (Z.div_small (n mod 10 ^ Z.of_nat w)) by (apply Z.mod_pos_bound; lia).
    rewrite Z.add_0_l, Z.mod_mod by lia. reflexivity.
  - rewrite IH, (IH (n mod 10 ^ Z.of_nat (S w))). f_equal.
    rewrite pow10_succ, (Z.mul_comm 10), Z.rem_mul_r by lia.
    rewrite (Z.mul_comm (10 ^ Z.of_nat w)), Z.mod_add by lia.
    rewrite Z.mod_mod by lia. reflexivity.
Qed.

(** Text order on fields of equal width is the numeric order. *)
Lemma compare_digitsOf (w : nat) :
  forall a b, 0 <= a < 10 ^ Z.of_nat w -> 0 <= b < 10 ^ Z.of_nat w ->
              String.compare (digitsOf w a) (digitsOf w b) = (a ?= b).
Proof.
  induction w as [|w IH]; intros a b Ha Hb.
  - simpl in *. assert (a = 0) by lia. assert (b = 0) by lia. subst. reflexivity.
  - pose proof (pow10_pos w) as Hp. rewrite pow10_succ in Ha, Hb.
    simpl digitsOf. simpl String.compare. rewrite compare_digitChar.
    rewrite (digitsOf_mod w a), (digitsOf_mod w b).
    rewrite IH by (apply Z.mod_pos_bound; lia).
    assert (Hqa : 0 <= a / 10 ^ Z.of_nat w < 10).
    { split; [apply Z.div_pos; lia|apply Z.div_lt_upper_bound; lia]. }
    assert (Hqb : 0 <= b / 10 ^ Z.of_nat w < 10).
    { split; [apply Z.div_pos; lia|apply Z.div_lt_upper_bound; lia]. }
    rewrite !Z.mod_small by assumption.
    rewrite lexc_match.
    rewrite (lexc_divmod (10 ^ Z.of_nat w)) by (apply Z.mod_pos_bound; lia).
    rewrite <- !(Z.mul_comm (10 ^ Z.of_nat w)), <- !Z.div_mod by lia. reflexivity.
Qed.

(** Reading a field back gives its number. *)
Lemma digitsN_digitsOf (w : nat) :
  forall n acc rest, 0 <= n < 10 ^ Z.of_nat w ->
    digitsN w acc (digitsOf w n +:+ rest) = Some (acc * 10 ^ Z.of_nat w + n, rest).
Proof.
  induction w as [|w IH]; intros n acc rest Hn.
  - simpl in *. assert (n = 0) by lia. subst. do 2 f_equal. lia.
  - pose proof (pow10_pos w) as Hp. rewrite pow10_succ in Hn.
    simpl digitsOf. simpl. rewrite isDigit_digitChar, digitVal_digitChar.
    rewrite (digitsOf_mod w n), IH by (apply Z.mod_pos_bound; lia).
    do 2 f_equal. rewrite pow10_succ.
    assert (Hq : 0 <= n / 10 ^ Z.of_nat w < 10).
    { split; [apply Z.div_pos; lia|apply Z.div_lt_upper_bound; lia]. }
    rewrite (Z.mod_small _ 10) by assumption.
    pose proof (Z.div_mod n (10 ^ Z.of_nat w) ltac:(lia)). nia.
Qed.

Lemma pad2_digitsOf (n : Z) : pad2 n = digitsOf 2 n.
Proof. unfold pad2. simpl. rewrite Z.div_1_r. reflexivity. Qed.

Lemma pad3_digitsOf (n : Z) : pad3 n = digitsOf 3 n.
Proof. unfold pad3. rewrite pad2_digitsOf. reflexivity. Qed.

Lemma pad4_digitsOf (n : Z) : pad4 n = digitsOf 4 n.
Proof. unfold pad4. rewrite pad3_digitsOf. reflexivity. Qed.

End Digits.

(* ===================================================================== *)
(** * The canonical rendering of instants *)
(* ===================================================================== *)

Section Rendering.
Import JSString JSDate.

Lemma append_nil (s : string) : EmptyString +:+ s = s.
Proof. reflexivity. Qed.

Lemma append_cons (c : ascii) (a b : string) :
  String c a +:+ b = String c (a +:+ b).
Proof. reflexivity. Qed.

Lemma append_nil_r (s : string) : s +:+ EmptyString = s.
Proof.
  induction s as [|c s IH]; [reflexivity|]. rewrite append_cons. f_equal. exact IH.
Qed.

Lemma append_assoc (a b c : string) : (a +:+ b) +:+ c = a +:+ (b +:+ c).
Proof.
  induction a as [|x a IH]; [reflexivity|].
  rewrite !append_cons. f_equal. exact IH.
Qed.

Lemma append_length (a b : string) :
  String.length (a +:+ b) = (String.length a + String.length b)%nat.
Proof.
  induction a as [|x a IH]; [reflexivity|].
  rewrite append_cons. simpl. f_equal. exact IH.
Qed.

Lemma compare_cons_same (c : ascii) (r1 r2 : string) :
  String.compare (String c r1) (String c r2) = String.compare r1 r2.
Proof. simpl. rewrite compare_code, Z.compare_refl. reflexivity. Qed.

Lemma compare_cons (c1 c2 : ascii) (r1 r2 : string) :
  String.compare (String c1 r1) (String c2 r2)
  = lexc (Ascii.compare c1 c2) (String.compare r1 r2).
Proof. cbn [String.compare]. apply lexc_match. Qed.

Lemma lexc_Eq_r (c : comparison) : lexc c Eq = c.
Proof. destruct c; reflexivity. Qed.

Lemma compare_pad2 (a b : Z) :
  0 <= a < 100 -> 0 <= b < 100 -> String.compare (pad2 a) (pad2 b) = (a ?= b).
Proof. intros. rewrite !pad2_digitsOf. apply (compare_digitsOf 2); assumption. Qed.

Lemma compare_pad3 (a b : Z) :
  0 <= a < 1000 -> 0 <= b < 1000 -> String.compare (pad3 a) (pad3 b) = (a ?= b).
Proof. intros. rewrite !pad3_digitsOf. apply (compare_digitsOf 3); assumption. Qed.

Lemma compare_pad4 (a b : Z) :
  0 <= a < 10000 -> 0 <= b < 10000 -> String.compare (pad4 a) (pad4 b) = (a ?= b).
Proof. intros. rewrite !pad4_digitsOf. apply (compare_digitsOf 4); assumption. Qed.

Lemma pad2_length (n : Z) : String.length (pad2 n) = 2%nat.
Proof. reflexivity. Qed.

Lemma pad4_length (n : Z) : String.length (pad4 n) = 4%nat.
Proof. reflexivity. Qed.

(** ** Time of day *)

Lemma time_fields (x : Z) :
  0 <= x < msPerDay ->
  0 <= HourFromTime x <= 23 /\ 0 <= MinFromTime x <= 59
  /\ 0 <= SecFromTime x <= 59 /\ 0 <= msFromTime x <= 999
  /\ MakeTime (HourFromTime x) (MinFromTime x) (SecFromTime x) (msFromTime x) = x.
Proof.
  unfold msPerDay, HourFromTime, MinFromTime, SecFromTime, msFromTime, MakeTime,
    msPerHour, msPerMinute, msPerSecond.
  intros H. Z.div_mod_to_equations. lia.
Qed.

Lemma MakeTime_fields (h mi s ms : Z) :
  0 <= h <= 23 -> 0 <= mi <= 59 -> 0 <= s <= 59 -> 0 <= ms <= 999 ->
  let x := MakeTime h mi s ms in
  0 <= x < msPerDay
  /\ HourFromTime x = h /\ MinFromTime x = mi /\ SecFromTime x = s
  /\ msFromTime x = ms.
Proof.
  unfold msPerDay, HourFromTime, MinFromTime, SecFromTime, msFromTime, MakeTime,
    msPerHour, msPerMinute, msPerSecond.
  intros Hh Hm Hs Hms. Z.div_mod_to_equations. lia.
Qed.

Lemma timeString_length (x : Z) : String.length (timeString x) = 12%nat.
Proof. reflexivity. Qed.

(** Text order on times of day is their order. *)
Lemma compare_timeString (x1 x2 : Z) :
  0 <= x1 < msPerDay -> 0 <= x2 < msPerDay ->
  String.compare (timeString x1) (timeString x2) = (x1 ?= x2).
Proof.
  intros H1 H2.
  destruct (time_fields x1 H1) as (Hh1 & Hm1 & Hs1 & Hms1 & E1).
  destruct (time_fields x2 H2) as (Hh2 & Hm2 & Hs2 & Hms2 & E2).
  unfold timeString.
  rewrite compare_app by reflexivity.
  rewrite ?append_cons, ?append_nil, compare_cons_same.
  rewrite compare_app by reflexivity.
  rewrite ?append_cons, ?append_nil, compare_cons_same.
  rewrite compare_app by reflexivity.
  rewrite ?append_cons, ?append_nil, compare_cons_same.
  rewrite !compare_pad2, compare_pad3 by lia.
  rewrite (lexc_divmod 1000) by lia.
  rewrite (lexc_divmod 60000) by lia.
  rewrite (lexc_divmod 3600000) by lia.
  unfold MakeTime, msPerHour, msPerMinute, msPerSecond in E1, E2.
  f_equal; lia.
Qed.

(** ** Calendar dates *)

Lemma daysBeforeMonth_mono (leap a b : Z) :
  leap = 0 \/ leap = 1 -> 0 <= a -> a <= b -> b <= 11 ->
  daysBeforeMonth leap a <= daysBeforeMonth leap b.
Proof.
  intros Hl Ha Hab Hb.
  replace b with (a + Z.of_nat (Z.to_nat (b - a))) in * by lia.
  induction (Z.to_nat (b - a)) as [|n IH]; [rewrite Z.add_0_r; lia|].
  replace (a + Z.of_nat (S n)) with (a + Z.of_nat n + 1) in * by lia.
  rewrite daysBeforeMonth_succ by lia.
  assert (0 <= daysInMonth leap (a + Z.of_nat n)).
  { unfold daysInMonth. destruct (a + Z.of_nat n) as [|p|p]; try lia.
    do 4 (try (destruct p as [p|p|]; try lia)). }
  specialize (IH ltac:(lia) ltac:(lia)). lia.
Qed.

(** Lexicographic order on year, month and day is the order of days. *)
Lemma compare_civil (d1 d2 : Z) :
  lexc (YearFromDay d1 ?= YearFromDay d2)
       (lexc (MonthFromDay d1 + 1 ?= MonthFromDay d2 + 1)
             (DateFromDay d1 ?= DateFromDay d2))
  = (d1 ?= d2).
Proof.
  pose proof (MakeDay_fields d1) as E1. pose proof (MakeDay_fields d2) as E2.
  pose proof (MonthFromDay_range d1) as Hm1.
  pose proof (MonthFromDay_range d2) as Hm2.
  pose proof (DateFromDay_range d1) as Hd1.
  pose proof (DateFromDay_range d2) as Hd2.
  pose proof (year_bracket d1) as B1. pose proof (year_bracket d2) as B2.
  unfold MakeDay in E1, E2.
  rewrite (Z.div_small (MonthFromDay d1) 12), (Z.mod_small (MonthFromDay d1) 12),
    Z.add_0_r in E1 by lia.
  rewrite (Z.div_small (MonthFromDay d2) 12), (Z.mod_small (MonthFromDay d2) 12),
    Z.add_0_r in E2 by lia.
  set (Y1 := YearFromDay d1) in *. set (Y2 := YearFromDay d2) in *.
  set (M1 := MonthFromDay d1) in *. set (M2 := MonthFromDay d2) in *.
  set (D1 := DateFromDay d1) in *. set (D2 := DateFromDay d2) in *.
  unfold lexc. destruct (Z.compare_spec Y1 Y2) as [HY|HY|HY].
  - rewrite HY in *. pose proof (InLeapYear_range Y2) as Hl.
    destruct (Z.compare_spec (M1 + 1) (M2 + 1)) as [HM|HM|HM].
    + assert (M1 = M2) by lia. subst M1. rewrite H in *.
      destruct (Z.compare_spec D1 D2); symmetry;
        [apply Z.compare_eq_iff|apply Z.compare_lt_iff|apply Z.compare_gt_iff]; lia.
    + symmetry. apply Z.compare_lt_iff.
      pose proof (daysBeforeMonth_mono (InLeapYear Y2) (M1 + 1) M2 Hl).
      rewrite daysBeforeMonth_succ in H by lia. lia.
    + symmetry. apply Z.compare_gt_iff.
      pose proof (daysBeforeMonth_mono (InLeapYear Y2) (M2 + 1) M1 Hl).
      rewrite daysBeforeMonth_succ in H by lia. lia.
  - symmetry. apply Z.compare_lt_iff.
    pose proof (DayFromYear_mono (Y1 + 1) Y2). lia.
  - symmetry. apply Z.compare_gt_iff.
    pose proof (DayFromYear_mono (Y2 + 1) Y1). lia.
Qed.

Lemma dateString_fourDigit (d : Z) :
  0 <= YearFromDay d <= 9999 ->
  dateString d
  = pad4 (YearFromDay d) +:+ "-" +:+ pad2 (MonthFromDay d + 1) +:+ "-"
      +:+ pad2 (DateFromDay d).
Proof.
  intros H. unfold dateString, yearString.
  destruct (Z.leb_spec 0 (YearFromDay d)); [|lia].
  destruct (Z.leb_spec (YearFromDay d) 9999); [|lia]. reflexivity.
Qed.

Lemma dateString_length (d : Z) :
  0 <= YearFromDay d <= 9999 -> String.length (dateString d) = 10%nat.
Proof. intros H. rewrite (dateString_fourDigit d H). reflexivity. Qed.

(** Text order on four-digit dates is the order of days. *)
Lemma compare_dateString (d1 d2 : Z) :
  0 <= YearFromDay d1 <= 9999 -> 0 <= YearFromDay d2 <= 9999 ->
  String.compare (dateString d1) (dateString d2) = (d1 ?= d2).
Proof.
  intros H1 H2. rewrite (dateString_fourDigit d1 H1), (dateString_fourDigit d2 H2).
  pose proof (MonthFromDay_range d1). pose proof (MonthFromDay_range d2).
  pose proof (DateFromDay_range d1) as Hd1. pose proof (DateFromDay_range d2) as Hd2.
  pose proof (daysInMonth_le31 _ (MonthFromDay d1) (InLeapYear_range (YearFromDay d1))).
  pose proof (daysInMonth_le31 _ (MonthFromDay d2) (InLeapYear_range (YearFromDay d2))).
  rewrite compare_app by reflexivity.
  rewrite ?append_cons, ?append_nil, compare_cons_same.
  rewrite compare_app by reflexivity.
  rewrite ?append_cons, ?append_nil, compare_cons_same.
  rewrite compare_pad4, !compare_pad2 by lia.
  apply compare_civil.
Qed.

Lemma Day_TimeWithinDay (t : Z) :
  t = Day t * msPerDay + TimeWithinDay t /\ 0 <= TimeWithinDay t < msPerDay.
Proof.
  unfold Day, TimeWithinDay, msPerDay. split.
  - rewrite Z.mul_comm. apply Z.div_mod. lia.
  - apply Z.mod_pos_bound. lia.
Qed.

(** Text order on canonical instant strings with four-digit years is the
    order of the instants. *)
Lemma compare_isoString (t1 t2 : Z) :
  fourDigitYear t1 -> fourDigitYear t2 ->
  String.compare (isoString t1) (isoString t2) = (t1 ?= t2).
Proof.
  unfold fourDigitYear, YearFromTime. intros H1 H2. unfold isoString.
  destruct (Day_TimeWithinDay t1) as [E1 R1].
  destruct (Day_TimeWithinDay t2) as [E2 R2].
  rewrite compare_app by (rewrite !dateString_length by assumption; reflexivity).
  rewrite ?append_cons, ?append_nil, compare_cons_same.
  rewrite compare_app by reflexivity.
  rewrite compare_refl, lexc_Eq_r.
  rewrite compare_dateString, compare_timeString by assumption.
  rewrite (lexc_divmod msPerDay) by assumption.
  rewrite <- E1, <- E2. reflexivity.
Qed.

Lemma leb_isoString (t1 t2 : Z) :
  fourDigitYear t1 -> fourDigitYear t2 ->
  String.leb (isoString t1) (isoString t2) = (t1 <=? t2).
Proof.
  intros H1 H2. unfold String.leb, Z.leb.
  rewrite (compare_isoString t1 t2 H1 H2). reflexivity.
Qed.

(** A canonical string whose year needs a sign sorts before every one
    with a four-digit year. *)
Lemma compare_isoString_signed (t t' : Z) :
  ~ fourDigitYear t -> fourDigitYear t' ->
  String.compare (isoString t) (isoString t') = Lt.
Proof.
  unfold fourDigitYear, YearFromTime. intros H H'. unfold isoString.
  rewrite (dateString_fourDigit (Day t') H'). unfold dateString, yearString.
  pose proof (Z.mod_pos_bound (YearFromDay (Day t') / 1000) 10 ltac:(lia)) as Hk.
  assert (Hsign : forall c r r', code c < 48 ->
            String.compare (String c r)
              (String (digitChar (YearFromDay (Day t') / 1000)) r') = Lt).
  { intros c r r' Hc. rewrite compare_cons, compare_code, code_digitChar.
    replace (code c ?= 48 + (YearFromDay (Day t') / 1000) mod 10) with Lt;
      [reflexivity|]. symmetry. apply Z.compare_lt_iff. lia. }
  unfold pad4. rewrite !append_cons.
  destruct (Z.leb_spec 0 (YearFromDay (Day t)));
    [destruct (Z.leb_spec (YearFromDay (Day t)) 9999); [lia|]|]; simpl andb; cbv iota.
  - destruct (Z.ltb_spec (YearFromDay (Day t)) 0); [lia|].
    rewrite !append_cons. apply Hsign. reflexivity.
  - destruct (Z.ltb_spec (YearFromDay (Day t)) 0); [|lia].
    rewrite !append_cons. apply Hsign. reflexivity.
Qed.

(** The instants with a four-digit year. *)
Lemma fourDigitYear_range (t : Z) :
  fourDigitYear t <-> -62167219200000 <= t < 253402300800000.
Proof.
  unfold fourDigitYear, YearFromTime.
  destruct (Day_TimeWithinDay t) as [E R]. unfold msPerDay in *.
  pose proof (year_bracket (Day t)) as B.
  assert (H0 : DayFromYear 0 = -719528) by reflexivity.
  assert (H1 : DayFromYear 10000 = 2932897) by reflexivity.
  split.
  - intros H.
    pose proof (DayFromYear_mono 0 (YearFromDay (Day t)) ltac:(lia)).
    pose proof (DayFromYear_mono (YearFromDay (Day t) + 1) 10000 ltac:(lia)). lia.
  - intros H.
    destruct (Z.lt_ge_cases (YearFromDay (Day t)) 0) as [Hneg|Hpos].
    + pose proof (DayFromYear_mono (YearFromDay (Day t) + 1) 0 ltac:(lia)). lia.
    + destruct (Z.le_gt_cases (YearFromDay (Day t)) 9999) as [Hle|Hgt]; [lia|].
      pose proof (DayFromYear_mono 10000 (YearFromDay (Day t)) ltac:(lia)). lia.
Qed.

End Rendering.

(* ===================================================================== *)
(** * Reading instants back *)
(* ===================================================================== *)

Section Reading.
Import JSString JSDate.

Lemma isoYear_digit (c : ascii) (r : string) :
  isDigit c = true -> isoYear (String c r) = digitsN 4 0 (String c r).
Proof.
  destruct c as [[] [] [] [] [] [] [] []]; intros H;
    first [reflexivity | vm_compute in H; discriminate H].
Qed.

Lemma expect_cons (c : ascii) (r : string) : expect c (String c r) = Some r.
Proof. unfold expect. rewrite Ascii.eqb_refl. reflexivity. Qed.

Lemma digitsN_pad2 (n : Z) (rest : string) :
  0 <= n < 100 -> digitsN 2 0 (pad2 n +:+ rest) = Some (n, rest).
Proof. intros H. rewrite pad2_digitsOf, (digitsN_digitsOf 2) by exact H. reflexivity. Qed.

Lemma digitsN_pad3 (n : Z) (rest : string) :
  0 <= n < 1000 -> digitsN 3 0 (pad3 n +:+ rest) = Some (n, rest).
Proof. intros H. rewrite pad3_digitsOf, (digitsN_digitsOf 3) by exact H. reflexivity. Qed.

Lemma isoYear_pad4 (n : Z) (rest : string) :
  0 <= n < 10000 -> isoYear (pad4 n +:+ rest) = Some (n, rest).
Proof.
  intros H. unfold pad4 at 1. rewrite append_cons.
  rewrite isoYear_digit by apply isDigit_digitChar.
  rewrite <- append_cons. change (String (digitChar (n / 1000)) (pad3 n)) with (pad4 n).
  rewrite pad4_digitsOf, (digitsN_digitsOf 4) by exact H. reflexivity.
Qed.

(** The three shapes the server hands to [new Date]. *)
Lemma parseIsoForm_date (y m d : Z) :
  0 <= y < 10000 -> 0 <= m < 100 -> 0 <= d < 100 ->
  parseIsoForm (dateLayout y m d) = Some (DateOnly y m d).
Proof.
  intros Hy Hm Hd. unfold parseIsoForm, dateLayout.
  rewrite isoYear_pad4 by exact Hy. cbn [mbind option_bind].
  rewrite append_cons, append_nil, expect_cons. cbn [mbind option_bind].
  rewrite digitsN_pad2 by exact Hm. cbn [mbind option_bind].
  rewrite append_cons, append_nil, expect_cons. cbn [mbind option_bind].
  rewrite <- (append_nil_r (pad2 d)), digitsN_pad2 by exact Hd. reflexivity.
Qed.

Lemma parseIsoForm_prefix (y m d : Z) (rest : string) :
  0 <= y < 10000 -> 0 <= m < 100 -> 0 <= d < 100 ->
  parseIsoForm (dateLayout y m d +:+ String "T" rest) = isoTime y m d rest.
Proof.
  intros Hy Hm Hd. unfold parseIsoForm, dateLayout.
  rewrite !append_assoc.
  rewrite isoYear_pad4 by exact Hy. cbn [mbind option_bind].
  rewrite append_cons, append_nil, expect_cons. cbn [mbind option_bind].
  rewrite digitsN_pad2 by exact Hm. cbn [mbind option_bind].
  rewrite append_cons, append_nil, expect_cons. cbn [mbind option_bind].
  rewrite digitsN_pad2 by exact Hd. reflexivity.
Qed.

Lemma isoTime_local (y m d h mi s : Z) :
  0 <= h < 100 -> 0 <= mi < 100 -> 0 <= s < 100 ->
  isoTime y m d (clockLayout h mi s) = Some (DateTime y m d h mi s 0 false).
Proof.
  intros Hh Hmi Hs. unfold isoTime, clockLayout.
  rewrite digitsN_pad2 by exact Hh. cbn [mbind option_bind].
  rewrite append_cons, append_nil, expect_cons. cbn [mbind option_bind].
  rewrite digitsN_pad2 by exact Hmi. cbn [mbind option_bind].
  rewrite append_cons, append_nil, expect_cons. cbn [mbind option_bind].
  rewrite <- (append_nil_r (pad2 s)), digitsN_pad2 by exact Hs. reflexivity.
Qed.

Lemma isoTime_utc (y m d h mi s ms : Z) :
  0 <= h < 100 -> 0 <= mi < 100 -> 0 <= s < 100 -> 0 <= ms < 1000 ->
  isoTime y m d (clockLayout h mi s +:+ "." +:+ pad3 ms +:+ "Z")
  = Some (DateTime y m d h mi s ms true).
Proof.
  intros Hh Hmi Hs Hms. unfold isoTime, clockLayout.
  rewrite !append_assoc.
  rewrite digitsN_pad2 by exact Hh. cbn [mbind option_bind].
  rewrite append_cons, append_nil, expect_cons. cbn [mbind option_bind].
  rewrite digitsN_pad2 by exact Hmi. cbn [mbind option_bind].
  rewrite append_cons, append_nil, expect_cons. cbn [mbind option_bind].
  rewrite digitsN_pad2 by exact Hs. cbn [mbind option_bind].
  rewrite append_cons, append_nil, expect_cons.
  rewrite digitsN_pad3 by exact Hms. reflexivity.
Qed.

(** The canonical layout is read back field by field. *)
Lemma parseIsoForm_layout (y m d h mi s ms : Z) :
  0 <= y < 10000 -> 0 <= m < 100 -> 0 <= d < 100 ->
  0 <= h < 100 -> 0 <= mi < 100 -> 0 <= s < 100 -> 0 <= ms < 1000 ->
  parseIsoForm (isoLayout y m d h mi s ms) = Some (DateTime y m d h mi s ms true).
Proof.
  intros. unfold isoLayout. rewrite (append_cons "T"), append_nil.
  rewrite parseIsoForm_prefix by assumption. apply isoTime_utc; assumption.
Qed.

(** The rendering of an instant with a four-digit year, field by field. *)
Lemma isoString_layout (t : Z) :
  fourDigitYear t ->
  isoString t
  = isoLayout (YearFromTime t) (MonthFromDay (Day t) + 1) (DateFromDay (Day t))
              (HourFromTime (TimeWithinDay t)) (MinFromTime (TimeWithinDay t))
              (SecFromTime (TimeWithinDay t)) (msFromTime (TimeWithinDay t)).
Proof.
  intros H. unfold isoString, isoLayout, dateLayout, clockLayout, timeString.
  rewrite (dateString_fourDigit (Day t) H). unfold YearFromTime.
  rewrite !append_assoc. reflexivity.
Qed.

(** Reading a rendered instant gives the instant back, on every host. *)
Lemma parse_isoString (h : Host) (t : Z) :
  fourDigitYear t -> parse h (isoString t) = Some t.
Proof.
  intros H. pose proof H as Hr. apply fourDigitYear_range in Hr.
  destruct (Day_TimeWithinDay t) as [E R].
  destruct (time_fields _ R) as (Hh & Hmi & Hs & Hms & Et).
  pose proof (MonthFromDay_range (Day t)) as Hm.
  pose proof (DateFromDay_range (Day t)) as Hd.
  pose proof (daysInMonth_le31 _ (MonthFromDay (Day t))
                (InLeapYear_range (YearFromDay (Day t)))) as H31.
  unfold parse. rewrite (isoString_layout t H).
  unfold fourDigitYear in H.
  rewrite parseIsoForm_layout by lia.
  unfold isoValue, validDay, validTime.
  repeat match goal with
         | |- context [?a <=? ?b] => destruct (Z.leb_spec a b); [|lia]
         end.
  cbn [andb orb]. rewrite Et. unfold YearFromTime.
  replace (MonthFromDay (Day t) + 1 - 1) with (MonthFromDay (Day t)) by lia.
  rewrite MakeDay_fields. unfold MakeDate. rewrite <- E.
  unfold TimeClip, maxTime. destruct (Z.leb_spec (Z.abs t) 8640000000000000); [reflexivity|lia].
Qed.

(** The rendering of the instant with given calendar fields is the layout
    of these fields. *)
Lemma isoString_utcInstant (y m d h mi s ms : Z) :
  0 <= y <= 9999 -> calendarDate y m d -> clockTime h mi s -> 0 <= ms <= 999 ->
  fourDigitYear (utcInstant y m d h mi s ms)
  /\ isoString (utcInstant y m d h mi s ms) = isoLayout y m d h mi s ms.
Proof.
  intros Hy [Hm Hd] (Hh & Hmi & Hs) Hms.
  destruct (MakeTime_fields h mi s ms Hh Hmi Hs Hms) as (Hx & Eh & Emi & Es & Ems).
  destruct (fields_MakeDay y (m - 1) d ltac:(lia) Hd) as (EY & EM & ED).
  set (t := utcInstant y m d h mi s ms).
  assert (HD : Day t = MakeDay y (m - 1) d /\ TimeWithinDay t = MakeTime h mi s ms).
  { unfold t, utcInstant, MakeDate, Day, TimeWithinDay. unfold msPerDay in *.
    split.
    - rewrite Z.add_comm, Z.div_add by lia. rewrite Z.div_small by lia. lia.
    - rewrite Z.add_comm, Z.mod_add by lia. apply Z.mod_small. lia. }
  destruct HD as [HD HT].
  assert (H4 : fourDigitYear t).
  { unfold fourDigitYear, YearFromTime. rewrite HD, EY. exact Hy. }
  split; [exact H4|].
  rewrite (isoString_layout t H4). unfold YearFromTime.
  rewrite HD, HT, EY, EM, ED, Eh, Emi, Es, Ems.
  replace (m - 1 + 1) with m by lia. reflexivity.
Qed.

End Reading.

(* ===================================================================== *)
(** * The strict parser reads wall-clock timestamps *)
(* ===================================================================== *)

Section StrictParserReads.
Import JSString JSDate Parser.

Lemma isDigit_val (c : ascii) :
  isDigit c = true -> 0 <= digitVal c <= 9 /\ digitChar (digitVal c) = c.
Proof.
  unfold isDigit, digitVal, digitChar. intros H.
  apply andb_true_iff in H as [H1 H2]. apply Z.leb_le in H1, H2.
  split; [lia|]. rewrite Z.mod_small by lia.
  replace (48 + (code c - 48)) with (code c) by lia.
  unfold code. rewrite N2Z.id. apply ascii_N_embedding.
Qed.

Lemma digitChar_congr (n m : Z) : n mod 10 = m mod 10 -> digitChar n = digitChar m.
Proof. unfold digitChar. intros ->. reflexivity. Qed.

Lemma str2_pad2 (a b : ascii) :
  isDigit a = true -> isDigit b = true ->
  str2 a b = pad2 (num2 a b) /\ 0 <= num2 a b < 100.
Proof.
  intros Ha Hb. destruct (isDigit_val a Ha) as [Ra Ea].
  destruct (isDigit_val b Hb) as [Rb Eb]. unfold num2. split; [|lia].
  unfold str2, pad2. f_equal; [|f_equal].
  - rewrite <- Ea at 1. apply digitChar_congr. Z.div_mod_to_equations. lia.
  - rewrite <- Eb at 1. apply digitChar_congr. Z.div_mod_to_equations. lia.
Qed.

Lemma str4_pad4 (a b c d : ascii) :
  isDigit a = true -> isDigit b = true -> isDigit c = true -> isDigit d = true ->
  str4 a b c d = pad4 (num4 a b c d) /\ 0 <= num4 a b c d < 10000.
Proof.
  intros Ha Hb Hc Hd. destruct (isDigit_val a Ha) as [Ra Ea].
  destruct (isDigit_val b Hb) as [Rb Eb]. destruct (isDigit_val c Hc) as [Rc Ec].
  destruct (isDigit_val d Hd) as [Rd Ed]. unfold num4. split; [|lia].
  unfold str4, str2, pad4, pad3, pad2. f_equal; [|f_equal; [|f_equal; [|f_equal]]].
  - rewrite <- Ea at 1. apply digitChar_congr. Z.div_mod_to_equations. lia.
  - rewrite <- Eb at 1. apply digitChar_congr. Z.div_mod_to_equations. lia.
  - rewrite <- Ec at 1. apply digitChar_congr. Z.div_mod_to_equations. lia.
  - rewrite <- Ed at 1. apply digitChar_congr. Z.div_mod_to_equations. lia.
Qed.

Lemma decimal_str2 (a b : ascii) : decimal (str2 a b) = num2 a b.
Proof. unfold decimal, num2. simpl. lia. Qed.

Lemma decimal_str4 (a b c d : ascii) : decimal (str4 a b c d) = num4 a b c d.
Proof. unfold decimal, num4. simpl. lia. Qed.

(** What a successful match captures. *)
Lemma matchFormat_inv (sep : ascii) (s : string) (g : Groups) :
  matchFormat sep s = Some g ->
  exists y1 y2 y3 y4 m1 m2 d1 d2 h1 h2 i1 i2 e1 e2,
    forallb isDigit [y1; y2; y3; y4; m1; m2; d1; d2; h1; h2; i1; i2; e1; e2] = true
    /\ g = mkGroups (str4 y1 y2 y3 y4) (str2 m1 m2) (str2 d1 d2)
                    (str2 h1 h2) (str2 i1 i2) (str2 e1 e2).
Proof.
  unfold matchFormat.
  destruct (list_ascii_of_string s) as
    [|y1 [|y2 [|y3 [|y4 [|s1 [|m1 [|m2 [|s2 [|d1 [|d2 [|sp [|h1 [|h2 [|c1
     [|i1 [|i2 [|c2 [|e1 [|e2 [|x l]]]]]]]]]]]]]]]]]]]]; try discriminate.
  destruct (forallb isDigit _) eqn:Hd; [|discriminate].
  destruct (_ && _ && _ && _ && _)%bool; [|discriminate].
  intros H. injection H as <-.
  exists y1, y2, y3, y4, m1, m2, d1, d2, h1, h2, i1, i2, e1, e2.
  split; [exact Hd|reflexivity].
Qed.

Lemma firstMatch_inv (tsStr : string) (g : Groups) :
  firstMatch formats tsStr = Some g ->
  exists sep, matchFormat sep tsStr = Some g.
Proof.
  unfold formats. simpl.
  destruct (matchFormat "-" tsStr) as [g1|] eqn:E1.
  - intros H. injection H as <-. eauto.
  - destruct (matchFormat "/" tsStr) as [g2|] eqn:E2; [|discriminate].
    intros H. injection H as <-. eauto.
Qed.

(** The string built from the capture groups is in the ISO format, without
    a time zone. *)
Lemma dateTimeString_layout (tsStr : string) (g : Groups) :
  firstMatch formats tsStr = Some g ->
  dateTimeString g
  = dateLayout (decimal (gYear g)) (decimal (gMonth g)) (decimal (gDay g))
      +:+ "T" +:+ clockLayout (decimal (gHour g)) (decimal (gMinute g))
                              (decimal (gSecond g))
  /\ 0 <= decimal (gYear g) < 10000
  /\ 0 <= decimal (gMonth g) < 100 /\ 0 <= decimal (gDay g) < 100
  /\ 0 <= decimal (gHour g) < 100 /\ 0 <= decimal (gMinute g) < 100
  /\ 0 <= decimal (gSecond g) < 100.
Proof.
  intros H. apply firstMatch_inv in H as [sep H].
  apply matchFormat_inv in H
    as (y1 & y2 & y3 & y4 & m1 & m2 & d1 & d2 & h1 & h2 & i1 & i2 & e1 & e2 & Hd & ->).
  simpl in Hd. repeat (apply andb_true_iff in Hd as [? Hd]).
  unfold dateTimeString, dateLayout, clockLayout. cbn [gYear gMonth gDay gHour gMinute gSecond].
  rewrite decimal_str4, !decimal_str2.
  destruct (str4_pad4 y1 y2 y3 y4) as [-> ?]; try assumption.
  destruct (str2_pad2 m1 m2) as [-> ?]; try assumption.
  destruct (str2_pad2 d1 d2) as [-> ?]; try assumption.
  destruct (str2_pad2 h1 h2) as [-> ?]; try assumption.
  destruct (str2_pad2 i1 i2) as [-> ?]; try assumption.
  destruct (str2_pad2 e1 e2) as [-> ?]; try assumption.
  rewrite !append_assoc. repeat split; lia.
Qed.

(** The date built from a matched token: the wall-clock fields are taken as
    local time, and fields out of range give an invalid date. *)
Lemma parse_dateTimeString (h : Host) (tsStr : string) (g : Groups) :
  firstMatch formats tsStr = Some g ->
  parse h (dateTimeString g)
  = if validDay (decimal (gMonth g)) (decimal (gDay g))
       && validTime (decimal (gHour g)) (decimal (gMinute g)) (decimal (gSecond g)) 0
    then TimeClip (UTC h (wallClock g))
    else None.
Proof.
  intros H. destruct (dateTimeString_layout tsStr g H) as (-> & Hy & Hm & Hd & Hh & Hi & Hs).
  unfold parse. rewrite (append_cons "T"), append_nil.
  rewrite parseIsoForm_prefix, isoTime_local by assumption. reflexivity.
Qed.

Lemma tokenize_nonempty (line : string) (a b : string) (rest : list string) :
  tokenize line = a :: b :: rest -> isEmpty line = false.
Proof. destruct line; [discriminate|reflexivity]. Qed.

Lemma isoLayout_millis0 (g : Groups) (tsStr : string) :
  firstMatch formats tsStr = Some g ->
  isoLayout (decimal (gYear g)) (decimal (gMonth g)) (decimal (gDay g))
            (decimal (gHour g)) (decimal (gMinute g)) (decimal (gSecond g)) 0
  = dateTimeString g +:+ ".000Z".
Proof.
  intros H. destruct (dateTimeString_layout tsStr g H) as (-> & _).
  unfold isoLayout. rewrite !append_assoc. reflexivity.
Qed.

(** C1, as the code has it: a line whose second token matches one of the
    two timestamp patterns and names a calendar date and a time of day
    gives exactly one record; its identity is token 0 and its timestamp is
    the canonical UTC rendering of the token read as wall-clock time of the
    host's local time zone. On a host whose local time is UTC the timestamp
    is the token's own date and time, joined by [T] and followed by
    [.000Z]. *)
Theorem C1_strict_parser_reads_wall_clock (h : Host)
  (rawLine pin0 tsStr : string) (rest : list string) (g : Groups) :
  tokenize (trim rawLine) = pin0 :: tsStr :: rest ->
  firstMatch formats tsStr = Some g ->
  properFields g ->
  Z.abs (UTC h (wallClock g)) <= maxTime ->
  exists row,
    parseAttlogLine h rawLine = Some row
    /\ (forall text before after,
          splitLines text = before ++ rawLine :: after ->
          parseAttlogText h text
          = omap (parseAttlogLine h) before ++ row :: omap (parseAttlogLine h) after)
    /\ pin row = pin0
    /\ ts row = isoString (UTC h (wallClock g))
    /\ (utcZone h -> ts row = dateTimeString g +:+ ".000Z").
Proof.
  intros Htok Hm [[Hmo Hda] (Hh & Hmi & Hs)] Hclip.
  destruct (dateTimeString_layout tsStr g Hm) as (_ & Hy & _).
  pose proof (daysInMonth_le31 _ (decimal (gMonth g) - 1)
                (InLeapYear_range (decimal (gYear g)))) as H31.
  assert (Hparse : parse h (dateTimeString g) = Some (UTC h (wallClock g))).
  { rewrite (parse_dateTimeString h tsStr g Hm). unfold validDay, validTime.
    repeat match goal with
           | |- context [?a <=? ?b] => destruct (Z.leb_spec a b); [|lia]
           end.
    cbn [andb orb]. unfold TimeClip.
    destruct (Z.leb_spec (Z.abs (UTC h (wallClock g))) maxTime); [reflexivity|lia]. }
  assert (Hline : parseAttlogLine h rawLine
                  = Some (mkRow pin0 (isoString (UTC h (wallClock g)))
                            (orNull (pin0 :: tsStr :: rest) 2)
                            (orNull (pin0 :: tsStr :: rest) 3)
                            (orNull (pin0 :: tsStr :: rest) 4)
                            (orNull (pin0 :: tsStr :: rest) 5) (trim rawLine))).
  { unfold parseAttlogLine. rewrite (tokenize_nonempty _ _ _ _ Htok), Htok.
    cbn [length Nat.ltb Nat.leb lookup list_lookup].
    unfold parseTimestamp. rewrite Hm. cbn [mbind option_bind]. rewrite Hparse.
    reflexivity. }
  eexists. split; [exact Hline|]. split; [|split; [reflexivity|split; [reflexivity|]]].
  - intros text before after Hs'.
    rewrite (parseAttlogText_app h text before (rawLine :: after) Hs').
    f_equal. csimpl. rewrite Hline. reflexivity.
  - intros Hz. cbn [ts]. unfold UTC. rewrite Hz, Z.sub_0_r.
    rewrite <- (isoLayout_millis0 g tsStr Hm). unfold wallClock.
    apply isoString_utcInstant; [lia|split; assumption|repeat split; lia|lia].
Qed.

Lemma C1_strict_parser_reads_wall_clock_witness :
  exists row,
    parseAttlogLine utcHost sampleLine = Some row
    /\ parseAttlogText utcHost sampleLine = [row]
    /\ pin row = "A1001"%string
    /\ ts row = "2024-03-05T09:15:30.000Z"%string.
Proof.
  destruct (C1_strict_parser_reads_wall_clock utcHost sampleLine
              "A1001" "2024-03-05 09:15:30" []
              (mkGroups "2024" "03" "05" "09" "15" "30") eq_refl eq_refl)
    as (row & H1 & H2 & H3 & _ & H5).
  - unfold properFields, calendarDate, clockTime. vm_compute.
    repeat split; intros H; discriminate H.
  - vm_compute. intros H; discriminate H.
  - exists row. split; [exact H1|]. split; [|split; [exact H3|]].
    + exact (H2 sampleLine [] [] eq_refl).
    + exact (H5 (fun _ _ => eq_refl)).
Defined.

(** C1 as stated fails in two ways: on a host at UTC+05:30 the example
    line is stored five and a half hours earlier, and a token that matches
    the pattern with an hour of 25 gives no record. *)
Lemma C1_counterexample :
  (firstMatch formats "2024-03-05 09:15:30" <> None
   /\ map ts (parseAttlogText istHost sampleLine)
      = ["2024-03-05T03:45:30.000Z"%string])
  /\ (firstMatch formats "2024-03-05 25:00:00" <> None
      /\ parseAttlogText utcHost ("A1001" +:+ TABs +:+ "2024-03-05 25:00:00") = []).
Proof.
  split; (split; [discriminate|vm_compute; reflexivity]).
Qed.

End StrictParserReads.

(* ===================================================================== *)
(** * The range of a day *)
(* ===================================================================== *)

Section DayRange.
Import JSString JSDate Store Eff Attendance.

Lemma leb_signed_false (ts te t : Z) :
  fourDigitYear ts -> ~ fourDigitYear t ->
  String.leb (isoString ts) (isoString t) = false.
Proof.
  intros Hs Ht. unfold String.leb.
  rewrite String.compare_antisym, (compare_isoString_signed t ts Ht Hs). reflexivity.
Qed.

(** A stored instant lies in a text range between two four-digit instants
    exactly when it lies between them in time. *)
Lemma inRange_instants (ts te t : Z) (row : Parser.Row) :
  fourDigitYear ts -> fourDigitYear te ->
  Parser.ts row = isoString t ->
  inRange (isoString ts) (isoString te) row = true <-> ts <= t <= te.
Proof.
  intros Hs He Hrow. unfold inRange. rewrite Hrow, andb_true_iff. split.
  - intros [H1 H2].
    assert (Ht : fourDigitYear t).
    { destruct (fourDigitYear_range t) as [_ Hr].
      destruct (Z_le_dec (-62167219200000) t) as [Hlo|Hlo];
        [destruct (Z_lt_dec t 253402300800000) as [Hhi|Hhi]|].
      - apply Hr. lia.
      - rewrite (leb_signed_false ts te t Hs) in H1; [discriminate|].
        intros Hc. apply fourDigitYear_range in Hc. lia.
      - rewrite (leb_signed_false ts te t Hs) in H1; [discriminate|].
        intros Hc. apply fourDigitYear_range in Hc. lia. }
    rewrite leb_isoString in H1, H2 by assumption.
    apply Z.leb_le in H1, H2. lia.
  - intros H.
    assert (Ht : fourDigitYear t).
    { apply fourDigitYear_range. apply fourDigitYear_range in Hs, He. lia. }
    rewrite !leb_isoString by assumption. split; apply Z.leb_le; lia.
Qed.

Lemma selectPunches_elem (pin startDt endDt : string) (d : Db) (row : Parser.Row) :
  row ∈ selectPunches pin startDt endDt d
  <-> row ∈ punch d /\ Parser.pin row = pin /\ inRange startDt endDt row = true.
Proof.
  unfold selectPunches. rewrite merge_sort_Permutation.
  rewrite list_elem_of_In, filter_In, andb_true_iff, String.eqb_eq, <- list_elem_of_In.
  tauto.
Qed.

Lemma selectDistinctPins_elem (pin startDt endDt : string) (d : Db) :
  pin ∈ selectDistinctPins startDt endDt d
  <-> exists row, row ∈ punch d /\ Parser.pin row = pin
                  /\ inRange startDt endDt row = true.
Proof.
  unfold selectDistinctPins. rewrite distinct_elem, list_elem_of_fmap. split.
  - intros (row & -> & Hin). apply list_elem_of_In, filter_In in Hin as [Hin Hr].
    exists row. rewrite list_elem_of_In. tauto.
  - intros (row & Hin & <- & Hr). exists row. split; [reflexivity|].
    apply list_elem_of_In, filter_In. rewrite <- list_elem_of_In. tauto.
Qed.

Lemma setHours_utc (h : Host) (t hh mi s ms : Z) :
  utcZone h ->
  setHours h (Some t) hh mi s ms = TimeClip (MakeDate (Day t) (MakeTime hh mi s ms)).
Proof.
  intros Hz. unfold setHours, LocalTime, UTC. cbn [mbind option_bind].
  rewrite !Hz, Z.add_0_r, Z.sub_0_r. reflexivity.
Qed.

Lemma TimeClip_fourDigit (t : Z) : fourDigitYear t -> TimeClip t = Some t.
Proof.
  intros H. apply fourDigitYear_range in H. unfold TimeClip, maxTime.
  destruct (Z.leb_spec (Z.abs t) 8640000000000000); [reflexivity|lia].
Qed.

(** On a host in UTC the range of a calendar day runs from its first to its
    last millisecond. *)
Lemma dayRange_utc (h : Host) (y m d : Z) :
  utcZone h -> 0 <= y <= 9999 -> calendarDate y m d ->
  dayRange h (dateLayout y m d)
  = Some (isoString (utcInstant y m d 0 0 0 0),
          isoString (utcInstant y m d 23 59 59 999)).
Proof.
  intros Hz Hy Hc. pose proof Hc as [Hm Hd].
  pose proof (daysInMonth_le31 _ (m - 1) (InLeapYear_range y)) as H31.
  destruct (isoString_utcInstant y m d 0 0 0 0 Hy Hc) as [H0 _];
    [unfold clockTime; lia|lia|].
  destruct (isoString_utcInstant y m d 23 59 59 999 Hy Hc) as [H1 _];
    [unfold clockTime; lia|lia|].
  assert (HD : Day (utcInstant y m d 0 0 0 0) = MakeDay y (m - 1) d).
  { unfold utcInstant, MakeDate, Day, msPerDay.
    change (MakeTime 0 0 0 0) with 0. rewrite Z.add_0_r. apply Z.div_mul. lia. }
  unfold dayRange, parse. rewrite parseIsoForm_date by lia.
  unfold isoValue, validDay.
  repeat match goal with
         | |- context [?a <=? ?b] => destruct (Z.leb_spec a b); [|lia]
         end.
  cbn [andb].
  change (MakeDate (MakeDay y (m - 1) d) 0) with (utcInstant y m d 0 0 0 0).
  rewrite (TimeClip_fourDigit _ H0).
  rewrite (setHours_utc h _ 0 0 0 0 Hz), HD.
  change (MakeDate (MakeDay y (m - 1) d) (MakeTime 0 0 0 0))
    with (utcInstant y m d 0 0 0 0).
  rewrite (TimeClip_fourDigit _ H0).
  rewrite (setHours_utc h _ 23 59 59 999 Hz), HD.
  change (MakeDate (MakeDay y (m - 1) d) (MakeTime 23 59 59 999))
    with (utcInstant y m d 23 59 59 999).
  rewrite (TimeClip_fourDigit _ H1). reflexivity.
Qed.

(** X25. On a host whose local time is UTC, for every calendar date with
    a four-digit year, [computeAttendanceForDay] queries
    with the bounds [<day>T00:00:00.000Z] and [<day>T23:59:59.999Z], which
    are the renderings of the first and the last millisecond of that UTC
    day; the queries select a stored instant exactly when it lies between
    these two instants, both included. *)
Theorem day_range_on_utc_host (h : Host) (y m d : Z) :
  utcZone h -> 0 <= y <= 9999 -> calendarDate y m d ->
  let dayStr := dateLayout y m d in
  let startDt := dayStr +:+ "T00:00:00.000Z" in
  let endDt := dayStr +:+ "T23:59:59.999Z" in
  let startT := utcInstant y m d 0 0 0 0 in
  dayRange h dayStr = Some (startDt, endDt)
  /\ (forall e, host e = h ->
        computeAttendanceForDay e dayStr
        = Eff.bind (dbQuery e (selectDistinctPins startDt endDt))
            (fun pins => collect pins (attendanceForPin e dayStr startDt endDt)))
  /\ startDt = isoString startT
  /\ endDt = isoString (startT + 86399999)
  /\ (forall (row : Parser.Row) (t : Z),
        Parser.ts row = isoString t ->
        inRange startDt endDt row = true <-> startT <= t <= startT + 86399999)
  /\ (forall (db : Db) (pin : string) (row : Parser.Row),
        row ∈ selectPunches pin startDt endDt db
        <-> row ∈ punch db /\ Parser.pin row = pin
            /\ inRange startDt endDt row = true)
  /\ (forall (db : Db) (pin : string),
        pin ∈ selectDistinctPins startDt endDt db
        <-> exists row, row ∈ punch db /\ Parser.pin row = pin
                        /\ inRange startDt endDt row = true).
Proof.
  intros Hz Hy Hc dayStr startDt endDt startT.
  destruct (isoString_utcInstant y m d 0 0 0 0 Hy Hc) as [H0 L0];
    [unfold clockTime; lia|lia|].
  destruct (isoString_utcInstant y m d 23 59 59 999 Hy Hc) as [H1 L1];
    [unfold clockTime; lia|lia|].
  assert (Hend : utcInstant y m d 23 59 59 999 = startT + 86399999).
  { unfold startT, utcInstant, MakeDate.
    change (MakeTime 0 0 0 0) with 0. change (MakeTime 23 59 59 999) with 86399999.
    lia. }
  assert (Es : startDt = isoString startT).
  { unfold startT. rewrite L0. reflexivity. }
  assert (Ee : endDt = isoString (startT + 86399999)).
  { rewrite <- Hend, L1. reflexivity. }
  assert (Hr : dayRange h dayStr = Some (startDt, endDt)).
  { unfold dayStr. rewrite (dayRange_utc h y m d Hz Hy Hc).
    rewrite Es, Ee, Hend. reflexivity. }
  split; [exact Hr|]. split; [|split; [exact Es|split; [exact Ee|split; [|split]]]].
  - intros e He. unfold computeAttendanceForDay. rewrite He, Hr. reflexivity.
  - intros row t Hrow. rewrite Es, Ee. rewrite <- Hend in *.
    apply inRange_instants; assumption.
  - intros db pin row. apply selectPunches_elem.
  - intros db pin. apply selectDistinctPins_elem.
Qed.

Lemma day_range_on_utc_host_witness :
  dayRange utcHost "2024-03-05"
  = Some ("2024-03-05T00:00:00.000Z"%string, "2024-03-05T23:59:59.999Z"%string)
  /\ (forall (row : Parser.Row) (t : Z),
        Parser.ts row = isoString t ->
        inRange "2024-03-05T00:00:00.000Z" "2024-03-05T23:59:59.999Z" row = true
        <-> 1709596800000 <= t <= 1709596800000 + 86399999).
Proof.
  assert (Hc : calendarDate 2024 3 5).
  { unfold calendarDate. vm_compute. repeat split; intros H; discriminate H. }
  destruct (day_range_on_utc_host utcHost 2024 3 5 (fun _ _ => eq_refl)
              ltac:(lia) Hc) as (H1 & _ & _ & _ & H5 & _).
  split; [exact H1|exact H5].
Defined.

End DayRange.

(* ===================================================================== *)
(** * Duration and status *)
(* ===================================================================== *)

Section DurationAndStatus.
Import JSString JSDate Store Eff Attendance.

#[local] Instance tsLe_total : Total tsLe.
Proof. intros a b. unfold tsLe, textLe. apply String.leb_total. Qed.

#[local] Instance tsLe_refl : Reflexive tsLe.
Proof.
  intros a. unfold tsLe, textLe, String.leb. rewrite compare_refl. reflexivity.
Qed.

#[local] Instance tsLe_trans : Transitive tsLe.
Proof.
  intros a b c H1 H2. unfold tsLe, textLe in *.
  apply Is_true_true. apply Is_true_true in H1, H2.
  exact (transitivity (R := String.le) H1 H2).
Qed.

(** In a sorted list the head is a least and the last a greatest element. *)
Lemma sorted_head_last {A} (R : relation A) `{!Reflexive R} (l : list A) :
  forall x, StronglySorted R (x :: l) ->
    let z := default x (last (x :: l)) in
    z ∈ x :: l /\ forall r, r ∈ x :: l -> R x r /\ R r z.
Proof.
  induction l as [|y l IH]; intros x Hs.
  - simpl. split; [apply list_elem_of_here|].
    intros r Hr. apply list_elem_of_singleton in Hr as ->. split; reflexivity.
  - apply StronglySorted_inv in Hs as [Hs Hx].
    destruct (IH y Hs) as [Hz Hall].
    assert (Hlast : default x (last (x :: y :: l)) = default y (last (y :: l))).
    { rewrite last_cons. destruct (last (y :: l)) eqn:E; [reflexivity|].
      apply last_None in E. discriminate. }
    cbv zeta. rewrite Hlast. split; [apply list_elem_of_further; exact Hz|].
    intros r Hr. apply elem_of_cons in Hr as [->|Hr].
    + split; [reflexivity|]. rewrite Forall_forall in Hx. apply Hx, Hz.
    + split; [rewrite Forall_forall in Hx; apply Hx, Hr|apply Hall, Hr].
Qed.

Lemma NoDup_fmap_eq {A B} (f : A -> B) (l : list A) (x y : A) :
  NoDup (map f l) -> x ∈ l -> y ∈ l -> f x = f y -> x = y.
Proof.
  induction l as [|a l IH]; simpl; intros Hnd Hx Hy Hf.
  - apply elem_of_nil in Hx. destruct Hx.
  - apply NoDup_cons in Hnd as [Hn Hnd].
    apply elem_of_cons in Hx as [->|Hx]; apply elem_of_cons in Hy as [->|Hy].
    + reflexivity.
    + exfalso. apply Hn. rewrite Hf. apply list_elem_of_fmap. eauto.
    + exfalso. apply Hn. rewrite <- Hf. apply list_elem_of_fmap. eauto.
    + apply IH; assumption.
Qed.

Lemma classify_statusFor (e : Env) (m minutes : Z) :
  MINUTES_FOR_PRESENT e = Some m ->
  classify e (Some minutes) = statusFor m minutes.
Proof. intros H. unfold classify, statusFor, geNum, gtNum. rewrite H. reflexivity. Qed.

(** ** Stored timestamps are renderings of instants *)

Lemma parseAttlogLine_stamped (h : Host) (rawLine : string) (row : Parser.Row) :
  Parser.parseAttlogLine h rawLine = Some row ->
  exists t, Parser.ts row = isoString t.
Proof.
  unfold Parser.parseAttlogLine.
  destruct (isEmpty (trim rawLine)); [discriminate|].
  destruct (_ <? 2)%nat; [discriminate|].
  destruct (_ !! 0%nat); [|discriminate]. destruct (_ !! 1%nat); [|discriminate].
  destruct (Parser.parseTimestamp h s0) as [[t|]|]; try discriminate.
  intros H. injection H as <-. exists t. reflexivity.
Qed.

Lemma parseFallbackLine_stamped (h : Host) (now : Z) (rawLine : string)
  (row : Parser.Row) :
  Parser.parseFallbackLine h now rawLine = Some row ->
  exists t, Parser.ts row = isoString t.
Proof.
  unfold Parser.parseFallbackLine.
  destruct (isEmpty (trim rawLine)); [discriminate|].
  intros H. injection H as <-. cbn [Parser.ts].
  destruct (_ !! 1%nat) as [p1|]; [|eauto].
  destruct (parse h (replaceSlash p1)); eauto.
Qed.

Lemma grows_refl (w : World) : grows w w.
Proof. exists []. rewrite app_nil_r. split; [reflexivity|constructor]. Qed.

Lemma grows_trans (w1 w2 w3 : World) : grows w1 w2 -> grows w2 w3 -> grows w1 w3.
Proof.
  intros (r1 & E1 & F1) (r2 & E2 & F2). exists (r1 ++ r2). split.
  - rewrite E2, E1, app_assoc. reflexivity.
  - apply Forall_app. split; assumption.
Qed.

Lemma grows_same (w w' : World) : punch (db w') = punch (db w) -> grows w w'.
Proof. intros H. exists []. rewrite app_nil_r. split; [exact H|constructor]. Qed.

Lemma dbWrite_InsertPunch_grows (e : Env) (r : Parser.Row) (w w' : World)
  (out : Outcome unit) :
  (exists t, Parser.ts r = isoString t) ->
  dbWrite e (InsertPunch r) w = (out, w') -> grows w w'.
Proof.
  intros Hr. unfold dbWrite. destruct (rejects (tickOf e w)).
  - intros H. injection H as <- <-. apply grows_same. reflexivity.
  - cbn [exec]. intros H. injection H as <- <-. exists [r].
    split; [reflexivity|]. constructor; [exact Hr|constructor].
Qed.

Lemma forEach_insert_grows (e : Env) (rows : list Parser.Row) :
  Forall (fun r => exists t, Parser.ts r = isoString t) rows ->
  forall w w' out,
    forEach rows (fun row => dbWrite e (InsertPunch row)) w = (out, w') ->
    grows w w'.
Proof.
  induction 1 as [|r rows Hr _ IH]; intros w w' out; cbn [forEach].
  - unfold ret. intros H. injection H as <- <-. apply grows_refl.
  - unfold Eff.bind.
    destruct (dbWrite e (InsertPunch r) w) as [[[]|x] w1] eqn:E1;
      pose proof (dbWrite_InsertPunch_grows e r w w1 _ Hr E1) as G1.
    + intros H. apply (grows_trans w w1 w' G1). exact (IH w1 w' out H).
    + intros H. injection H as <- <-. exact G1.
Qed.

Lemma aggregateDays_punch (e : Env) (days : list string) :
  forall w w' out,
    Ingest.aggregateDays e days w = (out, w') -> punch (db w') = punch (db w).
Proof.
  induction days as [|day days IH]; intros w w' out; cbn [Ingest.aggregateDays].
  - unfold ret. intros H. injection H as <- <-. reflexivity.
  - unfold Eff.bind at 1.
    destruct (computeAttendanceForDay e day w) as [[r|x] w1] eqn:E1;
      destruct (computeAttendanceForDay_inv e day w w1 _ E1) as (Hp & _).
    + unfold Eff.bind at 1.
      destruct (Ingest.aggregateDays e days w1) as [[rs|x] w2] eqn:E2;
        pose proof (IH w1 w2 _ E2) as Hp2;
        intros H; injection H as <- <-; congruence.
    + intros H. injection H as <- <-. exact Hp.
Qed.

Lemma fallbackLoop_grows (e : Env) (now : nat -> Z) (lines : list string) :
  forall i w w' out,
    Ingest.fallbackLoop e now i lines w = (out, w') -> grows w w'.
Proof.
  induction lines as [|l lines IH]; intros i w w' out; cbn [Ingest.fallbackLoop].
  - unfold ret. intros H. injection H as <- <-. apply grows_refl.
  - destruct (Parser.parseFallbackLine (host e) (now i) l) as [row|] eqn:El;
      [|apply IH].
    pose proof (parseFallbackLine_stamped _ _ _ _ El) as Hr.
    unfold Eff.bind at 1.
    destruct (dbWrite e (InsertPunch row) w) as [[[]|x] w1] eqn:E1;
      pose proof (dbWrite_InsertPunch_grows e row w w1 _ Hr E1) as G1.
    + unfold Eff.bind at 1.
      destruct (Ingest.fallbackLoop e now (S i) lines w1) as [[n|x] w2] eqn:E2;
        pose proof (IH _ _ _ _ E2) as G2;
        intros H; injection H as <- <-; exact (grows_trans _ _ _ G1 G2).
    + intros H. injection H as <- <-. exact G1.
Qed.

(** Whatever the ingestion endpoint does, it only adds punches that carry
    the rendering of an instant; the two other entry points send device
    statements only. The condition [wellStamped] of the next theorem is
    therefore an invariant of the server. *)
Lemma postCdata_wellStamped (e : Env) (qTable qOptions reqBody : option string)
  (now : nat -> Z) (w w' : World) (out : Outcome Http.Response) :
  Ingest.postCdata e qTable qOptions reqBody now w = (out, w') ->
  wellStamped (db w) -> wellStamped (db w').
Proof.
  intros Hrun Hw.
  assert (G : grows w w').
  { revert Hrun. unfold Ingest.postCdata, tryCatch.
    destruct reqBody as [raw|]; [|intros H; injection H as <- <-; apply grows_refl].
    destruct (isEmpty raw || isEmpty (trim raw));
      [intros H; injection H as <- <-; apply grows_refl|].
    destruct (Ingest.isAttlog _).
    - unfold Eff.bind at 1.
      destruct (forEach _ _ w) as [[[]|x] w1] eqn:E1.
      + assert (G1 : grows w w1).
        { apply (forEach_insert_grows e _) in E1; [exact E1|].
          apply Forall_forall. intros r Hr.
          apply list_elem_of_omap in Hr as (l & _ & Hl).
          exact (parseAttlogLine_stamped _ _ _ Hl). }
        unfold Eff.bind at 1.
        destruct (Ingest.aggregateDays e _ w1) as [[rs|x] w2] eqn:E2;
          pose proof (aggregateDays_punch e _ _ _ _ E2) as Hp;
          intros H; injection H as <- <-;
          exact (grows_trans _ _ _ G1 (grows_same _ _ Hp)).
      + assert (G1 : grows w w1).
        { apply (forEach_insert_grows e _) in E1; [exact E1|].
          apply Forall_forall. intros r Hr.
          apply list_elem_of_omap in Hr as (l & _ & Hl).
          exact (parseAttlogLine_stamped _ _ _ Hl). }
        intros H. injection H as <- <-. exact G1.
    - unfold Eff.bind at 1.
      destruct (Ingest.fallbackLoop e now 0 _ w) as [[n|x] w1] eqn:E1;
        pose proof (fallbackLoop_grows e now _ _ _ _ _ E1) as G1;
        intros H; injection H as <- <-; exact G1. }
  destruct G as (rows & E & F). intros row Hrow. rewrite E in Hrow.
  apply elem_of_app in Hrow as [Hrow|Hrow]; [apply Hw, Hrow|].
  rewrite Forall_forall in F. apply F, Hrow.
Qed.

(** The record computed for an identity with a punch in the range. *)
Lemma attendanceOf_instants (e : Env) (pin dayStr : string) (d : Db) (ts te : Z) :
  wellStamped d -> fourDigitYear ts -> fourDigitYear te ->
  (exists row, row ∈ punch d /\ Parser.pin row = pin
               /\ inRange (isoString ts) (isoString te) row = true) ->
  exists a t0 tl,
    attendanceOf e pin dayStr (selectPunches pin (isoString ts) (isoString te) d)
    = Some a
    /\ punchedAt d pin ts te t0 /\ punchedAt d pin ts te tl
    /\ (forall t, punchedAt d pin ts te t -> t0 <= t <= tl)
    /\ AttendanceData.first_ts a = isoString t0
    /\ AttendanceData.last_ts a = isoString tl
    /\ AttendanceData.duration_minutes a = Some ((tl - t0) / 60000)
    /\ AttendanceData.status a = classify e (Some ((tl - t0) / 60000)).
Proof.
  intros Hw Hs He (row & Hrow).
  set (punches := selectPunches pin (isoString ts) (isoString te) d).
  assert (Hin : row ∈ punches) by (apply selectPunches_elem; exact Hrow).
  assert (Hsorted : StronglySorted tsLe punches).
  { unfold punches, selectPunches. apply StronglySorted_merge_sort; apply _. }
  assert (Hinst : forall r, r ∈ punches ->
            exists t, Parser.ts r = isoString t /\ punchedAt d pin ts te t
                      /\ fourDigitYear t).
  { intros r Hr. apply selectPunches_elem in Hr as (Hr & Hp & Hrange).
    destruct (Hw r Hr) as [t Ht]. exists t. split; [exact Ht|].
    pose proof (proj1 (inRange_instants ts te t r Hs He Ht) Hrange) as Hb.
    split; [split; [exact Hb|exists r; auto]|].
    apply fourDigitYear_range. apply fourDigitYear_range in Hs, He. lia. }
  destruct punches as [|p0 rest] eqn:Ep; [apply elem_of_nil in Hin; destruct Hin|].
  destruct (sorted_head_last tsLe rest p0 Hsorted) as [Hz Hall].
  set (pl := default p0 (last (p0 :: rest))) in *.
  destruct (Hinst p0 (list_elem_of_here _ _)) as (t0 & E0 & P0 & F0).
  destruct (Hinst pl Hz) as (tl & El & Pl & Fl).
  exists (AttendanceData.mk pin dayStr (Parser.ts p0) (Parser.ts pl)
            (minutesBetween (parse (host e) (Parser.ts p0))
                            (parse (host e) (Parser.ts pl)))
            (classify e (minutesBetween (parse (host e) (Parser.ts p0))
                                        (parse (host e) (Parser.ts pl))))),
    t0, tl.
  assert (Hmin : minutesBetween (parse (host e) (Parser.ts p0))
                                (parse (host e) (Parser.ts pl))
                 = Some ((tl - t0) / 60000)).
  { rewrite E0, El, !parse_isoString by assumption. reflexivity. }
  split; [reflexivity|]. split; [exact P0|]. split; [exact Pl|].
  split; [|cbn; rewrite Hmin; auto].
  intros t [Hb (r & Hr & Hp & Ht)].
  assert (Hr' : r ∈ p0 :: rest).
  { rewrite <- Ep. apply selectPunches_elem. split; [exact Hr|]. split; [exact Hp|].
    apply (inRange_instants ts te t r Hs He Ht). exact Hb. }
  assert (Ft : fourDigitYear t).
  { apply fourDigitYear_range. apply fourDigitYear_range in Hs, He. lia. }
  destruct (Hall r Hr') as [H1 H2]. unfold tsLe, textLe in H1, H2.
  rewrite E0, Ht, leb_isoString in H1 by assumption.
  rewrite El, Ht, leb_isoString in H2 by assumption.
  apply Z.leb_le in H1, H2. lia.
Qed.

(** C3. For every identity with at least one punch in the queried range,
    [computeAttendanceForDay] returns exactly one record; its first and
    last timestamps are the earliest and the latest instant of that
    identity in the range, its [duration_minutes] is the floor of their
    difference in milliseconds divided by 60000, and its status is PRESENT
    when that number reaches the threshold, else SHORT when it is
    positive, else ABSENT, in which case it is zero. *)
Theorem C3_duration_and_status (e : Env) (dayStr pin : string) (w w' : World)
  (results : list AttendanceData.t) (ts te m : Z) :
  wellStamped (db w) ->
  dayRange (host e) dayStr = Some (isoString ts, isoString te) ->
  fourDigitYear ts -> fourDigitYear te ->
  MINUTES_FOR_PRESENT e = Some m ->
  computeAttendanceForDay e dayStr w = (Ret results, w') ->
  (exists t, punchedAt (db w) pin ts te t) ->
  exists a t0 tl,
    a ∈ results
    /\ (forall a', a' ∈ results -> AttendanceData.pin a' = pin -> a' = a)
    /\ AttendanceData.pin a = pin /\ AttendanceData.day a = dayStr
    /\ punchedAt (db w) pin ts te t0 /\ punchedAt (db w) pin ts te tl
    /\ (forall t, punchedAt (db w) pin ts te t -> t0 <= t <= tl)
    /\ AttendanceData.first_ts a = isoString t0
    /\ AttendanceData.last_ts a = isoString tl
    /\ AttendanceData.duration_minutes a = Some ((tl - t0) / 60000)
    /\ AttendanceData.status a = statusFor m ((tl - t0) / 60000)
    /\ (AttendanceData.status a = AttendanceData.ABSENT -> (tl - t0) / 60000 = 0).
Proof.
  intros Hw Hrange Hs He Hm Hrun (t & Hb & row & Hrow & Hpin & Hts).
  assert (Hex : exists row, row ∈ punch (db w) /\ Parser.pin row = pin
                  /\ inRange (isoString ts) (isoString te) row = true).
  { exists row. split; [exact Hrow|]. split; [exact Hpin|].
    apply (inRange_instants ts te t row Hs He Hts). exact Hb. }
  destruct (attendanceOf_instants e pin dayStr (db w) ts te Hw Hs He Hex)
    as (a & t0 & tl & Ha & P0 & Pl & Hall & Hf & Hl & Hd & Hst).
  destruct (computeAttendanceForDay_inv e dayStr w w' _ Hrun) as (_ & _ & Hres).
  destruct (Hres results eq_refl) as [Hday _].
  pose proof (dayResults_keys e dayStr (db w) results Hday) as Hnd.
  unfold dayResults in Hday. rewrite Hrange in Hday. cbn in Hday.
  injection Hday as Hday.
  pose proof (attendanceOf_key e pin dayStr _ a Ha) as Hk.
  assert (Hin : a ∈ results).
  { rewrite <- Hday. apply list_elem_of_omap. exists pin. split; [|exact Ha].
    apply selectDistinctPins_elem. exact Hex. }
  unfold keyOf in Hk. injection Hk as Hkp Hkd.
  exists a, t0, tl. split; [exact Hin|]. split.
  { intros a' Ha' Hp'. apply (NoDup_fmap_eq keyOf results a' a Hnd Ha' Hin).
    rewrite <- Hday in Ha'. apply list_elem_of_omap in Ha' as (p & _ & Hpa).
    apply attendanceOf_key in Hpa. unfold keyOf in *. injection Hpa as Hp1 Hp2.
    congruence. }
  repeat (split; [assumption|]).
  rewrite Hst, (classify_statusFor e m _ Hm). split; [reflexivity|].
  pose proof (Hall t0 P0) as Hle.
  assert (0 <= (tl - t0) / 60000) by (apply Z.div_pos; lia).
  unfold statusFor.
  destruct (Z.leb_spec m ((tl - t0) / 60000)); [discriminate|].
  destruct (Z.ltb_spec 0 ((tl - t0) / 60000)); [discriminate|]. lia.
Qed.

Lemma C3_duration_and_status_witness :
  exists a t0 tl,
    a ∈ sampleResults
    /\ AttendanceData.pin a = "A1001"%string
    /\ punchedAt (db sampleDay) "A1001" 1709596800000 1709683199999 t0
    /\ punchedAt (db sampleDay) "A1001" 1709596800000 1709683199999 tl
    /\ (forall t, punchedAt (db sampleDay) "A1001" 1709596800000 1709683199999 t ->
                  t0 <= t <= tl)
    /\ AttendanceData.duration_minutes a = Some ((tl - t0) / 60000)
    /\ AttendanceData.status a = statusFor 360 ((tl - t0) / 60000).
Proof.
  assert (Hw : wellStamped (db sampleDay)).
  { intros row Hrow. exists (default 0 (parse utcHost (Parser.ts row))).
    simpl in Hrow. repeat (apply elem_of_cons in Hrow as [->|Hrow]);
      [vm_compute; reflexivity..|apply elem_of_nil in Hrow; destruct Hrow]. }
  assert (H1 : fourDigitYear 1709596800000) by (apply fourDigitYear_range; lia).
  assert (H2 : fourDigitYear 1709683199999) by (apply fourDigitYear_range; lia).
  assert (Hp : exists t, punchedAt (db sampleDay) "A1001"
                           1709596800000 1709683199999 t).
  { exists 1709629200000. split; [lia|].
    exists (punchAt "A1001" "2024-03-05T09:00:00.000Z").
    split; [apply list_elem_of_here|]. split; [reflexivity|vm_compute; reflexivity]. }
  destruct (C3_duration_and_status (plainEnv utcHost) "2024-03-05" "A1001"
              sampleDay sampleRun.2 sampleResults 1709596800000 1709683199999 360
              Hw ltac:(vm_compute; reflexivity) H1 H2 eq_refl
              ltac:(vm_compute; reflexivity) Hp)
    as (a & t0 & tl & Ha & _ & Hpin & _ & P0 & Pl & Hall & _ & _ & Hd & Hs & _).
  exists a, t0, tl. repeat (split; [assumption|]). exact Hs.
Defined.

(** The thresholds of the specification: six hours give PRESENT, ten
    minutes give SHORT, a single punch gives ABSENT with duration zero. *)
Example aggregation_thresholds :
  map (fun a => (AttendanceData.pin a, AttendanceData.duration_minutes a,
                 AttendanceData.status a)) sampleResults
  = [("A1001"%string, Some 360, AttendanceData.PRESENT);
     ("B2002"%string, Some 10, AttendanceData.SHORT);
     ("C3003"%string, Some 0, AttendanceData.ABSENT)].
Proof. vm_compute. reflexivity. Qed.

End DurationAndStatus.

(* ===================================================================== *)
(** * Scenarios of the specification *)
(* ===================================================================== *)

Section Scenarios.
Import JSString JSDate Parser Store Eff Http.

(** A heartbeat of an unseen serial number registers the device as ONLINE;
    the sweep that follows more than thirty seconds of silence makes it
    OFFLINE in the cache and in the store; the next heartbeat makes it
    ONLINE again in both. *)
Example liveness_scenario :
  statusOf "SN1" afterFirstHeartbeat = (Some DeviceRow.ONLINE, Some DeviceRow.ONLINE)
  /\ size (devices (db afterFirstHeartbeat)) = 1%nat
  /\ statusOf "SN1" afterSweep = (Some DeviceRow.OFFLINE, Some DeviceRow.OFFLINE)
  /\ statusOf "SN1" afterSecondHeartbeat
     = (Some DeviceRow.ONLINE, Some DeviceRow.ONLINE).
Proof. vm_compute. repeat split. Qed.

(** A sweep exactly thirty seconds after the last heartbeat demotes nothing:
    the threshold must be exceeded. *)
Example sweep_at_threshold :
  statusOf "SN1" (Liveness.monitorTick (plainEnv utcHost) 31000 afterFirstHeartbeat).2
  = (Some DeviceRow.ONLINE, Some DeviceRow.ONLINE).
Proof. vm_compute. reflexivity. Qed.

(** A batch that spans two days is aggregated day by day, each record from
    the punches of its own day. *)
Example two_day_batch :
  (Ingest.postCdata (plainEnv utcHost) (Some "ATTLOG"%string) None
     (Some twoDayBatch) (fun _ => 0) emptyWorld).1
  = Ret (mkResponse 200 (JsonInserted 4 (Some
      [AttendanceData.mk "A1001" "2024-03-05" "2024-03-05T09:00:00.000Z"
         "2024-03-05T15:00:00.000Z" (Some 360) AttendanceData.PRESENT;
       AttendanceData.mk "A1001" "2024-03-06" "2024-03-06T08:00:00.000Z"
         "2024-03-06T08:10:00.000Z" (Some 10) AttendanceData.SHORT]))).
Proof. vm_compute. reflexivity. Qed.

End Scenarios.

(* ===================================================================== *)
(** * The lines the strict parser keeps *)
(* ===================================================================== *)

Section StrictParserShape.
Import JSString JSDate Parser.

Lemma consHead_Forall (P : string -> Prop) (c : ascii) (l : list string) :
  P (String c EmptyString) ->
  (forall t, P t -> P (String c t)) ->
  Forall P l -> Forall P (consHead c l).
Proof.
  intros H0 H1 Hl. destruct Hl as [|t ts Ht Hts]; simpl.
  - repeat constructor. exact H0.
  - constructor; [apply H1; exact Ht|exact Hts].
Qed.

(** No piece of [s.split(/\s+/)] contains white space. *)
Lemma splitWsFrom_pieces (b : bool) (s : string) :
  Forall (fun p => existsb isWhiteSpace (list_ascii_of_string p) = false)
         (splitWsFrom b s).
Proof.
  revert b. induction s as [|c s IH]; intros b; simpl.
  - repeat constructor.
  - destruct (isWhiteSpace c) eqn:Hc.
    + destruct b; [apply IH|]. constructor; [reflexivity|apply IH].
    + apply consHead_Forall; [simpl; rewrite Hc; reflexivity| |apply IH].
      intros t Ht. simpl. rewrite Hc. exact Ht.
Qed.

(** Both timestamp patterns contain a space. *)
Lemma matchFormat_space (sep : ascii) (s : string) (g : Groups) :
  matchFormat sep s = Some g ->
  existsb isWhiteSpace (list_ascii_of_string s) = true.
Proof.
  unfold matchFormat.
  destruct (list_ascii_of_string s)
    as [|y1 [|y2 [|y3 [|y4 [|s1 [|m1 [|m2 [|s2 [|d1 [|d2 [|sp [|h1 [|h2 [|c1
        [|i1 [|i2 [|c2 [|e1 [|e2 [|x l]]]]]]]]]]]]]]]]]]]]; try discriminate.
  destruct (forallb isDigit _ && Ascii.eqb s1 sep && Ascii.eqb s2 sep
            && Ascii.eqb sp " " && Ascii.eqb c1 ":" && Ascii.eqb c2 ":") eqn:E;
    [|discriminate].
  intros _. repeat (apply andb_true_iff in E as [E ?]).
  match goal with H : Ascii.eqb sp " " = true |- _ => apply Ascii.eqb_eq in H; subst sp end.
  cbn [existsb]. 
  replace (isWhiteSpace " ") with true by reflexivity.
  rewrite !orb_true_r. reflexivity.
Qed.

Lemma firstMatch_space (fmts : list ascii) (s : string) (g : Groups) :
  firstMatch fmts s = Some g ->
  existsb isWhiteSpace (list_ascii_of_string s) = true.
Proof.
  induction fmts as [|f fmts IH]; simpl; [discriminate|].
  destruct (matchFormat f s) as [g'|] eqn:E; [|exact IH].
  intros _. exact (matchFormat_space f s g' E).
Qed.

(** A trimmed line without a tab is dropped: the tokens of the white-space
    split cannot hold a timestamp. *)
Lemma parseAttlogLine_no_tab (h : Host) (rawLine : string) :
  (length (split TAB (trim rawLine)) < 2)%nat -> parseAttlogLine h rawLine = None.
Proof.
  intros Hlen. unfold parseAttlogLine.
  destruct (isEmpty (trim rawLine)); [reflexivity|].
  unfold tokenize. apply Nat.ltb_lt in Hlen. rewrite Hlen.
  destruct (length (splitWs (trim rawLine)) <? 2)%nat; [reflexivity|].
  destruct (splitWs (trim rawLine) !! 0%nat) as [pin|]; [|reflexivity].
  destruct (splitWs (trim rawLine) !! 1%nat) as [tsStr|] eqn:H1;
    [|reflexivity].
  unfold parseTimestamp.
  destruct (firstMatch formats tsStr) as [g|] eqn:Hm; [|reflexivity].
  exfalso. apply firstMatch_space in Hm.
  pose proof (splitWsFrom_pieces false (trim rawLine)) as Hall.
  rewrite Forall_forall in Hall.
  assert (Hin : tsStr ∈ splitWs (trim rawLine)).
  { apply list_elem_of_lookup. eauto. }
  specialize (Hall tsStr Hin). congruence.
Qed.

(** X1. The strict parser keeps a line exactly when its trimmed text, split on
    tabs, has at least two tokens, the second of which matches one of the
    two timestamp patterns and is read by [new Date] as a valid instant;
    the record is then made of the tab-separated tokens. A line without a
    tab is always dropped: the tokens of the white-space split hold no
    space, and both patterns require one. *)
Theorem strict_parser_keeps_tab_separated_lines (h : Host) (rawLine : string) :
  ((length (split TAB (trim rawLine)) < 2)%nat -> parseAttlogLine h rawLine = None)
  /\ forall row,
       parseAttlogLine h rawLine = Some row
       <-> exists pin tsStr rest g t,
             split TAB (trim rawLine) = pin :: tsStr :: rest
             /\ firstMatch formats tsStr = Some g
             /\ parse h (dateTimeString g) = Some t
             /\ row = mkRow pin (isoString t)
                        (orNull (pin :: tsStr :: rest) 2)
                        (orNull (pin :: tsStr :: rest) 3)
                        (orNull (pin :: tsStr :: rest) 4)
                        (orNull (pin :: tsStr :: rest) 5)
                        (trim rawLine).
Proof.
  split; [apply parseAttlogLine_no_tab|].
  intros row. split.
  - intros H.
    destruct (Nat.ltb_spec (length (split TAB (trim rawLine))) 2) as [Hlt|Hge].
    { rewrite (parseAttlogLine_no_tab h rawLine Hlt) in H. discriminate. }
    revert H. unfold parseAttlogLine.
    destruct (isEmpty (trim rawLine)); [discriminate|].
    unfold tokenize.
    destruct (Nat.ltb_spec (length (split TAB (trim rawLine))) 2) as [Hlt|_]; [lia|].
    destruct (split TAB (trim rawLine)) as [|pin [|tsStr rest]] eqn:Hs;
      [simpl in Hge; lia|simpl in Hge; lia|].
    cbn [length Nat.ltb Nat.leb lookup list_lookup].
    unfold parseTimestamp.
    destruct (firstMatch formats tsStr) as [g|] eqn:Hm; [|discriminate].
    cbn [mbind option_bind].
    destruct (parse h (dateTimeString g)) as [t|] eqn:Hp; [|discriminate].
    intros H. injection H as <-. exists pin, tsStr, rest, g, t. repeat split; assumption.
  - intros (pin & tsStr & rest & g & t & Hs & Hm & Hp & ->).
    unfold parseAttlogLine.
    destruct (isEmpty (trim rawLine)) eqn:He.
    { apply isEmpty_true in He. rewrite He in Hs. discriminate. }
    unfold tokenize. rewrite Hs.
    cbn [length Nat.ltb Nat.leb lookup list_lookup].
    unfold parseTimestamp. rewrite Hm. cbn [mbind option_bind]. rewrite Hp.
    reflexivity.
Qed.

Lemma strict_parser_keeps_tab_separated_lines_witness :
  parseAttlogLine utcHost "A1001 2024-03-05 09:15:30" = None.
Proof.
  apply (proj1 (strict_parser_keeps_tab_separated_lines utcHost
                  "A1001 2024-03-05 09:15:30")).
  vm_compute. lia.
Defined.

End StrictParserShape.

(* ===================================================================== *)
(** * Line endings *)
(* ===================================================================== *)

Section LineEndings.
Import JSString JSDate Parser.

Lemma split_app (sep : ascii) (a b : string) :
  split sep (a +:+ String sep b) = split sep a ++ split sep b.
Proof.
  induction a as [|c a IH]; rewrite ?append_cons, ?append_nil; simpl.
  - rewrite Ascii.eqb_refl. reflexivity.
  - rewrite IH. destruct (Ascii.eqb c sep); [reflexivity|].
    pose proof (split_length sep a) as Hl.
    destruct (split sep a); [simpl in Hl; lia|reflexivity].
Qed.

Lemma replaceCR_app (a b : string) :
  replaceCR (a +:+ b) = replaceCR a +:+ replaceCR b.
Proof.
  induction a as [|c a IH]; rewrite ?append_cons, ?append_nil; simpl;
    rewrite ?append_cons, ?append_nil; [reflexivity|]. rewrite IH. reflexivity.
Qed.

Lemma splitLines_LF (a b : string) :
  splitLines (a +:+ String LF b) = splitLines a ++ splitLines b.
Proof.
  unfold splitLines. rewrite replaceCR_app. simpl. apply split_app.
Qed.

Lemma splitLines_CR (a b : string) :
  splitLines (a +:+ String CR b) = splitLines a ++ splitLines b.
Proof.
  unfold splitLines. rewrite replaceCR_app. simpl. apply split_app.
Qed.

(** X2. The strict parser reads a text line by line, and a line ends at a line
    feed, at a carriage return, or at the two in a row. *)
Theorem strict_parser_reads_line_by_line (h : Host) (a b : string) :
  parseAttlogText h (a +:+ String LF b) = parseAttlogText h a ++ parseAttlogText h b
  /\ parseAttlogText h (a +:+ String CR b) = parseAttlogText h a ++ parseAttlogText h b
  /\ parseAttlogText h (a +:+ String CR (String LF b))
     = parseAttlogText h a ++ parseAttlogText h b.
Proof.
  unfold parseAttlogText. split; [|split].
  - rewrite splitLines_LF. apply omap_app.
  - rewrite splitLines_CR. apply omap_app.
  - rewrite splitLines_CR, omap_app. reflexivity.
Qed.

End LineEndings.

(* ===================================================================== *)
(** * The choice of the ingestion path *)
(* ===================================================================== *)

Section Routing.
Import JSString JSDate Store Eff Http Ingest.

Lemma startsWith_iff (p s : string) :
  startsWith p s = true <-> exists b, s = p +:+ b.
Proof.
  revert s. induction p as [|c p IH]; intros s; simpl.
  - split; [intros _; exists s; reflexivity|reflexivity].
  - destruct s as [|d s].
    + split; [discriminate|]. intros (b & H). rewrite append_cons in H. discriminate.
    + rewrite andb_true_iff, IH. split.
      * intros [Hc (b & ->)]. apply Ascii.eqb_eq in Hc as ->. exists b.
        rewrite append_cons. reflexivity.
      * intros (b & H). rewrite append_cons in H. injection H as -> ->.
        split; [apply Ascii.eqb_refl|eauto].
Qed.

Lemma includes_iff (p s : string) :
  includes p s = true <-> exists a b, s = a +:+ p +:+ b.
Proof.
  induction s as [|d s IH]; simpl; rewrite orb_true_iff, startsWith_iff.
  - split.
    + intros [(b & H)|H]; [|discriminate]. exists EmptyString, b. exact H.
    + intros (a & b & H). left. destruct a as [|c a].
      * exists b. exact H.
      * rewrite append_cons in H. discriminate.
  - rewrite IH. split.
    + intros [(b & H)|(a & b & ->)].
      * exists EmptyString, b. exact H.
      * exists (String d a), b. rewrite append_cons. reflexivity.
    + intros (a & b & H). destruct a as [|c a].
      * left. exists b. exact H.
      * right. rewrite append_cons in H. injection H as -> ->. eauto.
Qed.

(** X3. The parameter that names the table is [table], or [options] when
    [table] is missing or empty; the request is handled as an attendance
    log exactly when that parameter, put in upper case, contains the word
    ATTLOG. *)
Theorem attendance_path_is_chosen_by_containment (qTable qOptions : option string) :
  isAttlog (tableOf qTable qOptions) = true
  <-> exists t a b,
        (if truthy qTable then qTable else qOptions) = Some t
        /\ toUpperCase t = a +:+ "ATTLOG" +:+ b.
Proof.
  unfold isAttlog, tableOf.
  destruct (if truthy qTable then qTable else qOptions) as [t|].
  - rewrite andb_true_iff, includes_iff. split.
    + intros [_ (a & b & H)]. eauto.
    + intros (t' & a & b & Ht & H). injection Ht as <-. split; [|eauto].
      destruct t; [|reflexivity]. simpl in H.
      destruct a; rewrite ?append_cons in H; discriminate.
  - split; [discriminate|]. intros (t & a & b & H & _). discriminate.
Qed.

End Routing.

(* ===================================================================== *)
(** * What a computation leaves unchanged *)
(* ===================================================================== *)

Section Preservation.
Import Store Eff.

Context (R : World -> World -> Prop) `{!Reflexive R} `{!Transitive R}.

Lemma ret_preserves {A} (a : A) : preserves R (ret a).
Proof. intros w w' out H. injection H as <- <-. reflexivity. Qed.

Lemma throw_preserves {A} (x : Exn) : preserves R (throw (A := A) x).
Proof. intros w w' out H. injection H as <- <-. reflexivity. Qed.

Lemma bind_preserves {A B} (m : M A) (k : A -> M B) :
  preserves R m -> (forall a, preserves R (k a)) -> preserves R (Eff.bind m k).
Proof.
  intros Hm Hk w w' out. unfold Eff.bind.
  destruct (m w) as [[a|x] w1] eqn:E.
  - intros H. transitivity w1; [exact (Hm _ _ _ E)|exact (Hk a _ _ _ H)].
  - intros H. injection H as <- <-. exact (Hm _ _ _ E).
Qed.

Lemma tryCatch_preserves {A} (m : M A) (h : Exn -> M A) :
  preserves R m -> (forall x, preserves R (h x)) -> preserves R (tryCatch m h).
Proof.
  intros Hm Hh w w' out. unfold tryCatch.
  destruct (m w) as [[a|x] w1] eqn:E.
  - intros H. injection H as <- <-. exact (Hm _ _ _ E).
  - intros H. transitivity w1; [exact (Hm _ _ _ E)|exact (Hh x _ _ _ H)].
Qed.

Lemma forEach_preserves {A} (l : list A) (body : A -> M unit) :
  (forall x, preserves R (body x)) -> preserves R (forEach l body).
Proof.
  intros Hb. induction l as [|x l IH]; cbn [forEach].
  - apply ret_preserves.
  - apply bind_preserves; [apply Hb|intros _; exact IH].
Qed.

Lemma collect_preserves {A B} (l : list A) (body : A -> M (option B)) :
  (forall x, preserves R (body x)) -> preserves R (collect l body).
Proof.
  intros Hb. induction l as [|x l IH]; cbn [collect].
  - apply ret_preserves.
  - apply bind_preserves; [apply Hb|]. intros o.
    apply bind_preserves; [exact IH|]. intros rest. apply ret_preserves.
Qed.

Lemma orThrow_preserves {A} (x : Exn) (o : option A) : preserves R (orThrow x o).
Proof. destruct o; [apply ret_preserves|apply throw_preserves]. Qed.

End Preservation.

Section Frames.
Import JSString JSDate Parser Store Eff Http Attendance Ingest.

#[local] Instance sameDevices_refl : Reflexive sameDevices.
Proof. intros w. split; reflexivity. Qed.

#[local] Instance sameDevices_trans : Transitive sameDevices.
Proof. intros a b c [H1 H2] [H3 H4]. split; congruence. Qed.

Lemma dbQuery_sameDevices {A} (e : Env) (q : Db -> A) :
  preserves sameDevices (dbQuery e q).
Proof.
  intros w w' out. unfold dbQuery.
  destruct (rejects (tickOf e w)); intros H; injection H as <- <-; split; reflexivity.
Qed.

(** A statement on the punch or attendance table leaves the devices alone. *)
Lemma dbWrite_sameDevices (e : Env) (s : Stmt) :
  offDevices s = true -> preserves sameDevices (dbWrite e s).
Proof.
  intros Hs w w' out. unfold dbWrite.
  destruct (rejects (tickOf e w)).
  - intros H; injection H as <- <-; split; reflexivity.
  - destruct s; try discriminate; simpl;
      intros H; injection H as <- <-; split; reflexivity.
Qed.

Lemma postCallback_sameDevices (a : AttendanceData.t) :
  preserves sameDevices (postCallback a).
Proof. intros w w' out H. injection H as <- <-. split; reflexivity. Qed.

Lemma attendanceForPin_sameDevices (e : Env) (dayStr s en pin : string) :
  preserves sameDevices (attendanceForPin e dayStr s en pin).
Proof.
  unfold attendanceForPin.
  apply bind_preserves; try apply _; [apply dbQuery_sameDevices|]. intros ps.
  destruct (attendanceOf e pin dayStr ps) as [a|]; [|apply ret_preserves; apply _].
  apply bind_preserves; try apply _; [apply dbQuery_sameDevices|]. intros ex.
  apply bind_preserves; try apply _.
  - destruct ex; apply dbWrite_sameDevices; reflexivity.
  - intros _. apply bind_preserves; try apply _.
    + destruct (callbackSet e); [apply postCallback_sameDevices|apply ret_preserves; apply _].
    + intros _. apply ret_preserves; apply _.
Qed.

Lemma computeAttendanceForDay_sameDevices (e : Env) (dayStr : string) :
  preserves sameDevices (computeAttendanceForDay e dayStr).
Proof.
  unfold computeAttendanceForDay.
  apply bind_preserves; try apply _; [apply orThrow_preserves; apply _|]. intros range.
  apply bind_preserves; try apply _; [apply dbQuery_sameDevices|]. intros pins.
  apply collect_preserves; try apply _. intros pin. apply attendanceForPin_sameDevices.
Qed.

Lemma aggregateDays_sameDevices (e : Env) (days : list string) :
  preserves sameDevices (aggregateDays e days).
Proof.
  induction days as [|day days IH]; cbn [aggregateDays].
  - apply ret_preserves; apply _.
  - apply bind_preserves; try apply _; [apply computeAttendanceForDay_sameDevices|].
    intros r. apply bind_preserves; try apply _; [exact IH|].
    intros m. apply ret_preserves; apply _.
Qed.

Lemma fallbackLoop_sameDevices (e : Env) (now : nat -> Z) (lines : list string) :
  forall i, preserves sameDevices (fallbackLoop e now i lines).
Proof.
  induction lines as [|l lines IH]; intros i; cbn [fallbackLoop].
  - apply ret_preserves; apply _.
  - destruct (parseFallbackLine (host e) (now i) l) as [row|]; [|apply IH].
    apply bind_preserves; try apply _; [apply dbWrite_sameDevices; reflexivity|].
    intros _. apply bind_preserves; try apply _; [apply IH|].
    intros n. apply ret_preserves; apply _.
Qed.

Lemma postCdata_sameDevices (e : Env) (qTable qOptions reqBody : option string)
  (now : nat -> Z) :
  preserves sameDevices (postCdata e qTable qOptions reqBody now).
Proof.
  unfold postCdata. apply tryCatch_preserves; try apply _.
  2:{ intros x. apply ret_preserves; apply _. }
  destruct reqBody as [raw|]; [|apply ret_preserves; apply _].
  destruct (isEmpty raw || isEmpty (trim raw)); [apply ret_preserves; apply _|].
  destruct (isAttlog (tableOf qTable qOptions)).
  - apply bind_preserves; try apply _.
    + apply forEach_preserves; try apply _. intros row.
      apply dbWrite_sameDevices; reflexivity.
    + intros _. apply bind_preserves; try apply _; [apply aggregateDays_sameDevices|].
      intros r. apply ret_preserves; apply _.
  - apply bind_preserves; try apply _; [apply fallbackLoop_sameDevices|].
    intros n. apply ret_preserves; apply _.
Qed.

End Frames.

Section HeartbeatPreserves.
Import JSString JSDate Store Eff Http Liveness.

Context (R : World -> World -> Prop) `{!Reflexive R} `{!Transitive R}.

(** A relation kept by the queries, by the statements on the devices table
    and by the accesses to the cache is kept by the heartbeat handler. *)
Lemma getrequest_preserves (e : Env) (SN : option string) (now : Z) :
  (forall A (q : Db -> A), preserves R (dbQuery e q)) ->
  (forall s, offDevices s = false -> preserves R (dbWrite e s)) ->
  (forall c, preserves R (setCache c)) ->
  preserves R getCache ->
  preserves R (getrequest e SN now).
Proof.
  intros Hq Hw Hset Hget.
  assert (Hupd : forall sn f, preserves R (updateInfo sn f)).
  { intros sn f. unfold updateInfo. apply bind_preserves; try apply _; auto. }
  assert (Hdet : forall s, offDevices s = false -> preserves R (dbWriteDetached e s)).
  { intros s Hs. unfold dbWriteDetached. apply tryCatch_preserves; try apply _.
    - apply Hw, Hs.
    - intros x. apply ret_preserves; apply _. }
  unfold getrequest. apply tryCatch_preserves; try apply _.
  2:{ intros x. apply ret_preserves; apply _. }
  destruct SN as [sn|]; [|apply ret_preserves; apply _].
  destruct (isEmpty sn); [apply ret_preserves; apply _|].
  apply bind_preserves; try apply _; [exact Hget|]. intros c.
  apply bind_preserves; try apply _; [|intros _; apply ret_preserves; apply _].
  destruct (c !! sn) as [i|].
  - unfold heartbeatCached.
    apply bind_preserves; try apply _; [apply Hupd|]. intros _.
    apply bind_preserves; try apply _.
    + destruct (isOffline (status i)); [|apply ret_preserves; apply _].
      apply bind_preserves; try apply _; [apply Hupd|]. intros _.
      apply Hdet. reflexivity.
    + intros _. destruct (lastSeenDue now i); [|apply ret_preserves; apply _].
      apply bind_preserves; try apply _; [apply Hupd|]. intros _.
      apply Hdet. reflexivity.
  - unfold heartbeatNew.
    apply bind_preserves; try apply _; [apply Hq|]. intros r.
    apply bind_preserves; try apply _.
    + destruct r; apply Hw; reflexivity.
    + intros _. apply bind_preserves; try apply _; [exact Hget|]. intros c'. apply Hset.
Qed.

End HeartbeatPreserves.

(* ===================================================================== *)
(** * The outcome of an ingestion request *)
(* ===================================================================== *)

Section IngestOutcome.
Import JSString JSDate Parser Store Eff Http Attendance Ingest.

Lemma dbWrite_InsertPunch_cases (e : Env) (r : Row) (w w' : World)
  (out : Outcome unit) :
  dbWrite e (InsertPunch r) w = (out, w') ->
  (out = Ret tt /\ punch (db w') = punch (db w) ++ [r])
  \/ ((exists x, out = Throw x) /\ punch (db w') = punch (db w)).
Proof.
  unfold dbWrite. destruct (rejects (tickOf e w)); simpl;
    intros H; injection H as <- <-; simpl; eauto.
Qed.

(** The inserts of a batch stop at the first one that is rejected: what is
    stored is a prefix of the batch. *)
Lemma forEach_insert_prefix (e : Env) (rows : list Row) :
  forall w w' out,
    forEach rows (fun row => dbWrite e (InsertPunch row)) w = (out, w') ->
    exists k,
      punch (db w') = punch (db w) ++ take k rows
      /\ match out with
         | Ret _ => k = length rows
         | Throw _ => (k < length rows)%nat
         end.
Proof.
  induction rows as [|r rows IH]; intros w w' out; cbn [forEach].
  - unfold ret. intros H. injection H as <- <-. exists 0%nat.
    rewrite app_nil_r. split; reflexivity.
  - unfold Eff.bind at 1.
    destruct (dbWrite e (InsertPunch r) w) as [[[]|x] w1] eqn:E;
      destruct (dbWrite_InsertPunch_cases e r w w1 _ E) as [[Ho Hp]|[[y Ho] Hp]];
      try discriminate.
    + intros H. destruct (IH w1 w' out H) as (k & Hk & Hout).
      exists (S k). split.
      * rewrite Hk, Hp, <- app_assoc. reflexivity.
      * destruct out; simpl; lia.
    + intros H. injection H as <- <-. exists 0%nat. rewrite app_nil_r.
      split; [exact Hp|simpl; lia].
Qed.

Lemma fallbackLoop_prefix (e : Env) (now : nat -> Z) (lines : list string) :
  forall i w w' out,
    fallbackLoop e now i lines w = (out, w') ->
    exists k,
      punch (db w') = punch (db w) ++ take k (fallbackRows (host e) now i lines)
      /\ match out with
         | Ret n => k = length (fallbackRows (host e) now i lines) /\ n = k
         | Throw _ => (k < length (fallbackRows (host e) now i lines))%nat
         end.
Proof.
  induction lines as [|l lines IH]; intros i w w' out; cbn [fallbackLoop fallbackRows].
  - unfold ret. intros H. injection H as <- <-. exists 0%nat.
    rewrite app_nil_r. repeat split.
  - destruct (parseFallbackLine (host e) (now i) l) as [row|]; [|apply IH].
    unfold Eff.bind at 1.
    destruct (dbWrite e (InsertPunch row) w) as [[[]|x] w1] eqn:E;
      destruct (dbWrite_InsertPunch_cases e row w w1 _ E) as [[Ho Hp]|[[y Ho] Hp]];
      try discriminate.
    + unfold Eff.bind at 1.
      destruct (fallbackLoop e now (S i) lines w1) as [[n|x] w2] eqn:E2;
        destruct (IH (S i) w1 w2 _ E2) as (k & Hk & Hout).
      * unfold ret. intros H. injection H as <- <-. exists (S k). split.
        -- rewrite Hk, Hp, <- app_assoc. reflexivity.
        -- destruct Hout as [-> ->]. split; reflexivity.
      * intros H. injection H as <- <-. exists (S k). split.
        -- rewrite Hk, Hp, <- app_assoc. reflexivity.
        -- simpl. lia.
    + intros H. injection H as <- <-. exists 0%nat. rewrite app_nil_r.
      split; [exact Hp|simpl; lia].
Qed.

Lemma blank_iff (raw : string) :
  isEmpty raw || isEmpty (trim raw) = true <-> allWs raw = true.
Proof.
  rewrite orb_true_iff, !isEmpty_true, <- trim_empty. split.
  - intros [->|H]; [reflexivity|exact H].
  - auto.
Qed.

(** X4. The ingestion handler never throws: it answers 200, 400 or 500. It
    answers 400 exactly when the body is missing or holds white space only,
    with an error message as its body, and then the state is untouched: no
    statement has been sent, whatever the table parameter says. *)
Theorem ingest_rejects_blank_bodies (e : Env) (qTable qOptions reqBody : option string)
  (now : nat -> Z) (w : World) :
  exists resp w',
    postCdata e qTable qOptions reqBody now w = (Ret resp, w')
    /\ (statusCode resp = 200 \/ statusCode resp = 400 \/ statusCode resp = 500)
    /\ (statusCode resp = 400 <-> blankBody reqBody)
    /\ (statusCode resp = 400 -> w' = w)
    /\ (blankBody reqBody ->
        exists message, body resp = JsonError message).
Proof.
  unfold postCdata, tryCatch, blankBody. destruct reqBody as [raw|].
  2:{ eexists _, _. split; [reflexivity|]. simpl. 
      repeat split; eauto; try tauto. }
  destruct (isEmpty raw || isEmpty (trim raw)) eqn:Hb.
  { apply blank_iff in Hb. eexists _, _. split; [reflexivity|]. simpl.
    repeat split; eauto; try tauto. }
  assert (Hnb : allWs raw <> true).
  { intros H. apply blank_iff in H. congruence. }
  match goal with |- context [match ?m w with _ => _ end] =>
    destruct (m w) as [[resp|x] w1] eqn:E end.
  - revert E. destruct (isAttlog (tableOf qTable qOptions)).
    + unfold Eff.bind at 1.
      destruct (forEach _ _ w) as [[[]|y] w2]; [|discriminate].
      unfold Eff.bind at 1.
      destruct (aggregateDays e _ w2) as [[r|y] w3]; [|discriminate].
      unfold ret. intros H. injection H as <- <-.
      eexists _, _. split; [reflexivity|]. simpl.
      split; [tauto|]. split; [split; [discriminate|contradiction]|].
      split; [discriminate|contradiction].
    + unfold Eff.bind at 1.
      destruct (fallbackLoop e now 0 _ w) as [[n|y] w2]; [|discriminate].
      unfold ret. intros H. injection H as <- <-.
      eexists _, _. split; [reflexivity|]. simpl.
      split; [tauto|]. split; [split; [discriminate|contradiction]|].
      split; [discriminate|contradiction].
  - eexists _, _. split; [reflexivity|]. simpl.
    split; [tauto|]. split; [split; [discriminate|contradiction]|].
    split; [discriminate|contradiction].
Qed.

Lemma blank_payloadRows (e : Env) (table : option string) (raw : string)
  (now : nat -> Z) :
  allWs raw = true -> payloadRows e table raw now = [].
Proof.
  intros H. apply trim_empty in H. pose proof (blank_payload_lines raw H) as Hl.
  unfold payloadRows. destruct (isAttlog table).
  - unfold parseAttlogText. induction (splitLines raw) as [|l ls IH]; [reflexivity|].
    simpl in Hl. destruct (nonBlank l) eqn:Hnb; [discriminate|].
    csimpl. unfold parseAttlogLine at 1. unfold nonBlank in Hnb.
    apply negb_false_iff in Hnb. rewrite Hnb. exact (IH Hl).
  - apply length_zero_iff_nil. rewrite fallbackRows_length, Hl. reflexivity.
Qed.

(** X5. Whatever the database does, the punch table after a request is the
    table before it followed by the first [k] rows of the payload, in
    order, and the devices are not touched; the answer is 200 only when all
    rows are in, with their number as [inserted], and it is 500 when a row
    is missing. *)
Theorem ingest_stores_a_prefix (e : Env) (qTable qOptions : option string)
  (raw : string) (now : nat -> Z) (w w' : World) (resp : Response) :
  postCdata e qTable qOptions (Some raw) now w = (Ret resp, w') ->
  exists k,
    punch (db w')
    = punch (db w) ++ take k (payloadRows e (tableOf qTable qOptions) raw now)
    /\ sameDevices w w'
    /\ (statusCode resp = 200 ->
        k = length (payloadRows e (tableOf qTable qOptions) raw now)
        /\ exists att, body resp = JsonInserted k att)
    /\ ((k < length (payloadRows e (tableOf qTable qOptions) raw now))%nat ->
        statusCode resp = 500).
Proof.
  intros Hrun.
  pose proof (postCdata_sameDevices e qTable qOptions (Some raw) now w w' _ Hrun) as Hsd.
  revert Hrun. unfold postCdata, tryCatch.
  destruct (isEmpty raw || isEmpty (trim raw)) eqn:Hb.
  { apply blank_iff in Hb. unfold ret. intros H. injection H as <- <-.
    exists 0%nat. rewrite (blank_payloadRows e _ raw now Hb), app_nil_r.
    simpl. repeat split; try (apply Hsd); try discriminate; lia. }
  unfold payloadRows. destruct (isAttlog (tableOf qTable qOptions)).
  - unfold Eff.bind at 1.
    destruct (forEach _ _ w) as [[[]|y] w1] eqn:E1;
      destruct (forEach_insert_prefix e _ w w1 _ E1) as (k & Hk & Hout).
    + unfold Eff.bind at 1.
      destruct (aggregateDays e _ w1) as [[r|y] w2] eqn:E2;
        pose proof (aggregateDays_punch e _ w1 w2 _ E2) as Hp;
        unfold ret; intros H; injection H as <- <-; exists k; subst k;
        rewrite ?Hp; (split; [exact Hk|]); (split; [exact Hsd|]); simpl;
        split; try discriminate; try lia; eauto.
    + unfold ret. intros H. injection H as <- <-. exists k.
      split; [exact Hk|]. split; [exact Hsd|]. simpl. split; [discriminate|].
      reflexivity.
  - unfold Eff.bind at 1.
    destruct (fallbackLoop e now 0 _ w) as [[n|y] w1] eqn:E1;
      destruct (fallbackLoop_prefix e now _ 0%nat w w1 _ E1) as (k & Hk & Hout);
      unfold ret; intros H; injection H as <- <-; exists k;
      (split; [exact Hk|]); (split; [exact Hsd|]); simpl.
    + destruct Hout as [Hl ->]. split; [eauto|lia].
    + split; [discriminate|reflexivity].
Qed.

Lemma ingest_stores_a_prefix_witness :
  exists k,
    punch (db (postCdata (flakyEnv 2) (Some "OPERLOG"%string) None (Some fourLines)
                 (fun _ => 0) emptyWorld).2)
    = take k (payloadRows (flakyEnv 2) (tableOf (Some "OPERLOG"%string) None)
                fourLines (fun _ => 0))
    /\ (k < 4)%nat.
Proof.
  assert (Hrun : postCdata (flakyEnv 2) (Some "OPERLOG"%string) None (Some fourLines)
                   (fun _ => 0) emptyWorld
                 = (Ret (mkResponse 500 (JsonException SqlError)),
                    (postCdata (flakyEnv 2) (Some "OPERLOG"%string) None
                       (Some fourLines) (fun _ => 0) emptyWorld).2)).
  { vm_compute. reflexivity. }
  destruct (ingest_stores_a_prefix _ _ _ _ _ _ _ _ Hrun) as (k & Hk & _ & _ & _).
  exists k. split; [exact Hk|].
  destruct k as [|[|[|[|k]]]]; try lia. discriminate Hk.
Defined.

End IngestOutcome.

(* ===================================================================== *)
(** * The permissive loop, line by line *)
(* ===================================================================== *)

Section FallbackLines.
Import JSString JSDate Parser Store Eff Http Ingest.

Lemma splitLines_textLines (s : string) : splitLines s = textLines s.
Proof.
  unfold splitLines. induction s as [|c s IH]; [reflexivity|].
  cbn [replaceCR split textLines]. unfold isLineBreak.
  destruct (Ascii.eqb c CR) eqn:Hcr.
  - rewrite Ascii.eqb_refl, IH. reflexivity.
  - cbn [orb]. destruct (Ascii.eqb c LF); rewrite IH; [reflexivity|].
    unfold consHead. destruct (textLines s); reflexivity.
Qed.

Lemma split_token (s : string) :
  split TAB s = untilTab s :: match afterTab s with
                              | Some r => split TAB r
                              | None => []
                              end.
Proof.
  induction s as [|c s IH]; [reflexivity|].
  cbn [split untilTab afterTab]. destruct (Ascii.eqb c TAB); [reflexivity|].
  rewrite IH. reflexivity.
Qed.

Lemma split_lookup_token (n : nat) :
  forall s, split TAB s !! n = token n s.
Proof.
  induction n as [|n IH]; intros s; rewrite split_token; [reflexivity|].
  cbn [lookup list_lookup token]. destruct (afterTab s) as [r|]; [apply IH|reflexivity].
Qed.

Lemma replaceSlash_dashed (s : string) : replaceSlash s = dashed s.
Proof.
  unfold dashed. induction s as [|c s IH]; [reflexivity|].
  cbn [replaceSlash list_ascii_of_string map string_of_list_ascii].
  rewrite IH. reflexivity.
Qed.

(** The body of the loop, line by line: a blank line is skipped, a line
    with content gives the record of the specification. *)
Lemma parseFallbackLine_lineRecord (h : Host) (now : Z) (rawLine : string) :
  parseFallbackLine h now rawLine
  = if allWs rawLine then None else Some (lineRecord h now rawLine).
Proof.
  unfold parseFallbackLine, lineRecord.
  destruct (allWs rawLine) eqn:Hws.
  { apply trim_empty in Hws. rewrite Hws. reflexivity. }
  { destruct (isEmpty (trim rawLine)) eqn:He.
    { apply isEmpty_true, trim_empty in He. congruence. }
    rewrite !split_lookup_token. cbn [token].
    f_equal. f_equal.
    - destruct (untilTab (trim rawLine)); reflexivity.
    - destruct (afterTab (trim rawLine)) as [r|]; [|reflexivity].
      cbn [mbind option_bind]. rewrite replaceSlash_dashed.
      destruct (parse h (dashed (untilTab r))); reflexivity. }
Qed.

Lemma fallbackRows_numbered (h : Host) (now : nat -> Z) (lines : list string) :
  forall i,
    fallbackRows h now i lines
    = map (fun il => lineRecord h (now il.1) il.2)
          (List.filter (fun il => negb (allWs il.2)) (numbered i lines)).
Proof.
  induction lines as [|l lines IH]; intros i; [reflexivity|].
  cbn [fallbackRows numbered List.filter]. rewrite parseFallbackLine_lineRecord.
  cbn [snd]. destruct (allWs l); cbn [negb map fst snd]; rewrite IH; reflexivity.
Qed.

Lemma fallbackRows_lineRecords (h : Host) (now : nat -> Z) (raw : string) :
  fallbackRows h now 0 (splitLines raw) = lineRecords h now raw.
Proof.
  rewrite splitLines_textLines. apply fallbackRows_numbered.
Qed.

(** The loop stops at the first insert that the database rejects. *)
Lemma fallbackLoop_run (e : Env) (now : nat -> Z) (lines : list string) :
  forall i w,
    let rows := fallbackRows (host e) now i lines in
    exists n out w',
      fallbackLoop e now i lines w = (out, w')
      /\ (n <= length rows)%nat
      /\ punch (db w') = punch (db w) ++ take n rows
      /\ (forall k, (k < n)%nat -> rejects (oracle e (calls w + k)) = false)
      /\ match out with
         | Ret m => n = length rows /\ m = n
         | Throw _ => (n < length rows)%nat
                      /\ rejects (oracle e (calls w + n)) = true
         end.
Proof.
  induction lines as [|l lines IH]; intros i w; cbn [fallbackLoop fallbackRows].
  - exists 0%nat, (Ret 0%nat), w. cbn. rewrite app_nil_r.
    repeat split; lia.
  - destruct (parseFallbackLine (host e) (now i) l) as [row|]; [|apply IH].
    unfold Eff.bind at 1, dbWrite at 1, tickOf. cbn [exec].
    destruct (rejects (oracle e (calls w))) eqn:Hrej.
    + exists 0%nat. eexists _, _. split; [reflexivity|]. cbn.
      rewrite app_nil_r, Nat.add_0_r. repeat split; try lia. exact Hrej.
    + match goal with |- context [Eff.bind (fallbackLoop e now (S i) lines) _ ?w1] =>
        destruct (IH (S i) w1) as (n & out & w' & Hrun & Hle & Hp & Hacc & Hout)
      end.
      cbn [calls db punch] in *.
      exists (S n). unfold Eff.bind. rewrite Hrun.
      assert (Hacc' : forall k, (k < S n)%nat ->
                rejects (oracle e (calls w + k)) = false).
      { intros [|k] Hk; [rewrite Nat.add_0_r; exact Hrej|].
        rewrite <- Nat.add_succ_comm. apply Hacc. lia. }
      destruct out as [m|x].
      * eexists _, _. split; [reflexivity|]. cbn.
        split; [lia|]. split; [rewrite Hp, <- app_assoc; reflexivity|].
        split; [exact Hacc'|]. destruct Hout as [-> ->]. split; reflexivity.
      * eexists _, _. split; [reflexivity|]. cbn.
        split; [lia|]. split; [rewrite Hp, <- app_assoc; reflexivity|].
        split; [exact Hacc'|]. destruct Hout as [Hlt Hr]. split; [lia|].
        rewrite <- Nat.add_succ_comm. exact Hr.
Qed.

(** C6. In the ingestion path for payloads that are not attendance logs,
    the lines are what stands between the line breaks (carriage returns
    and line feeds) of the payload, and each line with content asks for
    exactly one punch record: its identity is token 0 of a tab-only split
    of the trimmed line (["UNKNOWN"] if that token is missing or empty),
    its timestamp is token 1 read as a date after its slashes have been
    replaced by dashes, or the instant of ingestion when there is no token
    1 or it is not a date, and its raw text is the trimmed line. The
    records are stored in the order of the lines, up to the first insert
    that the database rejects: the punch table grows by the first [n] of
    them, the inserts before the [n]-th were accepted, and either all
    records are stored, or the [n]-th insert was rejected and the answer
    is 500. When nothing is rejected every line with content is stored
    and the answer carries their number. *)
Theorem C6_fallback_keeps_every_line (e : Env) (qTable qOptions : option string)
  (raw : string) (now : nat -> Z) (w : World) :
  isAttlog (tableOf qTable qOptions) = false ->
  let records := lineRecords (host e) now raw in
  exists n resp w',
    postCdata e qTable qOptions (Some raw) now w = (Ret resp, w')
    /\ (n <= length records)%nat
    /\ punch (db w') = punch (db w) ++ take n records
    /\ (forall k, (k < n)%nat -> rejects (oracle e (calls w + k)) = false)
    /\ ((n < length records)%nat ->
        rejects (oracle e (calls w + n)) = true /\ statusCode resp = 500)
    /\ (n = length records -> allWs raw = false ->
        resp = mkResponse 200 (JsonInserted n None)).
Proof.
  intros Htab records. unfold postCdata, tryCatch. rewrite Htab.
  destruct (isEmpty raw || isEmpty (trim raw)) eqn:Hblank.
  - apply blank_iff in Hblank.
    assert (Hnil : records = []).
    { unfold records. rewrite <- fallbackRows_lineRecords.
      apply length_zero_iff_nil. rewrite fallbackRows_length.
      rewrite blank_payload_lines; [reflexivity|]. apply trim_empty, Hblank. }
    exists 0%nat. eexists _, _. split; [reflexivity|]. rewrite Hnil. cbn.
    rewrite app_nil_r. repeat split; try lia. congruence.
  - destruct (fallbackLoop_run e now (splitLines raw) 0%nat w)
      as (n & out & w' & Hrun & Hle & Hp & Hacc & Hout).
    rewrite fallbackRows_lineRecords in Hle, Hp, Hout. fold records in Hle, Hp, Hout.
    exists n. unfold Eff.bind. rewrite Hrun. destruct out as [m|x].
    + destruct Hout as [Hn ->]. eexists _, _. split; [reflexivity|].
      split; [exact Hle|]. split; [exact Hp|]. split; [exact Hacc|].
      split; [lia|]. reflexivity.
    + destruct Hout as [Hlt Hrej]. eexists _, _. split; [reflexivity|].
      split; [exact Hle|]. split; [exact Hp|]. split; [exact Hacc|].
      split; [intros _; split; [exact Hrej|reflexivity]|]. lia.
Qed.

Lemma C6_fallback_keeps_every_line_witness :
  exists resp w',
    postCdata (plainEnv utcHost) (Some "OPERLOG"%string) None (Some mixedPayload)
              (fun _ => 5000) emptyWorld = (Ret resp, w')
    /\ resp = mkResponse 200 (JsonInserted 3 None)
    /\ map (fun r => (pin r, ts r, Parser.raw r)) (punch (db w'))
       = [("OPLOG 7", "1970-01-01T00:00:05.000Z", "OPLOG 7");
          ("17", "2024-03-05T00:00:00.000Z", "17" +:+ TABs +:+ "2024/03/05");
          ("X9", "1970-01-01T00:00:05.000Z", "X9")]%string.
Proof.
  destruct (C6_fallback_keeps_every_line (plainEnv utcHost) (Some "OPERLOG"%string)
              None mixedPayload (fun _ => 5000) emptyWorld eq_refl)
    as (n & resp & w' & Hrun & Hle & Hp & _ & Hrej & Hall).
  assert (Hlen : length (lineRecords (host (plainEnv utcHost)) (fun _ => 5000)
                          mixedPayload) = 3%nat) by (vm_compute; reflexivity).
  rewrite Hlen in Hle, Hrej, Hall.
  assert (Hn : n = 3%nat).
  { destruct (Nat.eq_dec n 3%nat) as [E|E]; [exact E|].
    destruct (Hrej ltac:(lia)) as [H _]. discriminate H. }
  subst n. exists resp, w'. split; [exact Hrun|].
  split; [apply Hall; reflexivity|]. rewrite Hp. vm_compute. reflexivity.
Defined.

(** C6 as stated fails: when the database rejects the third insert of a
    payload of four lines with content, the answer is 500 and only the
    first two lines have a record; the lines [c] and [d] are discarded. *)
Lemma C6_counterexample :
  exists resp w',
    postCdata (flakyEnv 2) (Some "OPERLOG"%string) None (Some fourLines)
              (fun _ => 0) emptyWorld = (Ret resp, w')
    /\ statusCode resp = 500
    /\ map snd (contentLines fourLines) = ["a"; "b"; "c"; "d"]%string
    /\ map pin (punch (db w')) = ["a"; "b"]%string.
Proof. eexists _, _. split; [vm_compute; reflexivity|]. repeat split. Qed.

End FallbackLines.

(* ===================================================================== *)
(** * The callback *)
(* ===================================================================== *)

Section Callback.
Import JSString JSDate Parser Store Eff Http Attendance Ingest.

Lemma attendanceForPin_posted (e : Env) (dayStr s en pin : string) (w w' : World)
  (out : Outcome (option AttendanceData.t)) :
  attendanceForPin e dayStr s en pin w = (out, w') ->
  posted w' = posted w ++ match out with
                          | Ret (Some a) => if callbackSet e then [a] else []
                          | _ => []
                          end.
Proof.
  unfold attendanceForPin, Eff.bind, dbQuery, dbWrite, postCallback, ret, tickOf.
  cbn [calls db posted issued deviceCache].
  repeat match goal with
  | |- context [if rejects ?t then _ else _] => destruct (rejects t)
  | |- context [match attendanceOf ?a ?b ?c ?d with _ => _ end] =>
      destruct (attendanceOf a b c d)
  | |- context [match selectAttendance ?a ?b ?c with _ => _ end] =>
      destruct (selectAttendance a b c)
  | |- context [if callbackSet e then _ else _] => destruct (callbackSet e)
  | |- _ => progress cbn [exec calls db posted issued deviceCache]
  end;
  intros H; injection H as <- <-; cbn [posted]; rewrite ?app_nil_r; reflexivity.
Qed.

Lemma ifConfigured_app {A} (url : option string) (l1 l2 : list A) :
  ifConfigured url (l1 ++ l2) = ifConfigured url l1 ++ ifConfigured url l2.
Proof. destruct url as [[|c u]|]; reflexivity. Qed.

(** The test [if (CALLBACK_URL)] holds exactly when an address is
    configured. *)
Lemma ifConfigured_callbackSet {A} (e : Env) (l : list A) :
  ifConfigured (CALLBACK_URL e) l = if callbackSet e then l else [].
Proof. unfold callbackSet. destruct (CALLBACK_URL e) as [[|c u]|]; reflexivity. Qed.

Lemma upsertData_keys (D : list AttendanceData.t) (a : AttendanceData.t) (k : string * string) :
  k ∈ map keyOf D -> k ∈ map keyOf (upsertData D a).
Proof.
  unfold upsertData. destruct (existsb (sameKey a) D).
  - rewrite overwrite_keys. auto.
  - rewrite map_app, elem_of_app. auto.
Qed.

Lemma upserts_keys (l D : list AttendanceData.t) (k : string * string) :
  k ∈ map keyOf D -> k ∈ map keyOf (foldl upsertData D l).
Proof.
  revert D. induction l as [|a l IH]; intros D H; simpl; [exact H|].
  apply IH, upsertData_keys, H.
Qed.

Lemma upserts_written (l D : list AttendanceData.t) :
  Forall (fun a => keyOf a ∈ map keyOf (foldl upsertData D l)) l.
Proof.
  revert D. induction l as [|a l IH]; intros D; simpl; constructor.
  - apply upserts_keys. apply (upsertData_stored D a).
  - apply IH.
Qed.

Lemma collect_written (e : Env) (dayStr s en : string) (pins : list string) :
  forall (w w' : World) (out : Outcome (list AttendanceData.t)),
    collect pins (attendanceForPin e dayStr s en) w = (out, w') ->
    exists written,
      attendanceData (db w') = foldl upsertData (attendanceData (db w)) written
      /\ posted w' = posted w ++ ifConfigured (CALLBACK_URL e) written
      /\ forall results, out = Ret results -> written = results.
Proof.
  induction pins as [|pin pins IH]; intros w w' out; cbn [collect].
  - unfold ret. intros H. injection H as <- <-. exists [].
    split; [reflexivity|]. split.
    + rewrite ifConfigured_callbackSet. destruct (callbackSet e); simpl;
        rewrite app_nil_r; reflexivity.
    + intros r H. injection H as <-. reflexivity.
  - unfold Eff.bind at 1.
    destruct (attendanceForPin e dayStr s en pin w) as [[o|x] w1] eqn:H1;
      destruct (attendanceForPin_inv e dayStr s en pin w w1 _ H1) as [_ Ho];
      pose proof (attendanceForPin_posted e dayStr s en pin w w1 _ H1) as Hpost.
    2:{ intros H. injection H as <- <-. exists []. split; [exact Ho|]. split.
        - rewrite Hpost. rewrite ifConfigured_callbackSet.
          destruct (callbackSet e); reflexivity.
        - intros r H. discriminate. }
    destruct Ho as [_ Hd1]. unfold Eff.bind at 1.
    destruct (collect pins (attendanceForPin e dayStr s en) w1) as [[rest|x] w2] eqn:H2;
      destruct (IH w1 w2 _ H2) as (wr & Hd2 & Hp2 & Hres).
    + unfold ret. intros H. injection H as <- <-.
      specialize (Hres rest eq_refl). subst wr.
      exists (match o with Some b => b :: rest | None => rest end).
      split; [|split].
      * rewrite Hd2, Hd1. destruct o; reflexivity.
      * rewrite Hp2, Hpost. rewrite !ifConfigured_callbackSet.
        destruct o, (callbackSet e); simpl;
          rewrite <- ?app_assoc, ?app_nil_r; reflexivity.
      * intros r H. injection H as <-. reflexivity.
    + intros H. injection H as <- <-.
      exists (match o with Some b => b :: wr | None => wr end).
      split; [|split].
      * rewrite Hd2, Hd1. destruct o; reflexivity.
      * rewrite Hp2, Hpost. rewrite !ifConfigured_callbackSet.
        destruct o, (callbackSet e); simpl;
          rewrite <- ?app_assoc, ?app_nil_r; reflexivity.
      * intros r H. discriminate.
Qed.

Lemma dbQuery_posted {A} (e : Env) (q : Db -> A) (w w' : World) (out : Outcome A) :
  dbQuery e q w = (out, w') -> posted w' = posted w.
Proof.
  unfold dbQuery. destruct (rejects (tickOf e w)); intros H; injection H as <- <-;
    reflexivity.
Qed.

(** X6. The callback receives the records that [computeAttendanceForDay] has
    written, once each and in the order in which they were written; a
    record is posted only after its row is in the table. When the call
    returns, the records written are the records returned. When
    [CALLBACK_URL] is not set, or is the empty string, nothing is
    posted. *)
Theorem callback_receives_the_records_written (e : Env) (dayStr : string)
  (w w' : World) (out : Outcome (list AttendanceData.t)) :
  computeAttendanceForDay e dayStr w = (out, w') ->
  exists written,
    attendanceData (db w') = foldl upsertData (attendanceData (db w)) written
    /\ posted w' = posted w ++ ifConfigured (CALLBACK_URL e) written
    /\ Forall (fun a => keyOf a ∈ map keyOf (attendanceData (db w'))) written
    /\ (forall results, out = Ret results -> written = results).
Proof.
  unfold computeAttendanceForDay. unfold Eff.bind at 1.
  destruct (dayRange (host e) dayStr) as [range|]; simpl.
  2:{ unfold throw. intros H. injection H as <- <-. exists [].
      split; [reflexivity|]. split.
      - rewrite ifConfigured_callbackSet. destruct (callbackSet e); simpl;
          rewrite app_nil_r; reflexivity.
      - split; [constructor|]. intros r H. discriminate. }
  unfold Eff.bind at 1.
  destruct (dbQuery e (selectDistinctPins range.1 range.2) w) as [[pins|x] w1] eqn:Hq;
    destruct (dbQuery_inv e _ w w1 _ Hq) as [Hdb _];
    pose proof (dbQuery_posted e _ w w1 _ Hq) as Hpo.
  2:{ intros H. injection H as <- <-. exists []. rewrite Hdb.
      split; [reflexivity|]. split.
      - rewrite Hpo, ifConfigured_callbackSet. destruct (callbackSet e); simpl;
          rewrite app_nil_r; reflexivity.
      - split; [constructor|]. intros r H. discriminate. }
  intros H. destruct (collect_written e dayStr _ _ pins w1 w' out H)
    as (wr & Hd & Hp & Hres).
  exists wr. rewrite Hdb in Hd. rewrite Hpo in Hp.
  split; [exact Hd|]. split; [exact Hp|]. split; [|exact Hres].
  rewrite Hd. apply upserts_written.
Qed.

Lemma callback_receives_the_records_written_witness :
  posted (computeAttendanceForDay callbackEnv "2024-03-05" sampleDay).2
  = sampleResults
  /\ posted (computeAttendanceForDay emptyUrlEnv "2024-03-05" sampleDay).2 = [].
Proof.
  split.
  - destruct (callback_receives_the_records_written callbackEnv
                "2024-03-05" sampleDay _ _ (surjective_pairing _))
      as (wr & _ & Hp & _ & Hres).
    rewrite Hp. rewrite (Hres sampleResults); [reflexivity|].
    vm_compute. reflexivity.
  - destruct (callback_receives_the_records_written emptyUrlEnv
                "2024-03-05" sampleDay _ _ (surjective_pairing _))
      as (wr & _ & Hp & _ & _).
    rewrite Hp. reflexivity.
Defined.

End Callback.

(* ===================================================================== *)
(** * Edge cases of the aggregator *)
(* ===================================================================== *)

Section AggregationEdges.
Import JSString JSDate Parser Store Eff Http Attendance Ingest.

Lemma distinct_nil_filter (s en : string) (d : Db) :
  (forall r, r ∈ punch d -> inRange s en r = false) ->
  selectDistinctPins s en d = [].
Proof.
  intros H. unfold selectDistinctPins.
  replace (List.filter (inRange s en) (punch d)) with (@nil Row); [reflexivity|].
  symmetry. induction (punch d) as [|r rs IH]; simpl; [reflexivity|].
  rewrite (H r (list_elem_of_here _ _)). apply IH.
  intros r' Hr'. apply H. apply list_elem_of_further. exact Hr'.
Qed.

(** X7. Edge inputs of the aggregator. A day string that [new Date] cannot
    read makes [toISOString] raise a [RangeError] before any statement is
    sent. A readable day without a punch in its range costs one query and
    gives the empty list: nothing is written and nothing is posted. *)
Theorem aggregation_of_unreadable_and_empty_days (e : Env) (dayStr : string)
  (w : World) :
  (parse (host e) dayStr = None ->
   computeAttendanceForDay e dayStr w = (Throw RangeError, w))
  /\ (forall s en,
        dayRange (host e) dayStr = Some (s, en) ->
        (forall r, r ∈ punch (db w) -> inRange s en r = false) ->
        rejects (oracle e (calls w)) = false ->
        computeAttendanceForDay e dayStr w
        = (Ret [], mkWorld (db w) (deviceCache w) (S (calls w)) (issued w)
                           (posted w))).
Proof.
  split.
  - intros Hp. unfold computeAttendanceForDay, dayRange. rewrite Hp. reflexivity.
  - intros s en Hr Hnone Hacc. unfold computeAttendanceForDay. rewrite Hr.
    unfold orThrow. unfold Eff.bind at 1. unfold ret at 1.
    unfold Eff.bind, dbQuery, tickOf. rewrite Hacc. cbn [fst snd].
    rewrite (distinct_nil_filter s en (db w) Hnone). reflexivity.
Qed.

Lemma aggregation_of_unreadable_and_empty_days_witness :
  computeAttendanceForDay (plainEnv utcHost) "yesterday" sampleDay
  = (Throw RangeError, sampleDay)
  /\ (computeAttendanceForDay (plainEnv utcHost) "2024-03-06" sampleDay).1 = Ret [].
Proof.
  destruct (aggregation_of_unreadable_and_empty_days (plainEnv utcHost)
              "yesterday" sampleDay) as [H1 _].
  destruct (aggregation_of_unreadable_and_empty_days (plainEnv utcHost)
              "2024-03-06" sampleDay) as [_ H2].
  split; [apply H1; reflexivity|].
  rewrite (H2 "2024-03-06T00:00:00.000Z" "2024-03-06T23:59:59.999Z")%string;
    [reflexivity|vm_compute; reflexivity| |reflexivity].
  intros r Hr. unfold sampleDay in Hr. cbn [db punch] in Hr.
  repeat (apply elem_of_cons in Hr as [->|Hr]; [vm_compute; reflexivity|]).
  apply elem_of_nil in Hr. contradiction.
Defined.

(** X8. The loop over the pins never takes its [continue]: each identity found
    by the [SELECT DISTINCT] has a punch in the range, so the records
    returned are one per identity, in the order of the identities. *)
Theorem one_record_per_identity (e : Env) (dayStr s en : string) (w w' : World)
  (results : list AttendanceData.t) :
  dayRange (host e) dayStr = Some (s, en) ->
  computeAttendanceForDay e dayStr w = (Ret results, w') ->
  map AttendanceData.pin results = selectDistinctPins s en (db w)
  /\ Forall (fun a => AttendanceData.day a = dayStr) results
  /\ NoDup (map AttendanceData.pin results).
Proof.
  intros Hr Hrun.
  destruct (computeAttendanceForDay_inv e dayStr w w' _ Hrun) as (_ & _ & Hres).
  destruct (Hres results eq_refl) as [Hd _]. clear Hres.
  unfold dayResults in Hd. rewrite Hr in Hd. simpl in Hd. injection Hd as <-.
  assert (Hall : forall pins,
            (forall p, p ∈ pins -> p ∈ selectDistinctPins s en (db w)) ->
            map AttendanceData.pin
              (omap (fun pin => attendanceOf e pin dayStr (selectPunches pin s en (db w)))
                    pins) = pins
            /\ Forall (fun a => AttendanceData.day a = dayStr)
                 (omap (fun pin => attendanceOf e pin dayStr
                                     (selectPunches pin s en (db w))) pins)).
  { induction pins as [|p pins IH]; intros Hin; csimpl; [split; [reflexivity|constructor]|].
    destruct (IH (fun q Hq => Hin q (list_elem_of_further _ _ _ Hq))) as [IH1 IH2].
    assert (Hp : p ∈ selectDistinctPins s en (db w)) by (apply Hin; apply list_elem_of_here).
    apply selectDistinctPins_elem in Hp as (row & Hrow & Hpin & Hrange).
    assert (Hsel : row ∈ selectPunches p s en (db w)).
    { apply selectPunches_elem. auto. }
    destruct (selectPunches p s en (db w)) as [|p0 ps] eqn:Hps.
    { apply elem_of_nil in Hsel. contradiction. }
    cbn [attendanceOf]. csimpl. split.
    - f_equal. exact IH1.
    - constructor; [reflexivity|exact IH2]. }
  destruct (Hall (selectDistinctPins s en (db w)) (fun p Hp => Hp)) as [H1 H2].
  split; [exact H1|]. split; [exact H2|].
  rewrite H1. unfold selectDistinctPins. apply distinct_NoDup.
Qed.

Lemma one_record_per_identity_witness :
  map AttendanceData.pin sampleResults = ["A1001"; "B2002"; "C3003"]%string.
Proof.
  destruct (one_record_per_identity (plainEnv utcHost) "2024-03-05"
              "2024-03-05T00:00:00.000Z" "2024-03-05T23:59:59.999Z"
              sampleDay sampleRun.2 sampleResults) as (H & _ & _).
  - vm_compute. reflexivity.
  - vm_compute. reflexivity.
  - rewrite H. vm_compute. reflexivity.
Defined.

End AggregationEdges.

(* ===================================================================== *)
(** * Reading the attendance of a day *)
(* ===================================================================== *)

Section AttendanceEndpoint.
Import JSString JSDate Store Eff Http Attendance Api.

Lemma upsertData_elem (D : list AttendanceData.t) (a b : AttendanceData.t) :
  b ∈ upsertData D a -> b = a \/ b ∈ D.
Proof.
  unfold upsertData. destruct (existsb (sameKey a) D).
  - intros H. apply list_elem_of_fmap in H as (c & -> & Hc).
    destruct (sameKey a c); auto.
  - rewrite elem_of_app, list_elem_of_singleton. tauto.
Qed.

Lemma upserts_elem (l D : list AttendanceData.t) (b : AttendanceData.t) :
  b ∈ foldl upsertData D l -> b ∈ l \/ b ∈ D.
Proof.
  revert D. induction l as [|a l IH]; intros D; simpl; [auto|].
  intros H. destruct (IH _ H) as [Hl|Hu].
  - left. apply list_elem_of_further. exact Hl.
  - destruct (upsertData_elem D a b Hu) as [->|HD]; [left; apply list_elem_of_here|auto].
Qed.

(** Upserts under keys that the table does not hold are appended. *)
Lemma upserts_fresh (l D : list AttendanceData.t) :
  NoDup (map keyOf l) ->
  (forall a, a ∈ l -> keyOf a ∉ map keyOf D) ->
  foldl upsertData D l = D ++ l.
Proof.
  revert D. induction l as [|a l IH]; intros D Hnd Hfresh; simpl.
  - rewrite app_nil_r. reflexivity.
  - simpl in Hnd. apply NoDup_cons in Hnd as [Ha Hnd].
    assert (Hu : upsertData D a = D ++ [a]).
    { unfold upsertData. destruct (existsb (sameKey a) D) eqn:E; [|reflexivity].
      apply existsb_sameKey in E. exfalso.
      exact (Hfresh a (list_elem_of_here _ _) E). }
    rewrite Hu, IH, <- app_assoc; [reflexivity|exact Hnd|].
    intros b Hb. rewrite map_app, elem_of_app. intros [H|H].
    + exact (Hfresh b (list_elem_of_further _ _ _ Hb) H).
    + apply list_elem_of_singleton in H. apply Ha. rewrite <- H.
      apply list_elem_of_fmap. eauto.
Qed.

Lemma selectAttendanceOfDay_data (day : string) (d : Db) :
  map AttendanceRow.data (selectAttendanceOfDay day d)
  = List.filter (fun a => String.eqb (AttendanceData.day a) day) (attendanceData d).
Proof.
  unfold selectAttendanceOfDay, attendanceData.
  induction (attendance d) as [|r rs IH]; simpl; [reflexivity|].
  destruct (String.eqb (AttendanceData.day (AttendanceRow.data r)) day); simpl;
    rewrite IH; reflexivity.
Qed.

Lemma filter_none {A} (f : A -> bool) (l : list A) :
  (forall x, x ∈ l -> f x = false) -> List.filter f l = [].
Proof.
  induction l as [|x l IH]; intros H; simpl; [reflexivity|].
  rewrite (H x (list_elem_of_here _ _)). apply IH.
  intros y Hy. apply H. apply list_elem_of_further. exact Hy.
Qed.

Lemma filter_all {A} (f : A -> bool) (l : list A) :
  (forall x, x ∈ l -> f x = true) -> List.filter f l = l.
Proof.
  induction l as [|x l IH]; intros H; simpl; [reflexivity|].
  rewrite (H x (list_elem_of_here _ _)). f_equal. apply IH.
  intros y Hy. apply H. apply list_elem_of_further. exact Hy.
Qed.

Lemma dayResults_day (e : Env) (dayStr : string) (d : Db)
  (results : list AttendanceData.t) (a : AttendanceData.t) :
  dayResults e dayStr d = Some results -> a ∈ results ->
  AttendanceData.day a = dayStr.
Proof.
  unfold dayResults. destruct (dayRange (host e) dayStr) as [range|]; [|discriminate].
  simpl. intros H. injection H as <-. intros Ha.
  apply list_elem_of_omap in Ha as (pin & _ & Hpin).
  apply attendanceOf_key in Hpin. unfold keyOf in Hpin. injection Hpin as _ Hd. exact Hd.
Qed.

(** X9. What [GET /attendance/:day] serves after the day has been aggregated:
    the records computed are all there, each row served is a record
    computed or an older row of an identity without a record, and on the
    first aggregation of a day the rows served are exactly the records
    computed, in order. *)
Theorem computed_records_are_served (e : Env) (dayStr : string) (w w1 : World)
  (results : list AttendanceData.t) :
  computeAttendanceForDay e dayStr w = (Ret results, w1) ->
  isDayFormat dayStr = true ->
  rejects (oracle e (calls w1)) = false ->
  exists rows w2,
    getAttendance e dayStr w1 = (Ret (mkReply 200 (Rows rows)), w2)
    /\ db w2 = db w1
    /\ (forall a, a ∈ results -> a ∈ map AttendanceRow.data rows)
    /\ (forall b, b ∈ map AttendanceRow.data rows ->
          b ∈ results
          \/ (b ∈ attendanceData (db w) /\ keyOf b ∉ map keyOf results))
    /\ (uniqueKeys (db w) -> NoDup (map keyOf (map AttendanceRow.data rows)))
    /\ ((forall b, b ∈ attendanceData (db w) -> AttendanceData.day b <> dayStr) ->
        map AttendanceRow.data rows = results).
Proof.
  intros Hrun Hfmt Hacc.
  destruct (computeAttendanceForDay_inv e dayStr w w1 _ Hrun) as (_ & _ & Hres).
  destruct (Hres results eq_refl) as [Hday HD]. clear Hres.
  pose proof (dayResults_keys e dayStr (db w) results Hday) as Hnd.
  pose proof (upserts_stored results (attendanceData (db w)) Hnd) as Hst.
  rewrite <- HD in Hst. rewrite Forall_forall in Hst.
  exists (selectAttendanceOfDay dayStr (db w1)). eexists. split.
  { unfold getAttendance, tryCatch. rewrite Hfmt. unfold Eff.bind, dbQuery, tickOf.
    rewrite Hacc. reflexivity. }
  cbn [db]. split; [reflexivity|]. rewrite selectAttendanceOfDay_data.
  split; [|split; [|split]].
  - intros a Ha. destruct (Hst a Ha) as [Hk Hall].
    apply list_elem_of_fmap in Hk as (b & Hkb & Hb).
    rewrite (Hall b Hb (eq_sym Hkb)) in Hb.
    apply list_elem_of_In, filter_In. split; [apply list_elem_of_In; exact Hb|].
    apply String.eqb_eq. exact (dayResults_day e dayStr _ results a Hday Ha).
  - intros b Hb. apply list_elem_of_In, filter_In in Hb as [Hb _].
    apply list_elem_of_In in Hb.
    destruct (decide (keyOf b ∈ map keyOf results)) as [Hk|Hk].
    + left. apply list_elem_of_fmap in Hk as (a & Hka & Ha).
      destruct (Hst a Ha) as [_ Hall]. rewrite (Hall b Hb Hka). exact Ha.
    + right. rewrite HD in Hb. destruct (upserts_elem _ _ b Hb) as [Hl|HD0]; [|auto].
      exfalso. apply Hk. apply list_elem_of_fmap. eauto.
  - intros Hu. unfold uniqueKeys in Hu.
    pose proof (upserts_unique results _ Hu) as Hu1. rewrite <- HD in Hu1.
    revert Hu1. generalize (attendanceData (db w1)). intros D HDnd.
    induction D as [|x D IH]; simpl; [constructor|].
    simpl in HDnd. apply NoDup_cons in HDnd as [Hx HDnd].
    destruct (String.eqb (AttendanceData.day x) dayStr); [|exact (IH HDnd)].
    simpl. constructor; [|exact (IH HDnd)].
    intros Hin. apply Hx. apply list_elem_of_fmap in Hin as (y & Hy & Hin).
    apply list_elem_of_In, filter_In in Hin as [Hin _].
    apply list_elem_of_fmap. exists y. split; [exact Hy|apply list_elem_of_In; exact Hin].
  - intros Hnone.
    rewrite HD, upserts_fresh, List.filter_app; [| exact Hnd |].
    + rewrite filter_none, filter_all; [reflexivity| |].
      * intros a Ha. apply String.eqb_eq.
        exact (dayResults_day e dayStr _ results a Hday Ha).
      * intros b Hb. apply String.eqb_neq. exact (Hnone b Hb).
    + intros a Ha Hk. apply list_elem_of_fmap in Hk as (b & Hkb & Hb).
      apply (Hnone b Hb). unfold keyOf in Hkb. injection Hkb as _ Hd.
      rewrite <- Hd. exact (dayResults_day e dayStr _ results a Hday Ha).
Qed.

Lemma computed_records_are_served_witness :
  exists rows w2,
    getAttendance (plainEnv utcHost) "2024-03-05" sampleRun.2
    = (Ret (mkReply 200 (Rows rows)), w2)
    /\ map AttendanceRow.data rows = sampleResults.
Proof.
  destruct (computed_records_are_served (plainEnv utcHost) "2024-03-05"
              sampleDay sampleRun.2 sampleResults)
    as (rows & w2 & Hget & _ & _ & _ & _ & Hexact).
  - vm_compute. reflexivity.
  - reflexivity.
  - reflexivity.
  - exists rows, w2. split; [exact Hget|]. apply Hexact.
    intros b Hb. apply elem_of_nil in Hb. contradiction.
Defined.

End AttendanceEndpoint.

(* ===================================================================== *)
(** * An attendance batch, end to end *)
(* ===================================================================== *)

Section AttlogBatch.
Import JSString JSDate Parser Store Eff Http Attendance Ingest.

#[local] Existing Instance tsLe_total.
#[local] Existing Instance tsLe_refl.
#[local] Existing Instance tsLe_trans.

Lemma forEach_insert_accepting (e : Env) (rows : list Row) :
  accepting e ->
  forall w,
    forEach rows (fun row => dbWrite e (InsertPunch row)) w
    = (Ret tt,
       mkWorld (mkDb (punch (db w) ++ rows) (attendance (db w)) (devices (db w)))
               (deviceCache w) (calls w + length rows)%nat
               (issued w ++ map InsertPunch rows) (posted w)).
Proof.
  intros Hacc. induction rows as [|r rows IH]; intros w; cbn [forEach].
  - unfold ret. destruct w as [[p a d] c n s o]; simpl.
    rewrite !app_nil_r, Nat.add_0_r. reflexivity.
  - unfold Eff.bind. rewrite (dbWrite_InsertPunch e r w (Hacc _)).
    rewrite IH. simpl. f_equal. f_equal.
    + rewrite <- app_assoc. reflexivity.
    + lia.
    + rewrite <- app_assoc. reflexivity.
Qed.

Lemma aggregateDays_accepting (e : Env) (days : list string) :
  accepting e ->
  (forall day, day ∈ days -> is_Some (dayRange (host e) day)) ->
  forall w, exists results w', aggregateDays e days w = (Ret results, w').
Proof.
  intros Hacc. induction days as [|day days IH]; intros Hr w; cbn [aggregateDays].
  - unfold ret. eauto.
  - unfold Eff.bind.
    destruct (computeAttendanceForDay_accepting e day w Hacc
                (Hr day (list_elem_of_here _ _))) as (r & w1 & ->).
    destruct (IH (fun d Hd => Hr d (list_elem_of_further _ _ _ Hd)) w1)
      as (rs & w2 & ->).
    unfold ret. eauto.
Qed.

(** The records returned for a list of days are those determined by the
    punch table, day after day. *)
Lemma aggregateDays_inv (e : Env) (days : list string) :
  forall w w' results,
    aggregateDays e days w = (Ret results, w') ->
    results = daysResults e days (db w).
Proof.
  induction days as [|day days IH]; intros w w' results; cbn [aggregateDays].
  - unfold ret. intros H. injection H as <- <-. reflexivity.
  - unfold Eff.bind at 1.
    destruct (computeAttendanceForDay e day w) as [[r|x] w1] eqn:E1; [|discriminate].
    destruct (computeAttendanceForDay_inv e day w w1 _ E1) as (Hp & _ & Hres).
    destruct (Hres r eq_refl) as [Hd _].
    unfold Eff.bind at 1.
    destruct (aggregateDays e days w1) as [[rs|x] w2] eqn:E2; [|discriminate].
    unfold ret. intros H. injection H as <- <-.
    rewrite (IH w1 w2 rs E2). unfold daysResults. cbn [map concat].
    rewrite Hd. cbn [default]. f_equal. f_equal.
    apply map_ext. intros d. f_equal. apply dayResults_punch. exact Hp.
Qed.

(** ** The day of a stored timestamp *)

Lemma split_noSep (sep : ascii) (a b : string) :
  Forall (fun c => c <> sep) (list_ascii_of_string a) ->
  exists rest, split sep (a +:+ String sep b) = a :: rest.
Proof.
  induction a as [|c a IH]; rewrite ?append_cons, ?append_nil; simpl; intros H.
  - rewrite Ascii.eqb_refl. eauto.
  - inversion H as [|? ? Hc Ha]; subst.
    destruct (Ascii.eqb_spec c sep) as [->|_]; [congruence|].
    destruct (IH Ha) as (rest & ->). simpl. eauto.
Qed.

Lemma digitChar_not_T (n : Z) : digitChar n <> "T"%char.
Proof.
  intros H. apply (f_equal code) in H. rewrite code_digitChar in H.
  change (code "T") with 84 in H. pose proof (Z.mod_pos_bound n 10). lia.
Qed.

Lemma beforeT_isoString (t : Z) :
  fourDigitYear t ->
  beforeT (isoString t)
  = dateLayout (YearFromTime t) (MonthFromDay (Day t) + 1) (DateFromDay (Day t)).
Proof.
  intros H4.
  assert (Hiso : isoString t
                 = dateLayout (YearFromTime t) (MonthFromDay (Day t) + 1)
                              (DateFromDay (Day t))
                   +:+ String "T" (timeString (TimeWithinDay t) +:+ "Z")).
  { unfold isoString. rewrite (dateString_fourDigit (Day t) H4). reflexivity. }
  unfold beforeT. rewrite Hiso.
  destruct (split_noSep "T" (dateLayout (YearFromTime t) (MonthFromDay (Day t) + 1)
                                        (DateFromDay (Day t)))
              (timeString (TimeWithinDay t) +:+ "Z")) as (rest & ->); [|reflexivity].
  unfold dateLayout, pad4, pad3, pad2. rewrite ?append_cons, ?append_nil. simpl.
  repeat constructor; try apply digitChar_not_T; discriminate.
Qed.

(** On a UTC host, a stored instant lies in the range of the day its
    timestamp starts with. *)
Lemma row_in_its_day (h : Host) (t : Z) (row : Row) :
  utcZone h -> fourDigitYear t -> ts row = isoString t ->
  exists s en,
    dayRange h (beforeT (ts row)) = Some (s, en) /\ inRange s en row = true.
Proof.
  intros Hutc H4 Hts.
  set (y := YearFromTime t). set (m := MonthFromDay (Day t) + 1).
  set (d := DateFromDay (Day t)).
  assert (Hy : 0 <= y <= 9999) by exact H4.
  assert (Hcal : calendarDate y m d).
  { unfold calendarDate, m, d, y. pose proof (MonthFromDay_range (Day t)).
    pose proof (DateFromDay_range (Day t)) as Hd.
    replace (MonthFromDay (Day t) + 1 - 1) with (MonthFromDay (Day t)) by lia.
    split; [lia|exact Hd]. }
  rewrite Hts, (beforeT_isoString t H4). fold y m d.
  rewrite (dayRange_utc h y m d Hutc Hy Hcal).
  eexists _, _. split; [reflexivity|].
  destruct (isoString_utcInstant y m d 0 0 0 0 Hy Hcal) as [Hs _];
    [unfold clockTime; lia|lia|].
  destruct (isoString_utcInstant y m d 23 59 59 999 Hy Hcal) as [He _];
    [unfold clockTime; lia|lia|].
  apply (inRange_instants _ _ t row Hs He Hts).
  assert (HD : MakeDay y (m - 1) d = Day t).
  { unfold y, m, d, YearFromTime.
    replace (MonthFromDay (Day t) + 1 - 1) with (MonthFromDay (Day t)) by lia.
    apply MakeDay_fields. }
  unfold utcInstant, MakeDate, MakeTime. rewrite HD.
  destruct (Day_TimeWithinDay t) as [Ht Hr].
  unfold msPerDay, msPerHour, msPerMinute, msPerSecond in *. lia.
Qed.

(** Every punch in the range of a day is covered by the record of its
    identity: the record exists and its first and last timestamps enclose
    that of the punch. *)
Lemma dayResults_covers (e : Env) (dayStr s en : string) (d : Db) (row : Row) :
  dayRange (host e) dayStr = Some (s, en) ->
  row ∈ punch d -> inRange s en row = true ->
  exists a results,
    dayResults e dayStr d = Some results /\ a ∈ results
    /\ AttendanceData.pin a = pin row /\ AttendanceData.day a = dayStr
    /\ textLe (AttendanceData.first_ts a) (ts row)
    /\ textLe (ts row) (AttendanceData.last_ts a).
Proof.
  intros Hr Hin Hrange. unfold dayResults. rewrite Hr. cbn [mbind option_bind fst snd].
  assert (Hsel : row ∈ selectPunches (pin row) s en d).
  { apply selectPunches_elem. auto. }
  assert (Hpin : pin row ∈ selectDistinctPins s en d).
  { apply selectDistinctPins_elem. eauto. }
  pose proof (StronglySorted_merge_sort tsLe
                (List.filter (fun r => String.eqb (pin r) (pin row) && inRange s en r)
                             (punch d))) as Hsort.
  fold (selectPunches (pin row) s en d) in Hsort.
  destruct (selectPunches (pin row) s en d) as [|p0 ps] eqn:Hps.
  { apply elem_of_nil in Hsel. contradiction. }
  destruct (sorted_head_last tsLe ps p0 Hsort) as [_ Hends].
  destruct (Hends row Hsel) as [Hlo Hhi].
  eexists _, _. split; [reflexivity|]. split.
  - apply list_elem_of_omap. exists (pin row). split; [exact Hpin|].
    rewrite Hps. reflexivity.
  - cbn [AttendanceData.pin AttendanceData.day AttendanceData.first_ts
         AttendanceData.last_ts].
    repeat split; assumption.
Qed.

Lemma affectedDays_elem (rows : list Row) (row : Row) :
  row ∈ rows -> beforeT (ts row) ∈ affectedDays rows.
Proof.
  intros H. unfold affectedDays. apply distinct_elem.
  apply list_elem_of_fmap. eauto.
Qed.

Lemma affectedDays_inv (rows : list Row) (day : string) :
  day ∈ affectedDays rows -> exists row, row ∈ rows /\ day = beforeT (ts row).
Proof.
  unfold affectedDays. rewrite distinct_elem, list_elem_of_fmap.
  intros (row & -> & H). eauto.
Qed.

Lemma daysResults_elem (e : Env) (days : list string) (d : Db) (day : string)
  (results : list AttendanceData.t) (a : AttendanceData.t) :
  day ∈ days -> dayResults e day d = Some results -> a ∈ results ->
  a ∈ daysResults e days d.
Proof.
  intros Hday Hres Ha. unfold daysResults. apply list_elem_of_In, in_concat.
  exists results. split; [|apply list_elem_of_In; exact Ha].
  apply in_map_iff. exists day. rewrite Hres. split; [reflexivity|].
  apply list_elem_of_In. exact Hday.
Qed.

Lemma daysResults_punch (e : Env) (days : list string) (d d' : Db) :
  punch d = punch d' -> daysResults e days d = daysResults e days d'.
Proof.
  intros H. unfold daysResults. f_equal. apply map_ext. intros day.
  rewrite (dayResults_punch e day d d' H). reflexivity.
Qed.

(** X10. An attendance batch on a UTC host with an accepting database: every
    row read is stored, in order; the answer counts the rows and carries
    the records of the days touched; and every row of the batch is covered
    by a record of its identity and day whose first and last timestamps
    enclose it. *)
Theorem attlog_batch_is_stored_and_aggregated (e : Env)
  (qTable qOptions : option string) (raw : string) (now : nat -> Z) (w : World) :
  utcZone (host e) -> accepting e ->
  isAttlog (tableOf qTable qOptions) = true ->
  allWs raw = false ->
  fourDigitRows (parseAttlogText (host e) raw) ->
  exists results w',
    postCdata e qTable qOptions (Some raw) now w
    = (Ret (mkResponse 200
              (JsonInserted (length (parseAttlogText (host e) raw)) (Some results))),
       w')
    /\ punch (db w') = punch (db w) ++ parseAttlogText (host e) raw
    /\ results
       = daysResults e (affectedDays (parseAttlogText (host e) raw)) (db w')
    /\ forall row, row ∈ parseAttlogText (host e) raw ->
         exists a, a ∈ results
           /\ AttendanceData.pin a = pin row
           /\ AttendanceData.day a = beforeT (ts row)
           /\ textLe (AttendanceData.first_ts a) (ts row)
           /\ textLe (ts row) (AttendanceData.last_ts a).
Proof.
  intros Hutc Hacc Htab Hraw H4.
  set (rows := parseAttlogText (host e) raw) in *.
  assert (Hb : isEmpty raw || isEmpty (trim raw) = false).
  { destruct (isEmpty raw || isEmpty (trim raw)) eqn:E; [|reflexivity].
    apply blank_iff in E. congruence. }
  assert (Hdays : forall day, day ∈ affectedDays rows ->
                    is_Some (dayRange (host e) day)).
  { intros day Hday. apply affectedDays_inv in Hday as (row & Hrow & ->).
    destruct (H4 row Hrow) as (t & Hts & Ht).
    destruct (row_in_its_day (host e) t row Hutc Ht Hts) as (s & en & Hr & _).
    rewrite Hr. eauto. }
  set (w1 := mkWorld (mkDb (punch (db w) ++ rows) (attendance (db w)) (devices (db w)))
               (deviceCache w) (calls w + length rows)%nat
               (issued w ++ map InsertPunch rows) (posted w)).
  destruct (aggregateDays_accepting e (affectedDays rows) Hacc Hdays w1)
    as (results & w' & Hagg).
  pose proof (aggregateDays_inv e _ w1 w' results Hagg) as Hres.
  pose proof (aggregateDays_punch e _ w1 w' _ Hagg) as Hp.
  exists results, w'. split; [|split; [|split]].
  - unfold postCdata, tryCatch. rewrite Hb, Htab. fold rows.
    unfold Eff.bind at 1. rewrite (forEach_insert_accepting e rows Hacc w).
    fold w1. unfold Eff.bind. fold (affectedDays rows). rewrite Hagg. reflexivity.
  - rewrite Hp. reflexivity.
  - rewrite Hres. apply daysResults_punch. symmetry. exact Hp.
  - intros row Hrow. destruct (H4 row Hrow) as (t & Hts & Ht).
    destruct (row_in_its_day (host e) t row Hutc Ht Hts) as (s & en & Hr & Hin).
    destruct (dayResults_covers e (beforeT (ts row)) s en (db w1) row Hr)
      as (a & rs & Hrs & Ha & Hk); [|exact Hin|].
    { cbn [w1 db punch]. apply elem_of_app. right. exact Hrow. }
    exists a. split; [|exact Hk]. rewrite Hres.
    apply (daysResults_elem e _ (db w1) (beforeT (ts row)) rs a);
      [apply affectedDays_elem; exact Hrow|exact Hrs|exact Ha].
Qed.

Lemma fourDigitRow_spec (rows : list Row) :
  forallb fourDigitRow rows = true -> fourDigitRows rows.
Proof.
  intros H row Hrow. rewrite forallb_forall in H.
  specialize (H row (proj1 (list_elem_of_In _ _) Hrow)).
  unfold fourDigitRow in H.
  destruct (parse utcHost (ts row)) as [t|]; [|discriminate].
  apply andb_true_iff in H as [H Hhi]. apply andb_true_iff in H as [Heq Hlo].
  apply String.eqb_eq in Heq. exists t. split; [congruence|].
  apply fourDigitYear_range. lia.
Qed.

Lemma attlog_batch_is_stored_and_aggregated_witness :
  exists results w',
    postCdata (plainEnv utcHost) (Some "ATTLOG"%string) None (Some twoDayBatch)
              (fun _ => 0) emptyWorld
    = (Ret (mkResponse 200 (JsonInserted 4 (Some results))), w')
    /\ map AttendanceData.day results = ["2024-03-05"; "2024-03-06"]%string.
Proof.
  destruct (attlog_batch_is_stored_and_aggregated (plainEnv utcHost)
              (Some "ATTLOG"%string) None twoDayBatch (fun _ => 0) emptyWorld)
    as (results & w' & Hrun & Hp & Hres & _).
  - intros t b. reflexivity.
  - intros k. reflexivity.
  - reflexivity.
  - reflexivity.
  - apply fourDigitRow_spec. vm_compute. reflexivity.
  - exists results, w'. split; [exact Hrun|].
    rewrite Hres. rewrite (daysResults_punch _ _ (db w') (mkDb (parseAttlogText utcHost twoDayBatch) [] ∅) Hp).
    vm_compute. reflexivity.
Defined.

End AttlogBatch.

(* ===================================================================== *)
(** * A batch sent twice *)
(* ===================================================================== *)

Section Replay.
Import JSString JSDate Parser Store Eff Http Attendance Ingest.

#[local] Existing Instance tsLe_total.
#[local] Existing Instance tsLe_refl.
#[local] Existing Instance tsLe_trans.

Lemma distinctFrom_covered (l2 seen : list string) :
  (forall x, x ∈ l2 -> x ∈ seen) -> distinctFrom seen l2 = [].
Proof.
  induction l2 as [|x l2 IH]; intros H; simpl; [reflexivity|].
  rewrite bool_decide_eq_true_2 by (apply H; apply list_elem_of_here).
  apply IH. intros y Hy. apply H. apply list_elem_of_further. exact Hy.
Qed.

Lemma distinctFrom_app_covered (l1 l2 seen : list string) :
  (forall x, x ∈ l2 -> x ∈ seen \/ x ∈ l1) ->
  distinctFrom seen (l1 ++ l2) = distinctFrom seen l1.
Proof.
  revert seen. induction l1 as [|a l1 IH]; intros seen H; simpl.
  - apply distinctFrom_covered. intros x Hx. destruct (H x Hx) as [?|Hn]; [assumption|].
    apply elem_of_nil in Hn. contradiction.
  - destruct (bool_decide (a ∈ seen)) eqn:Ha.
    + apply IH. intros x Hx. destruct (H x Hx) as [?|Hin]; [auto|].
      apply elem_of_cons in Hin as [->|?]; [|auto].
      left. apply bool_decide_eq_true in Ha. exact Ha.
    + f_equal. apply IH. intros x Hx. destruct (H x Hx) as [?|Hin].
      * left. apply list_elem_of_further. assumption.
      * apply elem_of_cons in Hin as [->|?]; [left; apply list_elem_of_here|auto].
Qed.

(** The record of an identity depends on the punches only through the
    first and the last timestamp. *)
Lemma attendanceOf_ends (e : Env) (pin dayStr : string) (x y : Row) (l l' : list Row) :
  ts x = ts y ->
  ts (default x (last (x :: l))) = ts (default y (last (y :: l'))) ->
  attendanceOf e pin dayStr (x :: l) = attendanceOf e pin dayStr (y :: l').
Proof. intros H1 H2. unfold attendanceOf. rewrite H1, H2. reflexivity. Qed.

(** Rows of [extra] that repeat the identity and timestamp of a stored row. *)
Lemma selectPunches_replay (e : Env) (pin dayStr s en : string) (d d' : Db)
  (extra : list Row) :
  punch d' = punch d ++ extra ->
  (forall r, r ∈ extra ->
     exists r', r' ∈ punch d /\ Parser.pin r' = Parser.pin r /\ ts r' = ts r) ->
  attendanceOf e pin dayStr (selectPunches pin s en d')
  = attendanceOf e pin dayStr (selectPunches pin s en d).
Proof.
  intros Hp Hcov.
  assert (Hsub : forall r, r ∈ selectPunches pin s en d -> r ∈ selectPunches pin s en d').
  { intros r. rewrite !selectPunches_elem, Hp, elem_of_app. tauto. }
  assert (Hback : forall r, r ∈ selectPunches pin s en d' ->
                    exists r', r' ∈ selectPunches pin s en d /\ ts r' = ts r).
  { intros r. rewrite selectPunches_elem, Hp, elem_of_app.
    intros ([Hin|Hin] & Hpin & Hrange).
    - exists r. split; [|reflexivity]. apply selectPunches_elem. auto.
    - destruct (Hcov r Hin) as (r' & Hr' & Hpin' & Hts).
      exists r'. split; [|exact Hts]. apply selectPunches_elem.
      split; [exact Hr'|]. split; [congruence|].
      unfold inRange in *. rewrite Hts. exact Hrange. }
  pose proof (StronglySorted_merge_sort tsLe
                (List.filter (fun r => String.eqb (Parser.pin r) pin && inRange s en r)
                             (punch d))) as Hs.
  pose proof (StronglySorted_merge_sort tsLe
                (List.filter (fun r => String.eqb (Parser.pin r) pin && inRange s en r)
                             (punch d'))) as Hs'.
  fold (selectPunches pin s en d) in Hs. fold (selectPunches pin s en d') in Hs'.
  destruct (selectPunches pin s en d) as [|x l] eqn:E;
    destruct (selectPunches pin s en d') as [|y l'] eqn:E'.
  - reflexivity.
  - destruct (Hback y (list_elem_of_here _ _)) as (r' & Hr' & _).
    apply elem_of_nil in Hr'. contradiction.
  - specialize (Hsub x (list_elem_of_here _ _)). apply elem_of_nil in Hsub.
    contradiction.
  - destruct (sorted_head_last tsLe l x Hs) as [Hz Hends].
    destruct (sorted_head_last tsLe l' y Hs') as [Hz' Hends'].
    cbv zeta in Hz, Hz', Hends, Hends'.
    symmetry. apply attendanceOf_ends.
    + destruct (Hback y (list_elem_of_here _ _)) as (r' & Hr' & Hts).
      apply String.leb_antisym.
      * rewrite <- Hts. apply (Hends r' Hr').
      * apply (Hends' x (Hsub x (list_elem_of_here _ _))).
    + destruct (Hback _ Hz') as (r' & Hr' & Hts).
      apply String.leb_antisym.
      * apply (Hends' _ (Hsub _ Hz)).
      * rewrite <- Hts. apply (Hends r' Hr').
Qed.

Lemma selectDistinctPins_replay (s en : string) (d d' : Db) (extra : list Row) :
  punch d' = punch d ++ extra ->
  (forall r, r ∈ extra ->
     exists r', r' ∈ punch d /\ Parser.pin r' = Parser.pin r /\ ts r' = ts r) ->
  selectDistinctPins s en d' = selectDistinctPins s en d.
Proof.
  intros Hp Hcov. unfold selectDistinctPins, distinct.
  rewrite Hp, List.filter_app, map_app. apply distinctFrom_app_covered.
  intros x Hx. right. apply list_elem_of_fmap in Hx as (r & -> & Hr).
  apply list_elem_of_In, filter_In in Hr as [Hr Hrange].
  destruct (Hcov r (proj2 (list_elem_of_In _ _) Hr)) as (r' & Hr' & Hpin & Hts).
  apply list_elem_of_fmap. exists r'. split; [congruence|].
  apply list_elem_of_In, filter_In. split; [apply list_elem_of_In; exact Hr'|].
  unfold inRange in *. rewrite Hts. exact Hrange.
Qed.

(** Punches that repeat stored ones do not change the records of a day. *)
Lemma dayResults_replay (e : Env) (dayStr : string) (d d' : Db) (extra : list Row) :
  punch d' = punch d ++ extra ->
  (forall r, r ∈ extra ->
     exists r', r' ∈ punch d /\ Parser.pin r' = Parser.pin r /\ ts r' = ts r) ->
  dayResults e dayStr d' = dayResults e dayStr d.
Proof.
  intros Hp Hcov. unfold dayResults.
  destruct (dayRange (host e) dayStr) as [range|]; [|reflexivity].
  cbn [mbind option_bind]. f_equal.
  rewrite (selectDistinctPins_replay _ _ d d' extra Hp Hcov).
  apply list_omap_ext, Forall_Forall2_diag, Forall_forall. intros pin _.
  apply (selectPunches_replay e pin dayStr _ _ d d' extra Hp Hcov).
Qed.

(** What an answer 200 to an attendance batch says about the run. *)
Lemma attlog_200_inv (e : Env) (qTable qOptions : option string) (raw : string)
  (now : nat -> Z) (w w' : World) (resp : Response) :
  isAttlog (tableOf qTable qOptions) = true ->
  postCdata e qTable qOptions (Some raw) now w = (Ret resp, w') ->
  statusCode resp = 200 ->
  punch (db w') = punch (db w) ++ parseAttlogText (host e) raw
  /\ body resp
     = JsonInserted (length (parseAttlogText (host e) raw))
         (Some (daysResults e (affectedDays (parseAttlogText (host e) raw)) (db w'))).
Proof.
  intros Htab. unfold postCdata, tryCatch. rewrite Htab.
  destruct (isEmpty raw || isEmpty (trim raw)).
  { unfold ret. intros H. injection H as <- <-. discriminate. }
  unfold Eff.bind at 1.
  destruct (forEach _ _ w) as [[[]|y] w1] eqn:E1;
    [|unfold ret; intros H; injection H as <- <-; discriminate].
  destruct (forEach_insert_prefix e _ w w1 _ E1) as (k & Hk & ->).
  rewrite firstn_all in Hk.
  unfold Eff.bind at 1. fold (affectedDays (parseAttlogText (host e) raw)).
  destruct (aggregateDays e _ w1) as [[r|y] w2] eqn:E2;
    [|unfold ret; intros H; injection H as <- <-; discriminate].
  pose proof (aggregateDays_punch e _ w1 w2 _ E2) as Hp.
  pose proof (aggregateDays_inv e _ w1 w2 r E2) as Hr.
  unfold ret. intros H. injection H as <- <-. intros _. cbn [body].
  split; [congruence|]. rewrite Hr. f_equal. f_equal.
  apply daysResults_punch. symmetry. exact Hp.
Qed.

(** X11. A batch that is sent twice is stored twice, and answered twice with the
    same records: the punches repeated do not move the first or the last
    timestamp of any identity. *)
Theorem attlog_replay_gives_the_same_answer (e : Env)
  (qTable qOptions : option string) (raw : string) (now now' : nat -> Z)
  (w w1 w2 : World) (resp1 resp2 : Response) :
  isAttlog (tableOf qTable qOptions) = true ->
  postCdata e qTable qOptions (Some raw) now w = (Ret resp1, w1) ->
  statusCode resp1 = 200 ->
  postCdata e qTable qOptions (Some raw) now' w1 = (Ret resp2, w2) ->
  statusCode resp2 = 200 ->
  body resp2 = body resp1
  /\ punch (db w2)
     = punch (db w) ++ parseAttlogText (host e) raw ++ parseAttlogText (host e) raw.
Proof.
  intros Htab H1 Hs1 H2 Hs2.
  destruct (attlog_200_inv e _ _ raw now w w1 resp1 Htab H1 Hs1) as [Hp1 Hb1].
  destruct (attlog_200_inv e _ _ raw now' w1 w2 resp2 Htab H2 Hs2) as [Hp2 Hb2].
  split.
  - rewrite Hb1, Hb2. f_equal. f_equal. unfold daysResults. f_equal.
    apply map_ext. intros day. f_equal.
    apply (dayResults_replay e day (db w1) (db w2) (parseAttlogText (host e) raw) Hp2).
    intros r Hr. exists r. rewrite Hp1, elem_of_app. auto.
  - rewrite Hp2, Hp1, <- app_assoc. reflexivity.
Qed.

Lemma attlog_replay_gives_the_same_answer_witness :
  exists b1 b2,
    (postCdata (plainEnv utcHost) (Some "ATTLOG"%string) None (Some twoDayBatch)
       (fun _ => 0) emptyWorld).1 = Ret (mkResponse 200 b1)
    /\ (postCdata (plainEnv utcHost) (Some "ATTLOG"%string) None (Some twoDayBatch)
          (fun _ => 0)
          (postCdata (plainEnv utcHost) (Some "ATTLOG"%string) None (Some twoDayBatch)
             (fun _ => 0) emptyWorld).2).1 = Ret (mkResponse 200 b2)
    /\ b2 = b1.
Proof.
  set (run1 := postCdata (plainEnv utcHost) (Some "ATTLOG"%string) None
                 (Some twoDayBatch) (fun _ => 0) emptyWorld).
  set (run2 := postCdata (plainEnv utcHost) (Some "ATTLOG"%string) None
                 (Some twoDayBatch) (fun _ => 0) run1.2).
  eassert (H1 : run1.1 = Ret (mkResponse 200 _)) by (vm_compute; reflexivity).
  eassert (H2 : run2.1 = Ret (mkResponse 200 _)) by (vm_compute; reflexivity).
  eexists _, _. split; [exact H1|]. split; [exact H2|].
  assert (E1 : run1 = (run1.1, run1.2)) by apply surjective_pairing.
  assert (E2 : run2 = (run2.1, run2.2)) by apply surjective_pairing.
  rewrite H1 in E1. rewrite H2 in E2.
  exact (proj1 (attlog_replay_gives_the_same_answer (plainEnv utcHost)
                  (Some "ATTLOG"%string) None twoDayBatch (fun _ => 0) (fun _ => 0)
                  emptyWorld run1.2 run2.2 _ _ eq_refl E1 eq_refl E2 eq_refl)).
Defined.

End Replay.

(* ===================================================================== *)
(** * The first heartbeat of a device *)
(* ===================================================================== *)

Section Registration.
Import JSString JSDate Store Eff Http Liveness.

(** The heartbeat of a serial number that the cache does not hold. *)
Lemma heartbeatNew_run (e : Env) (sn : string) (now : Z) (w : World) :
  heartbeatNew e sn now w
  = if rejects (oracle e (calls w)) then
      (Throw SqlError,
       mkWorld (db w) (deviceCache w) (S (calls w)) (issued w) (posted w))
    else
      let stmt := match devices (db w) !! sn with
                  | None => InsertDevice sn (isoString now)
                  | Some _ => UpdateDeviceOnline sn (isoString now)
                  end in
      if rejects (oracle e (S (calls w))) then
        (Throw SqlError,
         mkWorld (db w) (deviceCache w) (S (S (calls w))) (issued w ++ [stmt])
                 (posted w))
      else
        let st := stamp (oracle e (S (calls w))) in
        let row := match devices (db w) !! sn with
                   | None => DeviceRow.mk DeviceRow.ONLINE (Some (isoString now)) st st
                   | Some r => DeviceRow.mk DeviceRow.ONLINE (Some (isoString now))
                                 (DeviceRow.first_registered r) st
                   end in
        (Ret tt,
         mkWorld (mkDb (punch (db w)) (attendance (db w))
                       (<[sn := row]> (devices (db w))))
                 (<[sn := mkInfo DeviceRow.ONLINE (Some (Some now)) (Some (Some now))]>
                    (deviceCache w))
                 (S (S (calls w))) (issued w ++ [stmt]) (posted w)).
Proof.
  unfold heartbeatNew, Eff.bind, dbQuery, dbWrite, getCache, setCache, tickOf, selectDevice.
  destruct (rejects (oracle e (calls w))); [reflexivity|].
  cbn [calls db issued posted deviceCache].
  destruct (devices (db w) !! sn) as [r|] eqn:Hr;
    cbn [exec calls db issued posted deviceCache devices punch attendance];
    rewrite ?Hr; cbn [exec calls db issued posted deviceCache devices punch attendance];
    destruct (rejects (oracle e (S (calls w)))); try reflexivity.
  rewrite (alter_lookup_insert _ sn _ r Hr). reflexivity.
Qed.

Lemma getrequest_new (e : Env) (sn : string) (now : Z) (w : World) :
  sn <> EmptyString -> deviceCache w !! sn = None ->
  getrequest e (Some sn) now w
  = (Ret ok200,
     match heartbeatNew e sn now w with (_, w') => w' end).
Proof.
  intros Hsn Hc. unfold getrequest. apply isEmpty_false in Hsn. rewrite Hsn.
  unfold tryCatch. unfold Eff.bind at 1. unfold getCache at 1. rewrite Hc.
  unfold Eff.bind. destruct (heartbeatNew e sn now w) as [[[]|x] w']; reflexivity.
Qed.

(** X12. The first heartbeat of a device is answered [OK] in every case. When
    the database accepts the look-up and the statement that follows, the
    device is stored ONLINE with [last_seen] at the instant of the
    heartbeat (a row that exists keeps its date of first registration) and
    enters the cache. When either call is rejected, neither the tables nor
    the cache change, so that the next heartbeat starts over. *)
Theorem registration_is_all_or_nothing (e : Env) (sn : string) (now : Z) (w : World) :
  sn <> EmptyString -> deviceCache w !! sn = None ->
  exists w',
    getrequest e (Some sn) now w = (Ret ok200, w')
    /\ punch (db w') = punch (db w) /\ attendance (db w') = attendance (db w)
    /\ if rejects (oracle e (calls w)) || rejects (oracle e (S (calls w)))
       then deviceCache w' = deviceCache w /\ db w' = db w
       else deviceCache w' = <[sn := freshInfo now]> (deviceCache w)
            /\ devices (db w')
               = <[sn := registeredRow now (stamp (oracle e (S (calls w))))
                           (devices (db w) !! sn)]> (devices (db w)).
Proof.
  intros Hsn Hc. eexists. split; [apply (getrequest_new e sn now w Hsn Hc)|].
  rewrite heartbeatNew_run.
  destruct (rejects (oracle e (calls w))); cbn [orb].
  { repeat split. }
  cbv zeta. destruct (rejects (oracle e (S (calls w)))).
  { repeat split. }
  cbn [db punch attendance devices deviceCache]. repeat split.
Qed.

Lemma registration_is_all_or_nothing_witness :
  statusOf "SN7" (getrequest (flakyEnv 1) (Some "SN7"%string) 1000 emptyWorld).2
  = (None, None)
  /\ statusOf "SN7" (getrequest (flakyEnv 7) (Some "SN7"%string) 1000 emptyWorld).2
     = (Some DeviceRow.ONLINE, Some DeviceRow.ONLINE).
Proof.
  destruct (registration_is_all_or_nothing (flakyEnv 1) "SN7" 1000 emptyWorld)
    as (w1 & H1 & _ & _ & Hc1); [discriminate|reflexivity|].
  destruct (registration_is_all_or_nothing (flakyEnv 7) "SN7" 1000 emptyWorld)
    as (w2 & H2 & _ & _ & Hc2); [discriminate|reflexivity|].
  rewrite H1, H2. cbn [snd]. unfold statusOf.
  cbn [orb flakyEnv oracle rejects calls emptyWorld Nat.eqb] in Hc1, Hc2.
  destruct Hc1 as [Hca Hdb]. destruct Hc2 as [Hcb Hdv].
  rewrite Hca, Hdb, Hcb, Hdv. split; [reflexivity|].
  rewrite !lookup_insert_eq. reflexivity.
Defined.

End Registration.

(* ===================================================================== *)
(** * The heartbeat of a known device *)
(* ===================================================================== *)

Section Revival.
Import JSString JSDate Store Eff Http Liveness.

Lemma alter_status (f : DeviceRow.t -> DeviceRow.t) (sn sn' : string)
  (d : gmap string DeviceRow.t) (row' : DeviceRow.t) :
  alter f sn d !! sn' = Some row' ->
  exists row, d !! sn' = Some row /\ row' = if decide (sn = sn') then f row else row.
Proof.
  destruct (decide (sn = sn')) as [->|Hne].
  - rewrite lookup_alter_eq. destruct (d !! sn') as [row|]; [|discriminate].
    simpl. intros H. injection H as <-. eauto.
  - rewrite lookup_alter_ne by exact Hne. eauto.
Qed.

(** With an accepting database, the heartbeat of a cached device leaves
    every stored status as it was, except that of the device itself when
    the cache held it OFFLINE: that one becomes ONLINE. *)
Lemma heartbeatCached_accepting (e : Env) (sn : string) (now : Z) (w : World)
  (i : DeviceInfo) :
  accepting e ->
  exists w',
    heartbeatCached e sn now i w = (Ret tt, w')
    /\ forall sn' row',
         devices (db w') !! sn' = Some row' ->
         exists row,
           devices (db w) !! sn' = Some row
           /\ DeviceRow.status row'
              = if decide (sn = sn') then
                  (if isOffline (status i) then DeviceRow.ONLINE
                   else DeviceRow.status row)
                else DeviceRow.status row.
Proof.
  intros Hacc.
  unfold heartbeatCached, Eff.bind, updateInfo, Eff.bind, getCache, setCache, ret,
    dbWriteDetached, tryCatch, dbWrite, tickOf.
  cbn [db deviceCache calls issued posted].
  destruct (isOffline (status i)); destruct (lastSeenDue now i);
    cbn [db deviceCache calls issued posted exec]; rewrite ?Hacc;
    cbn [db deviceCache calls issued posted exec]; rewrite ?Hacc;
    cbn [db deviceCache calls issued posted exec devices punch attendance];
    (eexists; split; [reflexivity|]); cbn [db devices];
    intros sn' row' H;
    repeat (apply alter_status in H as (? & H & ->));
    (eexists; split; [exact H|]);
    destruct (decide (sn = sn')); reflexivity.
Qed.

(** X13. The heartbeat of a cached device puts its entry ONLINE with the
    instant of the heartbeat and touches no other entry, whatever the
    database does. The statement that stores the status ONLINE is sent
    exactly when the cache held the device OFFLINE; with an accepting
    database the stored status is then ONLINE as well, and the stored
    status of every other device is left as it was. *)
Theorem heartbeat_puts_device_online (e : Env) (sn : string) (now : Z) (w : World)
  (i : DeviceInfo) :
  sn <> EmptyString ->
  deviceCache w !! sn = Some i ->
  exists w',
    getrequest e (Some sn) now w = (Ret ok200, w')
    /\ (exists seen,
          deviceCache w' !! sn = Some (mkInfo DeviceRow.ONLINE seen (Some (Some now))))
    /\ (forall sn', sn' <> sn -> deviceCache w' !! sn' = deviceCache w !! sn')
    /\ (exists new,
          issued w' = issued w ++ new
          /\ (UpdateDeviceOnline sn (isoString now) ∈ new
              <-> status i = DeviceRow.OFFLINE))
    /\ (accepting e ->
        forall sn' row',
          devices (db w') !! sn' = Some row' ->
          exists row,
            devices (db w) !! sn' = Some row
            /\ DeviceRow.status row'
               = if decide (sn = sn') then
                   (if isOffline (status i) then DeviceRow.ONLINE
                    else DeviceRow.status row)
                 else DeviceRow.status row).
Proof.
  intros Hsn Hc.
  destruct (getrequest_cached e sn now w i Hsn Hc) as (d & n & Hrun).
  eexists. split; [exact Hrun|]. cbn [deviceCache issued db].
  split; [|split; [|split]].
  - rewrite lookup_insert_eq. unfold heartbeatInfo. eauto.
  - intros sn' Hne. apply lookup_insert_ne. congruence.
  - exists (heartbeatWrites sn now i). split; [reflexivity|].
    unfold heartbeatWrites. rewrite elem_of_app.
    destruct (status i); cbn [isOffline]; split.
    + intros [H|H]; [apply elem_of_nil in H; contradiction|].
      destruct (lastSeenDue now i); [|apply elem_of_nil in H; contradiction].
      apply list_elem_of_singleton in H. discriminate.
    + discriminate.
    + reflexivity.
    + intros _. left. apply list_elem_of_here.
  - intros Hacc.
    destruct (heartbeatCached_accepting e sn now w i Hacc) as (w1 & Hrun1 & Hdev).
    assert (Hget : getrequest e (Some sn) now w = (Ret ok200, w1)).
    { unfold getrequest. apply isEmpty_false in Hsn. rewrite Hsn.
      unfold tryCatch. unfold Eff.bind at 1. unfold getCache at 1. rewrite Hc.
      unfold Eff.bind. rewrite Hrun1. reflexivity. }
    rewrite Hget in Hrun. injection Hrun as Hw1.
    apply (f_equal db) in Hw1. cbn [db] in Hw1. rewrite <- Hw1. exact Hdev.
Qed.

Lemma heartbeat_puts_device_online_witness :
  exists w',
    getrequest (plainEnv utcHost) (Some "SN1"%string) 31002 afterSweep = (Ret ok200, w')
    /\ (exists seen,
          deviceCache w' !! "SN1"%string
          = Some (mkInfo DeviceRow.ONLINE seen (Some (Some 31002))))
    /\ exists new,
         issued w' = issued afterSweep ++ new
         /\ UpdateDeviceOnline "SN1" (isoString 31002) ∈ new.
Proof.
  destruct (heartbeat_puts_device_online (plainEnv utcHost) "SN1" 31002 afterSweep
              (mkInfo DeviceRow.OFFLINE (Some (Some 1000)) (Some (Some 1000))))
    as (w' & Hrun & Hc & _ & (new & Hiss & Hnew) & _).
  - discriminate.
  - vm_compute. reflexivity.
  - exists w'. split; [exact Hrun|]. split; [exact Hc|].
    exists new. split; [exact Hiss|]. apply Hnew. reflexivity.
Defined.

End Revival.

(* ===================================================================== *)
(** * Successive runs of the monitor *)
(* ===================================================================== *)

Section MonitorRuns.
Import JSString JSDate Store Eff Http Liveness Startup.

(** One run of the monitor, in full. *)
Lemma monitorTick_run (e : Env) (now : Z) (w : World) :
  let batch := demotedKeys now (map_to_list (deviceCache w)) in
  monitorTick e now w
  = (Ret tt,
     mkWorld (mkDb (punch (db w)) (attendance (db w))
                   (writeOffline e (calls w) batch (devices (db w))))
             (sweepInfo now <$> deviceCache w)
             (calls w + length batch)%nat
             (issued w ++ map UpdateDeviceOffline batch) (posted w)).
Proof.
  cbv zeta. destruct (scan_spec now (deviceCache w)) as [Hc Hb].
  unfold monitorTick, Eff.bind, getCache, setCache. rewrite forEach_offline.
  simpl. rewrite Hc, Hb. reflexivity.
Qed.

Lemma sweepInfo_lookup (now : Z) (c : gmap string DeviceInfo) (sn : string) :
  (sweepInfo now <$> c) !! sn = sweepInfo now <$> c !! sn.
Proof. apply lookup_fmap. Qed.

Lemma demotedKeys_shouldDemote (now : Z) (c : gmap string DeviceInfo) (sn : string)
  (i : DeviceInfo) :
  c !! sn = Some i ->
  sn ∈ demotedKeys now (map_to_list c) <-> shouldDemote now i = true.
Proof.
  intros Hc. rewrite demotedKeys_elem, shouldDemote_spec. split.
  - intros (j & Hj & Hs). congruence.
  - eauto.
Qed.

(** X14. Over any number of runs with no heartbeat in between, the monitor never
    throws, sends [UPDATE ... SET status = 'OFFLINE'] at most once per
    serial number, and only for devices that were ONLINE in the cache;
    those are the entries that end up OFFLINE, and every other entry is
    left as it was. *)
Theorem monitor_demotes_each_device_once (e : Env) (instants : list Z) :
  forall w, exists batch w',
    startDeviceMonitor e instants w = (Ret tt, w')
    /\ issued w' = issued w ++ map UpdateDeviceOffline batch
    /\ NoDup batch
    /\ (forall sn, deviceCache w !! sn = None -> deviceCache w' !! sn = None)
    /\ (forall sn i, deviceCache w !! sn = Some i ->
          (sn ∈ batch ->
           status i = DeviceRow.ONLINE /\ deviceCache w' !! sn = Some (demoted i))
          /\ (sn ∉ batch -> deviceCache w' !! sn = Some i))
    /\ (forall sn, sn ∈ batch -> is_Some (deviceCache w !! sn)).
Proof.
  unfold startDeviceMonitor.
  induction instants as [|now instants IH]; intros w; cbn [forEach].
  - exists [], w. unfold ret. split; [reflexivity|]. rewrite app_nil_r.
    split; [reflexivity|]. split; [constructor|]. split; [auto|]. split.
    + intros sn i Hc. split; [intros H; apply elem_of_nil in H; contradiction|auto].
    + intros sn H. apply elem_of_nil in H. contradiction.
  - unfold Eff.bind. rewrite monitorTick_run. cbv zeta.
    set (b1 := demotedKeys now (map_to_list (deviceCache w))).
    match goal with |- context [forEach instants _ ?w0] => set (w1 := w0) end.
    destruct (IH w1) as (b2 & w' & Hrun & Hiss & Hnd & Hnone & Hsome & Hdom).
    assert (Hc1 : forall sn, deviceCache w1 !! sn = sweepInfo now <$> deviceCache w !! sn).
    { intros sn. apply sweepInfo_lookup. }
    assert (Hdisj : forall sn, sn ∈ b1 -> sn ∉ b2).
    { intros sn H1 H2. destruct (Hdom sn H2) as [i1 Hi1].
      rewrite Hc1 in Hi1. destruct (deviceCache w !! sn) as [i|] eqn:Hi; [|discriminate].
      simpl in Hi1. injection Hi1 as <-.
      pose proof (proj1 (demotedKeys_shouldDemote now _ sn i Hi) H1) as Hd.
      destruct (Hsome sn (sweepInfo now i)) as [Hin _].
      { rewrite Hc1, Hi. reflexivity. }
      destruct (Hin H2) as [Hon _]. unfold sweepInfo in Hon. rewrite Hd in Hon.
      discriminate. }
    exists (b1 ++ b2), w'. split; [exact Hrun|]. split.
    { rewrite Hiss. cbn [issued w1]. rewrite map_app, app_assoc. reflexivity. }
    split.
    { apply NoDup_app. split; [apply demotedKeys_NoDup|]. split; [exact Hdisj|exact Hnd]. }
    split.
    { intros sn Hn. apply Hnone. rewrite Hc1, Hn. reflexivity. }
    split.
    + intros sn i Hi.
      assert (Hi1 : deviceCache w1 !! sn = Some (sweepInfo now i)).
      { rewrite Hc1, Hi. reflexivity. }
      destruct (Hsome sn _ Hi1) as [Hin Hout].
      pose proof (demotedKeys_shouldDemote now _ sn i Hi) as Hd. fold b1 in Hd.
      split.
      * intros Hb. apply elem_of_app in Hb as [Hb|Hb].
        -- pose proof (proj1 Hd Hb) as Hd1.
           apply shouldDemote_spec in Hd1 as Hst. destruct Hst as [Hon _].
           split; [exact Hon|]. rewrite (Hout (Hdisj sn Hb)).
           unfold sweepInfo. rewrite Hd1. reflexivity.
        -- destruct (Hin Hb) as [Hon Hw'].
           assert (Hd1 : shouldDemote now i = false).
           { destruct (shouldDemote now i) eqn:E; [|reflexivity].
             unfold sweepInfo in Hon. rewrite E in Hon. discriminate. }
           unfold sweepInfo in Hon, Hw'. rewrite Hd1 in Hon, Hw'. auto.
      * intros Hb. rewrite elem_of_app in Hb.
        assert (Hd1 : shouldDemote now i = false).
        { destruct (shouldDemote now i) eqn:E; [|reflexivity].
          exfalso. apply Hb. left. apply Hd. reflexivity. }
        rewrite Hout by tauto. unfold sweepInfo. rewrite Hd1. reflexivity.
    + intros sn Hb. apply elem_of_app in Hb as [Hb|Hb].
      * apply demotedKeys_elem in Hb as (i & Hi & _). rewrite Hi. eauto.
      * destruct (Hdom sn Hb) as [i1 Hi1]. rewrite Hc1 in Hi1.
        destruct (deviceCache w !! sn); [eauto|discriminate].
Qed.

(** After a heartbeat, the entry of the device, if there is one, is ONLINE
    and carries the instant of the heartbeat. *)
Lemma getrequest_entry (e : Env) (sn : string) (now : Z) (w : World) :
  sn <> EmptyString ->
  exists w1,
    getrequest e (Some sn) now w = (Ret ok200, w1)
    /\ (forall i, deviceCache w1 !! sn = Some i ->
          status i = DeviceRow.ONLINE /\ lastHeartbeat i = Some (Some now))
    /\ (is_Some (deviceCache w !! sn) -> is_Some (deviceCache w1 !! sn)).
Proof.
  intros Hsn. destruct (deviceCache w !! sn) as [i0|] eqn:Hc.
  - destruct (getrequest_cached e sn now w i0 Hsn Hc) as (d & n & H).
    eexists. split; [exact H|]. cbn [deviceCache]. rewrite lookup_insert_eq. split.
    + intros i Hi. injection Hi as <-. split; reflexivity.
    + eauto.
  - eexists. split; [apply (getrequest_new e sn now w Hsn Hc)|].
    rewrite heartbeatNew_run. split; [|intros [? ?]; discriminate].
    destruct (rejects (oracle e (calls w))); cbn [deviceCache].
    { rewrite Hc. discriminate. }
    cbv zeta. destruct (rejects (oracle e (S (calls w)))); cbn [deviceCache].
    { rewrite Hc. discriminate. }
    rewrite lookup_insert_eq. intros i Hi. injection Hi as <-. split; reflexivity.
Qed.

Lemma shouldDemote_fresh (now t : Z) (i : DeviceInfo) :
  lastHeartbeat i = Some (Some now) -> t - now <= 30000 -> shouldDemote t i = false.
Proof.
  intros Hhb Ht. unfold shouldDemote, DEVICE_OFFLINE_THRESHOLD. rewrite Hhb. simpl.
  apply andb_false_iff. left. apply Z.ltb_ge. exact Ht.
Qed.

Lemma startDeviceMonitor_fresh (e : Env) (sn : string) (now : Z) (instants : list Z) :
  (forall t, t ∈ instants -> t - now <= 30000) ->
  forall w,
    (forall i, deviceCache w !! sn = Some i -> lastHeartbeat i = Some (Some now)) ->
    exists batch w',
      startDeviceMonitor e instants w = (Ret tt, w')
      /\ issued w' = issued w ++ map UpdateDeviceOffline batch
      /\ (sn ∉ batch)
      /\ deviceCache w' !! sn = deviceCache w !! sn.
Proof.
  unfold startDeviceMonitor.
  induction instants as [|t instants IH]; intros Hwin w Hfresh; cbn [forEach].
  - exists [], w. unfold ret. rewrite app_nil_r. repeat split. apply not_elem_of_nil.
  - unfold Eff.bind. rewrite monitorTick_run. cbv zeta.
    set (b1 := demotedKeys t (map_to_list (deviceCache w))).
    match goal with |- context [forEach instants _ ?w0] => set (w1 := w0) end.
    assert (Hsame : deviceCache w1 !! sn = deviceCache w !! sn).
    { cbn [w1 deviceCache]. rewrite sweepInfo_lookup.
      destruct (deviceCache w !! sn) as [i|] eqn:Hi; [|reflexivity].
      simpl. unfold sweepInfo.
      rewrite (shouldDemote_fresh now t i (Hfresh i eq_refl)
                 (Hwin t (list_elem_of_here _ _))). reflexivity. }
    assert (Hb1 : sn ∉ b1).
    { intros Hin. apply demotedKeys_elem in Hin as (i & Hi & Hst).
      apply shouldDemote_spec in Hst.
      rewrite (shouldDemote_fresh now t i (Hfresh i Hi)
                 (Hwin t (list_elem_of_here _ _))) in Hst. discriminate. }
    destruct (IH (fun t' Ht' => Hwin t' (list_elem_of_further _ _ _ Ht')) w1)
      as (b2 & w' & Hrun & Hiss & Hb2 & Hc).
    { intros i Hi. apply Hfresh. rewrite <- Hsame. exact Hi. }
    exists (b1 ++ b2), w'. split; [exact Hrun|]. split.
    { rewrite Hiss. cbn [issued w1]. rewrite map_app, app_assoc. reflexivity. }
    split; [rewrite elem_of_app; tauto|]. congruence.
Qed.

(** X15. A device that has sent a heartbeat is not demoted by any run of the
    monitor within 30000 ms of it: no OFFLINE statement is sent for it and
    its cache entry stays ONLINE, with the instant of the heartbeat. *)
Theorem heartbeat_keeps_device_online (e : Env) (sn : string) (now : Z)
  (instants : list Z) (w : World) :
  sn <> EmptyString ->
  (forall t, t ∈ instants -> t - now <= 30000) ->
  exists w1 w2 batch,
    getrequest e (Some sn) now w = (Ret ok200, w1)
    /\ startDeviceMonitor e instants w1 = (Ret tt, w2)
    /\ issued w2 = issued w1 ++ map UpdateDeviceOffline batch
    /\ (sn ∉ batch)
    /\ deviceCache w2 !! sn = deviceCache w1 !! sn
    /\ (forall i, deviceCache w2 !! sn = Some i ->
          status i = DeviceRow.ONLINE /\ lastHeartbeat i = Some (Some now))
    /\ (is_Some (deviceCache w !! sn) -> is_Some (deviceCache w2 !! sn)).
Proof.
  intros Hsn Hwin.
  destruct (getrequest_entry e sn now w Hsn) as (w1 & H1 & Hent & Hdom).
  destruct (startDeviceMonitor_fresh e sn now instants Hwin w1)
    as (batch & w2 & H2 & Hiss & Hb & Hc).
  { intros i Hi. apply (Hent i Hi). }
  exists w1, w2, batch. split; [exact H1|]. split; [exact H2|].
  split; [exact Hiss|]. split; [exact Hb|]. split; [exact Hc|]. split.
  - intros i Hi. apply Hent. rewrite <- Hc. exact Hi.
  - intros H. rewrite Hc. apply Hdom, H.
Qed.

Lemma heartbeat_keeps_device_online_witness :
  exists w1 w2 batch,
    getrequest (plainEnv utcHost) (Some "SN1"%string) 1000 emptyWorld = (Ret ok200, w1)
    /\ startDeviceMonitor (plainEnv utcHost)
         [6000; 11000; 16000; 21000; 26000; 31000] w1 = (Ret tt, w2)
    /\ issued w2 = issued w1 ++ map UpdateDeviceOffline batch
    /\ ("SN1"%string ∉ batch)
    /\ deviceCache w2 !! "SN1"%string = deviceCache w1 !! "SN1"%string
    /\ (forall i, deviceCache w2 !! "SN1"%string = Some i ->
          status i = DeviceRow.ONLINE /\ lastHeartbeat i = Some (Some 1000))
    /\ (is_Some (deviceCache emptyWorld !! "SN1"%string) ->
        is_Some (deviceCache w2 !! "SN1"%string)).
Proof.
  apply (heartbeat_keeps_device_online (plainEnv utcHost) "SN1" 1000
           [6000; 11000; 16000; 21000; 26000; 31000] emptyWorld).
  - discriminate.
  - intros t Ht. repeat (apply elem_of_cons in Ht as [->|Ht]; [lia|]).
    apply elem_of_nil in Ht. contradiction.
Defined.

End MonitorRuns.

(* ===================================================================== *)
(** * Start-up *)
(* ===================================================================== *)

Section StartUp.
Import JSString JSDate Store Eff Http Liveness Startup.

#[local] Instance sameButCalls_refl : Reflexive sameButCalls.
Proof. intros w. repeat split. Qed.

#[local] Instance sameButCalls_trans : Transitive sameButCalls.
Proof.
  intros a b c (H1 & H2 & H3 & H4) (H5 & H6 & H7 & H8). repeat split; congruence.
Qed.

Lemma dbQuery_sameButCalls {A} (e : Env) (q : Db -> A) :
  preserves sameButCalls (dbQuery e q).
Proof.
  intros w w' out. unfold dbQuery.
  destruct (rejects (tickOf e w)); intros H; injection H as <- <-; repeat split.
Qed.

Lemma schema_sameButCalls (e : Env) :
  preserves sameButCalls (forEach schema (createIfNotExists e)).
Proof.
  apply forEach_preserves; try apply _. intros s. apply dbQuery_sameButCalls.
Qed.

Lemma schema_accepting (e : Env) (l : list Ddl) :
  accepting e ->
  forall w,
    forEach l (createIfNotExists e) w
    = (Ret tt, mkWorld (db w) (deviceCache w) (calls w + length l)%nat (issued w)
                       (posted w)).
Proof.
  intros Hacc. induction l as [|s l IH]; intros w; cbn [forEach].
  - unfold ret. destruct w; simpl. rewrite Nat.add_0_r. reflexivity.
  - unfold Eff.bind, createIfNotExists. rewrite (dbQuery_accepting e _ w Hacc).
    rewrite IH. cbn [db deviceCache calls issued posted length].
    rewrite Nat.add_succ_r. reflexivity.
Qed.

Lemma forEach_cacheRow (h : Host) (rows : list (string * DeviceRow.t)) :
  forall w,
    forEach rows (cacheRow h) w
    = (Ret tt,
       mkWorld (db w)
               (foldl (fun c row => <[row.1 := infoOfRow h row.2]> c) (deviceCache w) rows)
               (calls w) (issued w) (posted w)).
Proof.
  induction rows as [|row rows IH]; intros w; cbn [forEach foldl].
  - destruct w; reflexivity.
  - unfold Eff.bind at 1. unfold cacheRow at 1. unfold Eff.bind, getCache, setCache.
    rewrite IH. reflexivity.
Qed.

Lemma foldl_insert_lookup (h : Host) (rows : list (string * DeviceRow.t)) :
  NoDup rows.*1 ->
  forall (c : gmap string DeviceInfo) (sn : string),
    foldl (fun c row => <[row.1 := infoOfRow h row.2]> c) c rows !! sn
    = match list_to_map (M := gmap string DeviceRow.t) rows !! sn with
      | Some row => Some (infoOfRow h row)
      | None => c !! sn
      end.
Proof.
  induction rows as [|[k r] rows IH]; intros Hnd c sn.
  - simpl. rewrite lookup_empty. reflexivity.
  - rewrite fmap_cons in Hnd. apply NoDup_cons in Hnd as [Hk Hnd].
    cbn [foldl fst snd]. rewrite (IH Hnd), list_to_map_cons.
    destruct (decide (k = sn)) as [->|Hne].
    + rewrite lookup_insert_eq, (not_elem_of_list_to_map_1 rows sn Hk),
        lookup_insert_eq. reflexivity.
    + rewrite !(lookup_insert_ne _ k sn) by exact Hne. reflexivity.
Qed.

Lemma loadDevicesIntoCache_run (e : Env) (w : World) :
  exists c',
    loadDevicesIntoCache e w
    = (Ret tt, mkWorld (db w) c' (S (calls w)) (issued w) (posted w))
    /\ if rejects (oracle e (calls w)) then c' = deviceCache w
       else loadedFrom (host e) (devices (db w)) (deviceCache w) c'.
Proof.
  unfold loadDevicesIntoCache, tryCatch, Eff.bind, dbQuery, tickOf, ret.
  destruct (rejects (oracle e (calls w))).
  - eexists. split; reflexivity.
  - rewrite forEach_cacheRow. cbn [db deviceCache calls issued posted].
    eexists. split; [reflexivity|]. intros sn. unfold selectDevices.
    rewrite (foldl_insert_lookup (host e) _ (NoDup_fst_map_to_list _)).
    rewrite list_to_map_to_list. reflexivity.
Qed.

(** What [initDB] does, for every behaviour of the database. *)
Lemma initDB_run (e : Env) (w : World) :
  exists w',
    initDB e w = (Ret tt, w')
    /\ db w' = db w /\ issued w' = issued w /\ posted w' = posted w
    /\ (deviceCache w' = deviceCache w
        \/ loadedFrom (host e) (devices (db w)) (deviceCache w) (deviceCache w'))
    /\ (accepting e ->
        loadedFrom (host e) (devices (db w)) (deviceCache w) (deviceCache w')
        /\ calls w' = (calls w + 10)%nat).
Proof.
  unfold initDB, tryCatch. unfold Eff.bind at 1.
  destruct (forEach schema (createIfNotExists e) w) as [[[]|x] w1] eqn:E1;
    destruct (schema_sameButCalls e w w1 _ E1) as (Hdb & Hc & Hi & Hp).
  - destruct (loadDevicesIntoCache_run e w1) as (c' & Hrun & Hload). rewrite Hrun.
    eexists. split; [reflexivity|]. cbn [db issued posted deviceCache calls].
    split; [exact Hdb|]. split; [exact Hi|]. split; [exact Hp|]. split.
    + destruct (rejects (oracle e (calls w1))); [left; congruence|].
      right. rewrite <- Hdb, <- Hc. exact Hload.
    + intros Hacc. rewrite (Hacc (calls w1)) in Hload. split.
      * rewrite <- Hdb, <- Hc. exact Hload.
      * rewrite (schema_accepting e schema Hacc w) in E1. injection E1 as <-.
        cbn [calls schema length]. lia.
  - unfold ret. eexists. split; [reflexivity|].
    split; [exact Hdb|]. split; [exact Hi|]. split; [exact Hp|]. split; [left; exact Hc|].
    intros Hacc. rewrite (schema_accepting e schema Hacc w) in E1. discriminate.
Qed.

(** The statements of the schema are sent until one is rejected. *)
Lemma schema_cases (e : Env) (l : list Ddl) :
  forall w out w1,
    forEach l (createIfNotExists e) w = (out, w1) ->
    (out = Ret tt /\ calls w1 = (calls w + length l)%nat
     /\ forall k, (k < length l)%nat -> rejects (oracle e (calls w + k)) = false)
    \/ ((exists x, out = Throw x)
        /\ exists k, (k < length l)%nat /\ rejects (oracle e (calls w + k)) = true).
Proof.
  induction l as [|s l IH]; intros w out w1; cbn [forEach].
  - unfold ret. intros H. injection H as <- <-. left.
    split; [reflexivity|]. split; [simpl; lia|]. intros k Hk. simpl in Hk. lia.
  - unfold Eff.bind, createIfNotExists, dbQuery, tickOf.
    destruct (rejects (oracle e (calls w))) eqn:Hr.
    + intros H. injection H as <- <-. right. split; [eauto|].
      exists 0%nat. rewrite Nat.add_0_r. split; [simpl; lia|exact Hr].
    + intros H. apply IH in H. cbn [calls] in H.
      destruct H as [(-> & Hc & Hall)|(Hx & k & Hk & Hrej)].
      * left. split; [reflexivity|]. split; [simpl; lia|].
        intros [|k] Hk; [rewrite Nat.add_0_r; exact Hr|].
        replace (calls w + S k)%nat with (S (calls w) + k)%nat by lia.
        apply Hall. simpl in Hk. lia.
      * right. split; [exact Hx|]. exists (S k). split; [simpl; lia|].
        replace (calls w + S k)%nat with (S (calls w) + k)%nat by lia. exact Hrej.
Qed.

(** X16. Start-up never fails, changes no table and sends no data-changing
    statement. It makes at most ten calls of the database: the nine
    statements of the schema, then one query on the devices table. When
    all ten are accepted, every row of the devices table is entered in the
    cache with its stored status and with [lastSeen] and [lastHeartbeat]
    both read from [last_seen]; when one of them is rejected, the cache is
    left as it was. *)
Theorem start_up_loads_the_cache (e : Env) (w : World) :
  exists w',
    initDB e w = (Ret tt, w')
    /\ db w' = db w /\ issued w' = issued w /\ posted w' = posted w
    /\ ((forall k, (k < 10)%nat -> rejects (oracle e (calls w + k)) = false) ->
        loadedFrom (host e) (devices (db w)) (deviceCache w) (deviceCache w')
        /\ calls w' = (calls w + 10)%nat)
    /\ ((exists k, (k < 10)%nat /\ rejects (oracle e (calls w + k)) = true) ->
        deviceCache w' = deviceCache w).
Proof.
  unfold initDB, tryCatch. unfold Eff.bind at 1.
  destruct (forEach schema (createIfNotExists e) w) as [[[]|x] w1] eqn:E1;
    destruct (schema_sameButCalls e w w1 _ E1) as (Hdb & Hc & Hi & Hp);
    destruct (schema_cases e schema w _ w1 E1)
      as [(Hout & Hcalls & Hall)|([y Hout] & k & Hk & Hrej)]; try discriminate Hout.
  - destruct (loadDevicesIntoCache_run e w1) as (c' & Hrun & Hload). rewrite Hrun.
    eexists. split; [reflexivity|]. cbn [db issued posted deviceCache calls].
    split; [exact Hdb|]. split; [exact Hi|]. split; [exact Hp|].
    rewrite Hcalls in Hload |- *. cbn [schema length] in *. split.
    + intros Hacc. rewrite (Hacc 9%nat) in Hload by lia. split; [|lia].
      rewrite <- Hdb, <- Hc. exact Hload.
    + intros (k & Hk & Hrej). destruct (decide (k = 9%nat)) as [->|Hne].
      * rewrite Hrej in Hload. congruence.
      * rewrite (Hall k) in Hrej by lia. discriminate.
  - unfold ret. eexists. split; [reflexivity|].
    split; [exact Hdb|]. split; [exact Hi|]. split; [exact Hp|]. split; [|intros _; exact Hc].
    intros Hacc. cbn [schema length] in Hk. rewrite (Hacc k) in Hrej by lia.
    discriminate.
Qed.

Lemma start_up_loads_the_cache_witness :
  (exists w',
     initDB (plainEnv utcHost) afterCrash = (Ret tt, w')
     /\ deviceCache w' !! "SN1"%string
        = Some (mkInfo DeviceRow.ONLINE (Some (Some 1000)) (Some (Some 1000)))
     /\ calls w' = 10%nat)
  /\ (exists w',
        initDB (flakyEnv 3) afterCrash = (Ret tt, w') /\ deviceCache w' = ∅).
Proof.
  split.
  - destruct (start_up_loads_the_cache (plainEnv utcHost) afterCrash)
      as (w' & Hrun & _ & _ & _ & Hok & _).
    destruct Hok as [Hload Hcalls]; [intros k _; reflexivity|].
    exists w'. split; [exact Hrun|]. split; [|exact Hcalls].
    rewrite (Hload "SN1"%string). reflexivity.
  - destruct (start_up_loads_the_cache (flakyEnv 3) afterCrash)
      as (w' & Hrun & _ & _ & _ & _ & Hbad).
    exists w'. split; [exact Hrun|]. apply Hbad.
    exists 3%nat. split; [lia|reflexivity].
Defined.

Lemma isoString_nonempty (t : Z) : isEmpty (isoString t) = false.
Proof.
  unfold isoString, dateString, yearString.
  destruct ((0 <=? YearFromDay (Day t)) && (YearFromDay (Day t) <=? 9999));
    [|destruct (YearFromDay (Day t) <? 0)];
    unfold pad4; rewrite ?append_cons; reflexivity.
Qed.

(** A [last_seen] written by the server is read back as the same instant. *)
Lemma infoOfRow_stamped (h : Host) (row : DeviceRow.t) (t : Z) :
  DeviceRow.last_seen row = Some (isoString t) -> fourDigitYear t ->
  infoOfRow h row = mkInfo (DeviceRow.status row) (Some (Some t)) (Some (Some t)).
Proof.
  intros Hls H4. unfold infoOfRow, dateOrNull.
  rewrite Hls, isoString_nonempty, (parse_isoString h t H4). reflexivity.
Qed.

(** X17. After a restart, a device stored ONLINE is taken for alive since its
    stored [last_seen]: the first run of the monitor leaves it ONLINE when
    that instant is at most 30000 ms old and marks it OFFLINE, in the cache
    and in the table, when it is older. *)
Theorem restart_resumes_from_last_seen (e : Env) (w : World) (sn : string)
  (row : DeviceRow.t) (t now : Z) :
  accepting e ->
  deviceCache w = ∅ ->
  devices (db w) !! sn = Some row ->
  DeviceRow.status row = DeviceRow.ONLINE ->
  DeviceRow.last_seen row = Some (isoString t) ->
  fourDigitYear t ->
  exists w',
    boot e [now] w = (Ret tt, w')
    /\ deviceCache w' !! sn
       = Some (mkInfo (if 30000 <? now - t then DeviceRow.OFFLINE else DeviceRow.ONLINE)
                      (Some (Some t)) (Some (Some t)))
    /\ DeviceRow.status <$> devices (db w') !! sn
       = Some (if 30000 <? now - t then DeviceRow.OFFLINE else DeviceRow.ONLINE).
Proof.
  intros Hacc Hempty Hrow Hon Hls H4.
  destruct (initDB_run e w) as (w1 & Hinit & Hdb & _ & _ & _ & Hload).
  destruct (Hload Hacc) as [Hl _]. clear Hload.
  assert (Hc1 : deviceCache w1 !! sn
                = Some (mkInfo DeviceRow.ONLINE (Some (Some t)) (Some (Some t)))).
  { rewrite (Hl sn), Hrow, (infoOfRow_stamped (host e) row t Hls H4), Hon. reflexivity. }
  unfold boot, startDeviceMonitor. cbn [forEach]. unfold Eff.bind at 1. rewrite Hinit.
  unfold Eff.bind. rewrite monitorTick_run. cbv zeta. unfold ret.
  eexists. split; [reflexivity|]. cbn [deviceCache db devices].
  set (info := mkInfo DeviceRow.ONLINE (Some (Some t)) (Some (Some t))) in *.
  assert (Hd : shouldDemote now info = (30000 <? now - t)).
  { unfold shouldDemote, DEVICE_OFFLINE_THRESHOLD. simpl. apply andb_true_r. }
  pose proof (demotedKeys_shouldDemote now _ sn info Hc1) as Hmem. rewrite Hd in Hmem.
  split.
  - rewrite sweepInfo_lookup, Hc1. simpl. unfold sweepInfo. rewrite Hd.
    destruct (30000 <? now - t); reflexivity.
  - rewrite Hdb. destruct (30000 <? now - t) eqn:Hold.
    + pose proof (proj2 Hmem eq_refl) as Hin.
      apply list_elem_of_lookup in Hin as [j Hj].
      rewrite (writeOffline_at e _ (demotedKeys_NoDup now _) _ _ j sn Hj).
      rewrite (Hacc _), Hrow. reflexivity.
    + rewrite writeOffline_notin.
      * rewrite Hrow. simpl. rewrite Hon. reflexivity.
      * intros Hin. apply Hmem in Hin. discriminate.
Qed.

Lemma restart_resumes_from_last_seen_witness :
  exists w',
    boot (plainEnv utcHost) [40000] afterCrash = (Ret tt, w')
    /\ deviceCache w' !! "SN1"%string
       = Some (mkInfo DeviceRow.OFFLINE (Some (Some 1000)) (Some (Some 1000)))
    /\ DeviceRow.status <$> devices (db w') !! "SN1"%string = Some DeviceRow.OFFLINE.
Proof.
  apply (restart_resumes_from_last_seen (plainEnv utcHost) afterCrash "SN1"
           (DeviceRow.mk DeviceRow.ONLINE (Some "1970-01-01T00:00:01.000Z"%string) 0 0)
           1000 40000).
  - intros k. reflexivity.
  - reflexivity.
  - apply lookup_singleton_eq.
  - reflexivity.
  - vm_compute. reflexivity.
  - apply fourDigitYear_range. lia.
Defined.

End StartUp.

(* ===================================================================== *)
(** * The cache and the devices table *)
(* ===================================================================== *)

Section CacheAndTable.
Import JSString JSDate Store Eff Http Liveness Startup Ingest.

#[local] Instance devicesKept_refl : Reflexive devicesKept.
Proof. intros w sn H. exact H. Qed.

#[local] Instance devicesKept_trans : Transitive devicesKept.
Proof. intros a b c H1 H2 sn H. apply H2, H1, H. Qed.

Lemma exec_devicesKept (st : Z) (s : Stmt) (d d' : Db) (sn : string) :
  exec st s d = Some d' -> is_Some (devices d !! sn) -> is_Some (devices d' !! sn).
Proof.
  destruct s; simpl; try (intros H; injection H as <-; simpl; tauto).
  - destruct (devices d !! sn0) eqn:E; [discriminate|].
    intros H; injection H as <-; simpl. intros Hs.
    destruct (decide (sn0 = sn)) as [->|Hne].
    + rewrite lookup_insert_eq. eauto.
    + rewrite lookup_insert_ne by exact Hne. exact Hs.
  - intros H; injection H as <-; simpl. rewrite lookup_alter_is_Some. tauto.
  - intros H; injection H as <-; simpl. rewrite lookup_alter_is_Some. tauto.
  - intros H; injection H as <-; simpl. rewrite lookup_alter_is_Some. tauto.
Qed.

Lemma dbWrite_devicesKept (e : Env) (s : Stmt) : preserves devicesKept (dbWrite e s).
Proof.
  intros w w' out H sn Hs. apply dbWrite_inv in H. destruct out.
  - destruct H as [st H]. exact (exec_devicesKept st s _ _ sn H Hs).
  - rewrite H. exact Hs.
Qed.

(** The heartbeat handler removes no row of the devices table. *)
Lemma getrequest_devicesKept (e : Env) (SN : option string) (now : Z) :
  preserves devicesKept (getrequest e SN now).
Proof.
  apply getrequest_preserves; try apply _.
  - intros A q w w' out H sn Hs. apply dbQuery_inv in H as [-> _]. exact Hs.
  - intros s _. apply dbWrite_devicesKept.
  - intros c w w' out H. injection H as <- <-. intros sn Hs. exact Hs.
  - intros w w' out H. injection H as <- <-. intros sn Hs. exact Hs.
Qed.

Lemma writeOffline_is_Some (e : Env) (batch : list string) (sn : string) :
  forall k d, is_Some (writeOffline e k batch d !! sn) <-> is_Some (d !! sn).
Proof.
  induction batch as [|x batch IH]; intros k d; simpl; [tauto|].
  rewrite IH. destruct (rejects (oracle e k)); [tauto|].
  apply lookup_alter_is_Some.
Qed.

(** X18. Every handler and both background jobs keep the cache within the
    devices table: a serial number enters the cache only once its row is
    stored, and rows are never removed. This holds whatever the database
    accepts or rejects. *)
Theorem cached_devices_are_registered (e : Env) (w : World) :
  registered w ->
  (forall SN now out w', getrequest e SN now w = (out, w') -> registered w')
  /\ (forall now out w', monitorTick e now w = (out, w') -> registered w')
  /\ (forall qTable qOptions reqBody now out w',
        postCdata e qTable qOptions reqBody now w = (out, w') -> registered w')
  /\ (forall out w', initDB e w = (out, w') -> registered w').
Proof.
  intros Hreg. split; [|split; [|split]].
  - intros SN now out w' H.
    pose proof (getrequest_devicesKept e SN now w w' out H) as Hkept.
    destruct SN as [sn|].
    2:{ injection H as <- <-. exact Hreg. }
    destruct (decide (sn = EmptyString)) as [->|Hsn].
    { injection H as <- <-. exact Hreg. }
    destruct (deviceCache w !! sn) as [i|] eqn:Hc.
    + destruct (getrequest_cached e sn now w i Hsn Hc) as (d & n & Hrun).
      rewrite Hrun in H. injection H as <- <-.
      intros sn' Hs. apply Hkept, Hreg. cbn [deviceCache] in Hs.
      destruct (decide (sn = sn')) as [<-|Hne].
      * rewrite Hc. eauto.
      * rewrite lookup_insert_ne in Hs by exact Hne. exact Hs.
    + rewrite (getrequest_new e sn now w Hsn Hc), heartbeatNew_run in H.
      destruct (rejects (oracle e (calls w))).
      { injection H as <- <-. exact Hreg. }
      cbv zeta in H. destruct (rejects (oracle e (S (calls w)))).
      { injection H as <- <-. exact Hreg. }
      injection H as <- <-. intros sn' Hs. cbn [deviceCache db devices] in *.
      destruct (decide (sn = sn')) as [<-|Hne].
      * rewrite lookup_insert_eq. eauto.
      * rewrite lookup_insert_ne in Hs by exact Hne.
        rewrite lookup_insert_ne by exact Hne. apply Hreg, Hs.
  - intros now out w'. rewrite monitorTick_run. cbv zeta.
    intros H. injection H as <- <-. intros sn. cbn [deviceCache db devices].
    rewrite sweepInfo_lookup, writeOffline_is_Some, fmap_is_Some. apply Hreg.
  - intros qTable qOptions reqBody now out w' H.
    destruct (postCdata_sameDevices e _ _ _ _ w w' out H) as [Hd Hc].
    intros sn. rewrite Hd, Hc. apply Hreg.
  - intros out w' H.
    destruct (initDB_run e w) as (w1 & Hrun & Hdb & _ & _ & Hc & _).
    rewrite Hrun in H. injection H as <- <-.
    intros sn. rewrite Hdb. destruct Hc as [->|Hl]; [apply Hreg|].
    rewrite (Hl sn). destruct (devices (db w) !! sn) eqn:E; [eauto|].
    intros Hs. rewrite <- E. apply Hreg, Hs.
Qed.

Lemma registered_emptyWorld : registered emptyWorld.
Proof. intros sn [i Hi]. cbn in Hi. rewrite lookup_empty in Hi. discriminate. Qed.

Lemma cached_devices_are_registered_witness : registered afterSweep.
Proof.
  assert (H1 : registered afterFirstHeartbeat).
  { exact (proj1 (cached_devices_are_registered (plainEnv utcHost) emptyWorld
                    registered_emptyWorld)
             (Some "SN1"%string) 1000 _ _ (surjective_pairing _)). }
  exact (proj1 (proj2 (cached_devices_are_registered (plainEnv utcHost)
                         afterFirstHeartbeat H1))
           31001 _ _ (surjective_pairing _)).
Defined.





End CacheAndTable.

(* ===================================================================== *)
(** * The punch table under overlapping requests *)
(* ===================================================================== *)

Section OtherHandlers.
Import JSString JSDate Parser Store Eff Http Attendance Liveness Startup Ingest.

#[local] Instance sameTables_refl : Reflexive sameTables.
Proof. intros w. split; reflexivity. Qed.

#[local] Instance sameTables_trans : Transitive sameTables.
Proof. intros a b c [H1 H2] [H3 H4]. split; congruence. Qed.

(** The heartbeat handler reads and writes the devices only. *)
Lemma getrequest_sameTables (e : Env) (SN : option string) (now : Z) :
  preserves sameTables (getrequest e SN now).
Proof.
  apply getrequest_preserves; try apply _.
  - intros A q w w' out H. apply dbQuery_inv in H as [Hdb _].
    unfold sameTables. rewrite Hdb. split; reflexivity.
  - intros s Hs w w' out H. apply dbWrite_inv in H. destruct out.
    + destruct H as [st H]. destruct s; try discriminate Hs; simpl in H.
      * destruct (devices (db w) !! sn); [discriminate|].
        injection H as H. unfold sameTables. rewrite <- H. split; reflexivity.
      * injection H as H. unfold sameTables. rewrite <- H. split; reflexivity.
      * injection H as H. unfold sameTables. rewrite <- H. split; reflexivity.
      * injection H as H. unfold sameTables. rewrite <- H. split; reflexivity.
    + unfold sameTables. rewrite H. split; reflexivity.
  - intros c w w' out H. injection H as <- <-. split; reflexivity.
  - intros w w' out H. injection H as <- <-. split; reflexivity.
Qed.

End OtherHandlers.

Section TablesUnderOverlap.
Import JSString JSDate Parser Store Eff Http Attendance Liveness Startup.

Lemma stepwise_await (R : World -> World -> Prop) {X} (call : M X) :
  (forall w, R w (call w).2) -> stepwise R (await call).
Proof. intros H. split; [exact H|]. intros o. exact I. Qed.

Lemma stepwise_bindT (R : World -> World -> Prop) {A B} (t : Task A)
  (f : A -> Task B) :
  stepwise R t -> (forall a, stepwise R (f a)) -> stepwise R (bindT t f).
Proof.
  intros Ht Hf. induction t as [[a|x]|X call k IH]; cbn [bindT].
  - apply Hf.
  - exact I.
  - destruct Ht as [Hc Hk]. split; [exact Hc|]. intros o. apply IH, Hk.
Qed.

Lemma stepwise_tryCatchT (R : World -> World -> Prop) {A} (t : Task A)
  (h : Exn -> Task A) :
  stepwise R t -> (forall x, stepwise R (h x)) -> stepwise R (tryCatchT t h).
Proof.
  intros Ht Hh. induction t as [[a|x]|X call k IH]; cbn [tryCatchT].
  - exact I.
  - apply Hh.
  - destruct Ht as [Hc Hk]. split; [exact Hc|]. intros o. apply IH, Hk.
Qed.

Lemma stepwise_forEachT (R : World -> World -> Prop) {A} (l : list A)
  (body : A -> Task unit) :
  Forall (fun x => stepwise R (body x)) l -> stepwise R (forEachT l body).
Proof.
  induction 1 as [|x l Hx _ IH]; cbn [forEachT]; [exact I|].
  apply stepwise_bindT; [exact Hx|]. intros _. exact IH.
Qed.

Lemma stepwise_collectT (R : World -> World -> Prop) {A B} (l : list A)
  (body : A -> Task (option B)) :
  (forall x, stepwise R (body x)) -> stepwise R (collectT l body).
Proof.
  intros Hb. induction l as [|x l IH]; cbn [collectT]; [exact I|].
  apply stepwise_bindT; [apply Hb|]. intros o.
  apply stepwise_bindT; [exact IH|]. intros rest. exact I.
Qed.

(** A turn of a handler is one of its calls. *)
Lemma resume_stepwise (R : World -> World -> Prop) `{!Reflexive R} {A}
  (t : Task A) (w : World) :
  stepwise R t -> R w (resume t w).2 /\ stepwise R (resume t w).1.
Proof.
  destruct t as [out|X call k]; cbn [resume].
  - intros _. split; [reflexivity|exact I].
  - intros [Hc Hk]. specialize (Hc w). destruct (call w) as [o w'].
    split; [exact Hc|apply Hk].
Qed.

(** What every call of every handler keeps, the event loop keeps, in
    whatever order the handlers take their turns. *)
Lemma eventLoop_stepwise (R : World -> World -> Prop) `{!Reflexive R}
  `{!Transitive R} {A} (turns : list nat) :
  forall (handlers : list (Task A)) (w : World),
    Forall (stepwise R) handlers ->
    R w (eventLoop turns handlers w).2
    /\ Forall (stepwise R) (eventLoop turns handlers w).1.
Proof.
  induction turns as [|i turns IH]; intros handlers w Hall; cbn [eventLoop].
  - split; [reflexivity|exact Hall].
  - destruct (handlers !! i) as [t|] eqn:Hi; [|apply IH, Hall].
    assert (Ht : stepwise R t).
    { rewrite Forall_forall in Hall. apply Hall.
      apply (list_elem_of_lookup_2 _ _ _ Hi). }
    destruct (resume_stepwise R t w Ht) as [Hw Ht'].
    destruct (resume t w) as [t' w'].
    destruct (IH (<[i := t']> handlers) w') as [Hw' Hall'].
    + apply Forall_insert; assumption.
    + split; [exact (transitivity Hw Hw')|exact Hall'].
Qed.

#[local] Instance grows_reflexive : Reflexive grows := grows_refl.
#[local] Instance grows_transitive : Transitive grows := grows_trans.

Lemma dbQuery_grows {A} (e : Env) (q : Db -> A) (w : World) :
  grows w (dbQuery e q w).2.
Proof.
  apply grows_same. unfold dbQuery. destruct (rejects (tickOf e w)); reflexivity.
Qed.

Lemma insertPunch_grows (e : Env) (r : Row) (w : World) :
  (exists t, ts r = isoString t) -> grows w (dbWrite e (InsertPunch r) w).2.
Proof.
  intros Hr.
  exact (dbWrite_InsertPunch_grows e r w _ _ Hr (surjective_pairing _)).
Qed.

Lemma updateAttendance_grows (e : Env) (a : AttendanceData.t) (w : World) :
  grows w (dbWrite e (UpdateAttendance a) w).2.
Proof.
  apply grows_same. unfold dbWrite. destruct (rejects (tickOf e w)); reflexivity.
Qed.

Lemma insertAttendance_grows (e : Env) (a : AttendanceData.t) (w : World) :
  grows w (dbWrite e (InsertAttendance a) w).2.
Proof.
  apply grows_same. unfold dbWrite. destruct (rejects (tickOf e w)); reflexivity.
Qed.

Lemma attendanceForPin_stepwise (e : Env) (dayStr s en pin : string) :
  stepwise grows (Overlap.attendanceForPin e dayStr s en pin).
Proof.
  unfold Overlap.attendanceForPin.
  apply stepwise_bindT; [apply stepwise_await, dbQuery_grows|]. intros punches.
  destruct (attendanceOf e pin dayStr punches) as [a|]; [|exact I].
  apply stepwise_bindT; [apply stepwise_await, dbQuery_grows|]. intros existing.
  apply stepwise_bindT.
  { destruct existing; apply stepwise_await;
      [apply insertAttendance_grows|apply updateAttendance_grows]. }
  intros _. apply stepwise_bindT; [|intros _; exact I].
  destruct (callbackSet e); [|exact I].
  apply stepwise_await. intros w. apply grows_same. reflexivity.
Qed.

Lemma computeAttendanceForDay_stepwise (e : Env) (dayStr : string) :
  stepwise grows (Overlap.computeAttendanceForDay e dayStr).
Proof.
  unfold Overlap.computeAttendanceForDay.
  apply stepwise_bindT.
  { destruct (dayRange (host e) dayStr); exact I. }
  intros range.
  apply stepwise_bindT; [apply stepwise_await, dbQuery_grows|]. intros pins.
  apply stepwise_collectT. intros pin. apply attendanceForPin_stepwise.
Qed.

Lemma fallbackLoop_stepwise (e : Env) (now : nat -> Z) (lines : list string) :
  forall i, stepwise grows (Overlap.fallbackLoop e now i lines).
Proof.
  induction lines as [|l lines IH]; intros i; cbn [Overlap.fallbackLoop];
    [exact I|].
  destruct (parseFallbackLine (host e) (now i) l) as [row|] eqn:El; [|apply IH].
  apply stepwise_bindT.
  { apply stepwise_await. intros w. apply insertPunch_grows.
    exact (parseFallbackLine_stamped _ _ _ _ El). }
  intros _. apply stepwise_bindT; [apply IH|]. intros n. exact I.
Qed.

Lemma aggregateDays_stepwise (e : Env) (days : list string) :
  stepwise grows (Overlap.aggregateDays e days).
Proof.
  induction days as [|day days IH]; cbn [Overlap.aggregateDays]; [exact I|].
  apply stepwise_bindT; [apply computeAttendanceForDay_stepwise|]. intros r.
  apply stepwise_bindT; [exact IH|]. intros m. exact I.
Qed.

(** Every call of the ingestion handler leaves the stored punches as they
    are or adds one that carries the rendering of an instant. *)
Lemma serve_stepwise (e : Env) (r : Overlap.Request) :
  stepwise grows (Overlap.serve e r).
Proof.
  unfold Overlap.serve, Overlap.postCdata.
  apply stepwise_tryCatchT; [|intros x; exact I].
  destruct (Overlap.reqBody r) as [raw|]; [|exact I].
  destruct (isEmpty raw || isEmpty (trim raw)); [exact I|].
  destruct (Ingest.isAttlog _).
  - apply stepwise_bindT.
    + apply stepwise_forEachT. apply Forall_forall. intros row Hrow.
      apply stepwise_await. intros w. apply insertPunch_grows.
      apply list_elem_of_omap in Hrow as (l & _ & Hl).
      exact (parseAttlogLine_stamped _ _ _ Hl).
    + intros _. apply stepwise_bindT; [apply aggregateDays_stepwise|].
      intros results. exact I.
  - apply stepwise_bindT; [apply fallbackLoop_stepwise|]. intros n. exact I.
Qed.

Lemma grows_wellStamped (w w' : World) :
  grows w w' -> wellStamped (db w) -> wellStamped (db w').
Proof.
  intros (rows & E & F) Hw row Hrow. rewrite E in Hrow.
  apply elem_of_app in Hrow as [Hrow|Hrow]; [apply Hw, Hrow|].
  rewrite Forall_forall in F. apply F, Hrow.
Qed.

(** X20. Whatever the database accepts or rejects, and in whatever order the
    handlers of any number of ingestion requests take their turns, the
    punch table only grows: no stored punch is removed or changed, and
    every punch added carries the canonical rendering of an instant. So a
    table in which every punch carries such a rendering stays so. The
    heartbeat handler, the monitor and the start-up leave the punch table
    and the attendance table as they are. *)
Theorem punch_table_only_grows (e : Env) (requests : list Overlap.Request)
  (turns : list nat) (w : World) :
  let served := eventLoop turns (map (Overlap.serve e) requests) w in
  grows w served.2
  /\ (wellStamped (db w) -> wellStamped (db served.2))
  /\ (forall SN now, sameTables w (getrequest e SN now w).2)
  /\ (forall now, sameTables w (monitorTick e now w).2)
  /\ sameTables w (initDB e w).2.
Proof.
  intros served.
  assert (G : grows w served.2).
  { apply (eventLoop_stepwise grows). apply Forall_map, Forall_forall.
    intros r _. apply serve_stepwise. }
  split; [exact G|]. split; [apply grows_wellStamped, G|].
  split; [|split].
  - intros SN now.
    exact (getrequest_sameTables e SN now w _ _ (surjective_pairing _)).
  - intros now. rewrite monitorTick_run. split; reflexivity.
  - destruct (initDB_run e w) as (w1 & Hrun & Hdb & _). rewrite Hrun.
    unfold sameTables. cbn [snd]. rewrite Hdb. split; reflexivity.
Qed.

End TablesUnderOverlap.

(* ===================================================================== *)
(** * Listing the devices *)
(* ===================================================================== *)

Section DevicesEndpoint.
Import JSString JSDate Store Eff Http Api.

Lemma enrich_Some (c : gmap string DeviceInfo) (r : string * DeviceRow.t)
  (v : DeviceView) :
  enrich c r = Some v ->
  (serial_number v, row v) = r
  /\ cached_status v = status <$> c !! r.1
  /\ last_heartbeat v = heartbeatText c r.1.
Proof.
  unfold enrich, heartbeatText. destruct r as [sn rw]. cbn [fst snd].
  destruct (c !! sn) as [i|]; [|intros H; injection H as <-; repeat split].
  destruct (lastHeartbeat i) as [[t|]|]; simpl; try discriminate;
    intros H; injection H as <-; repeat split.
Qed.

Lemma enrich_None (c : gmap string DeviceInfo) (r : string * DeviceRow.t) :
  enrich c r = None <-> badHeartbeat c r.1.
Proof.
  unfold enrich, badHeartbeat. destruct r as [sn rw]. cbn [fst snd].
  destruct (c !! sn) as [i|].
  - destruct (lastHeartbeat i) as [[t|]|] eqn:E; simpl; split; try discriminate.
    + intros (j & Hj & Hb). injection Hj as <-. congruence.
    + eauto.
    + intros (j & Hj & Hb). injection Hj as <-. congruence.
    + intros (j & Hj & Hb). injection Hj as <-. congruence.
  - split; [discriminate|]. intros (j & Hj & _). discriminate.
Qed.

(** X21. [GET /devices] changes nothing. When the query is accepted and no
    listed device has an invalid date as its cached last heartbeat, the
    answer lists every row of the devices table once, in the order of the
    database, each with the status held in the cache (the word UNKNOWN
    standing for no entry) and the cached last heartbeat as text. A
    rejected query, or an invalid cached date, which makes [toISOString]
    raise, gives the answer 500. *)
Theorem devices_endpoint_lists_every_device (e : Env)
  (order : list (string * DeviceRow.t) -> list (string * DeviceRow.t)) (w : World) :
  (forall l, order l ≡ₚ l) ->
  exists resp w',
    getDevices e order w = (Ret resp, w')
    /\ sameButCalls w w'
    /\ (rejects (oracle e (calls w)) = true -> resp = mkReply 500 (Failure SqlError))
    /\ (rejects (oracle e (calls w)) = false ->
        (exists sn, is_Some (devices (db w) !! sn) /\ badHeartbeat (deviceCache w) sn) ->
        resp = mkReply 500 (Failure RangeError))
    /\ (rejects (oracle e (calls w)) = false ->
        (forall sn, is_Some (devices (db w) !! sn) -> ~ badHeartbeat (deviceCache w) sn) ->
        exists views,
          resp = mkReply 200 (Rows views)
          /\ map (fun v => (serial_number v, row v)) views
             = order (map_to_list (devices (db w)))
          /\ forall v, v ∈ views ->
               cached_status v = status <$> deviceCache w !! serial_number v
               /\ last_heartbeat v = heartbeatText (deviceCache w) (serial_number v)).
Proof.
  intros Hperm. unfold getDevices, tryCatch, Eff.bind, dbQuery, tickOf, getCache.
  destruct (rejects (oracle e (calls w))) eqn:Hrej.
  { eexists _, _. split; [reflexivity|]. split; [repeat split|].
    split; [reflexivity|]. split; discriminate. }
  cbn [db deviceCache calls issued posted].
  set (rows := order (map_to_list (devices (db w)))).
  assert (Hin : forall r, r ∈ rows -> devices (db w) !! r.1 = Some r.2).
  { intros [sn rw] Hr. unfold rows in Hr. rewrite (Hperm _) in Hr.
    apply elem_of_map_to_list in Hr. exact Hr. }
  destruct (mapM (enrich (deviceCache w)) rows) as [views|] eqn:Hm; cbn [orThrow].
  - unfold ret. eexists _, _. split; [reflexivity|]. split; [repeat split|].
    split; [discriminate|]. apply mapM_Some_1 in Hm. split.
    + intros _ (sn & [rw Hrw] & Hbad). exfalso.
      assert (Hr : (sn, rw) ∈ rows).
      { unfold rows. rewrite (Hperm _). apply elem_of_map_to_list. exact Hrw. }
      clear -Hm Hr Hbad. induction Hm as [|r v l k Hv _ IH]; [apply elem_of_nil in Hr; exact Hr|].
      apply elem_of_cons in Hr as [<-|Hr]; [|exact (IH Hr)].
      apply (enrich_None (deviceCache w) (sn, rw)) in Hbad. congruence.
    + intros _ _. exists views. split; [reflexivity|]. split.
      * clear -Hm. induction Hm as [|r v l k Hv _ IH]; [reflexivity|].
        cbn [map]. rewrite IH. f_equal. apply (enrich_Some _ _ _ Hv).
      * intros v Hv. clear -Hm Hv. induction Hm as [|r v' l k Hv' _ IH];
          [apply elem_of_nil in Hv; contradiction|].
        apply elem_of_cons in Hv as [->|Hv]; [|exact (IH Hv)].
        destruct (enrich_Some _ _ _ Hv') as (Hr & Hc & Hh).
        rewrite <- Hr in Hc, Hh. exact (conj Hc Hh).
  - unfold throw. eexists _, _. split; [reflexivity|]. split; [repeat split|].
    split; [discriminate|]. split; [reflexivity|].
    intros _ Hgood. exfalso. apply mapM_None_1, Exists_exists in Hm as (r & Hr & Hn).
    apply enrich_None in Hn. apply (Hgood r.1); [|exact Hn].
    rewrite (Hin r Hr). eauto.
Qed.

Lemma devices_endpoint_lists_every_device_witness :
  exists views w',
    getDevices (plainEnv utcHost) (fun l => l) oneDevice
    = (Ret (mkReply 200 (Rows views)), w')
    /\ map (fun v => (serial_number v, row v)) views
       = map_to_list (devices (db oneDevice))
    /\ forall v, v ∈ views ->
         cached_status v = status <$> deviceCache oneDevice !! serial_number v
         /\ last_heartbeat v = heartbeatText (deviceCache oneDevice) (serial_number v).
Proof.
  destruct (devices_endpoint_lists_every_device (plainEnv utcHost) (fun l => l)
              oneDevice (fun l => reflexivity l))
    as (resp & w' & Hrun & _ & _ & _ & Hok).
  destruct (Hok eq_refl) as (views & -> & Hrows & Hviews).
  { intros sn _ (i & Hi & Hbad). cbn [oneDevice deviceCache] in Hi.
    apply lookup_singleton_Some in Hi as [_ <-]. discriminate. }
  exists views, w'. split; [exact Hrun|]. split; [exact Hrows|exact Hviews].
Defined.

End DevicesEndpoint.

(* ===================================================================== *)
(** * The range of a day in local time *)
(* ===================================================================== *)

Section LocalDayRange.
Import JSString JSDate Parser Store Eff Attendance.

Lemma parse_dateLayout (h : Host) (y m d : Z) :
  0 <= y <= 9999 -> calendarDate y m d ->
  parse h (dateLayout y m d) = Some (utcInstant y m d 0 0 0 0).
Proof.
  intros Hy Hc. pose proof Hc as [Hm Hd].
  pose proof (daysInMonth_le31 _ (m - 1) (InLeapYear_range y)) as H31.
  destruct (isoString_utcInstant y m d 0 0 0 0 Hy Hc) as [H0 _];
    [unfold clockTime; lia|lia|].
  unfold parse. rewrite parseIsoForm_date by lia.
  unfold isoValue, validDay.
  repeat match goal with
         | |- context [?a <=? ?b] => destruct (Z.leb_spec a b); [|lia]
         end.
  cbn [andb].
  change (MakeDate (MakeDay y (m - 1) d) 0) with (utcInstant y m d 0 0 0 0).
  apply TimeClip_fourDigit, H0.
Qed.

Lemma setHours_const (h : Host) (o t hh mi s ms : Z) :
  constantZone h o ->
  setHours h (Some t) hh mi s ms
  = TimeClip (MakeDate (Day (t + o)) (MakeTime hh mi s ms) - o).
Proof.
  intros Hz. unfold setHours, LocalTime, UTC. cbn [mbind option_bind].
  rewrite !Hz. reflexivity.
Qed.

Lemma localMidnight_arith (D o : Z) :
  - msPerDay < o < msPerDay ->
  Day (D * msPerDay + o) * msPerDay - o
  = D * msPerDay - o - (if o <? 0 then msPerDay else 0).
Proof.
  intros Ho. unfold Day, msPerDay in *.
  destruct (Z.ltb_spec o 0); Z.div_mod_to_equations; lia.
Qed.

Lemma Day_localMidnight (K o : Z) : Day (K * msPerDay - o + o) = K.
Proof.
  replace (K * msPerDay - o + o) with (K * msPerDay) by lia.
  unfold Day. apply Z.div_mul. unfold msPerDay. lia.
Qed.

Lemma TimeClip_near (t : Z) :
  -62167305600000 <= t <= 253402387200000 -> TimeClip t = Some t.
Proof.
  intros H. unfold TimeClip, maxTime.
  destruct (Z.leb_spec (Z.abs t) 8640000000000000); [reflexivity|lia].
Qed.

(** The two calls of [setHours] in [dayRange], on a host at offset [o]. *)
Lemma setHours_day (h : Host) (o D : Z) :
  constantZone h o ->
  - msPerDay < o < msPerDay ->
  -62167219200000 <= D * msPerDay < 253402300800000 ->
  let S := D * msPerDay - o - (if o <? 0 then msPerDay else 0) in
  setHours h (Some (D * msPerDay)) 0 0 0 0 = Some S
  /\ setHours h (Some S) 23 59 59 999 = Some (S + 86399999).
Proof.
  intros Hz Ho HD S.
  pose proof (localMidnight_arith D o Ho) as HS. fold S in HS.
  assert (HSr : -62167305600000 <= S /\ S + 86399999 <= 253402387200000).
  { unfold S, msPerDay in *. destruct (Z.ltb_spec o 0); lia. }
  split.
  - rewrite (setHours_const h o _ 0 0 0 0 Hz).
    replace (MakeDate (Day (D * msPerDay + o)) (MakeTime 0 0 0 0) - o) with S
      by (rewrite <- HS; unfold MakeDate, MakeTime; lia).
    apply TimeClip_near. lia.
  - rewrite (setHours_const h o _ 23 59 59 999 Hz).
    rewrite <- HS at 1. rewrite Day_localMidnight.
    replace (MakeDate (Day (D * msPerDay + o)) (MakeTime 23 59 59 999) - o)
      with (S + 86399999)
      by (rewrite <- HS;
          unfold MakeDate, MakeTime, msPerHour, msPerMinute, msPerSecond; lia).
    apply TimeClip_near. lia.
Qed.

Lemma dayRange_steps (h : Host) (dayStr : string) (t s en : Z) :
  parse h dayStr = Some t ->
  setHours h (Some t) 0 0 0 0 = Some s ->
  setHours h (Some s) 23 59 59 999 = Some en ->
  dayRange h dayStr = Some (isoString s, isoString en).
Proof.
  intros H1 H2 H3. unfold dayRange. rewrite H1, H2.
  cbn [toISOString fmap option_fmap option_map mbind option_bind].
  rewrite H3. reflexivity.
Qed.

(** X22. The range of a day on a host at a fixed offset from UTC. The day
    string is read as midnight UTC and then moved by [setHours] to the
    local midnight at or before it: the range is the local day of that
    date east of UTC, and the local day before it west of UTC. *)
Theorem day_range_follows_local_time (h : Host) (o y m d : Z) :
  constantZone h o ->
  - msPerDay < o < msPerDay ->
  0 <= y <= 9999 ->
  calendarDate y m d ->
  dayRange h (dateLayout y m d)
  = Some (isoString (rangeStart o y m d),
          isoString (rangeStart o y m d + 86399999)).
Proof.
  intros Hz Ho Hy Hc.
  destruct (isoString_utcInstant y m d 0 0 0 0 Hy Hc) as [H0 _];
    [unfold clockTime; lia|lia|].
  apply fourDigitYear_range in H0.
  assert (HT : utcInstant y m d 0 0 0 0 = MakeDay y (m - 1) d * msPerDay).
  { unfold utcInstant, MakeDate, MakeTime. apply Z.add_0_r. }
  pose proof (parse_dateLayout h y m d Hy Hc) as Hp.
  unfold rangeStart. revert H0 Hp. rewrite HT. intros H0 Hp.
  destruct (setHours_day h o (MakeDay y (m - 1) d) Hz Ho H0) as [E1 E2].
  exact (dayRange_steps h _ _ _ _ Hp E1 E2).
Qed.

Lemma day_range_follows_local_time_witness :
  dayRange istHost "2024-03-05"
  = Some ("2024-03-04T18:30:00.000Z", "2024-03-05T18:29:59.999Z")%string
  /\ dayRange estHost "2024-03-05"
     = Some ("2024-03-04T05:00:00.000Z", "2024-03-05T04:59:59.999Z")%string.
Proof.
  assert (Hc : calendarDate 2024 3 5) by (vm_compute; repeat split; discriminate).
  split.
  - exact (day_range_follows_local_time istHost 19800000 2024 3 5
             (fun _ _ => eq_refl) ltac:(unfold msPerDay; lia) ltac:(lia) Hc).
  - exact (day_range_follows_local_time estHost (-18000000) 2024 3 5
             (fun _ _ => eq_refl) ltac:(unfold msPerDay; lia) ltac:(lia) Hc).
Defined.

End LocalDayRange.

(* ===================================================================== *)
(** * The range of a day and the day of a punch *)
(* ===================================================================== *)

Section DayRangeOffUtc.
Import JSString JSDate Parser Store Eff Http Attendance Ingest.

(** C2. Away from UTC the range of a day is not the UTC day. On a host at
    UTC-05:00 the range of 2024-03-05 runs from 05:00 UTC of the day
    before to 04:59:59.999 UTC of that day. An attendance log with two
    punches of that day is stored under timestamps of the UTC day
    2024-03-05; the handler asks for the attendance of the day that these
    timestamps name, the range misses both punches, and the answer
    carries no attendance record at all. On a host at UTC+05:30 the range
    runs from 18:30 UTC of the day before: a punch at 20:00 UTC of the day
    before is selected and one at 20:00 UTC of the day is not. *)
Theorem C2_day_range_is_a_local_day :
  let served := postCdata (plainEnv estHost) (Some "ATTLOG"%string) None
                  (Some twoPunchBatch) (fun _ => 0) emptyWorld in
  dayRange estHost "2024-03-05"
  = Some ("2024-03-04T05:00:00.000Z"%string, "2024-03-05T04:59:59.999Z"%string)
  /\ served.1 = Ret (mkResponse 200 (JsonInserted 2 (Some [])))
  /\ map ts (punch (db served.2))
     = ["2024-03-05T14:00:00.000Z"; "2024-03-05T20:00:00.000Z"]%string
  /\ affectedDays (punch (db served.2)) = ["2024-03-05"%string]
  /\ attendance (db served.2) = []
  /\ dayRange istHost "2024-03-05"
     = Some ("2024-03-04T18:30:00.000Z"%string, "2024-03-05T18:29:59.999Z"%string)
  /\ selectPunches "A1001" "2024-03-04T18:30:00.000Z" "2024-03-05T18:29:59.999Z"
        (mkDb [punchAt "A1001" "2024-03-04T20:00:00.000Z";
               punchAt "A1001" "2024-03-05T20:00:00.000Z"] [] ∅)
     = [punchAt "A1001" "2024-03-04T20:00:00.000Z"].
Proof. intros served. repeat split; vm_compute; reflexivity. Qed.

End DayRangeOffUtc.

(* ===================================================================== *)
(** * Dates in the permissive loop *)
(* ===================================================================== *)

Section FallbackDates.
Import JSString JSDate Parser.

Lemma digitChar_not_slash (n : Z) : Ascii.eqb (digitChar n) "/" = false.
Proof.
  apply Ascii.eqb_neq. intros H. apply (f_equal code) in H.
  rewrite code_digitChar in H. change (code "/") with 47 in H.
  pose proof (Z.mod_pos_bound n 10). lia.
Qed.

Lemma replaceSlash_dateToken (s1 s2 : ascii) (y m d : Z) :
  dateSeparator s1 -> dateSeparator s2 ->
  replaceSlash (dateToken s1 s2 y m d) = dateLayout y m d.
Proof.
  intros H1 H2. unfold dateToken, dateLayout, pad4, pad3, pad2.
  rewrite ?append_cons, ?append_nil. cbn [replaceSlash].
  rewrite !digitChar_not_slash.
  destruct H1 as [-> | ->], H2 as [-> | ->]; reflexivity.
Qed.

(** X23. The permissive loop reads a second token that is a calendar date,
    written with dashes or with slashes, as midnight UTC of that date on
    every host: the record carries the date followed by
    [T00:00:00.000Z], whatever the local time zone and the instant of
    ingestion. *)
Theorem fallback_reads_a_date_as_midnight_utc (h : Host) (now : Z)
  (rawLine pin0 : string) (rest : list string) (s1 s2 : ascii) (y m d : Z) :
  split TAB (trim rawLine) = pin0 :: dateToken s1 s2 y m d :: rest ->
  dateSeparator s1 -> dateSeparator s2 ->
  0 <= y <= 9999 -> calendarDate y m d ->
  parseFallbackLine h now rawLine
  = Some (mkRow pin0 (dateLayout y m d +:+ "T00:00:00.000Z")
                None None None None (trim rawLine)).
Proof.
  intros Hs H1 H2 Hy Hc. unfold parseFallbackLine.
  destruct (isEmpty (trim rawLine)) eqn:He.
  { apply isEmpty_true in He. rewrite He in Hs. discriminate. }
  apply isEmpty_false in He.
  destruct (split_trim_head rawLine He) as (c & t & ts & Hhead).
  rewrite Hs in Hhead. injection Hhead as -> _.
  rewrite Hs. cbn [lookup list_lookup isEmpty].
  rewrite (replaceSlash_dateToken s1 s2 y m d H1 H2), (parse_dateLayout h y m d Hy Hc).
  destruct (isoString_utcInstant y m d 0 0 0 0 Hy Hc) as [_ Hiso];
    [unfold clockTime; lia|lia|].
  rewrite Hiso. reflexivity.
Qed.

Lemma fallback_reads_a_date_as_midnight_utc_witness :
  parseFallbackLine istHost 5000 ("17" +:+ TABs +:+ "2024/03/05")
  = Some (mkRow "17" "2024-03-05T00:00:00.000Z" None None None None
                ("17" +:+ TABs +:+ "2024/03/05")).
Proof.
  exact (fallback_reads_a_date_as_midnight_utc istHost 5000
           ("17" +:+ TABs +:+ "2024/03/05") "17" [] "/" "/" 2024 3 5
           eq_refl (or_intror eq_refl) (or_intror eq_refl) ltac:(lia)
           ltac:(vm_compute; repeat split; discriminate)).
Defined.

End FallbackDates.

(* ===================================================================== *)
(** * The status when a number is missing *)
(* ===================================================================== *)

Section StatusEdges.
Import JSString JSDate Parser Store Eff Attendance.

Lemma attendanceOf_status (e : Env) (pin dayStr : string) (ps : list Row)
  (a : AttendanceData.t) :
  attendanceOf e pin dayStr ps = Some a ->
  AttendanceData.status a = classify e (AttendanceData.duration_minutes a)
  /\ AttendanceData.duration_minutes a
     = minutesBetween (parse (host e) (AttendanceData.first_ts a))
                      (parse (host e) (AttendanceData.last_ts a)).
Proof.
  unfold attendanceOf. destruct ps as [|p0 ps]; [discriminate|].
  intros H. injection H as <-. split; reflexivity.
Qed.

Lemma classify_cases (e : Env) (dur : option Z) :
  (classify e dur = AttendanceData.PRESENT
   <-> exists m d, MINUTES_FOR_PRESENT e = Some m /\ dur = Some d /\ m <= d)
  /\ (classify e dur = AttendanceData.SHORT
      <-> exists d, dur = Some d /\ 0 < d
                    /\ forall m, MINUTES_FOR_PRESENT e = Some m -> d < m)
  /\ (classify e dur = AttendanceData.ABSENT
      <-> (dur = None
           \/ exists d, dur = Some d /\ d <= 0
                        /\ forall m, MINUTES_FOR_PRESENT e = Some m -> d < m)).
Proof.
  unfold classify, geNum, gtNum.
  destruct dur as [d|].
  - destruct (MINUTES_FOR_PRESENT e) as [m|].
    + destruct (Z.leb_spec m d) as [Hmd|Hmd]; [|destruct (Z.ltb_spec 0 d) as [Hd|Hd]].
      * split; [|split]; split; try discriminate; try (intros _; reflexivity).
        -- intros _. exists m, d. auto.
        -- intros (d' & [= <-] & _ & Hlt). specialize (Hlt m eq_refl). lia.
        -- intros [[=]|(d' & [= <-] & _ & Hlt)]. specialize (Hlt m eq_refl). lia.
      * split; [|split]; split; try discriminate; try (intros _; reflexivity).
        -- intros (m' & d' & [= <-] & [= <-] & Hle). lia.
        -- intros _. exists d. repeat split; [exact Hd|]. intros m' [= <-]. exact Hmd.
        -- intros [[=]|(d' & [= <-] & Hle & _)]. lia.
      * split; [|split]; split; try discriminate; try (intros _; reflexivity).
        -- intros (m' & d' & [= <-] & [= <-] & Hle). lia.
        -- intros (d' & [= <-] & Hlt & _). lia.
        -- intros _. right. exists d. repeat split; [exact Hd|].
           intros m' [= <-]. exact Hmd.
    + destruct (Z.ltb_spec 0 d) as [Hd|Hd].
      * split; [|split]; split; try discriminate; try (intros _; reflexivity).
        -- intros (m' & d' & [=] & _).
        -- intros _. exists d. repeat split; [exact Hd|]. intros m' [=].
        -- intros [[=]|(d' & [= <-] & Hle & _)]. lia.
      * split; [|split]; split; try discriminate; try (intros _; reflexivity).
        -- intros (m' & d' & [=] & _).
        -- intros (d' & [= <-] & Hlt & _). lia.
        -- intros _. right. exists d. repeat split; [exact Hd|]. intros m' [=].
  - destruct (MINUTES_FOR_PRESENT e) as [m|];
      (split; [|split]; split; try discriminate; try (intros _; reflexivity);
       [ intros (m' & d' & _ & [=] & _)
       | intros (d' & [=] & _)
       | intros _; left; reflexivity ]).
Qed.

(** X24. The status of every record returned by [computeAttendanceForDay], with
    the cases in which a number is missing: the record is PRESENT exactly
    when the threshold and the duration are both numbers and the duration
    reaches the threshold; SHORT exactly when it is not PRESENT and the
    duration is a positive number; ABSENT otherwise. So a threshold that
    is not a number makes no record PRESENT, and a record whose timestamps
    are not read as dates is ABSENT. *)
Theorem status_follows_duration_and_threshold (e : Env) (dayStr : string)
  (w w' : World) (results : list AttendanceData.t) (a : AttendanceData.t) :
  computeAttendanceForDay e dayStr w = (Ret results, w') ->
  a ∈ results ->
  AttendanceData.duration_minutes a
  = minutesBetween (parse (host e) (AttendanceData.first_ts a))
                   (parse (host e) (AttendanceData.last_ts a))
  /\ (AttendanceData.status a = AttendanceData.PRESENT
      <-> exists m d, MINUTES_FOR_PRESENT e = Some m
                      /\ AttendanceData.duration_minutes a = Some d /\ m <= d)
  /\ (AttendanceData.status a = AttendanceData.SHORT
      <-> exists d, AttendanceData.duration_minutes a = Some d /\ 0 < d
                    /\ forall m, MINUTES_FOR_PRESENT e = Some m -> d < m)
  /\ (AttendanceData.status a = AttendanceData.ABSENT
      <-> (AttendanceData.duration_minutes a = None
           \/ exists d, AttendanceData.duration_minutes a = Some d /\ d <= 0
                        /\ forall m, MINUTES_FOR_PRESENT e = Some m -> d < m)).
Proof.
  intros Hrun Ha.
  destruct (computeAttendanceForDay_inv e dayStr w w' _ Hrun) as (_ & _ & Hres).
  destruct (Hres results eq_refl) as [Hday _]. clear Hres.
  unfold dayResults in Hday.
  destruct (dayRange (host e) dayStr) as [range|]; [|discriminate].
  simpl in Hday. injection Hday as <-.
  apply list_elem_of_omap in Ha as (pin & _ & Hpin).
  destruct (attendanceOf_status e pin dayStr _ a Hpin) as [Hst Hdur].
  split; [exact Hdur|]. rewrite Hst. apply classify_cases.
Qed.

Lemma status_follows_duration_and_threshold_witness :
  exists m d, MINUTES_FOR_PRESENT (plainEnv utcHost) = Some m
              /\ d = 360 /\ m <= d.
Proof.
  destruct (status_follows_duration_and_threshold (plainEnv utcHost)
              "2024-03-05" sampleDay sampleRun.2 sampleResults
              (AttendanceData.mk "A1001" "2024-03-05"
                 "2024-03-05T09:00:00.000Z" "2024-03-05T15:00:00.000Z"
                 (Some 360) AttendanceData.PRESENT))
    as (_ & [HP _] & _).
  - vm_compute. reflexivity.
  - vm_compute. apply list_elem_of_here.
  - destruct (HP eq_refl) as (m & d & Hm & Hd & Hle).
    exists m, d. cbn in Hd. injection Hd as <-. auto.
Defined.

End StatusEdges.

(* ===================================================================== *)
(** * Handlers run alone *)
(* ===================================================================== *)

Section RunningAlone.
Import JSString JSDate Parser Store Eff Http.

Lemma bind_ext {A B} (m1 m2 : M A) (k1 k2 : A -> M B) (w : World) :
  m1 w = m2 w -> (forall a w', k1 a w' = k2 a w') ->
  Eff.bind m1 k1 w = Eff.bind m2 k2 w.
Proof.
  intros Hm Hk. unfold Eff.bind. rewrite Hm.
  destruct (m2 w) as [[a|x] w']; [apply Hk|reflexivity].
Qed.

Lemma runAlone_await {X} (call : M X) (w : World) :
  runAlone (await call) w = call w.
Proof. simpl. destruct (call w). reflexivity. Qed.

Lemma runAlone_bindT {A B} (t : Task A) (f : A -> Task B) :
  forall w, runAlone (bindT t f) w
            = Eff.bind (runAlone t) (fun a => runAlone (f a)) w.
Proof.
  induction t as [[a|x]|X call k IH]; intros w; simpl.
  - reflexivity.
  - reflexivity.
  - unfold Eff.bind. simpl. destruct (call w) as [o w']. apply IH.
Qed.

Lemma runAlone_tryCatchT {A} (t : Task A) (h : Exn -> Task A) :
  forall w, runAlone (tryCatchT t h) w
            = tryCatch (runAlone t) (fun x => runAlone (h x)) w.
Proof.
  induction t as [[a|x]|X call k IH]; intros w; simpl.
  - reflexivity.
  - reflexivity.
  - unfold tryCatch. simpl. destruct (call w) as [o w']. apply IH.
Qed.

Lemma tryCatch_ext {A} (m1 m2 : M A) (h1 h2 : Exn -> M A) (w : World) :
  m1 w = m2 w -> (forall x w', h1 x w' = h2 x w') ->
  tryCatch m1 h1 w = tryCatch m2 h2 w.
Proof.
  intros Hm Hh. unfold tryCatch. rewrite Hm.
  destruct (m2 w) as [[a|x] w']; [reflexivity|apply Hh].
Qed.

Lemma runAlone_forEachT {A} (l : list A) (body : A -> Task unit)
  (body' : A -> M unit) :
  (forall x w, runAlone (body x) w = body' x w) ->
  forall w, runAlone (forEachT l body) w = forEach l body' w.
Proof.
  intros Hb. induction l as [|x l IH]; intros w; cbn [forEachT forEach];
    [reflexivity|].
  rewrite runAlone_bindT. apply bind_ext; [apply Hb|]. intros _ w'. apply IH.
Qed.

Lemma runAlone_collectT {A B} (l : list A) (body : A -> Task (option B))
  (body' : A -> M (option B)) :
  (forall x w, runAlone (body x) w = body' x w) ->
  forall w, runAlone (collectT l body) w = collect l body' w.
Proof.
  intros Hb. induction l as [|x l IH]; intros w; cbn [collectT collect];
    [reflexivity|].
  rewrite runAlone_bindT. apply bind_ext; [apply Hb|]. intros o w'.
  rewrite runAlone_bindT. apply bind_ext; [apply IH|]. intros rest w''.
  reflexivity.
Qed.

Lemma runAlone_attendanceForPin (e : Env) (dayStr s en pin : string) (w : World) :
  runAlone (Overlap.attendanceForPin e dayStr s en pin) w
  = Attendance.attendanceForPin e dayStr s en pin w.
Proof.
  unfold Overlap.attendanceForPin, Attendance.attendanceForPin.
  rewrite runAlone_bindT. apply bind_ext; [apply runAlone_await|].
  intros punches w1.
  destruct (Attendance.attendanceOf e pin dayStr punches) as [a|]; [|reflexivity].
  rewrite runAlone_bindT. apply bind_ext; [apply runAlone_await|].
  intros existing w2.
  rewrite runAlone_bindT. apply bind_ext.
  { destruct existing; apply runAlone_await. }
  intros _ w3. rewrite runAlone_bindT. apply bind_ext.
  { destruct (Attendance.callbackSet e); [apply runAlone_await|reflexivity]. }
  intros _ w4. reflexivity.
Qed.

(** [Attendance.computeAttendanceForDay] is the aggregator run without
    interruption. *)
Lemma runAlone_computeAttendanceForDay (e : Env) (dayStr : string) (w : World) :
  runAlone (Overlap.computeAttendanceForDay e dayStr) w
  = Attendance.computeAttendanceForDay e dayStr w.
Proof.
  unfold Overlap.computeAttendanceForDay, Attendance.computeAttendanceForDay.
  rewrite runAlone_bindT. apply bind_ext.
  { destruct (Attendance.dayRange (host e) dayStr); reflexivity. }
  intros range w1. rewrite runAlone_bindT. apply bind_ext; [apply runAlone_await|].
  intros pins w2. apply runAlone_collectT. intros pin w3.
  apply runAlone_attendanceForPin.
Qed.

Lemma runAlone_fallbackLoop (e : Env) (now : nat -> Z) (lines : list string) :
  forall i w, runAlone (Overlap.fallbackLoop e now i lines) w
              = Ingest.fallbackLoop e now i lines w.
Proof.
  induction lines as [|l lines IH]; intros i w;
    cbn [Overlap.fallbackLoop Ingest.fallbackLoop]; [reflexivity|].
  destruct (parseFallbackLine (host e) (now i) l) as [row|]; [|apply IH].
  rewrite runAlone_bindT. apply bind_ext; [apply runAlone_await|].
  intros _ w1. rewrite runAlone_bindT. apply bind_ext; [apply IH|].
  intros n w2. reflexivity.
Qed.

Lemma runAlone_aggregateDays (e : Env) (days : list string) :
  forall w, runAlone (Overlap.aggregateDays e days) w = Ingest.aggregateDays e days w.
Proof.
  induction days as [|day days IH]; intros w;
    cbn [Overlap.aggregateDays Ingest.aggregateDays]; [reflexivity|].
  rewrite runAlone_bindT. apply bind_ext; [apply runAlone_computeAttendanceForDay|].
  intros r w1. rewrite runAlone_bindT. apply bind_ext; [apply IH|].
  intros m w2. reflexivity.
Qed.

(** [Ingest.postCdata] is the ingestion handler run without interruption. *)
Lemma runAlone_postCdata (e : Env) (qTable qOptions reqBody : option string)
  (now : nat -> Z) (w : World) :
  runAlone (Overlap.postCdata e qTable qOptions reqBody now) w
  = Ingest.postCdata e qTable qOptions reqBody now w.
Proof.
  unfold Overlap.postCdata, Ingest.postCdata.
  rewrite runAlone_tryCatchT. apply tryCatch_ext; [|reflexivity].
  destruct reqBody as [raw|]; [|reflexivity].
  destruct (isEmpty raw || isEmpty (trim raw)); [reflexivity|].
  destruct (Ingest.isAttlog (Ingest.tableOf qTable qOptions)).
  - rewrite runAlone_bindT. apply bind_ext.
    { apply runAlone_forEachT. intros row w1. apply runAlone_await. }
    intros _ w1. rewrite runAlone_bindT. apply bind_ext; [apply runAlone_aggregateDays|].
    intros r w2. reflexivity.
  - rewrite runAlone_bindT. apply bind_ext; [apply runAlone_fallbackLoop|].
    intros n w1. reflexivity.
Qed.

(** A handler that takes all its turns in a row is a handler run alone. *)
Lemma eventLoop_alone {A} (t : Task A) :
  forall w, exists n,
    eventLoop (replicate n 0%nat) [t] w = ([Done (runAlone t w).1], (runAlone t w).2).
Proof.
  induction t as [out|X call k IH]; intros w.
  - exists 0%nat. reflexivity.
  - simpl. destruct (call w) as [o w'] eqn:Hc.
    destruct (IH o w') as [n Hn]. exists (S n). simpl. rewrite Hc. exact Hn.
Qed.

End RunningAlone.

(* ===================================================================== *)
(** * Requests that overlap *)
(* ===================================================================== *)

Section OverlappingRequests.
Import JSString JSDate Parser Store Eff Http.

(** C4. Two requests whose handlers overlap store one key twice. The first
    request carries a punch of 09:00 and the second a punch of 15:00 of
    the same identity and day. The first handler inserts its punch and
    reads the punches of the day before the second handler inserts its
    own; then both look for the attendance row of the key, both find
    none, and both insert. Both requests are answered 200, the first with
    an ABSENT record and the second with a PRESENT one, and the attendance
    table holds the key twice, with both records;
    [GET /attendance/2024-03-05] then answers with the two rows. Handled
    one after the other, the same requests leave one row, PRESENT. *)
Theorem C4_overlapping_requests_store_a_key_twice :
  let e := plainEnv utcHost in
  let handlers := [Overlap.serve e morningPunch; Overlap.serve e eveningPunch] in
  let overlapped := eventLoop [0; 0; 0; 1; 1; 1; 0; 1; 0; 1]%nat handlers emptyWorld in
  let inTurn := eventLoop [0; 0; 0; 0; 0; 1; 1; 1; 1; 1]%nat handlers emptyWorld in
  let short := AttendanceData.mk "A1001" "2024-03-05" "2024-03-05T09:00:00.000Z"
                 "2024-03-05T09:00:00.000Z" (Some 0) AttendanceData.ABSENT in
  let full := AttendanceData.mk "A1001" "2024-03-05" "2024-03-05T09:00:00.000Z"
                "2024-03-05T15:00:00.000Z" (Some 360) AttendanceData.PRESENT in
  overlapped.1
  = [Done (Ret (mkResponse 200 (JsonInserted 1 (Some [short]))));
     Done (Ret (mkResponse 200 (JsonInserted 1 (Some [full]))))]
  /\ attendanceData (db overlapped.2) = [short; full]
  /\ ~ uniqueKeys (db overlapped.2)
  /\ List.filter (fun s => match s with InsertPunch _ => false | _ => true end)
       (issued overlapped.2)
     = [InsertAttendance short; InsertAttendance full]
  /\ (Api.getAttendance e "2024-03-05" overlapped.2).1
     = Ret (Api.mkReply 200
              (Api.Rows [AttendanceRow.mk short 0 0; AttendanceRow.mk full 0 0]))
  /\ attendanceData (db inTurn.2) = [full].
Proof.
  intros e handlers overlapped inTurn short full.
  assert (Hdata : attendanceData (db overlapped.2) = [short; full])
    by (vm_compute; reflexivity).
  split; [vm_compute; reflexivity|]. split; [exact Hdata|].
  split; [|repeat split; vm_compute; reflexivity].
  unfold uniqueKeys. rewrite Hdata. intros Hnd.
  apply NoDup_cons in Hnd as [Hin _]. apply Hin, list_elem_of_here.
Qed.

End OverlappingRequests.
